(** * Screen buffer of the console host: a shallow embedding of
    [src/host/screenInfo.cpp] and the properties checked against it.

    Integers are mathematical ([Z]); where the source stores a value in a
    [SHORT] the 16-bit wrap-around is written out with [toSHORT].  Objects
    reached through pointers (screen buffers, the four handles of the output
    state machine) live in finite maps keyed by their address; an absent key
    is a freed object. *)

From Stdlib Require Import ZArith Bool Sorted.
From stdpp Require Import base tactics option list gmap.

Local Open Scope Z_scope.

(** ** Machine integers and plain data *)

Definition SHORT_MAX : Z := 32767.

(** The value a [SHORT] holds after an [int] expression is stored in it. *)
Definition toSHORT (z : Z) : Z := (z + 32768) mod 65536 - 32768.

(** [(USHORT)s] for a [SHORT] s. *)
Definition toUSHORT (z : Z) : Z := z mod 65536.

Definition isSHORT (z : Z) : Prop := -32768 <= z <= 32767.

(** The value a [LONG] (or an [int]) holds after an arithmetic result is
    stored in it. *)
Definition toLONG (z : Z) : Z := (z + 2147483648) mod 4294967296 - 2147483648.

Definition isLONG (z : Z) : Prop := -2147483648 <= z <= 2147483647.

Record COORD := mkCOORD { X : Z; Y : Z }.

Record SMALL_RECT := mkSMALL_RECT { Left : Z; Top : Z; Right : Z; Bottom : Z }.

Record RECT := mkRECT { left : Z; top : Z; right : Z; bottom : Z }.

Inductive NTSTATUS :=
| STATUS_SUCCESS
| STATUS_INVALID_PARAMETER
| STATUS_NO_MEMORY
| STATUS_INVALID_HANDLE.

Definition NT_SUCCESS (s : NTSTATUS) : bool :=
  match s with STATUS_SUCCESS => true | _ => false end.

Definition COORD_eqb (a b : COORD) : bool := (X a =? X b) && (Y a =? Y b).

Definition SMALL_RECT_eqb (a b : SMALL_RECT) : bool :=
  (Left a =? Left b) && (Top a =? Top b) && (Right a =? Right b) && (Bottom a =? Bottom b).

(** The [max] and [min] macros. *)
Definition max (a b : Z) : Z := if a >? b then a else b.
Definition min (a b : Z) : Z := if a <? b then a else b.

(** [abs] of an [int]. *)
Definition abs (a : Z) : Z := if a <? 0 then - a else a.

(** Modelled from the spec: the [RECT_WIDTH] and [RECT_HEIGHT] macros are
    declared outside the source file; the client size in pixels is the
    difference of the opposite edges. *)
Definition RECT_WIDTH (r : RECT) : Z := right r - left r.
Definition RECT_HEIGHT (r : RECT) : Z := bottom r - top r.

(** Modelled from the spec: [CalcWindowSizeX] and [CalcWindowSizeY] are macros
    declared outside the source file; a viewport is inclusive, so its width is
    [Right - Left + 1]. *)
Definition CalcWindowSizeX (r : SMALL_RECT) : Z := Right r - Left r + 1.
Definition CalcWindowSizeY (r : SMALL_RECT) : Z := Bottom r - Top r + 1.

(** ** The text buffer, as far as the screen buffer reads and writes it *)

Definition WCHAR := Z.
Definition BYTE := Z.
Definition UNICODE_SPACE : WCHAR := 32.

(** An attribute run: a colour word and the number of cells it covers. *)
Record TextAttributeRun := mkRun { runAttr : Z; runLength : Z }.

(** [Chars] and [KAttrs] are the cells the row's two pointers designate inside
    the flat storage of the text buffer. *)
Module CHAR_ROW.
Record t := mk {
  Chars : list WCHAR;
  KAttrs : list BYTE;
  Left : Z;
  Right : Z;
  WasWrapForced : bool;
  WasDoubleBytePadded : bool
}.
End CHAR_ROW.

(** An allocation is named by a number. *)
Definition block := nat.

(** [AttrRow] is the list of runs of the row's attribute row and
    [AttrRowList] the allocation that holds them: [None] when the row has
    none, as before [AttrRow.Initialize], or when its storage is not
    followed (the rows of a text buffer made through [TextBufferOps]). *)
Record ROW := mkROW {
  CharRow : CHAR_ROW.t;
  AttrRow : list TextAttributeRun;
  AttrRowList : option block;
  sRowId : Z
}.

Record Cursor := mkCursor {
  cPosition : COORD;
  cSize : Z;
  cIsVisible : bool;
  cIsOn : bool;
  cIsDouble : bool;
  cDelay : bool;
  cHasMoved : bool
}.

(** The text buffer keeps the names of the allocations of its row array and
    of its two flat arrays. *)
Record TEXT_BUFFER_INFO := mkTEXT_BUFFER_INFO {
  Rows : list ROW;
  RowsBlock : block;
  TextRows : block;
  KAttrRows : block;
  FirstRowIndex : Z;
  coordBufferSize : COORD;
  tbCursor : Cursor
}.

Definition GetCursor (tb : TEXT_BUFFER_INFO) : Cursor := tbCursor tb.
Definition GetPosition (c : Cursor) : COORD := cPosition c.

Definition Cursor_SetPosition (p : COORD) (c : Cursor) : Cursor :=
  mkCursor p (cSize c) (cIsVisible c) (cIsOn c) (cIsDouble c) (cDelay c) (cHasMoved c).
Definition Cursor_SetDelay (b : bool) (c : Cursor) : Cursor :=
  mkCursor (cPosition c) (cSize c) (cIsVisible c) (cIsOn c) (cIsDouble c) b (cHasMoved c).
Definition Cursor_SetIsOn (b : bool) (c : Cursor) : Cursor :=
  mkCursor (cPosition c) (cSize c) (cIsVisible c) b (cIsDouble c) (cDelay c) (cHasMoved c).
Definition Cursor_SetHasMoved (b : bool) (c : Cursor) : Cursor :=
  mkCursor (cPosition c) (cSize c) (cIsVisible c) (cIsOn c) (cIsDouble c) (cDelay c) b.

Definition set_tbCursor (c : Cursor) (tb : TEXT_BUFFER_INFO) : TEXT_BUFFER_INFO :=
  mkTEXT_BUFFER_INFO (Rows tb) (RowsBlock tb) (TextRows tb) (KAttrRows tb)
    (FirstRowIndex tb) (coordBufferSize tb) c.

(** ** The screen buffer object *)

Definition addr := nat.
Definition handle := nat.

Record SCREEN_INFORMATION := mkSCREEN_INFORMATION {
  _coordScreenBufferSize : COORD;
  _srBufferViewport : SMALL_RECT;
  TextInfo : TEXT_BUFFER_INFO;
  _Attributes : Z;
  (** the linked list of [TabStop] nodes, head first *)
  _ptsTabs : list Z;
  _psiMainBuffer : option addr;
  _psiAlternateBuffer : option addr;
  _pStateMachine : option handle;
  _pAdapter : option handle;
  _pBufferWriter : option handle;
  _pConApi : option handle;
  _fAltWindowChanged : bool
}.

Definition set_coordScreenBufferSize (c : COORD) (si : SCREEN_INFORMATION) :=
  mkSCREEN_INFORMATION c (_srBufferViewport si) (TextInfo si) (_Attributes si) (_ptsTabs si)
    (_psiMainBuffer si) (_psiAlternateBuffer si) (_pStateMachine si) (_pAdapter si)
    (_pBufferWriter si) (_pConApi si) (_fAltWindowChanged si).

Definition set_srBufferViewport (r : SMALL_RECT) (si : SCREEN_INFORMATION) :=
  mkSCREEN_INFORMATION (_coordScreenBufferSize si) r (TextInfo si) (_Attributes si) (_ptsTabs si)
    (_psiMainBuffer si) (_psiAlternateBuffer si) (_pStateMachine si) (_pAdapter si)
    (_pBufferWriter si) (_pConApi si) (_fAltWindowChanged si).

Definition set_TextInfo (tb : TEXT_BUFFER_INFO) (si : SCREEN_INFORMATION) :=
  mkSCREEN_INFORMATION (_coordScreenBufferSize si) (_srBufferViewport si) tb (_Attributes si)
    (_ptsTabs si) (_psiMainBuffer si) (_psiAlternateBuffer si) (_pStateMachine si) (_pAdapter si)
    (_pBufferWriter si) (_pConApi si) (_fAltWindowChanged si).

Definition set_ptsTabs (l : list Z) (si : SCREEN_INFORMATION) :=
  mkSCREEN_INFORMATION (_coordScreenBufferSize si) (_srBufferViewport si) (TextInfo si)
    (_Attributes si) l (_psiMainBuffer si) (_psiAlternateBuffer si) (_pStateMachine si)
    (_pAdapter si) (_pBufferWriter si) (_pConApi si) (_fAltWindowChanged si).

(** *** [SetScreenBufferSize], [GetScreenBufferSize] *)

Definition SetScreenBufferSize (coordNewBufferSize : COORD) (si : SCREEN_INFORMATION)
  : SCREEN_INFORMATION :=
  let coordCandidate :=
    {| X := max 1 (X coordNewBufferSize); Y := max 1 (Y coordNewBufferSize) |} in
  set_coordScreenBufferSize coordCandidate si.

Definition GetScreenBufferSize (si : SCREEN_INFORMATION) : COORD := _coordScreenBufferSize si.

(** *** [SetCursorPosition]

    [Flags] is [g_ciConsoleInformation.Flags]; the bit [CONSOLE_HAS_FOCUS] is
    declared outside the source file and taken as an argument. *)

Definition SetCursorPosition (CONSOLE_HAS_FOCUS Flags : Z) (Position : COORD) (TurnOn : bool)
    (si : SCREEN_INFORMATION) : NTSTATUS * SCREEN_INFORMATION :=
  let pTextInfo := TextInfo si in
  let pCursor := GetCursor pTextInfo in
  let coordScreenBufferSize := GetScreenBufferSize si in
  if (X Position >=? X coordScreenBufferSize) || (Y Position >=? Y coordScreenBufferSize)
     || (X Position <? 0) || (Y Position <? 0)
  then (STATUS_INVALID_PARAMETER, si)
  else
    let pCursor := Cursor_SetPosition Position pCursor in
    let pCursor :=
      if negb (Z.land Flags CONSOLE_HAS_FOCUS =? 0) then
        let pCursor :=
          if TurnOn then Cursor_SetIsOn true (Cursor_SetDelay false pCursor)
          else Cursor_SetDelay true pCursor in
        Cursor_SetHasMoved true pCursor
      else pCursor in
    (STATUS_SUCCESS, set_TextInfo (set_tbCursor pCursor pTextInfo) si).

(** *** Tab stops *)

(** The search loop of [AddTabStop] from the node [prev] on; [next] is the
    list hanging from [prev->ptsNext].  The result is the status and the list
    that hangs from [prev->ptsNext] afterwards.  [fAlloc] tells whether
    [new TabStop()] returns a node. *)
Fixpoint AddTabStop_search (fAlloc : bool) (sColumn prev : Z) (next : list Z)
  : NTSTATUS * list Z :=
  if prev =? sColumn then (STATUS_NO_MEMORY, next)
  else
    match next with
    | [] => if fAlloc then (STATUS_SUCCESS, [sColumn]) else (STATUS_NO_MEMORY, next)
    | n :: next' =>
        if n >? sColumn
        then if fAlloc then (STATUS_SUCCESS, sColumn :: next) else (STATUS_NO_MEMORY, next)
        else let '(Status, next'') := AddTabStop_search fAlloc sColumn n next' in
             (Status, n :: next'')
    end.

Definition AddTabStop (fAlloc : bool) (sColumn : Z) (si : SCREEN_INFORMATION)
  : NTSTATUS * SCREEN_INFORMATION :=
  match _ptsTabs si with
  | [] =>
      (* _ptsTabs = new TabStop(): the head pointer takes the result at once *)
      if fAlloc then (STATUS_SUCCESS, set_ptsTabs [sColumn] si)
      else (STATUS_NO_MEMORY, set_ptsTabs [] si)
  | prev :: next =>
      if prev >? sColumn then
        if fAlloc then (STATUS_SUCCESS, set_ptsTabs (sColumn :: prev :: next) si)
        else (STATUS_NO_MEMORY, set_ptsTabs [] si)
      else
        let '(Status, next') := AddTabStop_search fAlloc sColumn prev next in
        (Status, set_ptsTabs (prev :: next') si)
  end.

Definition ClearTabStops (si : SCREEN_INFORMATION) : SCREEN_INFORMATION := set_ptsTabs [] si.

Definition ClearTabStop (sColumn : Z) (si : SCREEN_INFORMATION) : SCREEN_INFORMATION :=
  set_ptsTabs (filter (fun c => c ≠ sColumn) (_ptsTabs si)) si.

(** The loop of [GetForwardTab]: the first stop the cursor is not at or past. *)
Fixpoint GetForwardTab_scan (x : Z) (ptsNext : list Z) : option Z :=
  match ptsNext with
  | [] => None
  | c :: rest => if x >=? c then GetForwardTab_scan x rest else Some c
  end.

Definition GetForwardTab (cCurrCursorPos : COORD) (si : SCREEN_INFORMATION) : COORD :=
  let sWidth := toSHORT (X (GetScreenBufferSize si) - 1) in
  if X cCurrCursorPos =? sWidth
  then {| X := 0; Y := toSHORT (Y cCurrCursorPos + 1) |}
  else
    match GetForwardTab_scan (X cCurrCursorPos) (_ptsTabs si) with
    | None => {| X := sWidth; Y := Y cCurrCursorPos |}
    | Some c => {| X := c; Y := Y cCurrCursorPos |}
    end.

(** The [for] loop of [GetReverseTab]: [curr] is [ptsCurr->sColumn] and [next]
    the list hanging from [ptsCurr->ptsNext]. *)
Fixpoint GetReverseTab_scan (x curr : Z) (next : list Z) : Z :=
  match next with
  | [] => curr
  | n :: rest => if x >? n then GetReverseTab_scan x n rest else curr
  end.

Definition GetReverseTab (cCurrCursorPos : COORD) (si : SCREEN_INFORMATION) : COORD :=
  match _ptsTabs si with
  | [] => {| X := 0; Y := Y cCurrCursorPos |}
  | first :: rest =>
      if (X cCurrCursorPos =? 0) || (first >=? X cCurrCursorPos)
      then {| X := 0; Y := Y cCurrCursorPos |}
      else {| X := GetReverseTab_scan (X cCurrCursorPos) first rest; Y := Y cCurrCursorPos |}
  end.

Definition AreTabsSet (si : SCREEN_INFORMATION) : bool :=
  match _ptsTabs si with [] => false | _ => true end.

(** *** Scroll bar visibility

    [g_sHorizontalScrollSize] and [g_sVerticalScrollSize] are globals of the
    host; they are arguments here.  The result is
    [(fIsHorizontalVisible, fIsVerticalVisible)]. *)

Definition s_CalculateScrollbarVisibility (g_sHorizontalScrollSize g_sVerticalScrollSize : Z)
    (prcClientArea : RECT) (pcoordBufferSize pcoordFontSize : COORD) : bool * bool :=
  let cx := toLONG (RECT_WIDTH prcClientArea) in
  let cy := toLONG (RECT_HEIGHT prcClientArea) in
  let bx := toLONG (X pcoordBufferSize * X pcoordFontSize) in
  let by' := toLONG (Y pcoordBufferSize * Y pcoordFontSize) in
  if bx >? cx then
    let cy := toLONG (cy - g_sHorizontalScrollSize) in
    if by' >? cy then (true, true) else (true, false)
  else if by' >? cy then
    let cx := toLONG (cx - g_sVerticalScrollSize) in
    if bx >? cx then (true, true) else (false, true)
  else (false, false).

(** *** The viewport *)

Definition GetScreenWindowSizeX (si : SCREEN_INFORMATION) : Z :=
  toSHORT (CalcWindowSizeX (_srBufferViewport si)).
Definition GetScreenWindowSizeY (si : SCREEN_INFORMATION) : Z :=
  toSHORT (CalcWindowSizeY (_srBufferViewport si)).

(** [fActive] is [IsActiveScreenBuffer()] and [fWindow] tells whether
    [_GetWindow()] is not the null pointer.  On the active buffer the new
    window is handed to the window object, when there is one (the third
    component of the result), and nothing is stored here; on any other
    buffer the new window is stored. *)
Definition SetViewportOrigin (fActive fWindow : bool) (fAbsolute : bool)
    (coordWindowOrigin : COORD)
    (si : SCREEN_INFORMATION) : NTSTATUS * SCREEN_INFORMATION * option SMALL_RECT :=
  let WindowSizeX := GetScreenWindowSizeX si in
  let WindowSizeY := GetScreenWindowSizeY si in
  let vp := _srBufferViewport si in
  let go (NewLeft NewTop : Z) :=
    let NewWindow :=
      {| Left := NewLeft; Top := NewTop;
         Right := toSHORT (NewLeft + WindowSizeX - 1);
         Bottom := toSHORT (NewTop + WindowSizeY - 1) |} in
    let coordScreenBufferSize := GetScreenBufferSize si in
    if (Left NewWindow <? 0) || (Top NewWindow <? 0) || (Right NewWindow <? 0)
       || (Bottom NewWindow <? 0)
       || (Right NewWindow >=? X coordScreenBufferSize)
       || (Bottom NewWindow >=? Y coordScreenBufferSize)
    then (STATUS_INVALID_PARAMETER, si, None)
    else if fActive then (STATUS_SUCCESS, si, if fWindow then Some NewWindow else None)
    else (STATUS_SUCCESS, set_srBufferViewport NewWindow si, None) in
  if negb fAbsolute then
    if (X coordWindowOrigin =? 0) && (Y coordWindowOrigin =? 0)
    then (STATUS_SUCCESS, si, None)
    else go (toSHORT (Left vp + X coordWindowOrigin)) (toSHORT (Top vp + Y coordWindowOrigin))
  else
    if (X coordWindowOrigin =? Left vp) && (Y coordWindowOrigin =? Top vp)
    then (STATUS_SUCCESS, si, None)
    else go (X coordWindowOrigin) (Y coordWindowOrigin).

(** The rectangle is an in-out argument: the corrected rectangle is the third
    component of the result. *)
Definition SetViewportRect (prcNewViewport : SMALL_RECT) (si : SCREEN_INFORMATION)
  : NTSTATUS * SCREEN_INFORMATION * SMALL_RECT :=
  if SMALL_RECT_eqb (_srBufferViewport si) prcNewViewport
  then (STATUS_SUCCESS, si, prcNewViewport)
  else
    let r := prcNewViewport in
    let r := if Left r <? 0
             then mkSMALL_RECT 0 (Top r) (toSHORT (Right r - Left r)) (Bottom r) else r in
    let r := if Top r <? 0
             then mkSMALL_RECT (Left r) 0 (Right r) (toSHORT (Bottom r - Top r)) else r in
    let coordScreenBufferSize := GetScreenBufferSize si in
    let r := if Right r >=? X coordScreenBufferSize
             then mkSMALL_RECT (Left r) (Top r) (X coordScreenBufferSize) (Bottom r) else r in
    let r := if Bottom r >=? Y coordScreenBufferSize
             then mkSMALL_RECT (Left r) (Top r) (Right r) (Y coordScreenBufferSize) else r in
    (STATUS_SUCCESS, set_srBufferViewport r si, r).

(** [coordValidEnd] is what [Selection::GetValidAreaBoundaries] reports as
    the end of the valid text. *)
Definition _InternalSetViewportSize (coordValidEnd : COORD) (pcoordSize : COORD)
    (fResizeFromTop fResizeFromLeft : bool) (si : SCREEN_INFORMATION) : SCREEN_INFORMATION :=
  let DeltaX := toSHORT (X pcoordSize - GetScreenWindowSizeX si) in
  let DeltaY := toSHORT (Y pcoordSize - GetScreenWindowSizeY si) in
  let coordScreenBufferSize := GetScreenBufferSize si in
  let vp := _srBufferViewport si in
  (* horizontal *)
  let '(L, R) :=
    if fResizeFromLeft then
      let sLeftProposed := toSHORT (Left vp - DeltaX) in
      if sLeftProposed >=? 0 then (toSHORT (Left vp - DeltaX), Right vp)
      else (0, toSHORT (Right vp + toSHORT (abs sLeftProposed)))
    else
      let sRightProposed := toSHORT (Right vp + DeltaX) in
      if sRightProposed <=? X (_coordScreenBufferSize si) - 1
      then (Left vp, toSHORT (Right vp + DeltaX))
      else (toSHORT (Left vp - (sRightProposed - (X coordScreenBufferSize - 1))),
            toSHORT (X coordScreenBufferSize - 1)) in
  (* vertical *)
  let '(T, B) :=
    if fResizeFromTop then
      let sTopProposed := toSHORT (Top vp - DeltaY) in
      if sTopProposed >=? 0 then
        if Top vp >? 0 then (toSHORT (Top vp - DeltaY), Bottom vp)
        else (Top vp, toSHORT (Bottom vp + DeltaY))
      else (0, toSHORT (Bottom vp + toSHORT (abs sTopProposed)))
    else
      let sBottomProposed := toSHORT (Bottom vp + DeltaY) in
      if sBottomProposed <=? Y coordScreenBufferSize - 1 then
        if Bottom vp + DeltaY <? Y coordValidEnd then
          let T := toSHORT (Top vp - DeltaY) in
          if T <? 0 then
            let cRemainder := toSHORT (0 - T) in
            (toSHORT (T + cRemainder), toSHORT (Bottom vp + cRemainder))
          else (T, Bottom vp)
        else (Top vp, toSHORT (Bottom vp + DeltaY))
      else (toSHORT (Top vp - (sBottomProposed - (Y coordScreenBufferSize - 1))),
            toSHORT (Y coordScreenBufferSize - 1)) in
  (* no negative left or top *)
  let '(L, R) := if L <? 0 then (0, toSHORT (R - L)) else (L, R) in
  let '(T, B) := if T <? 0 then (0, toSHORT (B - T)) else (T, B) in
  let R := toSHORT (min R (X coordScreenBufferSize - 1)) in
  let B := toSHORT (min B (Y coordScreenBufferSize - 1)) in
  set_srBufferViewport (mkSMALL_RECT L T R B) si.

Definition SetViewportSize (coordValidEnd : COORD) (pcoordSize : COORD)
    (si : SCREEN_INFORMATION) : SCREEN_INFORMATION :=
  _InternalSetViewportSize coordValidEnd pcoordSize false false si.

(** The source passes [fResizeFromLeft] in the place of [fResizeFromTop] and
    the other way round; the call is kept as written. *)
Definition _AdjustViewportSize (coordValidEnd : COORD) (prcClientNew prcClientOld : RECT)
    (pcoordSize : COORD) (si : SCREEN_INFORMATION) : SCREEN_INFORMATION :=
  let fResizeFromLeft :=
    negb (left prcClientNew =? left prcClientOld) && (right prcClientNew =? right prcClientOld) in
  let fResizeFromTop :=
    negb (top prcClientNew =? top prcClientOld) && (bottom prcClientNew =? bottom prcClientOld) in
  _InternalSetViewportSize coordValidEnd pcoordSize fResizeFromLeft fResizeFromTop si.

Definition IsMaximizedX (si : SCREEN_INFORMATION) : bool :=
  (Left (_srBufferViewport si) =? 0)
  && (Right (_srBufferViewport si) + 1 =? X (GetScreenBufferSize si)).

Definition IsMaximizedY (si : SCREEN_INFORMATION) : bool :=
  (Top (_srBufferViewport si) =? 0)
  && (Bottom (_srBufferViewport si) + 1 =? Y (GetScreenBufferSize si)).

(** The viewport lies inside a buffer of the stored size. *)
Definition viewport_contained (si : SCREEN_INFORMATION) : Prop :=
  let vp := _srBufferViewport si in
  let sz := GetScreenBufferSize si in
  0 <= Left vp /\ Left vp <= Right vp /\ Right vp < X sz /\
  0 <= Top vp /\ Top vp <= Bottom vp /\ Bottom vp < Y sz.

(** ** Resizing with reflow *)

(** The operations of [TEXT_BUFFER_INFO] that the screen buffer calls and that
    are implemented outside the source file.  A [bool] result is the success
    flag the source tests. *)
Class TextBufferOps := {
  TB_CreateInstance : COORD -> Z -> Z -> option TEXT_BUFFER_INFO;
  GetLastNonSpaceCharacter : TEXT_BUFFER_INFO -> COORD;
  InsertCharacter : WCHAR -> BYTE -> Z -> TEXT_BUFFER_INFO -> bool * TEXT_BUFFER_INFO;
  NewlineCursor : TEXT_BUFFER_INFO -> bool * TEXT_BUFFER_INFO;
  IncrementCursor : TEXT_BUFFER_INFO -> bool * TEXT_BUFFER_INFO;
  CopyProperties : TEXT_BUFFER_INFO -> TEXT_BUFFER_INFO -> TEXT_BUFFER_INFO
}.

(** The row at a logical offset of the circular row array, as
    [ResetTextFlags] indexes it: [Rows[(FirstRowIndex + y) % rows]].
    [None] stands for a pointer outside the array. *)
Definition GetRowByOffset (tb : TEXT_BUFFER_INFO) (y : Z) : option ROW :=
  let i := Z.rem (FirstRowIndex tb + y) (Y (coordBufferSize tb)) in
  if i <? 0 then None else Rows tb !! Z.to_nat i.

(** Modelled from the spec: [AttrRow.FindAttrIndex] is outside the source
    file; it yields the attribute run that covers a column. *)
Fixpoint FindAttrIndex (runs : list TextAttributeRun) (col : Z) : option TextAttributeRun :=
  match runs with
  | [] => None
  | r :: rest => if col <? runLength r then Some r else FindAttrIndex rest (col - runLength r)
  end.

Record ReflowState := mkReflowState {
  rsNewBuffer : TEXT_BUFFER_INFO;
  rsNewCursorPos : COORD;
  rsFoundCursorPos : bool;
  rsStatus : NTSTATUS
}.

(** The inner loop over the columns [iOldCol .. iRight) of one old row; [n]
    counts the iterations left. *)
Fixpoint reflow_columns `{TextBufferOps} (n : nat) (iOldCol iOldRow : Z) (pRow : ROW)
    (cOldCursorPos : COORD) (st : ReflowState) : option ReflowState :=
  match n with
  | O => Some st
  | S n' =>
      wchChar ← CHAR_ROW.Chars (CharRow pRow) !! Z.to_nat iOldCol;
      bKAttr ← CHAR_ROW.KAttrs (CharRow pRow) !! Z.to_nat iOldCol;
      rAttrRun ← FindAttrIndex (AttrRow pRow) iOldCol;
      let st :=
        if (iOldCol =? X cOldCursorPos) && (iOldRow =? Y cOldCursorPos)
        then mkReflowState (rsNewBuffer st) (GetPosition (GetCursor (rsNewBuffer st))) true
               (rsStatus st)
        else st in
      let '(ok, nb) := InsertCharacter wchChar bKAttr (runAttr rAttrRun) (rsNewBuffer st) in
      if ok
      then reflow_columns n' (iOldCol + 1) iOldRow pRow cOldCursorPos
             (mkReflowState nb (rsNewCursorPos st) (rsFoundCursorPos st) (rsStatus st))
      else Some (mkReflowState nb (rsNewCursorPos st) (rsFoundCursorPos st) STATUS_NO_MEMORY)
  end.

(** The outer loop over the old rows [iOldRow .. cOldRowsTotal). *)
Fixpoint reflow_rows `{TextBufferOps} (n : nat) (iOldRow cOldRowsTotal cOldColsTotal : Z)
    (old : TEXT_BUFFER_INFO) (cOldCursorPos : COORD) (st : ReflowState) : option ReflowState :=
  match n with
  | O => Some st
  | S n' =>
      pRow ← GetRowByOffset old iOldRow;
      let iRight := CHAR_ROW.Right (CharRow pRow) in
      let iRight :=
        if CHAR_ROW.WasWrapForced (CharRow pRow)
        then if CHAR_ROW.WasDoubleBytePadded (CharRow pRow)
             then toSHORT (cOldColsTotal - 1) else cOldColsTotal
        else iRight in
      st ← reflow_columns (Z.to_nat iRight) 0 iOldRow pRow cOldCursorPos st;
      let st :=
        if NT_SUCCESS (rsStatus st) then
          if (iRight <? cOldColsTotal) && negb (CHAR_ROW.WasWrapForced (CharRow pRow)) then
            let st :=
              if (iRight =? X cOldCursorPos) && (iOldRow =? Y cOldCursorPos)
              then mkReflowState (rsNewBuffer st) (GetPosition (GetCursor (rsNewBuffer st)))
                     true (rsStatus st)
              else st in
            if iOldRow <? cOldRowsTotal - 1 then
              let '(ok, nb) := NewlineCursor (rsNewBuffer st) in
              mkReflowState nb (rsNewCursorPos st) (rsFoundCursorPos st)
                (if ok then rsStatus st else STATUS_NO_MEMORY)
            else st
          else st
        else st in
      reflow_rows n' (iOldRow + 1) cOldRowsTotal cOldColsTotal old cOldCursorPos st
  end.

(** A cursor-moving call repeated [n] times, stopping at the first failure. *)
Fixpoint reflow_advance (op : TEXT_BUFFER_INFO -> bool * TEXT_BUFFER_INFO) (n : nat)
    (tb : TEXT_BUFFER_INFO) : NTSTATUS * TEXT_BUFFER_INFO :=
  match n with
  | O => (STATUS_SUCCESS, tb)
  | S n' =>
      let '(ok, tb') := op tb in
      if ok then reflow_advance op n' tb' else (STATUS_NO_MEMORY, tb')
  end.

(** The placement of the new cursor once the rows are copied. *)
Definition reflow_place_cursor `{TextBufferOps} (old : TEXT_BUFFER_INFO)
    (cOldCursorPos cOldLastChar : COORD) (st : ReflowState)
  : option (NTSTATUS * TEXT_BUFFER_INFO) :=
  let pNewBuffer := CopyProperties old (rsNewBuffer st) in
  if rsFoundCursorPos st
  then Some (STATUS_SUCCESS,
             set_tbCursor (Cursor_SetPosition (rsNewCursorPos st) (GetCursor pNewBuffer))
               pNewBuffer)
  else
    let iNewlines := Y cOldCursorPos - Y cOldLastChar in
    let iIncrements := X cOldCursorPos - X cOldLastChar in
    let cNewLastChar := GetLastNonSpaceCharacter pNewBuffer in
    pLastRow ← GetRowByOffset pNewBuffer (Y cNewLastChar);
    iNewlines ←
      (if CHAR_ROW.WasWrapForced (CharRow pLastRow)
       then Some (max (iNewlines - 1) 0)
       else
         pLastRow ← GetRowByOffset old (Y cOldLastChar);
         Some (if CHAR_ROW.WasWrapForced (CharRow pLastRow)
               then max (iNewlines - 1) 0 else iNewlines));
    let '(status, nb) := reflow_advance NewlineCursor (Z.to_nat iNewlines) pNewBuffer in
    if NT_SUCCESS status
    then Some (reflow_advance IncrementCursor (Z.to_nat (iIncrements - 1)) nb)
    else Some (status, nb).

Definition Cursor_SetSize (s : Z) (c : Cursor) : Cursor :=
  mkCursor (cPosition c) s (cIsVisible c) (cIsOn c) (cIsDouble c) (cDelay c) (cHasMoved c).

(** [None] stands for a read through a pointer outside its array.  The
    third component is the window handed to the window object, if any.
    Deferring and resuming the drawing of the new cursor changes nothing
    of this state. *)
Definition ResizeWithReflow `{TextBufferOps} (fActive fWindow : bool)
    (coordNewScreenSize : COORD) (si : SCREEN_INFORMATION)
  : option (NTSTATUS * SCREEN_INFORMATION * option SMALL_RECT) :=
  if (toUSHORT (X coordNewScreenSize) >=? SHORT_MAX)
     || (toUSHORT (Y coordNewScreenSize) >=? SHORT_MAX)
  then Some (STATUS_INVALID_PARAMETER, si, None)
  else
    match TB_CreateInstance coordNewScreenSize (_Attributes si) 0 with
    | None => Some (STATUS_NO_MEMORY, si, None)
    | Some pNewBuffer =>
        let old := TextInfo si in
        let sCursorHeightInViewportBefore :=
          toSHORT (Y (GetPosition (GetCursor old)) - Top (_srBufferViewport si)) in
        let cOldCursorPos := GetPosition (GetCursor old) in
        let cOldLastChar := GetLastNonSpaceCharacter old in
        let cOldRowsTotal := toSHORT (Y cOldLastChar + 1) in
        let cOldColsTotal := X (GetScreenBufferSize si) in
        st ← reflow_rows (Z.to_nat cOldRowsTotal) 0 cOldRowsTotal cOldColsTotal old
               cOldCursorPos (mkReflowState pNewBuffer (mkCOORD 0 0) false STATUS_SUCCESS);
        if NT_SUCCESS (rsStatus st) then
          '(status, nb) ← reflow_place_cursor old cOldCursorPos cOldLastChar st;
          if NT_SUCCESS status then
            let sCursorHeightInViewportAfter :=
              toSHORT (Y (GetPosition (GetCursor nb)) - Top (_srBufferViewport si)) in
            let coordCursorHeightDiff :=
              mkCOORD 0 (toSHORT (sCursorHeightInViewportAfter - sCursorHeightInViewportBefore)) in
            let '(_, si', notify) :=
              SetViewportOrigin fActive fWindow false coordCursorHeightDiff si in
            let ulSize := cSize (GetCursor old) in
            Some (status, set_TextInfo (set_tbCursor (Cursor_SetSize ulSize (GetCursor nb)) nb) si',
                  notify)
          else Some (status, si, None)
        else Some (rsStatus st, si, None)
    end.

(** ** Traditional resizing *)

(** The free store: the blocks in use, and what the next calls of [new] will
    answer ([false]: the null pointer; an exhausted list: success). *)
Record Heap := mkHeap { live : gset block; oracle : list bool }.

Definition new_block (h : Heap) : option block * Heap :=
  match oracle h with
  | false :: o => (None, mkHeap (live h) o)
  | true :: o => let b := fresh (live h) in (Some b, mkHeap ({[b]} ∪ live h) o)
  | [] => let b := fresh (live h) in (Some b, mkHeap ({[b]} ∪ live h) [])
  end.

Definition delete_block (b : block) (h : Heap) : Heap := mkHeap (live h ∖ {[b]}) (oracle h).

(** [delete[]] of the allocation an attribute row holds, if it holds one. *)
Definition delete_attr_list (l : option block) (h : Heap) : Heap :=
  match l with Some b => delete_block b h | None => h end.

(** Modelled from the spec: [AttrRow.Initialize(cols, attr)] is outside the
    source file; the row becomes one run of [attr] over [cols] cells, held in
    a new allocation, and the call fails when that allocation does. *)
Definition AttrRow_Initialize (cols attr : Z) (h : Heap)
  : bool * list TextAttributeRun * option block * Heap :=
  match new_block h with
  | (None, h) => (false, [], None, h)
  | (Some b, h) => (true, [mkRun attr cols], Some b, h)
  end.

(** The runs cut after [width] cells. *)
Fixpoint runs_truncate (runs : list TextAttributeRun) (width : Z) : list TextAttributeRun :=
  match runs with
  | [] => []
  | r :: rest =>
      if width <=? 0 then []
      else if runLength r >=? width then [mkRun (runAttr r) width]
      else r :: runs_truncate rest (width - runLength r)
  end.

(** The last run made [extra] cells longer. *)
Fixpoint runs_extend (runs : list TextAttributeRun) (extra : Z) : list TextAttributeRun :=
  match runs with
  | [] => []
  | [r] => [mkRun (runAttr r) (runLength r + extra)]
  | r :: rest => r :: runs_extend rest extra
  end.

(** Modelled from the spec: [AttrRow.Resize(old, new)] is outside the source
    file; it extends the final run to cover added columns and truncates runs
    past the new width.  The resized runs are held in a new allocation, which
    replaces the one the row had; the call fails when that allocation does,
    leaving the row as it was. *)
Definition AttrRow_Resize (sOldWidth sNewWidth : Z) (runs : list TextAttributeRun)
    (l : option block) (h : Heap)
  : bool * list TextAttributeRun * option block * Heap :=
  match new_block h with
  | (None, h) => (false, runs, l, h)
  | (Some b, h) =>
      (true,
       if sNewWidth >? sOldWidth then runs_extend runs (sNewWidth - sOldWidth)
       else runs_truncate runs sNewWidth,
       Some b,
       delete_attr_list l h)
  end.

(** A row as [new ROW[n]] leaves it. *)
Definition ROW_default : ROW :=
  mkROW (CHAR_ROW.mk [] [] 0 0 false false) [] None 0.

(** [memmove(&dst[d], &src[s], n * sizeof(ROW))]. *)
Definition memmove_rows (dst : list ROW) (d : nat) (src : list ROW) (s n : nat) : list ROW :=
  take d dst ++ take n (drop s src) ++ drop (d + n) dst.

Definition set_Rows (rows : list ROW) (tb : TEXT_BUFFER_INFO) : TEXT_BUFFER_INFO :=
  mkTEXT_BUFFER_INFO rows (RowsBlock tb) (TextRows tb) (KAttrRows tb)
    (FirstRowIndex tb) (coordBufferSize tb) (tbCursor tb).

Definition set_AttrRow (a : list TextAttributeRun) (l : option block) (r : ROW) : ROW :=
  mkROW (CharRow r) a l (sRowId r).

(** The loop that initialises the attribute rows [i .. NewY) of [Temp]; it
    stops at the first failure. *)
Fixpoint resize_init_attr_rows (n : nat) (i : Z) (NewX attr : Z) (Temp : list ROW) (h : Heap)
  : bool * list ROW * Heap :=
  match n with
  | O => (true, Temp, h)
  | S n' =>
      let '(fSuccess, a, l, h) := AttrRow_Initialize NewX attr h in
      if fSuccess
      then resize_init_attr_rows n' (i + 1) NewX attr
             (alter (set_AttrRow a l) (Z.to_nat i) Temp) h
      else (false, Temp, h)
  end.

(** What the first row loop makes of the cells of a row: the first [LimitX]
    cells are copied, new columns are blank, [Right] is clamped. *)
Definition resize_kept_CharRow (OldX NewX LimitX : Z) (c : CHAR_ROW.t) : CHAR_ROW.t :=
  CHAR_ROW.mk
    (take (Z.to_nat LimitX) (CHAR_ROW.Chars c)
       ++ replicate (Z.to_nat (NewX - OldX)) UNICODE_SPACE)
    (take (Z.to_nat LimitX) (CHAR_ROW.KAttrs c) ++ replicate (Z.to_nat (NewX - OldX)) 0)
    (CHAR_ROW.Left c)
    (if CHAR_ROW.Right c >? NewX then NewX else CHAR_ROW.Right c)
    (CHAR_ROW.WasWrapForced c) (CHAR_ROW.WasDoubleBytePadded c).

(** The body of the first row loop: row [i] keeps its first [LimitX] cells and
    points into the new flat arrays. *)
Definition resize_kept_row (OldX NewX LimitX i : Z) (r : ROW) : ROW :=
  mkROW (resize_kept_CharRow OldX NewX LimitX (CharRow r)) (AttrRow r) (AttrRowList r) i.

(** The body of the second row loop: a blank row in its canonical state. *)
Definition resize_blank_row (NewX i : Z) (r : ROW) : ROW :=
  let c := CharRow r in
  mkROW
    (CHAR_ROW.mk (replicate (Z.to_nat NewX) UNICODE_SPACE) (replicate (Z.to_nat NewX) 0)
       NewX 0 (CHAR_ROW.WasWrapForced c) (CHAR_ROW.WasDoubleBytePadded c))
    (AttrRow r) (AttrRowList r) i.

(** [for (; i < bound; i++) Rows[i] = body i Rows[i]], [n] iterations left. *)
Fixpoint resize_row_loop (body : Z -> ROW -> ROW) (n : nat) (i : Z) (rows : list ROW)
  : list ROW :=
  match n with
  | O => rows
  | S n' => resize_row_loop body n' (i + 1) (alter (body i) (Z.to_nat i) rows)
  end.

(** The last loop: every kept row has its attribute row resized, up to the
    first failure.  The rows [0 .. LimitY) are inside the row array. *)
Fixpoint resize_attr_rows (n : nat) (i : Z) (OldX NewX : Z) (rows : list ROW) (h : Heap)
  : NTSTATUS * list ROW * Heap :=
  match n with
  | O => (STATUS_SUCCESS, rows, h)
  | S n' =>
      match rows !! Z.to_nat i with
      | None => (STATUS_SUCCESS, rows, h)
      | Some pRow =>
          let '(fSuccess, a, l, h) :=
            AttrRow_Resize OldX NewX (AttrRow pRow) (AttrRowList pRow) h in
          let rows := <[Z.to_nat i := set_AttrRow a l pRow]> rows in
          if fSuccess then resize_attr_rows n' (i + 1) OldX NewX rows h
          else (STATUS_NO_MEMORY, rows, h)
      end
  end.

(** The shift that keeps the cursor row when the buffer gets shorter. *)
Definition resize_TopRow (coordNewScreenSize : COORD) (tb : TEXT_BUFFER_INFO) : Z :=
  if Y coordNewScreenSize <=? Y (GetPosition (GetCursor tb))
  then toSHORT (0 + (Y (GetPosition (GetCursor tb)) - Y coordNewScreenSize + 1))
  else 0.

(** Modelled from the spec: [FreeExtraAttributeRows] is outside the source
    file; it releases the attribute rows of the rows that are not kept.
    Counted round the circular row array from [TopRowIndex], the first
    [NewY] rows are kept and the rows after them are the extra ones.  The
    old row array, whose extra rows are left without an attribute row, is
    deleted right after the call. *)
Definition FreeExtraAttributeRows (TopRowIndex OldY NewY : Z) (tb : TEXT_BUFFER_INFO)
    (h : Heap) : Heap :=
  let extra := drop (Z.to_nat NewY) (rotate (Z.to_nat TopRowIndex) (Rows tb)) in
  foldr (fun r => delete_attr_list (AttrRowList r)) h extra.

(** The block of [ResizeTraditional] that replaces the [ROW] array when the
    height changes: the rows are copied from [TopRowIndex] on, wrapping round
    the end of the old array.  [inr] is the failure path, with the heap after
    the staged arrays were freed.

    The rows are copied bit by bit ([memmove]) and the old array is deleted
    afterwards, the copies going on using the attribute rows; the attribute
    rows of the rows that are dropped are released by an explicit call.  So
    [delete[]] of a [ROW] array releases the array and not what the
    attribute rows of its elements hold, here as on the failure path. *)
Definition resize_row_array (coordNewScreenSize : COORD) (si : SCREEN_INFORMATION)
    (TextRows' TextRowsA : block) (TopRowIndex : Z) (h : Heap)
  : TEXT_BUFFER_INFO * Heap + Heap :=
  let pTextInfo := TextInfo si in
  let NewX := X coordNewScreenSize in
  let NewY := Y coordNewScreenSize in
  let OldY := Y (GetScreenBufferSize si) in
  if negb (NewY =? OldY) then
    match new_block h with
    | (None, h) => inr (delete_block TextRowsA (delete_block TextRows' h))
    | (Some TempBlock, h) =>
        let Temp := replicate (Z.to_nat NewY) ROW_default in
        let NumToCopy := toSHORT (OldY - TopRowIndex) in
        let NumToCopy := if NumToCopy >? NewY then NewY else NumToCopy in
        let Temp :=
          memmove_rows Temp 0 (Rows pTextInfo) (Z.to_nat TopRowIndex) (Z.to_nat NumToCopy) in
        let Temp :=
          if negb (TopRowIndex =? 0) && negb (NumToCopy =? NewY) then
            let NumToCopy2 := TopRowIndex in
            let NumToCopy2 :=
              if NumToCopy2 >? NewY - NumToCopy then toSHORT (NewY - NumToCopy)
              else NumToCopy2 in
            memmove_rows Temp (Z.to_nat NumToCopy) (Rows pTextInfo) 0 (Z.to_nat NumToCopy2)
          else Temp in
        let install (Temp : list ROW) (tb : TEXT_BUFFER_INFO) (h : Heap) :=
          inl (mkTEXT_BUFFER_INFO Temp TempBlock (TextRows tb) (KAttrRows tb) 0
                 (coordBufferSize tb) (tbCursor tb),
               delete_block (RowsBlock tb) h) in
        if NewY <? OldY then
          install Temp pTextInfo (FreeExtraAttributeRows TopRowIndex OldY NewY pTextInfo h)
        else if NewY >? OldY then
          let '(fSuccess, Temp, h) :=
            resize_init_attr_rows (Z.to_nat (NewY - OldY)) OldY NewX (_Attributes si) Temp h in
          if fSuccess then install Temp pTextInfo h
          else inr (delete_block TempBlock (delete_block TextRows' (delete_block TextRowsA h)))
        else install Temp pTextInfo h
    end
  else inl (pTextInfo, h).

Definition ResizeTraditional (coordNewScreenSize : COORD) (si : SCREEN_INFORMATION) (h : Heap)
  : NTSTATUS * SCREEN_INFORMATION * Heap :=
  let pTextInfo := TextInfo si in
  let NewX := X coordNewScreenSize in
  let NewY := Y coordNewScreenSize in
  if (toUSHORT NewX >=? 32767) || (toUSHORT NewY >=? 32767)
  then (STATUS_INVALID_PARAMETER, si, h)
  else
    match new_block h with
    | (None, h) => (STATUS_NO_MEMORY, si, h)
    | (Some TextRows', h) =>
    match new_block h with
    | (None, h) => (STATUS_NO_MEMORY, si, delete_block TextRows' h)
    | (Some TextRowsA, h) =>
        let coordScreenBufferSize := GetScreenBufferSize si in
        let OldX := X coordScreenBufferSize in
        let OldY := Y coordScreenBufferSize in
        let LimitX := min NewX OldX in
        let LimitY := min NewY OldY in
        let TopRow := resize_TopRow coordNewScreenSize pTextInfo in
        let TopRowIndex := toSHORT (Z.rem (FirstRowIndex pTextInfo + TopRow) OldY) in
        match resize_row_array coordNewScreenSize si TextRows' TextRowsA TopRowIndex h with
        | inr h => (STATUS_NO_MEMORY, si, h)
        | inl (pTextInfo, h) =>
            (* the rows that are kept, then the rows that are new *)
            let rows :=
              resize_row_loop (resize_kept_row OldX NewX LimitX) (Z.to_nat LimitY) 0
                (Rows pTextInfo) in
            let rows :=
              resize_row_loop (resize_blank_row NewX) (Z.to_nat (NewY - LimitY)) LimitY rows in
            let h := delete_block (KAttrRows pTextInfo) (delete_block (TextRows pTextInfo) h) in
            let pTextInfo :=
              mkTEXT_BUFFER_INFO rows (RowsBlock pTextInfo) TextRows' TextRowsA
                (FirstRowIndex pTextInfo) coordNewScreenSize (tbCursor pTextInfo) in
            if negb (NewX =? OldX) then
              let '(Status, rows, h) :=
                resize_attr_rows (Z.to_nat LimitY) 0 OldX NewX (Rows pTextInfo) h in
              (Status, set_TextInfo (set_Rows rows pTextInfo) si, h)
            else (STATUS_SUCCESS, set_TextInfo pTextInfo si, h)
        end
    end
    end.

(** ** The main and the alternate buffer

    Screen buffers are objects of a store keyed by address; so are the four
    objects of an output state machine ([ConhostInternalGetSet],
    [WriteBuffer], [AdaptDispatch], [StateMachine]).  A get-set or a writer
    records the screen buffer it acts on.  An operation yields [None] when
    the source would go through a null pointer or a freed object. *)

Record CONSOLE_INFORMATION := mkCONSOLE {
  screens : gmap addr SCREEN_INFORMATION;
  (** the live pipeline objects, each with the screen buffer it acts on *)
  pipes : gmap handle (option addr);
  (** the list headed by [ScreenBuffers], linked through [Next] *)
  ScreenBuffers : list addr;
  CurrentScreenBuffer : option addr;
  (** the answers of the coming calls of [new] *)
  allocs : list bool
}.

Definition set_screens (m : gmap addr SCREEN_INFORMATION) (g : CONSOLE_INFORMATION) :=
  mkCONSOLE m (pipes g) (ScreenBuffers g) (CurrentScreenBuffer g) (allocs g).
Definition set_pipes (m : gmap handle (option addr)) (g : CONSOLE_INFORMATION) :=
  mkCONSOLE (screens g) m (ScreenBuffers g) (CurrentScreenBuffer g) (allocs g).
Definition set_ScreenBuffers (l : list addr) (g : CONSOLE_INFORMATION) :=
  mkCONSOLE (screens g) (pipes g) l (CurrentScreenBuffer g) (allocs g).
Definition set_CurrentScreenBuffer (c : option addr) (g : CONSOLE_INFORMATION) :=
  mkCONSOLE (screens g) (pipes g) (ScreenBuffers g) c (allocs g).
Definition set_allocs (l : list bool) (g : CONSOLE_INFORMATION) :=
  mkCONSOLE (screens g) (pipes g) (ScreenBuffers g) (CurrentScreenBuffer g) l.

Definition set_psiMainBuffer (p : option addr) (si : SCREEN_INFORMATION) :=
  mkSCREEN_INFORMATION (_coordScreenBufferSize si) (_srBufferViewport si) (TextInfo si)
    (_Attributes si) (_ptsTabs si) p (_psiAlternateBuffer si) (_pStateMachine si)
    (_pAdapter si) (_pBufferWriter si) (_pConApi si) (_fAltWindowChanged si).
Definition set_psiAlternateBuffer (p : option addr) (si : SCREEN_INFORMATION) :=
  mkSCREEN_INFORMATION (_coordScreenBufferSize si) (_srBufferViewport si) (TextInfo si)
    (_Attributes si) (_ptsTabs si) (_psiMainBuffer si) p (_pStateMachine si)
    (_pAdapter si) (_pBufferWriter si) (_pConApi si) (_fAltWindowChanged si).
Definition set_fAltWindowChanged (b : bool) (si : SCREEN_INFORMATION) :=
  mkSCREEN_INFORMATION (_coordScreenBufferSize si) (_srBufferViewport si) (TextInfo si)
    (_Attributes si) (_ptsTabs si) (_psiMainBuffer si) (_psiAlternateBuffer si)
    (_pStateMachine si) (_pAdapter si) (_pBufferWriter si) (_pConApi si) b.
(** The four pointers of the output state machine, in the order
    [_pStateMachine], [_pAdapter], [_pBufferWriter], [_pConApi]. *)
Definition set_pipeline (sm ad bw api : option handle) (si : SCREEN_INFORMATION) :=
  mkSCREEN_INFORMATION (_coordScreenBufferSize si) (_srBufferViewport si) (TextInfo si)
    (_Attributes si) (_ptsTabs si) (_psiMainBuffer si) (_psiAlternateBuffer si)
    sm ad bw api (_fAltWindowChanged si).

(** [new T(target)] for a pipeline object. *)
Definition new_pipe (target : option addr) (g : CONSOLE_INFORMATION)
  : option handle * CONSOLE_INFORMATION :=
  let mk (o : list bool) :=
    let hd := fresh (dom (pipes g)) in
    (Some hd, set_allocs o (set_pipes (<[hd := target]> (pipes g)) g)) in
  match allocs g with
  | false :: o => (None, set_allocs o g)
  | true :: o => mk o
  | [] => mk []
  end.

(** [delete p] for a pipeline object: [None] when [p] is not live. *)
Definition delete_pipe (p : handle) (g : CONSOLE_INFORMATION) : option CONSOLE_INFORMATION :=
  match pipes g !! p with
  | None => None
  | Some _ => Some (set_pipes (delete p (pipes g)) g)
  end.

(** [p->SetActiveScreenBuffer(target)] on a get-set or a writer. *)
Definition pipe_SetActiveScreenBuffer (p : option handle) (target : addr)
    (g : CONSOLE_INFORMATION) : option CONSOLE_INFORMATION :=
  hd ← p;
  _ ← pipes g !! hd;
  Some (set_pipes (<[hd := Some target]> (pipes g)) g).

(** Modelled from the spec: the global [::SetActiveScreenBuffer] is outside
    the source file; it makes the buffer the active one and reports success. *)
Definition SetActiveScreenBuffer (p : addr) (g : CONSOLE_INFORMATION)
  : NTSTATUS * CONSOLE_INFORMATION :=
  (STATUS_SUCCESS, set_CurrentScreenBuffer (Some p) g).

Definition s_InsertScreenBuffer (pScreenInfo : addr) (g : CONSOLE_INFORMATION)
  : CONSOLE_INFORMATION :=
  set_ScreenBuffers (pScreenInfo :: ScreenBuffers g) g.

(** The list without the first node equal to [p]; [None] when the walk runs
    off the end of the list. *)
Fixpoint unlink (p : addr) (l : list addr) : option (list addr) :=
  match l with
  | [] => None
  | q :: rest => if decide (q = p) then Some rest else (q ::.) <$> unlink p rest
  end.

(** [_FreeOutputStateMachine] of the buffer at [this]; [remove] is
    [s_RemoveScreenBuffer]. *)
Definition FreeOutputStateMachine_with
    (remove : addr -> CONSOLE_INFORMATION -> option CONSOLE_INFORMATION)
    (this : addr) (g : CONSOLE_INFORMATION) : option CONSOLE_INFORMATION :=
  si ← screens g !! this;
  match _psiMainBuffer si with
  | None =>
      g ← match _psiAlternateBuffer si with
          | Some alt => remove alt g
          | None => Some g
          end;
      g ← match _pStateMachine si with Some p => delete_pipe p g | None => Some g end;
      g ← match _pAdapter si with Some p => delete_pipe p g | None => Some g end;
      g ← match _pBufferWriter si with Some p => delete_pipe p g | None => Some g end;
      match _pConApi si with Some p => delete_pipe p g | None => Some g end
  | Some main =>
      g ← pipe_SetActiveScreenBuffer (_pConApi si) main g;
      pipe_SetActiveScreenBuffer (_pBufferWriter si) main g
  end.

(** [s_RemoveScreenBuffer], which ends in [delete pScreenInfo]: the
    destructor frees the output state machine and the tab stops, and the
    object leaves the store.  The destructor of a main buffer removes its
    alternate buffer in turn; [fuel] bounds that nesting. *)
Fixpoint s_RemoveScreenBuffer (fuel : nat) (pScreenInfo : addr) (g : CONSOLE_INFORMATION)
  : option CONSOLE_INFORMATION :=
  match fuel with
  | O => None
  | S fuel' =>
      l ← unlink pScreenInfo (ScreenBuffers g);
      let g := set_ScreenBuffers l g in
      let g :=
        if bool_decide (Some pScreenInfo = CurrentScreenBuffer g)
           && negb (bool_decide (head (ScreenBuffers g) = CurrentScreenBuffer g))
        then match head (ScreenBuffers g) with
             | Some first => snd (SetActiveScreenBuffer first g)
             | None => set_CurrentScreenBuffer None g
             end
        else g in
      (* delete pScreenInfo *)
      g ← FreeOutputStateMachine_with (s_RemoveScreenBuffer fuel') pScreenInfo g;
      si ← screens g !! pScreenInfo;
      let g := set_screens (<[pScreenInfo := ClearTabStops si]> (screens g)) g in
      Some (set_screens (delete pScreenInfo (screens g)) g)
  end.

Definition _FreeOutputStateMachine (fuel : nat) (this : addr) (g : CONSOLE_INFORMATION)
  : option CONSOLE_INFORMATION :=
  FreeOutputStateMachine_with (s_RemoveScreenBuffer fuel) this g.

(** [_InitializeOutputStateMachine]: the four objects are made in turn; a
    failure frees what was made. *)
Definition _InitializeOutputStateMachine (fuel : nat) (this : addr) (g : CONSOLE_INFORMATION)
  : option (NTSTATUS * CONSOLE_INFORMATION) :=
  let store (f : SCREEN_INFORMATION -> SCREEN_INFORMATION) (g : CONSOLE_INFORMATION) :=
    si ← screens g !! this; Some (set_screens (<[this := f si]> (screens g)) g) in
  let '(api, g) := new_pipe (Some this) g in
  g ← store (fun si =>
         set_pipeline (_pStateMachine si) (_pAdapter si) (_pBufferWriter si) api si) g;
  '(status, g) ←
    (if api is Some _ then
       let '(bw, g) := new_pipe (Some this) g in
       g ← store (fun si =>
              set_pipeline (_pStateMachine si) (_pAdapter si) bw (_pConApi si) si) g;
       Some (if bw is Some _ then STATUS_SUCCESS else STATUS_NO_MEMORY, g)
     else Some (STATUS_NO_MEMORY, g));
  '(status, g) ←
    (if NT_SUCCESS status then
       let '(ad, g) := new_pipe None g in
       g ← store (fun si =>
              set_pipeline (_pStateMachine si) ad (_pBufferWriter si) (_pConApi si) si) g;
       Some (if ad is Some _ then STATUS_SUCCESS else STATUS_NO_MEMORY, g)
     else Some (status, g));
  '(status, g) ←
    (if NT_SUCCESS status then
       let '(sm, g) := new_pipe None g in
       g ← store (fun si =>
              set_pipeline sm (_pAdapter si) (_pBufferWriter si) (_pConApi si) si) g;
       Some (if sm is Some _ then STATUS_SUCCESS else STATUS_NO_MEMORY, g)
     else Some (status, g));
  if NT_SUCCESS status then Some (status, g)
  else g ← _FreeOutputStateMachine fuel this g; Some (status, g).

(** [CURSOR_SMALL_SIZE] is declared outside the source file. *)
Definition CURSOR_SMALL_SIZE : Z := 25.

(** The text buffer of an object whose [TextInfo] is still the null pointer. *)
Definition TEXT_BUFFER_null : TEXT_BUFFER_INFO :=
  mkTEXT_BUFFER_INFO [] 0%nat 0%nat 0%nat 0 (mkCOORD 0 0)
    (mkCursor (mkCOORD 0 0) 0 false false false false false).

(** The object the constructor leaves: no text buffer, no tab stop, no link,
    no pipeline. *)
Definition SCREEN_INFORMATION_ctor (ciFill : Z) : SCREEN_INFORMATION :=
  mkSCREEN_INFORMATION (mkCOORD 0 0) (mkSMALL_RECT 0 0 0 0) TEXT_BUFFER_null ciFill []
    None None None None None None false.

(** [CreateInstance]: the new object, if any, is the second component.
    [SetLineChar] only touches the line-drawing characters, which are not
    part of this state. *)
Definition CreateInstance `{TextBufferOps} (fuel : nat)
    (coordWindowSize coordScreenBufferSize : COORD) (ciFill : Z) (uiCursorSize : Z)
    (g : CONSOLE_INFORMATION) : option (NTSTATUS * option addr * CONSOLE_INFORMATION) :=
  match allocs g with
  | false :: o => Some (STATUS_NO_MEMORY, None, set_allocs o g)
  | o =>
      let g := set_allocs (tail o) g in
      let pScreen := fresh (dom (screens g)) in
      let si := SCREEN_INFORMATION_ctor ciFill in
      let si := SetScreenBufferSize coordScreenBufferSize si in
      let si :=
        set_srBufferViewport
          (mkSMALL_RECT 0 0 (toSHORT (X coordWindowSize - 1)) (toSHORT (Y coordWindowSize - 1)))
          si in
      let si := SetScreenBufferSize coordScreenBufferSize si in
      match TB_CreateInstance coordScreenBufferSize ciFill uiCursorSize with
      | None => Some (STATUS_NO_MEMORY, None, set_screens (<[pScreen := si]> (screens g)) g)
      | Some tb =>
          let g := set_screens (<[pScreen := set_TextInfo tb si]> (screens g)) g in
          '(Status, g) ← _InitializeOutputStateMachine fuel pScreen g;
          Some (Status, if NT_SUCCESS Status then Some pScreen else None, g)
      end
  end.

Definition GetMainBuffer (this : addr) (si : SCREEN_INFORMATION) : addr :=
  match _psiMainBuffer si with Some main => main | None => this end.

Definition GetActiveBuffer (this : addr) (si : SCREEN_INFORMATION) : addr :=
  match _psiAlternateBuffer si with Some alt => alt | None => this end.

Definition _IsAltBuffer (si : SCREEN_INFORMATION) : bool :=
  match _psiMainBuffer si with Some _ => true | None => false end.

Definition _CreateAltBuffer `{TextBufferOps} (fuel : nat) (this : addr)
    (g : CONSOLE_INFORMATION) : option (NTSTATUS * option addr * CONSOLE_INFORMATION) :=
  si ← screens g !! this;
  let Fill := _Attributes si in
  let WindowSize :=
    mkCOORD (toSHORT (CalcWindowSizeX (_srBufferViewport si)))
            (toSHORT (CalcWindowSizeY (_srBufferViewport si))) in
  '(Status, ppsiNewScreenBuffer, g) ←
    CreateInstance fuel WindowSize WindowSize Fill CURSOR_SMALL_SIZE g;
  if NT_SUCCESS Status then
    pNew ← ppsiNewScreenBuffer;
    let g := s_InsertScreenBuffer pNew g in
    g ← _FreeOutputStateMachine fuel pNew g;
    si ← screens g !! this;
    new ← screens g !! pNew;
    let new := set_pipeline (_pStateMachine si) (_pAdapter si) (_pBufferWriter si)
                 (_pConApi si) new in
    Some (Status, Some pNew, set_screens (<[pNew := new]> (screens g)) g)
  else Some (Status, ppsiNewScreenBuffer, g).

(** [ProcessResizeWindow] replays a window resize that was saved while the
    alternate buffer was active; it is an argument here. *)
Definition replay_saved_resize
    (ProcessResizeWindow : addr -> CONSOLE_INFORMATION -> option CONSOLE_INFORMATION)
    (psiMain : addr) (g : CONSOLE_INFORMATION) : option CONSOLE_INFORMATION :=
  main ← screens g !! psiMain;
  if _fAltWindowChanged main then
    g ← ProcessResizeWindow psiMain g;
    main ← screens g !! psiMain;
    Some (set_screens (<[psiMain := set_fAltWindowChanged false main]> (screens g)) g)
  else Some g.

(** The size-change event and the notice to the mouse input handler, which
    end the source function, change nothing of this state. *)
Definition UseAlternateScreenBuffer `{TextBufferOps}
    (ProcessResizeWindow : addr -> CONSOLE_INFORMATION -> option CONSOLE_INFORMATION)
    (fuel : nat) (this : addr) (g : CONSOLE_INFORMATION)
  : option (NTSTATUS * CONSOLE_INFORMATION) :=
  si ← screens g !! this;
  let psiMain := GetMainBuffer this si in
  g ← replay_saved_resize ProcessResizeWindow psiMain g;
  '(Status, psiNewAltBuffer, g) ← _CreateAltBuffer fuel this g;
  if NT_SUCCESS Status then
    pNew ← psiNewAltBuffer;
    main ← screens g !! psiMain;
    let psiOldAltBuffer := _psiAlternateBuffer main in
    new ← screens g !! pNew;
    let g := set_screens (<[pNew := set_psiMainBuffer (Some psiMain) new]> (screens g)) g in
    main ← screens g !! psiMain;
    let g :=
      set_screens (<[psiMain := set_psiAlternateBuffer (Some pNew) main]> (screens g)) g in
    g ← match psiOldAltBuffer with
        | Some old => s_RemoveScreenBuffer fuel old g
        | None => Some g
        end;
    si ← screens g !! this;
    g ← pipe_SetActiveScreenBuffer (_pConApi si) pNew g;
    g ← pipe_SetActiveScreenBuffer (_pBufferWriter si) pNew g;
    Some (SetActiveScreenBuffer pNew g)
  else Some (Status, g).

(** Posting the scroll bar update, the size-change event and the notice to
    the mouse input handler change nothing of this state. *)
Definition UseMainScreenBuffer
    (ProcessResizeWindow : addr -> CONSOLE_INFORMATION -> option CONSOLE_INFORMATION)
    (fuel : nat) (this : addr) (g : CONSOLE_INFORMATION)
  : option (NTSTATUS * CONSOLE_INFORMATION) :=
  si ← screens g !! this;
  match _psiMainBuffer si with
  | None => Some (STATUS_SUCCESS, g)
  | Some psiMain =>
      g ← replay_saved_resize ProcessResizeWindow psiMain g;
      let '(Status, g) := SetActiveScreenBuffer psiMain g in
      if NT_SUCCESS Status then
        main ← screens g !! psiMain;
        psiAlt ← _psiAlternateBuffer main;
        let g :=
          set_screens (<[psiMain := set_psiAlternateBuffer None main]> (screens g)) g in
        g ← s_RemoveScreenBuffer fuel psiAlt g;
        Some (Status, g)
      else Some (Status, g)
  end.

(** The four handle pointers of a screen buffer. *)
Definition pipeline_of (si : SCREEN_INFORMATION)
  : option handle * option handle * option handle * option handle :=
  (_pStateMachine si, _pAdapter si, _pBufferWriter si, _pConApi si).

(** ** A small text buffer

    An implementation of [TextBufferOps] that never fails, used to run the
    operations above on examples: a character is written under the cursor,
    which then moves on and wraps at the right edge, marking the row.  The
    allocations of a text buffer made here are not followed: its three
    blocks are 0 and its rows name no allocation. *)

Definition set_CharRow (c : CHAR_ROW.t) (r : ROW) : ROW :=
  mkROW c (AttrRow r) (AttrRowList r) (sRowId r).

Definition simple_blank (coordSize : COORD) (fill cursorSize : Z) : TEXT_BUFFER_INFO :=
  mkTEXT_BUFFER_INFO
    (replicate (Z.to_nat (Y coordSize))
       (mkROW (CHAR_ROW.mk (replicate (Z.to_nat (X coordSize)) UNICODE_SPACE)
                 (replicate (Z.to_nat (X coordSize)) 0) (X coordSize) 0 false false)
              [mkRun fill (X coordSize)] None 0))
    0%nat 0%nat 0%nat 0 coordSize
    (mkCursor (mkCOORD 0 0) cursorSize true true false false false).

Definition simple_move (p : COORD) (tb : TEXT_BUFFER_INFO) : TEXT_BUFFER_INFO :=
  set_tbCursor (Cursor_SetPosition p (GetCursor tb)) tb.

Definition simple_NewlineCursor (tb : TEXT_BUFFER_INFO) : bool * TEXT_BUFFER_INFO :=
  (true, simple_move (mkCOORD 0 (Y (GetPosition (GetCursor tb)) + 1)) tb).

Definition simple_IncrementCursor (tb : TEXT_BUFFER_INFO) : bool * TEXT_BUFFER_INFO :=
  let p := GetPosition (GetCursor tb) in
  if X p + 1 >=? X (coordBufferSize tb)
  then (true, simple_move (mkCOORD 0 (Y p + 1)) tb)
  else (true, simple_move (mkCOORD (X p + 1) (Y p)) tb).

Definition simple_InsertCharacter (w : WCHAR) (k : BYTE) (a : Z) (tb : TEXT_BUFFER_INFO)
  : bool * TEXT_BUFFER_INFO :=
  let p := GetPosition (GetCursor tb) in
  let i := Z.to_nat (Z.rem (FirstRowIndex tb + Y p) (Y (coordBufferSize tb))) in
  let wraps := X p + 1 >=? X (coordBufferSize tb) in
  let write (r : ROW) :=
    let c := CharRow r in
    set_CharRow
      (CHAR_ROW.mk (<[Z.to_nat (X p) := w]> (CHAR_ROW.Chars c))
         (<[Z.to_nat (X p) := k]> (CHAR_ROW.KAttrs c))
         (if w =? UNICODE_SPACE then CHAR_ROW.Left c else min (CHAR_ROW.Left c) (X p))
         (if w =? UNICODE_SPACE then CHAR_ROW.Right c else max (CHAR_ROW.Right c) (X p + 1))
         (CHAR_ROW.WasWrapForced c || wraps) (CHAR_ROW.WasDoubleBytePadded c)) r in
  simple_IncrementCursor (set_Rows (alter write i (Rows tb)) tb).

(** The greatest index of a cell that is not a space, scanning from index [i]. *)
Fixpoint last_nonspace (i : Z) (chars : list WCHAR) (acc : option Z) : option Z :=
  match chars with
  | [] => acc
  | c :: rest => last_nonspace (i + 1) rest (if c =? UNICODE_SPACE then acc else Some i)
  end.

Fixpoint simple_last_char (n : nat) (y : Z) (tb : TEXT_BUFFER_INFO) (acc : COORD) : COORD :=
  match n with
  | O => acc
  | S n' =>
      let acc :=
        match GetRowByOffset tb y with
        | Some r =>
            match last_nonspace 0 (CHAR_ROW.Chars (CharRow r)) None with
            | Some x => mkCOORD x y
            | None => acc
            end
        | None => acc
        end in
      simple_last_char n' (y + 1) tb acc
  end.

Definition simple_GetLastNonSpaceCharacter (tb : TEXT_BUFFER_INFO) : COORD :=
  simple_last_char (Z.to_nat (Y (coordBufferSize tb))) 0 tb (mkCOORD 0 0).

Definition simple_TextBufferOps : TextBufferOps :=
  {| TB_CreateInstance := fun size fill cursorSize => Some (simple_blank size fill cursorSize);
     GetLastNonSpaceCharacter := simple_GetLastNonSpaceCharacter;
     InsertCharacter := simple_InsertCharacter;
     NewlineCursor := simple_NewlineCursor;
     IncrementCursor := simple_IncrementCursor;
     CopyProperties := fun other tb => tb |}.

(** An old buffer of 10 by 5 cells with the text ABCDEF on its first row and
    the cursor at (8, 2), and the state after its rows are copied into a
    buffer of 3 by 5 cells. *)
Definition reflow_example_old : TEXT_BUFFER_INFO :=
  Eval vm_compute in
  simple_move (mkCOORD 8 2)
    (foldl (fun tb w => snd (simple_InsertCharacter w 0 7 tb))
       (simple_blank (mkCOORD 10 5) 7 25) [65; 66; 67; 68; 69; 70]).

Definition reflow_example_copied : ReflowState :=
  Eval vm_compute in
  let start := mkReflowState (simple_blank (mkCOORD 3 5) 7 0) (mkCOORD 0 0) false STATUS_SUCCESS in
  default start
    (reflow_rows (H := simple_TextBufferOps) 1 0 1 10 reflow_example_old (mkCOORD 8 2) start).




(** The text buffer agrees with the screen buffer on the size, holds one row
    per line, and its first-row index and its cursor row are inside it. *)
Definition text_buffer_wf (si : SCREEN_INFORMATION) : Prop :=
  let tb := TextInfo si in
  let sz := GetScreenBufferSize si in
  coordBufferSize tb = sz
  /\ 1 <= X sz <= 32766 /\ 1 <= Y sz <= 32766
  /\ length (Rows tb) = Z.to_nat (Y sz)
  /\ 0 <= FirstRowIndex tb < Y sz
  /\ 0 <= Y (GetPosition (GetCursor tb)) < Y sz.

(** ** More of the screen buffer: clipping, the cursor in view, sizes in
    characters, scroll bars, resizing *)

(** *** The edges of the buffer and clipping to them *)

Definition GetScreenEdges (si : SCREEN_INFORMATION) : SMALL_RECT :=
  let coordScreenBufferSize := GetScreenBufferSize si in
  {| Left := 0;
     Top := 0;
     Right := toSHORT (X coordScreenBufferSize - 1);
     Bottom := toSHORT (Y coordScreenBufferSize - 1) |}.

(** The overload for a rectangle; the in-out argument is the result. *)
Definition ClipToScreenBuffer (psrClip : SMALL_RECT) (si : SCREEN_INFORMATION) : SMALL_RECT :=
  let srEdges := GetScreenEdges si in
  {| Left := max (Left psrClip) (Left srEdges);
     Top := max (Top psrClip) (Top srEdges);
     Right := min (Right psrClip) (Right srEdges);
     Bottom := min (Bottom psrClip) (Bottom srEdges) |}.

(** The overload for a coordinate. *)
Definition ClipToScreenBuffer_COORD (pcoordClip : COORD) (si : SCREEN_INFORMATION) : COORD :=
  let srEdges := GetScreenEdges si in
  let x := max (X pcoordClip) (Left srEdges) in
  let y := max (Y pcoordClip) (Top srEdges) in
  {| X := min x (Right srEdges); Y := min y (Bottom srEdges) |}.

(** *** Bringing the cursor into view

    The status of [SetViewportOrigin] is dropped, as in the source; the
    second component is the window handed to the window object, if any. *)
Definition MakeCursorVisible (fActive fWindow : bool) (CursorPosition : COORD)
    (si : SCREEN_INFORMATION) : SCREEN_INFORMATION * option SMALL_RECT :=
  let vp := _srBufferViewport si in
  let WindowOrigin :=
    {| X := if X CursorPosition >? Right vp then toSHORT (X CursorPosition - Right vp)
            else if X CursorPosition <? Left vp then toSHORT (X CursorPosition - Left vp)
            else 0;
       Y := if Y CursorPosition >? Bottom vp then toSHORT (Y CursorPosition - Bottom vp)
            else if Y CursorPosition <? Top vp then toSHORT (Y CursorPosition - Top vp)
            else 0 |} in
  if negb (X WindowOrigin =? 0) || negb (Y WindowOrigin =? 0) then
    let '(_, si, notify) := SetViewportOrigin fActive fWindow false WindowOrigin si in
    (si, notify)
  else (si, None).

Definition MakeCurrentCursorVisible (fActive fWindow : bool) (si : SCREEN_INFORMATION)
  : SCREEN_INFORMATION * option SMALL_RECT :=
  MakeCursorVisible fActive fWindow (GetPosition (GetCursor (TextInfo si))) si.

Definition IsMaximizedBoth (si : SCREEN_INFORMATION) : bool :=
  IsMaximizedX si && IsMaximizedY si.

(** A cell lies inside an inclusive rectangle. *)
Definition in_rect (p : COORD) (r : SMALL_RECT) : Prop :=
  Left r <= X p <= Right r /\ Top r <= Y p <= Bottom r.

(** The viewport a call leaves in force: the window handed to the window
    object when there is one, else the stored viewport. *)
Definition viewport_after (r : SCREEN_INFORMATION * option SMALL_RECT) : SMALL_RECT :=
  match snd r with Some w => w | None => _srBufferViewport (fst r) end.

(** *** Sizes in characters

    [g_pRender] is the renderer of the host: [None] when there is none, else
    the font size its [GetFontSize] reports. *)

Definition GetScreenFontSize (g_pRender : option COORD) : COORD :=
  let coordRet := match g_pRender with Some f => f | None => mkCOORD 1 1 end in
  {| X := toSHORT (max (X coordRet) 1); Y := toSHORT (max (Y coordRet) 1) |}.

(** [a / b] and [a % b] of C round towards zero. *)
Definition GetScrollBarSizesInCharacters (g_sHorizontalScrollSize g_sVerticalScrollSize : Z)
    (g_pRender : option COORD) : COORD :=
  let coordFont := GetScreenFontSize g_pRender in
  {| X := toSHORT (Z.quot g_sVerticalScrollSize (X coordFont)
                   + (if negb (Z.rem g_sVerticalScrollSize (X coordFont) =? 0) then 1 else 0));
     Y := toSHORT (Z.quot g_sHorizontalScrollSize (Y coordFont)
                   + (if negb (Z.rem g_sHorizontalScrollSize (Y coordFont) =? 0)
                      then 1 else 0)) |}.

Inductive HRESULT := S_OK | E_NOT_VALID_STATE.

(** The second component is what is written to [pcoordClientNewCharacters];
    nothing is written when the result is not [S_OK]. *)
Definition _AdjustScreenBufferHelper (g_sHorizontalScrollSize g_sVerticalScrollSize : Z)
    (g_pRender : option COORD) (prcClientNew : RECT) (coordBufferOld : COORD)
  : HRESULT * option COORD :=
  let coordFontSize := GetScreenFontSize g_pRender in
  if (0 =? X coordFontSize) || (0 =? Y coordFontSize) then (E_NOT_VALID_STATE, None)
  else
    let cx := toLONG (RECT_WIDTH prcClientNew) in
    let cy := toLONG (RECT_HEIGHT prcClientNew) in
    let '(fIsHorizontalVisible, fIsVerticalVisible) :=
      s_CalculateScrollbarVisibility g_sHorizontalScrollSize g_sVerticalScrollSize
        prcClientNew coordBufferOld coordFontSize in
    let cy := if fIsHorizontalVisible then toLONG (cy - g_sHorizontalScrollSize) else cy in
    let cx := if fIsVerticalVisible then toLONG (cx - g_sVerticalScrollSize) else cx in
    (S_OK, Some {| X := toSHORT (Z.quot cx (X coordFontSize));
                   Y := toSHORT (Z.quot cy (Y coordFontSize)) |}).

Definition _CalculateViewportSize (g_sHorizontalScrollSize g_sVerticalScrollSize : Z)
    (g_pRender : option COORD) (prcClientArea : RECT) (si : SCREEN_INFORMATION) : COORD :=
  let coordBufferSize := GetScreenBufferSize si in
  let coordFontSize := GetScreenFontSize g_pRender in
  let cx := toLONG (RECT_WIDTH prcClientArea) in
  let cy := toLONG (RECT_HEIGHT prcClientArea) in
  let '(fIsHorizontalVisible, fIsVerticalVisible) :=
    s_CalculateScrollbarVisibility g_sHorizontalScrollSize g_sVerticalScrollSize
      prcClientArea coordBufferSize coordFontSize in
  let cy := if fIsHorizontalVisible then toLONG (cy - g_sHorizontalScrollSize) else cy in
  let cx := if fIsVerticalVisible then toLONG (cx - g_sVerticalScrollSize) else cx in
  {| X := toSHORT (Z.quot cx (X coordFontSize)); Y := toSHORT (Z.quot cy (Y coordFontSize)) |}.

(** The font size a renderer reports is a pair of [SHORT]s. *)
Definition render_font_ok (g_pRender : option COORD) : Prop :=
  match g_pRender with Some f => isSHORT (X f) /\ isSHORT (Y f) | None => True end.

(** *** Scroll bar updates

    [Flags] is [g_ciConsoleInformation.Flags] and [CONSOLE_UPDATING_SCROLL_BARS]
    the bit declared outside the source file; [fActive] is
    [IsActiveScreenBuffer()] and [fWindow] tells whether the console has a
    window.  The second component tells whether the update was posted to
    the window. *)
Definition UpdateScrollBars (CONSOLE_UPDATING_SCROLL_BARS : Z) (fActive fWindow : bool)
    (Flags : Z) : Z * bool :=
  if negb fActive then (Flags, false)
  else if negb (Z.land Flags CONSOLE_UPDATING_SCROLL_BARS =? 0) then (Flags, false)
  else (Z.lor Flags CONSOLE_UPDATING_SCROLL_BARS, fWindow).

(** The value a [UINT] holds after an [int] is stored in it. *)
Definition toUINT (z : Z) : Z := z mod 4294967296.

Record SCROLLINFO := mkSCROLLINFO { fMask : Z; nPage : Z; nMin : Z; nMax : Z; nPos : Z }.

(** The second component holds what is handed to [SetScrollInfo] for the
    vertical and for the horizontal bar.  [ResizingWindow] is raised and
    lowered again around the calls.  [EnableScrollBar], called first for a
    main buffer, and the layout event sent at the end are not part of the
    result. *)
Definition InternalUpdateScrollBars (CONSOLE_UPDATING_SCROLL_BARS SIF_ALL SIF_DISABLENOSCROLL : Z)
    (fActive : bool) (si : SCREEN_INFORMATION) (Flags : Z)
  : Z * option (SCROLLINFO * SCROLLINFO) :=
  let Flags := Z.land Flags (Z.lnot CONSOLE_UPDATING_SCROLL_BARS) in
  if negb fActive then (Flags, None)
  else
    let coordScreenBufferSize := GetScreenBufferSize si in
    let fMask := if _IsAltBuffer si then Z.lor SIF_ALL SIF_DISABLENOSCROLL else SIF_ALL in
    let vert :=
      mkSCROLLINFO fMask (toUINT (GetScreenWindowSizeY si)) 0 (Y coordScreenBufferSize - 1)
        (Top (_srBufferViewport si)) in
    let horz :=
      mkSCROLLINFO fMask (toUINT (GetScreenWindowSizeX si)) 0 (X coordScreenBufferSize - 1)
        (Left (_srBufferViewport si)) in
    (Flags, Some (vert, horz)).

(** *** Notifying of changed text *)

Inductive WinEvent :=
| EVENT_CONSOLE_UPDATE_SIMPLE (pos : COORD) (ch : WCHAR) (attr : Z)
| EVENT_CONSOLE_UPDATE_REGION (start finish : COORD)
| EVENT_CONSOLE_LAYOUT.

(** [ResetTextFlags] changes nothing of the screen buffer; the result is what
    it sends with [NotifyWinEvent].  For a single cell it reads the cell and
    its attribute run; the attribute is given as stored, before
    [GenerateLegacyAttributes].  [None] stands for a read outside an array or
    through a null pointer ([pWindow] is used unchecked for the UIA signal
    that follows the event). *)
Definition ResetTextFlags (fActive fWindow : bool) (sStartX sStartY sEndX sEndY : Z)
    (si : SCREEN_INFORMATION) : option (list WinEvent) :=
  let pTextInfo := TextInfo si in
  if fActive then
    let coordScreenBufferSize := GetScreenBufferSize si in
    ev ←
      (if (sStartX =? sEndX) && (sStartY =? sEndY) then
         if Y coordScreenBufferSize =? 0 then None
         else
           let RowIndex :=
             toSHORT (Z.rem (FirstRowIndex pTextInfo + sStartY) (Y coordScreenBufferSize)) in
           if (RowIndex <? 0) || (sStartX <? 0) then None
           else
             Row ← Rows pTextInfo !! Z.to_nat RowIndex;
             Char ← CHAR_ROW.Chars (CharRow Row) !! Z.to_nat sStartX;
             pAttrRun ← FindAttrIndex (AttrRow Row) sStartX;
             Some (EVENT_CONSOLE_UPDATE_SIMPLE (mkCOORD sStartX sStartY) Char
                     (runAttr pAttrRun))
       else Some (EVENT_CONSOLE_UPDATE_REGION (mkCOORD sStartX sStartY)
                    (mkCOORD sEndX sEndY)));
    if fWindow then Some [ev] else None
  else Some [].

(** *** [ResizeScreenBuffer] *)

Definition SetCoordBufferSize (c : COORD) (tb : TEXT_BUFFER_INFO) : TEXT_BUFFER_INFO :=
  mkTEXT_BUFFER_INFO (Rows tb) (RowsBlock tb) (TextRows tb) (KAttrRows tb)
    (FirstRowIndex tb) c (tbCursor tb).

Record ResizeOutcome := mkResizeOutcome {
  roStatus : NTSTATUS;
  roScreen : SCREEN_INFORMATION;
  roHeap : Heap;
  roFlags : Z;
  (** the window handed to the window object by the reflow, if any *)
  roWindow : option SMALL_RECT;
  roEvents : list WinEvent;
  (** whether a scroll bar update was posted *)
  roPosted : bool;
  (** whether [Selection::Instance().ClearSelection()] was called: no
      selection is active afterwards *)
  roSelectionCleared : bool
}.

(** [fWrapText] is [g_ciConsoleInformation.GetWrapText()]; [fConvScreenInfo]
    tells whether [ConvScreenInfo] is set, and [imeStatus] is what
    [ConsoleImeResizeCompStrScreenBuffer] answers.  The selection is
    cancelled first, before the new size is looked at.  The size-change
    event changes nothing of this state. *)
Definition ResizeScreenBuffer `{TextBufferOps}
    (fWrapText fActive fWindow fConvScreenInfo : bool) (imeStatus : NTSTATUS)
    (CONSOLE_UPDATING_SCROLL_BARS : Z)
    (coordNewScreenSize : COORD) (fDoScrollBarUpdate : bool)
    (si : SCREEN_INFORMATION) (h : Heap) (Flags : Z) : option ResizeOutcome :=
  let fSelectionCleared := true in
  '(status, si, h, window) ←
    (if fWrapText then
       '(status, si, window) ← ResizeWithReflow fActive fWindow coordNewScreenSize si;
       Some (status, si, h, window)
     else
       let '(status, si, h) := ResizeTraditional coordNewScreenSize si h in
       Some (status, si, h, None));
  if NT_SUCCESS status then
    let si := SetScreenBufferSize coordNewScreenSize si in
    let coordSetScreenBufferSize := GetScreenBufferSize si in
    let si := set_TextInfo (SetCoordBufferSize coordSetScreenBufferSize (TextInfo si)) si in
    ev ← ResetTextFlags fActive fWindow 0 0 (toSHORT (X coordSetScreenBufferSize - 1))
           (toSHORT (Y coordSetScreenBufferSize - 1)) si;
    if negb fConvScreenInfo && negb (NT_SUCCESS imeStatus)
    then Some (mkResizeOutcome STATUS_INVALID_HANDLE si h Flags window ev false
                 fSelectionCleared)
    else
      let ev := if fActive then ev ++ [EVENT_CONSOLE_LAYOUT] else ev in
      let '(Flags, posted) :=
        if fDoScrollBarUpdate
        then UpdateScrollBars CONSOLE_UPDATING_SCROLL_BARS fActive fWindow Flags
        else (Flags, false) in
      Some (mkResizeOutcome status si h Flags window ev posted fSelectionCleared)
  else Some (mkResizeOutcome status si h Flags window [] false fSelectionCleared).

(** A row holds [w] cells. *)
Definition row_width (w : Z) (r : ROW) : Prop :=
  length (CHAR_ROW.Chars (CharRow r)) = Z.to_nat w
  /\ length (CHAR_ROW.KAttrs (CharRow r)) = Z.to_nat w.

(** The rows of the text buffer are as many as the buffer is high and as wide
    as the buffer, the text buffer agrees with the screen buffer on the size,
    and the index of the first row is inside the array. *)
Definition buffer_shape (si : SCREEN_INFORMATION) : Prop :=
  let tb := TextInfo si in
  let sz := GetScreenBufferSize si in
  coordBufferSize tb = sz
  /\ length (Rows tb) = Z.to_nat (Y sz)
  /\ 0 <= FirstRowIndex tb < Y sz
  /\ Forall (row_width (X sz)) (Rows tb).

(** *** Reacting to a resized window *)

Definition Cursor_SetIsVisible (b : bool) (c : Cursor) : Cursor :=
  mkCursor (cPosition c) (cSize c) b (cIsOn c) (cIsDouble c) (cDelay c) (cHasMoved c).

Definition IsActiveScreenBuffer (this : addr) (g : CONSOLE_INFORMATION) : bool :=
  bool_decide (CurrentScreenBuffer g = Some this).

Definition set_cursor_visible (b : bool) (si : SCREEN_INFORMATION) : SCREEN_INFORMATION :=
  set_TextInfo (set_tbCursor (Cursor_SetIsVisible b (GetCursor (TextInfo si))) (TextInfo si)) si.

(** The third component is the outcome of [ResizeScreenBuffer] when it was
    called; its status is dropped, as in the source.  Hiding and showing the
    command line change nothing of this state. *)
Definition _AdjustScreenBuffer `{TextBufferOps}
    (g_sHorizontalScrollSize g_sVerticalScrollSize : Z) (g_pRender : option COORD)
    (fWrapText fWindow fConvScreenInfo : bool) (imeStatus : NTSTATUS)
    (CONSOLE_UPDATING_SCROLL_BARS : Z) (prcClientNew : RECT)
    (this : addr) (g : CONSOLE_INFORMATION) (h : Heap) (Flags : Z)
  : option (HRESULT * CONSOLE_INFORMATION * option ResizeOutcome) :=
  si ← screens g !! this;
  coordBufferSizeOld ←
    match _psiMainBuffer si with
    | Some main => GetScreenBufferSize <$> screens g !! main
    | None => Some (GetScreenBufferSize si)
    end;
  let coordBufferSizeNew := coordBufferSizeOld in
  match _AdjustScreenBufferHelper g_sHorizontalScrollSize g_sVerticalScrollSize g_pRender
          prcClientNew coordBufferSizeOld with
  | (S_OK, Some coordClientNewCharacters) =>
      let coordBufferSizeNew :=
        if fWrapText
        then mkCOORD (X coordClientNewCharacters) (Y coordBufferSizeNew)
        else coordBufferSizeNew in
      match _AdjustScreenBufferHelper g_sHorizontalScrollSize g_sVerticalScrollSize g_pRender
              prcClientNew coordBufferSizeNew with
      | (S_OK, Some coordClientNewCharacters) =>
          let coordBufferSizeNew :=
            if _IsAltBuffer si
            then mkCOORD (X coordClientNewCharacters) (Y coordClientNewCharacters)
            else
              mkCOORD
                (if X coordClientNewCharacters >? X coordBufferSizeNew
                 then X coordClientNewCharacters else X coordBufferSizeNew)
                (if Y coordClientNewCharacters >? Y coordBufferSizeNew
                 then Y coordClientNewCharacters else Y coordBufferSizeNew) in
          if negb (X coordBufferSizeOld =? X coordBufferSizeNew)
             || negb (Y coordBufferSizeOld =? Y coordBufferSizeNew)
          then
            let si := set_cursor_visible false si in
            out ← ResizeScreenBuffer fWrapText (IsActiveScreenBuffer this g) fWindow
                    fConvScreenInfo imeStatus CONSOLE_UPDATING_SCROLL_BARS
                    coordBufferSizeNew false si h Flags;
            let si := set_cursor_visible true (roScreen out) in
            Some (S_OK, set_screens (<[this := si]> (screens g)) g, Some out)
          else Some (S_OK, g, None)
      | (hr, _) => Some (hr, g, None)
      end
  | (hr, _) => Some (hr, g, None)
  end.

Record WindowResizeOutcome := mkWindowResizeOutcome {
  wrConsole : CONSOLE_INFORMATION;
  wrHeap : Heap;
  wrFlags : Z;
  (** what is stored in [_rcAltSavedClientNew] and [_rcAltSavedClientOld] of
      the main buffer, two fields kept outside the record of this
      development *)
  wrSaved : option (RECT * RECT);
  wrResize : option ResizeOutcome;
  wrPosted : bool
}.

(** [coordValidEnd] is what [Selection::GetValidAreaBoundaries] reports. *)
Definition ProcessResizeWindow `{TextBufferOps}
    (g_sHorizontalScrollSize g_sVerticalScrollSize : Z) (g_pRender : option COORD)
    (fWrapText fWindow fConvScreenInfo : bool) (imeStatus : NTSTATUS)
    (CONSOLE_UPDATING_SCROLL_BARS : Z) (coordValidEnd : COORD)
    (prcClientNew prcClientOld : RECT)
    (this : addr) (g : CONSOLE_INFORMATION) (h : Heap) (Flags : Z)
  : option WindowResizeOutcome :=
  si ← screens g !! this;
  '(g, saved) ←
    match _psiMainBuffer si with
    | Some main =>
        m ← screens g !! main;
        Some (set_screens (<[main := set_fAltWindowChanged true m]> (screens g)) g,
              Some (prcClientNew, prcClientOld))
    | None => Some (g, None)
    end;
  (* 1. the size of the buffer *)
  '(_, g, resize) ←
    _AdjustScreenBuffer g_sHorizontalScrollSize g_sVerticalScrollSize g_pRender
      fWrapText fWindow fConvScreenInfo imeStatus CONSOLE_UPDATING_SCROLL_BARS
      prcClientNew this g h Flags;
  let h := match resize with Some out => roHeap out | None => h end in
  let Flags := match resize with Some out => roFlags out | None => Flags end in
  (* 2. and 3. the size of the viewport *)
  si ← screens g !! this;
  let coordViewportSize :=
    _CalculateViewportSize g_sHorizontalScrollSize g_sVerticalScrollSize g_pRender
      prcClientNew si in
  let si := _AdjustViewportSize coordValidEnd prcClientNew prcClientOld coordViewportSize si in
  let g := set_screens (<[this := si]> (screens g)) g in
  (* 4. the scroll bars *)
  let '(Flags, posted) :=
    UpdateScrollBars CONSOLE_UPDATING_SCROLL_BARS (IsActiveScreenBuffer this g) fWindow Flags in
  Some (mkWindowResizeOutcome g h Flags saved resize posted).

(** *** The alternate buffer as it is created *)

(** The object [CreateInstance] makes for a window and a buffer of the size
    [ws], before its pipeline is attached. *)
Definition alt_buffer_object (ws : COORD) (ciFill : Z) (tb : TEXT_BUFFER_INFO)
  : SCREEN_INFORMATION :=
  set_TextInfo tb
    (SetScreenBufferSize ws
       (set_srBufferViewport
          (mkSMALL_RECT 0 0 (toSHORT (X ws - 1)) (toSHORT (Y ws - 1)))
          (SetScreenBufferSize ws (SCREEN_INFORMATION_ctor ciFill)))).

(** *** The allocations of a text buffer *)

(** What the attribute rows of [rows] hold, in the order of the rows. *)
Definition attr_blocks (rows : list ROW) : list block := omap AttrRowList rows.

(** What a text buffer holds: the row array, the two flat arrays, and what
    the attribute rows of its rows hold. *)
Definition tb_blocks (tb : TEXT_BUFFER_INFO) : gset block :=
  {[RowsBlock tb; TextRows tb; KAttrRows tb]} ∪ list_to_set (attr_blocks (Rows tb)).

(** The allocations of a text buffer are in use and no two of them are the
    same. *)
Definition blocks_ok (tb : TEXT_BUFFER_INFO) (h : Heap) : Prop :=
  NoDup (RowsBlock tb :: TextRows tb :: KAttrRows tb :: attr_blocks (Rows tb))
  /\ tb_blocks tb ⊆ live h.

(** ** Sample states *)

Definition sample_cursor (p : COORD) : Cursor := mkCursor p 25 true true false false false.

(** A row of [cols] cells all holding [ch], with one attribute run held in
    the block [l]. *)
Definition sample_row (cols : Z) (ch : WCHAR) (l : block) (id : Z) : ROW :=
  mkROW (CHAR_ROW.mk (replicate (Z.to_nat cols) ch) (replicate (Z.to_nat cols) 0)
           0 cols false false)
        [mkRun 7 cols] (Some l) id.

(** A text buffer whose physical row [i] holds the letter number [i].  Its
    row array is the block 1, its flat arrays are the blocks 2 and 3, and
    the attribute row of the physical row [i] is the block [4 + i]. *)
Definition sample_text (cols rows first : Z) (cur : COORD) : TEXT_BUFFER_INFO :=
  mkTEXT_BUFFER_INFO
    (imap (fun i _ => sample_row cols (65 + Z.of_nat i) (4 + i)%nat (Z.of_nat i))
          (replicate (Z.to_nat rows) tt))
    1%nat 2%nat 3%nat first (mkCOORD cols rows) (sample_cursor cur).

(** The blocks of a [sample_text] of [rows] rows: 1 to [3 + rows]. *)
Definition sample_blocks (rows : Z) : gset block :=
  list_to_set (seq 1 (3 + Z.to_nat rows)).

(** A main buffer of the given size whose viewport shows all of it. *)
Definition sample_screen (cols rows first : Z) (cur : COORD) (tabs : list Z)
  : SCREEN_INFORMATION :=
  mkSCREEN_INFORMATION (mkCOORD cols rows) (mkSMALL_RECT 0 0 (cols - 1) (rows - 1))
    (sample_text cols rows first cur) 7 tabs None None None None None None false.

(** A free store that holds the blocks of a sample text of up to 25 rows,
    where every allocation succeeds. *)
Definition sample_heap : Heap := mkHeap (sample_blocks 25) [].

(** A console with one main buffer, at address 0, that owns the pipeline
    made of the get-set 0, the writer 1, the adapter 2 and the state
    machine 3; there is no saved resize to replay. *)
Definition sample_main : SCREEN_INFORMATION :=
  set_pipeline (Some 3%nat) (Some 2%nat) (Some 1%nat) (Some 0%nat)
    (sample_screen 80 25 0 (mkCOORD 0 0) []).

Definition sample_console : CONSOLE_INFORMATION :=
  mkCONSOLE {[0%nat := sample_main]}
    (<[3%nat := None]> (<[2%nat := None]> (<[1%nat := Some 0%nat]> {[0%nat := Some 0%nat]})))
    [0%nat] (Some 0%nat) [].

(** A console whose main buffer 0 already has the alternate buffer 1, both
    holding the same four handles, the alternate being the active one. *)
Definition sample_alt_console : CONSOLE_INFORMATION :=
  mkCONSOLE
    (<[1%nat := set_psiMainBuffer (Some 0%nat) sample_main]>
       {[0%nat := set_psiAlternateBuffer (Some 1%nat) sample_main]})
    (<[3%nat := None]> (<[2%nat := None]> (<[1%nat := Some 1%nat]> {[0%nat := Some 1%nat]})))
    [1%nat; 0%nat] (Some 1%nat) [].

Definition no_saved_resize (p : addr) (g : CONSOLE_INFORMATION) : option CONSOLE_INFORMATION :=
  Some g.

(** A console whose main buffer, 10 by 5 cells with a viewport of 6 by 3,
    is not the active buffer. *)
Definition sample_window_console : CONSOLE_INFORMATION :=
  mkCONSOLE
    {[0%nat := set_srBufferViewport (mkSMALL_RECT 0 0 5 2)
                 (sample_screen 10 5 0 (mkCOORD 0 4) [])]}
    ∅ [0%nat] None [].

(** A console whose main buffer 0, of 10 by 5 cells, has the alternate
    buffer 1 of 12 by 6 cells. *)
Definition sample_alt_window_console : CONSOLE_INFORMATION :=
  mkCONSOLE
    (<[1%nat := set_psiMainBuffer (Some 0%nat) (sample_screen 12 6 0 (mkCOORD 0 0) [])]>
       {[0%nat := set_psiAlternateBuffer (Some 1%nat) (sample_screen 10 5 0 (mkCOORD 0 4) [])]})
    ∅ [1%nat; 0%nat] (Some 1%nat) [].

(** * Properties *)

(** ** Arithmetic of the machine integers *)

Lemma toSHORT_id z : isSHORT z -> toSHORT z = z.
Proof.
  unfold isSHORT, toSHORT. intros Hz.
  rewrite Z.mod_small by lia. lia.
Qed.

Lemma toLONG_id z : isLONG z -> toLONG z = z.
Proof.
  unfold isLONG, toLONG. intros Hz.
  rewrite Z.mod_small by lia. lia.
Qed.

Lemma toSHORT_range z : isSHORT (toSHORT z).
Proof.
  unfold isSHORT, toSHORT.
  pose proof (Z.mod_pos_bound (z + 32768) 65536 ltac:(lia)). lia.
Qed.

Lemma max_spec a b : max a b = Z.max a b.
Proof. unfold max. destruct (Z.gtb_spec a b); lia. Qed.

Lemma min_spec a b : min a b = Z.min a b.
Proof. unfold min. destruct (Z.ltb_spec a b); lia. Qed.

(** ** The stored buffer size *)

(** C9: for every requested size, zero and negative components included,
    [SetScreenBufferSize] stores exactly [(max 1 x, max 1 y)]: each dimension
    is clamped below by 1, and a dimension of at least 1 is stored as it is,
    whatever its size (no upper bound is applied here). *)
Theorem SetScreenBufferSize_clamps_below_only (x y : Z) (si : SCREEN_INFORMATION) :
  GetScreenBufferSize (SetScreenBufferSize (mkCOORD x y) si)
    = mkCOORD (Z.max 1 x) (Z.max 1 y)
  /\ (1 <= x -> X (GetScreenBufferSize (SetScreenBufferSize (mkCOORD x y) si)) = x)
  /\ (1 <= y -> Y (GetScreenBufferSize (SetScreenBufferSize (mkCOORD x y) si)) = y)
  /\ GetScreenBufferSize (SetScreenBufferSize (mkCOORD 32767 32767) si)
       = mkCOORD 32767 32767.
Proof.
  unfold SetScreenBufferSize, GetScreenBufferSize. cbn.
  rewrite !max_spec. repeat split; try (intros; lia).
Qed.

(** ** The cursor position *)

(** C10: [SetCursorPosition p] answers [STATUS_INVALID_PARAMETER] exactly
    when [p] is outside the buffer ([p.x < 0], [p.y < 0], [p.x >= cols] or
    [p.y >= rows]), and then the cursor position is unchanged; otherwise it
    answers [STATUS_SUCCESS] and the cursor position is [p]. *)
Theorem SetCursorPosition_checks_range (CONSOLE_HAS_FOCUS Flags : Z) (p : COORD)
    (TurnOn : bool) (si : SCREEN_INFORMATION) :
  let r := SetCursorPosition CONSOLE_HAS_FOCUS Flags p TurnOn si in
  let cols := X (GetScreenBufferSize si) in
  let rows := Y (GetScreenBufferSize si) in
  (fst r = STATUS_INVALID_PARAMETER <-> (X p < 0 \/ Y p < 0 \/ X p >= cols \/ Y p >= rows))
  /\ (fst r = STATUS_INVALID_PARAMETER ->
      GetPosition (GetCursor (TextInfo (snd r))) = GetPosition (GetCursor (TextInfo si)))
  /\ (fst r <> STATUS_INVALID_PARAMETER ->
      fst r = STATUS_SUCCESS /\ GetPosition (GetCursor (TextInfo (snd r))) = p).
Proof.
  cbv zeta. unfold SetCursorPosition.
  destruct (X p >=? X (GetScreenBufferSize si)) eqn:E1;
  destruct (Y p >=? Y (GetScreenBufferSize si)) eqn:E2;
  destruct (X p <? 0) eqn:E3; destruct (Y p <? 0) eqn:E4; cbn [orb fst snd];
  (split; [split; [intros ?; lia || discriminate | intros ?; reflexivity || lia]
          | split; [intros ?; reflexivity || discriminate | intros ?; try congruence]]).
  split; [reflexivity|].
  destruct (negb (Z.land Flags CONSOLE_HAS_FOCUS =? 0)), TurnOn; reflexivity.
Qed.

(** ** Tab stops *)

Lemma GetReverseTab_scan_greatest (x : Z) (next : list Z) :
  forall curr : Z,
    StronglySorted Z.lt (curr :: next) -> curr < x ->
    let g := GetReverseTab_scan x curr next in
    g ∈ curr :: next /\ g < x /\ (forall t, t ∈ curr :: next -> t < x -> t <= g).
Proof.
  induction next as [|n rest IH]; intros curr Hs Hlt; cbn.
  - split; [left|]. split; [lia|].
    intros t Ht _. apply list_elem_of_singleton in Ht. lia.
  - apply StronglySorted_inv in Hs as [Hs Hall].
    destruct (Z.gtb_spec x n) as [Hxn|Hxn].
    + destruct (IH n Hs ltac:(lia)) as (Hin & Hg & Hmax).
      split; [by right|]. split; [done|].
      intros t Ht Htx. apply elem_of_cons in Ht as [->|Ht]; [|by apply Hmax].
      apply Forall_cons in Hall as [Hcn _].
      specialize (Hmax n ltac:(left) ltac:(lia)). lia.
    + split; [left|]. split; [lia|].
      intros t Ht Htx. apply elem_of_cons in Ht as [->|Ht]; [lia|].
      apply StronglySorted_inv in Hs as [_ Hn].
      apply elem_of_cons in Ht as [->|Ht]; [lia|].
      rewrite Forall_forall in Hn. specialize (Hn t Ht). lia.
Qed.

(** C6: for a cursor position [pos] and a sorted list of tab stops,
    [GetReverseTab] yields [(0, pos.y)] if [pos.x = 0], if there is no stop,
    or if no stop is strictly less than [pos.x]; otherwise it yields
    [(g, pos.y)] with [g] the greatest stop strictly less than [pos.x]. *)
Theorem GetReverseTab_greatest_stop_below (pos : COORD) (si : SCREEN_INFORMATION) :
  StronglySorted Z.lt (_ptsTabs si) ->
  let r := GetReverseTab pos si in
  let none_below :=
    X pos = 0 \/ _ptsTabs si = [] \/ (forall t, t ∈ _ptsTabs si -> ~ t < X pos) in
  Y r = Y pos
  /\ (none_below -> X r = 0)
  /\ (~ none_below ->
      X r ∈ _ptsTabs si /\ X r < X pos
      /\ forall t, t ∈ _ptsTabs si -> t < X pos -> t <= X r).
Proof.
  intros Hs. cbv zeta. unfold GetReverseTab.
  destruct (_ptsTabs si) as [|first rest] eqn:Htabs; cbn.
  - split; [done|]. split; [done|]. intros Hn. exfalso. apply Hn. by right; left.
  - destruct (Z.eqb_spec (X pos) 0) as [Hx0|Hx0]; cbn.
    { split; [done|]. split; [done|]. intros Hn. exfalso. apply Hn. by left. }
    destruct (Z.geb_spec first (X pos)) as [Hge|Hlt]; cbn.
    + split; [done|]. split; [done|]. intros Hn. exfalso. apply Hn.
      right; right. intros t Ht Htx.
      apply elem_of_cons in Ht as [->|Ht]; [lia|].
      apply StronglySorted_inv in Hs as [_ Hall].
      rewrite Forall_forall in Hall. specialize (Hall t Ht). lia.
    + destruct (GetReverseTab_scan_greatest (X pos) rest first Hs Hlt) as (Hin & Hg & Hmax).
      split; [done|]. split; [|done].
      intros [?|[?|Hnone]]; [done|done|].
      exfalso. apply (Hnone first); [left|lia].
Qed.

(** The scenario of the specification: stops 4, 8 and 12, cursor at (10, 0). *)
Example GetReverseTab_scenario :
  GetReverseTab (mkCOORD 10 0) (sample_screen 80 25 0 (mkCOORD 10 0) [4; 8; 12])
  = mkCOORD 8 0.
Proof. reflexivity. Qed.

Lemma GetReverseTab_greatest_stop_below_witness :
  StronglySorted Z.lt [4; 8; 12]
  /\ (let r := GetReverseTab (mkCOORD 10 0)
                (sample_screen 80 25 0 (mkCOORD 10 0) [4; 8; 12]) in
      X r ∈ [4; 8; 12] /\ X r < 10 /\ forall t, t ∈ [4; 8; 12] -> t < 10 -> t <= X r).
Proof.
  assert (Hs : StronglySorted Z.lt [4; 8; 12]).
  { repeat constructor; lia. }
  split; [exact Hs|].
  destruct (GetReverseTab_greatest_stop_below (mkCOORD 10 0)
              (sample_screen 80 25 0 (mkCOORD 10 0) [4; 8; 12]) Hs) as (_ & _ & H).
  apply H. intros [Hx|[Hnil|Hnone]]; [discriminate Hx|discriminate Hnil|].
  apply (Hnone 4); [left|cbn; lia].
Defined.

(** ** Scroll bar visibility *)

(** C7: for a client rectangle of positive width and height and a buffer size
    and a font size of positive dimensions, [s_CalculateScrollbarVisibility]
    follows the two-branch algorithm.  If [bufferPixels.x > clientPixels.x]
    the horizontal bar is visible and the vertical bar is visible exactly
    when [bufferPixels.y] exceeds [clientPixels.y] less the height of the
    horizontal bar.  Otherwise the vertical bar is visible exactly when
    [bufferPixels.y > clientPixels.y], and the horizontal bar exactly when
    moreover [bufferPixels.x] exceeds [clientPixels.x] less the width of the
    vertical bar.  No bar is visible in any other way. *)
Theorem s_CalculateScrollbarVisibility_two_branches
    (scrollH scrollV : Z) (rc : RECT) (buf font : COORD) :
  0 < RECT_WIDTH rc <= 2147483647 ->
  0 < RECT_HEIGHT rc <= 2147483647 ->
  0 < X buf <= 32767 -> 0 < Y buf <= 32767 ->
  0 < X font <= 32767 -> 0 < Y font <= 32767 ->
  0 <= scrollH <= 32767 -> 0 <= scrollV <= 32767 ->
  let cx := RECT_WIDTH rc in
  let cy := RECT_HEIGHT rc in
  let bx := X buf * X font in
  let by' := Y buf * Y font in
  let r := s_CalculateScrollbarVisibility scrollH scrollV rc buf font in
  (bx > cx -> fst r = true /\ (snd r = true <-> by' > cy - scrollH))
  /\ (bx <= cx ->
      (snd r = true <-> by' > cy)
      /\ (fst r = true <-> by' > cy /\ bx > cx - scrollV)).
Proof.
  intros Hw Hh Hbx Hby Hfx Hfy Hsh Hsv. cbv zeta.
  unfold s_CalculateScrollbarVisibility.
  assert (Hpx : 0 < X buf * X font <= 32767 * 32767) by nia.
  assert (Hpy : 0 < Y buf * Y font <= 32767 * 32767) by nia.
  rewrite (toLONG_id (RECT_WIDTH rc)) by (unfold isLONG; lia).
  rewrite (toLONG_id (RECT_HEIGHT rc)) by (unfold isLONG; lia).
  rewrite (toLONG_id (X buf * X font)) by (unfold isLONG; lia).
  rewrite (toLONG_id (Y buf * Y font)) by (unfold isLONG; lia).
  rewrite (toLONG_id (RECT_HEIGHT rc - scrollH)) by (unfold isLONG; lia).
  rewrite (toLONG_id (RECT_WIDTH rc - scrollV)) by (unfold isLONG; lia).
  destruct (Z.gtb_spec (X buf * X font) (RECT_WIDTH rc)) as [H1|H1].
  - split; [|intros ?; lia]. intros _.
    destruct (Z.gtb_spec (Y buf * Y font) (RECT_HEIGHT rc - scrollH)); cbn;
      (split; [done|]); split; intros ?; (done || lia).
  - split; [intros ?; lia|]. intros _.
    destruct (Z.gtb_spec (Y buf * Y font) (RECT_HEIGHT rc)) as [H2|H2].
    + destruct (Z.gtb_spec (X buf * X font) (RECT_WIDTH rc - scrollV)); cbn;
        (split; [split; intros ?; (done || lia)|]); split;
        (intros ?; try done; try lia).
    + cbn. split; split; intros ?; (done || lia).
Qed.

(** A 400 by 600 client area, a buffer of 100 by 30 cells, a font of 8 by 16
    pixels and bars of 17 pixels: only the horizontal bar is visible. *)
Lemma s_CalculateScrollbarVisibility_two_branches_witness :
  let rc := mkRECT 0 0 400 600 in
  let r := s_CalculateScrollbarVisibility 17 17 rc (mkCOORD 100 30) (mkCOORD 8 16) in
  fst r = true /\ (snd r = true <-> 30 * 16 > RECT_HEIGHT rc - 17).
Proof.
  cbv zeta.
  apply (s_CalculateScrollbarVisibility_two_branches 17 17 (mkRECT 0 0 400 600)
           (mkCOORD 100 30) (mkCOORD 8 16)); vm_compute; intuition congruence.
Defined.

(** ** Adding a tab stop *)

(** C5: [AddTabStop] on a column that already holds a stop leaves the list as
    it is, but it answers [STATUS_NO_MEMORY] although [new] was never called:
    the status is only set after an allocation.  And when [new] fails while
    the stop belongs before the head, the head pointer has already taken the
    null pointer, so the call empties the list.  Here on the stops 4 and 8. *)
Theorem AddTabStop_failure_reports :
  let si := sample_screen 80 25 0 (mkCOORD 0 0) [4; 8] in
  AddTabStop true 4 si = (STATUS_NO_MEMORY, si)
  /\ AddTabStop true 8 si = (STATUS_NO_MEMORY, si)
  /\ AddTabStop true 6 si = (STATUS_SUCCESS, set_ptsTabs [4; 6; 8] si)
  /\ AddTabStop false 6 si = (STATUS_NO_MEMORY, si)
  /\ AddTabStop false 2 si = (STATUS_NO_MEMORY, set_ptsTabs [] si).
Proof. cbv zeta. repeat split. Qed.

(** ** The viewport rectangle *)

(** C1: on an 80 by 25 buffer whose viewport is the whole buffer,
    [SetViewportRect] of the rectangle (0, 0)-(100, 24) stores the right edge
    80, one past the last column 79, and of (0, 0)-(79, 30) the bottom edge
    25, one past the last row: the stored viewport is no longer inside the
    buffer.  A negative left edge is moved to 0 with the width kept. *)
Theorem SetViewportRect_clips_to_size :
  let si := sample_screen 80 25 0 (mkCOORD 0 0) [] in
  viewport_contained si
  /\ _srBufferViewport (snd (fst (SetViewportRect (mkSMALL_RECT 0 0 100 24) si)))
     = mkSMALL_RECT 0 0 80 24
  /\ ~ viewport_contained (snd (fst (SetViewportRect (mkSMALL_RECT 0 0 100 24) si)))
  /\ _srBufferViewport (snd (fst (SetViewportRect (mkSMALL_RECT 0 0 79 30) si)))
     = mkSMALL_RECT 0 0 79 25
  /\ ~ viewport_contained (snd (fst (SetViewportRect (mkSMALL_RECT 0 0 79 30) si)))
  /\ _srBufferViewport (snd (fst (SetViewportRect (mkSMALL_RECT (-3) 0 36 24) si)))
     = mkSMALL_RECT 0 0 39 24.
Proof.
  cbv zeta. unfold viewport_contained.
  split; [vm_compute; intuition congruence|].
  split; [reflexivity|].
  split; [vm_compute; intuition congruence|].
  split; [reflexivity|].
  split; [vm_compute; intuition congruence|reflexivity].
Qed.

(** ** The cursor after a reflow *)

Lemma reflow_advance_all (op : TEXT_BUFFER_INFO -> bool * TEXT_BUFFER_INFO) (n : nat) :
  (forall tb, fst (op tb) = true) ->
  forall tb, reflow_advance op n tb = (STATUS_SUCCESS, Nat.iter n (fun t => snd (op t)) tb).
Proof.
  intros Hok. induction n as [|n IH]; intros tb; [reflexivity|].
  cbn [reflow_advance]. specialize (Hok tb).
  destruct (op tb) as [ok tb'] eqn:E. cbn in Hok. subst ok.
  rewrite IH, Nat.iter_succ_r, E. reflexivity.
Qed.

(** The placement step by itself: when no cursor position was captured while
    the characters were copied, and the cursor calls succeed, the new cursor
    is placed by [iNewlines] calls of [NewlineCursor] followed by
    [iIncrements - 1] calls of [IncrementCursor], where
    [iNewlines = oldCursor.y - oldLastChar.y] is first reduced by 1 if the
    last row of the new buffer is soft-wrapped, and otherwise reduced by 1 if
    the last row of the old buffer was, and
    [iIncrements = oldCursor.x - oldLastChar.x].  The source clamps the
    reduced [iNewlines] at 0, which makes the same number of calls. *)
Lemma reflow_place_cursor_fallback `{TextBufferOps} (old : TEXT_BUFFER_INFO)
    (cOldCursorPos cOldLastChar : COORD) (st : ReflowState) (newLastRow oldLastRow : ROW) :
  rsFoundCursorPos st = false ->
  (forall tb, fst (NewlineCursor tb) = true) ->
  (forall tb, fst (IncrementCursor tb) = true) ->
  let pNewBuffer := CopyProperties old (rsNewBuffer st) in
  GetRowByOffset pNewBuffer (Y (GetLastNonSpaceCharacter pNewBuffer)) = Some newLastRow ->
  GetRowByOffset old (Y cOldLastChar) = Some oldLastRow ->
  let iNewlines := Y cOldCursorPos - Y cOldLastChar in
  let iIncrements := X cOldCursorPos - X cOldLastChar in
  let iNewlines' :=
    if CHAR_ROW.WasWrapForced (CharRow newLastRow) then iNewlines - 1
    else if CHAR_ROW.WasWrapForced (CharRow oldLastRow) then iNewlines - 1
    else iNewlines in
  reflow_place_cursor old cOldCursorPos cOldLastChar st
  = Some (STATUS_SUCCESS,
          Nat.iter (Z.to_nat (iIncrements - 1)) (fun t => snd (IncrementCursor t))
            (Nat.iter (Z.to_nat iNewlines') (fun t => snd (NewlineCursor t)) pNewBuffer)).
Proof.
  intros Hfound Hnl Hinc pNewBuffer Hnew Hold iNewlines iIncrements iNewlines'.
  unfold reflow_place_cursor. rewrite Hfound.
  fold pNewBuffer. rewrite Hnew. cbn [mbind option_bind].
  assert (Hclamp : Z.to_nat (max (iNewlines - 1) 0) = Z.to_nat (iNewlines - 1)).
  { rewrite max_spec. lia. }
  fold iNewlines iIncrements. subst iNewlines'.
  destruct (CHAR_ROW.WasWrapForced (CharRow newLastRow)); cbn [mbind option_bind].
  - rewrite (reflow_advance_all NewlineCursor _ Hnl). cbn [NT_SUCCESS].
    rewrite (reflow_advance_all IncrementCursor _ Hinc), Hclamp. reflexivity.
  - rewrite Hold. cbn [mbind option_bind].
    rewrite (reflow_advance_all NewlineCursor _ Hnl). cbn [NT_SUCCESS].
    rewrite (reflow_advance_all IncrementCursor _ Hinc).
    destruct (CHAR_ROW.WasWrapForced (CharRow oldLastRow)); [rewrite Hclamp|]; reflexivity.
Qed.

Lemma simple_IncrementCursor_succeeds (tb : TEXT_BUFFER_INFO) :
  fst (simple_IncrementCursor tb) = true.
Proof. unfold simple_IncrementCursor. by case_match. Qed.

(** The old cursor (8, 2) lies past the last character (5, 0); the last row
    of the new buffer is soft-wrapped, so one call of [NewlineCursor] and two
    calls of [IncrementCursor] are made, and the new cursor is at (2, 3). *)
Lemma reflow_place_cursor_fallback_witness :
  rsFoundCursorPos reflow_example_copied = false
  /\ reflow_place_cursor (H := simple_TextBufferOps) reflow_example_old
       (mkCOORD 8 2) (mkCOORD 5 0) reflow_example_copied
     = Some (STATUS_SUCCESS,
             Nat.iter 2 (fun t => snd (simple_IncrementCursor t))
               (Nat.iter 1 (fun t => snd (simple_NewlineCursor t))
                  (rsNewBuffer reflow_example_copied)))
  /\ (GetPosition <$> (GetCursor <$> (snd <$>
        reflow_place_cursor (H := simple_TextBufferOps) reflow_example_old
          (mkCOORD 8 2) (mkCOORD 5 0) reflow_example_copied))) = Some (mkCOORD 2 3).
Proof.
  split; [reflexivity|]. split; [|vm_compute; reflexivity].
  exact (reflow_place_cursor_fallback (H := simple_TextBufferOps) reflow_example_old
           (mkCOORD 8 2) (mkCOORD 5 0) reflow_example_copied
           (mkROW (CHAR_ROW.mk [68; 69; 70] [0; 0; 0] 0 3 true false) [mkRun 7 3] None 0)
           (mkROW (CHAR_ROW.mk [65; 66; 67; 68; 69; 70; 32; 32; 32; 32]
                     [0; 0; 0; 0; 0; 0; 0; 0; 0; 0] 0 6 false false) [mkRun 7 10] None 0)
           eq_refl (fun _ => eq_refl) simple_IncrementCursor_succeeds eq_refl eq_refl).
Defined.

(** ** Traditional resizing *)

Lemma new_block_succeeds (h : Heap) :
  oracle h = [] ->
  new_block h = (Some (fresh (live h)), mkHeap ({[fresh (live h)]} ∪ live h) []).
Proof. unfold new_block. by intros ->. Qed.

Lemma delete_attr_list_oracle (l : option block) (h : Heap) :
  oracle (delete_attr_list l h) = oracle h.
Proof. by destruct l. Qed.

Lemma FreeExtraAttributeRows_oracle (TopRowIndex OldY NewY : Z) (tb : TEXT_BUFFER_INFO)
    (h : Heap) :
  oracle (FreeExtraAttributeRows TopRowIndex OldY NewY tb h) = oracle h.
Proof.
  unfold FreeExtraAttributeRows.
  induction (drop _ _) as [|r extra IH]; cbn; [done|].
  by rewrite delete_attr_list_oracle.
Qed.

Lemma resize_row_loop_length (body : Z -> ROW -> ROW) (n : nat) :
  forall (i : Z) (rows : list ROW), length (resize_row_loop body n i rows) = length rows.
Proof.
  induction n as [|n IH]; intros i rows; cbn; [done|].
  by rewrite IH, length_alter.
Qed.

(** The row loop rewrites the rows of its range and no other. *)
Lemma resize_row_loop_lookup (body : Z -> ROW -> ROW) (n : nat) :
  forall (i : Z) (rows : list ROW) (j : nat),
    0 <= i ->
    resize_row_loop body n i rows !! j
    = if bool_decide (Z.to_nat i <= j < Z.to_nat i + n)%nat
      then body (Z.of_nat j) <$> rows !! j else rows !! j.
Proof.
  induction n as [|n IH]; intros i rows j Hi; cbn [resize_row_loop].
  - rewrite bool_decide_eq_false_2 by lia. done.
  - rewrite IH by lia.
    destruct (decide (j = Z.to_nat i)) as [->|Hne].
    + rewrite bool_decide_eq_false_2 by lia.
      rewrite bool_decide_eq_true_2 by lia.
      rewrite list_lookup_alter_eq. by rewrite Z2Nat.id by lia.
    + rewrite list_lookup_alter_ne by done.
      destruct (decide (Z.to_nat i <= j < Z.to_nat i + S n)%nat) as [Hin|Hout].
      * rewrite (bool_decide_eq_true_2 _ Hin), bool_decide_eq_true_2 by lia. done.
      * rewrite (bool_decide_eq_false_2 _ Hout), bool_decide_eq_false_2 by lia. done.
Qed.

Lemma resize_init_attr_rows_succeeds (NewX attr : Z) (n : nat) :
  forall (i : Z) (Temp : list ROW) (h : Heap),
    oracle h = [] -> 0 <= i ->
    exists Temp' h',
      resize_init_attr_rows n i NewX attr Temp h = (true, Temp', h')
      /\ oracle h' = []
      /\ length Temp' = length Temp
      /\ forall j, (j < Z.to_nat i)%nat -> Temp' !! j = Temp !! j.
Proof.
  induction n as [|n IH]; intros i Temp h Ho Hi; cbn [resize_init_attr_rows].
  - by exists Temp, h.
  - unfold AttrRow_Initialize. rewrite (new_block_succeeds h Ho).
    set (h1 := mkHeap _ _).
    destruct (IH (i + 1)
                (alter (set_AttrRow [mkRun attr NewX] (Some (fresh (live h)))) (Z.to_nat i) Temp)
                h1 eq_refl ltac:(lia)) as (Temp' & h' & -> & Ho' & Hlen & Hkeep).
    exists Temp', h'. split; [done|]. split; [done|].
    split; [by rewrite Hlen, length_alter|].
    intros j Hj. rewrite Hkeep by lia. apply list_lookup_alter_ne. lia.
Qed.

Lemma resize_attr_rows_succeeds (OldX NewX : Z) (n : nat) :
  forall (i : Z) (rows : list ROW) (h : Heap),
    oracle h = [] ->
    exists rows' h',
      resize_attr_rows n i OldX NewX rows h = (STATUS_SUCCESS, rows', h')
      /\ oracle h' = []
      /\ forall j, CharRow <$> rows' !! j = CharRow <$> rows !! j.
Proof.
  induction n as [|n IH]; intros i rows h Ho; cbn [resize_attr_rows].
  - by exists rows, h.
  - destruct (rows !! Z.to_nat i) as [pRow|] eqn:Hrow; [|by exists rows, h].
    unfold AttrRow_Resize. rewrite (new_block_succeeds h Ho).
    match goal with |- context [<[_ := ?r]> rows] => set (r' := r) end.
    match goal with |- context [delete_attr_list ?l ?hh] => set (h1 := delete_attr_list l hh) end.
    assert (Ho1 : oracle h1 = []) by (unfold h1; by rewrite delete_attr_list_oracle).
    destruct (IH (i + 1) (<[Z.to_nat i := r']> rows) h1 Ho1) as (rows' & h' & -> & Ho' & Hkeep).
    exists rows', h'. split; [done|]. split; [done|]. intros j. rewrite Hkeep.
    destruct (decide (j = Z.to_nat i)) as [->|Hne].
    + rewrite list_lookup_insert_eq by (by eapply lookup_lt_Some). by rewrite Hrow.
    + by rewrite list_lookup_insert_ne.
Qed.

Lemma memmove_rows_lookup (dst src : list ROW) (d s n j : nat) :
  (d + n <= length dst)%nat -> (s + n <= length src)%nat ->
  memmove_rows dst d src s n !! j
  = if bool_decide (d <= j < d + n)%nat then src !! (s + (j - d))%nat else dst !! j.
Proof.
  intros Hd Hs. unfold memmove_rows.
  destruct (decide (j < d)%nat) as [Hlt|Hge].
  - rewrite bool_decide_eq_false_2 by lia.
    rewrite lookup_app_l by (rewrite length_take; lia).
    by rewrite lookup_take_lt.
  - rewrite lookup_app_r by (rewrite length_take; lia).
    rewrite length_take, Nat.min_l by lia.
    destruct (decide (j < d + n)%nat) as [Hin|Hout].
    + rewrite bool_decide_eq_true_2 by lia.
      rewrite lookup_app_l by (rewrite length_take, length_drop; lia).
      rewrite lookup_take_lt by lia. by rewrite lookup_drop.
    + rewrite bool_decide_eq_false_2 by lia.
      rewrite lookup_app_r by (rewrite length_take, length_drop; lia).
      rewrite length_take, length_drop, Nat.min_l by lia.
      rewrite lookup_drop. f_equal. lia.
Qed.

Lemma memmove_rows_length (dst src : list ROW) (d s n : nat) :
  (d + n <= length dst)%nat -> (s + n <= length src)%nat ->
  length (memmove_rows dst d src s n) = length dst.
Proof.
  intros Hd Hs. unfold memmove_rows.
  rewrite !length_app, !length_take, !length_drop. lia.
Qed.

Lemma resize_TopRow_spec (coordNewScreenSize : COORD) (tb : TEXT_BUFFER_INFO) :
  1 <= Y coordNewScreenSize <= 32766 ->
  0 <= Y (GetPosition (GetCursor tb)) <= 32766 ->
  resize_TopRow coordNewScreenSize tb
  = if Y coordNewScreenSize <=? Y (GetPosition (GetCursor tb))
    then Y (GetPosition (GetCursor tb)) - Y coordNewScreenSize + 1 else 0.
Proof.
  intros Hn Hc. unfold resize_TopRow.
  destruct (Z.leb_spec (Y coordNewScreenSize) (Y (GetPosition (GetCursor tb)))); [|done].
  apply toSHORT_id. unfold isSHORT. lia.
Qed.

(** The new row array holds, at the logical offset [k], the row the old
    array held at the logical offset [TopRow + k]. *)
Lemma resize_row_array_rotates (coordNewScreenSize : COORD) (si : SCREEN_INFORMATION)
    (TextRows' TextRowsA : block) (h : Heap) :
  text_buffer_wf si ->
  1 <= Y coordNewScreenSize <= 32766 ->
  oracle h = [] ->
  let tb := TextInfo si in
  let NewY := Y coordNewScreenSize in
  let OldY := Y (GetScreenBufferSize si) in
  let TopRow := resize_TopRow coordNewScreenSize tb in
  let TopRowIndex := toSHORT (Z.rem (FirstRowIndex tb + TopRow) OldY) in
  exists tb1 h1,
    resize_row_array coordNewScreenSize si TextRows' TextRowsA TopRowIndex h = inl (tb1, h1)
    /\ oracle h1 = []
    /\ tbCursor tb1 = tbCursor tb
    /\ length (Rows tb1) = Z.to_nat NewY
    /\ 0 <= FirstRowIndex tb1 < NewY
    /\ (NewY <> OldY -> FirstRowIndex tb1 = 0)
    /\ forall k, 0 <= k < Z.min NewY OldY ->
         (FirstRowIndex tb1 + k) mod NewY < Z.min NewY OldY
         /\ Rows tb1 !! Z.to_nat ((FirstRowIndex tb1 + k) mod NewY)
            = Rows tb !! Z.to_nat ((FirstRowIndex tb + TopRow + k) mod OldY).
Proof.
  intros (Hsz & HX & HY & Hlen & HF & Hcy) HN Ho tb NewY OldY TopRow TopRowIndex.
  assert (HTop : TopRow = if NewY <=? Y (GetPosition (GetCursor tb))
                          then Y (GetPosition (GetCursor tb)) - NewY + 1 else 0).
  { apply resize_TopRow_spec; [done|]. fold tb OldY in Hcy, HY. lia. }
  fold tb OldY in Hsz, HX, HY, Hlen, HF, Hcy.
  assert (HTopR : 0 <= TopRow <= Y (GetPosition (GetCursor tb))
                  /\ (OldY <= NewY -> TopRow = 0)).
  { rewrite HTop. destruct (Z.leb_spec NewY (Y (GetPosition (GetCursor tb)))); lia. }
  destruct HTopR as [HTopR HTop0].
  assert (HT : TopRowIndex = (FirstRowIndex tb + TopRow) mod OldY).
  { unfold TopRowIndex. rewrite Z.rem_mod_nonneg by lia.
    apply toSHORT_id. unfold isSHORT.
    pose proof (Z.mod_pos_bound (FirstRowIndex tb + TopRow) OldY ltac:(lia)). lia. }
  pose proof (Z.mod_pos_bound (FirstRowIndex tb + TopRow) OldY ltac:(lia)) as HTb.
  rewrite <- HT in HTb.
  unfold resize_row_array. fold tb NewY OldY.
  destruct (Z.eqb_spec NewY OldY) as [Heq|Hne]; cbn [negb].
  { (* the height is unchanged: the array stays *)
    exists tb, h. split; [done|]. split; [done|]. split; [done|].
    split; [by rewrite Heq|]. split; [lia|]. split; [done|].
    intros k Hk. rewrite (HTop0 ltac:(lia)), Z.add_0_r, Heq.
    pose proof (Z.mod_pos_bound (FirstRowIndex tb + k) OldY ltac:(lia)). split; [lia|done]. }
  rewrite (new_block_succeeds h Ho).
  set (h0 := mkHeap _ _). set (TempBlock := fresh (live h)).
  rewrite (toSHORT_id (OldY - TopRowIndex)) by (unfold isSHORT; lia).
  set (NumToCopy := if OldY - TopRowIndex >? NewY then NewY else OldY - TopRowIndex).
  assert (HN1 : NumToCopy = Z.min (OldY - TopRowIndex) NewY).
  { unfold NumToCopy. destruct (Z.gtb_spec (OldY - TopRowIndex) NewY); lia. }
  set (Temp0 := replicate (Z.to_nat NewY) ROW_default).
  set (Temp1 := memmove_rows Temp0 0 (Rows tb) (Z.to_nat TopRowIndex) (Z.to_nat NumToCopy)).
  assert (Hlen0 : length Temp0 = Z.to_nat NewY) by apply length_replicate.
  assert (Hlen1 : length Temp1 = Z.to_nat NewY).
  { unfold Temp1. rewrite memmove_rows_length; [done|lia|lia]. }
  assert (H1 : forall j, Temp1 !! j
               = if bool_decide (j < Z.to_nat NumToCopy)%nat
                 then Rows tb !! (Z.to_nat TopRowIndex + j)%nat else Temp0 !! j).
  { intros j. unfold Temp1. rewrite memmove_rows_lookup by lia.
    destruct (decide (j < Z.to_nat NumToCopy)%nat).
    - rewrite !bool_decide_eq_true_2 by lia. f_equal. lia.
    - rewrite !bool_decide_eq_false_2 by lia. done. }
  set (NumToCopy2 := if TopRowIndex >? NewY - NumToCopy
                     then toSHORT (NewY - NumToCopy) else TopRowIndex).
  assert (HN2 : NumToCopy2 = Z.min TopRowIndex (NewY - NumToCopy)).
  { unfold NumToCopy2. destruct (Z.gtb_spec TopRowIndex (NewY - NumToCopy)); [|lia].
    rewrite toSHORT_id by (unfold isSHORT; lia). lia. }
  set (Temp2 := if negb (TopRowIndex =? 0) && negb (NumToCopy =? NewY)
                then memmove_rows Temp1 (Z.to_nat NumToCopy) (Rows tb) 0 (Z.to_nat NumToCopy2)
                else Temp1).
  assert (Hlen2 : length Temp2 = Z.to_nat NewY).
  { unfold Temp2. destruct (negb (TopRowIndex =? 0) && negb (NumToCopy =? NewY)); [|done].
    rewrite memmove_rows_length; [done|lia|lia]. }
  assert (H2 : forall k, 0 <= k < Z.min NewY OldY ->
               Temp2 !! Z.to_nat k = Rows tb !! Z.to_nat ((TopRowIndex + k) mod OldY)).
  { intros k Hk. unfold Temp2.
    destruct (Z.eqb_spec TopRowIndex 0) as [HT0|HT0];
      destruct (Z.eqb_spec NumToCopy NewY) as [HNN|HNN]; cbn [negb andb].
    - rewrite H1, bool_decide_eq_true_2 by lia.
      rewrite Z.mod_small by lia. f_equal. lia.
    - rewrite H1, bool_decide_eq_true_2 by lia.
      rewrite Z.mod_small by lia. f_equal. lia.
    - rewrite H1, bool_decide_eq_true_2 by lia.
      rewrite Z.mod_small by lia. f_equal. lia.
    - rewrite memmove_rows_lookup by lia.
      destruct (decide (k < NumToCopy)) as [Hlt|Hge].
      + rewrite bool_decide_eq_false_2 by lia.
        rewrite H1, bool_decide_eq_true_2 by lia.
        rewrite Z.mod_small by lia. f_equal. lia.
      + rewrite bool_decide_eq_true_2 by lia.
        replace ((TopRowIndex + k) mod OldY) with (TopRowIndex + k - OldY).
        * f_equal. lia.
        * apply Z.mod_unique with 1; lia. }
  assert (Hmod : forall k, (TopRowIndex + k) mod OldY
                           = (FirstRowIndex tb + TopRow + k) mod OldY).
  { intros k. rewrite HT. rewrite Zplus_mod_idemp_l. done. }
  assert (Hfinish : forall Temp h',
            oracle h' = [] -> length Temp = Z.to_nat NewY ->
            (forall j, (j < Z.to_nat (Z.min NewY OldY))%nat -> Temp !! j = Temp2 !! j) ->
            exists tb1 h1,
              inl (mkTEXT_BUFFER_INFO Temp TempBlock (TextRows tb) (KAttrRows tb) 0
                     (coordBufferSize tb) (tbCursor tb), delete_block (RowsBlock tb) h')
              = (inl (tb1, h1) : TEXT_BUFFER_INFO * Heap + Heap)
              /\ oracle h1 = [] /\ tbCursor tb1 = tbCursor tb
              /\ length (Rows tb1) = Z.to_nat NewY
              /\ 0 <= FirstRowIndex tb1 < NewY
              /\ (NewY <> OldY -> FirstRowIndex tb1 = 0)
              /\ forall k, 0 <= k < Z.min NewY OldY ->
                   (FirstRowIndex tb1 + k) mod NewY < Z.min NewY OldY
                   /\ Rows tb1 !! Z.to_nat ((FirstRowIndex tb1 + k) mod NewY)
                      = Rows tb !! Z.to_nat ((FirstRowIndex tb + TopRow + k) mod OldY)).
  { intros Temp h' Ho' HlenT Hsame. eexists _, _. split; [reflexivity|].
    cbn. split; [done|]. split; [done|]. split; [done|]. split; [lia|]. split; [done|].
    intros k Hk. rewrite Z.mod_small by lia. split; [lia|].
    rewrite Hsame by lia. rewrite H2 by lia. by rewrite Hmod. }
  destruct (Z.ltb_spec NewY OldY) as [Hshrink|Hgrow].
  - apply Hfinish; [by rewrite FreeExtraAttributeRows_oracle|done..].
  - destruct (Z.gtb_spec NewY OldY) as [Hgt|Hle]; [|lia].
    destruct (resize_init_attr_rows_succeeds (X coordNewScreenSize) (_Attributes si)
                (Z.to_nat (NewY - OldY)) OldY Temp2 h0 eq_refl ltac:(lia))
      as (Temp3 & h0' & -> & Ho0' & Hlen3 & Hkeep).
    apply Hfinish; [done|lia|]. intros j Hj. apply Hkeep. lia.
Qed.

(** The rotation of [ResizeTraditional], from a buffer whose cursor row is
    inside it and with every allocation succeeding: the offset is
    [topRow = cursor.y - new.y + 1] when [new.y <= cursor.y] and 0 otherwise,
    and copying starts at the circular index
    [(firstRowIndex + topRow) mod old.y]: the row at the new logical offset
    [k] holds the cells of the row at the old logical offset [topRow + k]
    (cut or padded to the new width).  The row the cursor was on is kept, as
    the new row [cursor.y - topRow]; the stored cursor position is left as
    it was. *)
Lemma ResizeTraditional_retains_cursor_row (coordNewScreenSize : COORD)
    (si : SCREEN_INFORMATION) (h : Heap) :
  text_buffer_wf si ->
  1 <= X coordNewScreenSize <= 32766 ->
  1 <= Y coordNewScreenSize <= 32766 ->
  oracle h = [] ->
  let tb := TextInfo si in
  let old := GetScreenBufferSize si in
  let cursor := GetPosition (GetCursor tb) in
  let topRow :=
    if Y coordNewScreenSize <=? Y cursor then Y cursor - Y coordNewScreenSize + 1 else 0 in
  let r := ResizeTraditional coordNewScreenSize si h in
  let tb' := TextInfo (snd (fst r)) in
  fst (fst r) = STATUS_SUCCESS
  /\ resize_TopRow coordNewScreenSize tb = topRow
  /\ (forall k, 0 <= k < Z.min (Y coordNewScreenSize) (Y old) ->
      exists r0 r1,
        Rows tb !! Z.to_nat ((FirstRowIndex tb + topRow + k) mod Y old) = Some r0
        /\ GetRowByOffset tb (topRow + k) = Some r0
        /\ GetRowByOffset tb' k = Some r1
        /\ CharRow r1
           = resize_kept_CharRow (X old) (X coordNewScreenSize)
               (Z.min (X coordNewScreenSize) (X old)) (CharRow r0))
  /\ 0 <= Y cursor - topRow < Z.min (Y coordNewScreenSize) (Y old)
  /\ GetPosition (GetCursor tb') = cursor.
Proof.
  intros Hwf HNX HNY Ho tb old cursor topRow r tb'.
  pose proof Hwf as (Hsz & HX & HY & Hlen & HF & Hcy).
  fold tb old cursor in Hsz, HX, HY, Hlen, HF, Hcy.
  assert (HTop : resize_TopRow coordNewScreenSize tb = topRow).
  { apply resize_TopRow_spec; [done|]. fold cursor. lia. }
  assert (HtopR : 0 <= topRow /\ 0 <= Y cursor - topRow < Z.min (Y coordNewScreenSize) (Y old)).
  { unfold topRow. destruct (Z.leb_spec (Y coordNewScreenSize) (Y cursor)); lia. }
  subst r tb'. unfold ResizeTraditional.
  assert (Hrange : (toUSHORT (X coordNewScreenSize) >=? 32767)
                   || (toUSHORT (Y coordNewScreenSize) >=? 32767) = false).
  { unfold toUSHORT. rewrite !Z.mod_small by lia.
    apply orb_false_iff. split; rewrite Z.geb_leb; apply Z.leb_gt; lia. }
  rewrite Hrange. rewrite (new_block_succeeds h Ho).
  set (h1 := mkHeap _ _). rewrite (new_block_succeeds h1 eq_refl).
  set (h2 := mkHeap _ _). cbv zeta.
  destruct (resize_row_array_rotates coordNewScreenSize si (fresh (live h)) (fresh (live h1))
              h2 Hwf HNY eq_refl)
    as (tb1 & h3 & Hrot & Ho3 & Hcur & Hlen1 & HF1 & _ & Hrows).
  rewrite Hrot. clear Hrot. fold tb old in Hrows, Hcur |- *. fold cursor.
  rewrite HTop in Hrows.
  rewrite !min_spec.
  set (LimitX := Z.min (X coordNewScreenSize) (X old)).
  set (LimitY := Z.min (Y coordNewScreenSize) (Y old)) in *.
  set (rows1 := resize_row_loop (resize_kept_row _ _ _) _ 0 (Rows tb1)).
  set (rows2 := resize_row_loop (resize_blank_row _) _ LimitY rows1).
  (* the kept rows after the two row loops *)
  assert (Hkept : forall k, 0 <= k < LimitY ->
            exists r0,
              Rows tb !! Z.to_nat ((FirstRowIndex tb + topRow + k) mod Y old) = Some r0
              /\ GetRowByOffset tb (topRow + k) = Some r0
              /\ rows2 !! Z.to_nat ((FirstRowIndex tb1 + k) mod Y coordNewScreenSize)
                 = Some (resize_kept_row (X old) (X coordNewScreenSize) LimitX
                           ((FirstRowIndex tb1 + k) mod Y coordNewScreenSize) r0)).
  { intros k Hk. destruct (Hrows k Hk) as [Hp Hrow].
    pose proof (Z.mod_pos_bound (FirstRowIndex tb1 + k) (Y coordNewScreenSize) ltac:(lia)) as Hpb.
    pose proof (Z.mod_pos_bound (FirstRowIndex tb + topRow + k) (Y old) ltac:(lia)) as Hqb.
    destruct (lookup_lt_is_Some_2 (Rows tb)
                (Z.to_nat ((FirstRowIndex tb + topRow + k) mod Y old)) ltac:(lia)) as [r0 Hr0].
    exists r0. split; [done|]. split.
    - unfold GetRowByOffset. fold tb. rewrite Hsz.
      rewrite Z.rem_mod_nonneg by lia. rewrite Z.add_assoc.
      destruct (Z.ltb_spec ((FirstRowIndex tb + topRow + k) mod Y old) 0); [lia|done].
    - unfold rows2. rewrite resize_row_loop_lookup by lia.
      rewrite bool_decide_eq_false_2 by lia.
      unfold rows1. rewrite resize_row_loop_lookup by lia.
      rewrite bool_decide_eq_true_2 by lia.
      rewrite Hrow, Hr0. cbn. by rewrite Z2Nat.id by lia. }
  assert (Hget : forall rows k, 0 <= k < LimitY ->
            GetRowByOffset
              (mkTEXT_BUFFER_INFO rows (RowsBlock tb1) (fresh (live h)) (fresh (live h1))
                 (FirstRowIndex tb1) coordNewScreenSize (tbCursor tb1)) k
            = rows !! Z.to_nat ((FirstRowIndex tb1 + k) mod Y coordNewScreenSize)).
  { intros rows k Hk. unfold GetRowByOffset. cbn.
    rewrite Z.rem_mod_nonneg by lia.
    pose proof (Z.mod_pos_bound (FirstRowIndex tb1 + k) (Y coordNewScreenSize) ltac:(lia)).
    destruct (Z.ltb_spec ((FirstRowIndex tb1 + k) mod Y coordNewScreenSize) 0); [lia|done]. }
  destruct (Z.eqb_spec (X coordNewScreenSize) (X old)) as [HXeq|HXne]; cbn [negb].
  - cbn [fst snd TextInfo set_TextInfo].
    split; [done|]. split; [done|].
    split; [|split; [lia|unfold cursor, GetCursor; cbn; by rewrite Hcur]].
    intros k Hk. destruct (Hkept k Hk) as (r0 & Hr0 & Hg0 & Hr2).
    eexists r0, _. split; [done|]. split; [done|].
    split; [rewrite Hget by done; exact Hr2|done].
  - destruct (resize_attr_rows_succeeds (X old) (X coordNewScreenSize) (Z.to_nat LimitY) 0
                rows2 (delete_block (KAttrRows tb1) (delete_block (TextRows tb1) h3)) Ho3)
      as (rows3 & h4 & Hres & _ & Hchars).
    cbn [Rows]. rewrite Hres. cbn [fst snd TextInfo set_TextInfo set_Rows].
    split; [done|]. split; [done|].
    split; [|split; [lia|unfold cursor, GetCursor; cbn; by rewrite Hcur]].
    intros k Hk. destruct (Hkept k Hk) as (r0 & Hr0 & Hg0 & Hr2).
    specialize (Hchars (Z.to_nat ((FirstRowIndex tb1 + k) mod Y coordNewScreenSize))).
    rewrite Hr2 in Hchars.
    destruct (rows3 !! Z.to_nat ((FirstRowIndex tb1 + k) mod Y coordNewScreenSize))
      as [r1|] eqn:Hr3; [|done].
    exists r0, r1. split; [done|]. split; [done|]. split.
    + cbn. rewrite <- Hr3. apply (Hget rows3 k Hk).
    + cbn in Hchars. by injection Hchars.
Qed.

(** A buffer of 10 by 5 cells, the cursor at (0, 4), resized to 10 by 3.
    Here the first row index is 3, so the old logical rows 2, 3 and 4 are the
    physical rows 0, 1 and 2, holding the letters A (65), B and C. *)
Lemma ResizeTraditional_retains_cursor_row_witness :
  let si := sample_screen 10 5 3 (mkCOORD 0 4) [] in
  let r := ResizeTraditional (mkCOORD 10 3) si sample_heap in
  text_buffer_wf si
  /\ fst (fst r) = STATUS_SUCCESS
  /\ resize_TopRow (mkCOORD 10 3) (TextInfo si) = 2
  /\ 0 <= 4 - 2 < Z.min 3 5
  /\ (CHAR_ROW.Chars <$> (CharRow <$> GetRowByOffset (TextInfo (snd (fst r))) (4 - 2)))
     = (CHAR_ROW.Chars <$> (CharRow <$> GetRowByOffset (TextInfo si) 4))
  /\ GetPosition (GetCursor (TextInfo (snd (fst r)))) = mkCOORD 0 4.
Proof.
  cbv zeta.
  assert (Hwf : text_buffer_wf (sample_screen 10 5 3 (mkCOORD 0 4) [])).
  { vm_compute. intuition congruence. }
  destruct (ResizeTraditional_retains_cursor_row (mkCOORD 10 3)
              (sample_screen 10 5 3 (mkCOORD 0 4) []) sample_heap Hwf
              ltac:(cbn; lia) ltac:(cbn; lia) eq_refl)
    as (Hst & Htop & _ & Hrow & Hcur).
  split; [exact Hwf|]. split; [exact Hst|]. split; [exact Htop|]. split; [exact Hrow|].
  split; [vm_compute; reflexivity|exact Hcur].
Defined.

(** With the first row index 0: the old rows 2, 3 and 4 (letters C, D, E)
    become the new rows 0, 1 and 2, and the cursor position is still (0, 4). *)
Example ResizeTraditional_scenario :
  let r := ResizeTraditional (mkCOORD 10 3) (sample_screen 10 5 0 (mkCOORD 0 4) [])
             sample_heap in
  fst (fst r) = STATUS_SUCCESS
  /\ map (fun row => (head (CHAR_ROW.Chars (CharRow row)), sRowId row))
         (Rows (TextInfo (snd (fst r))))
     = [(Some 67, 0); (Some 68, 1); (Some 69, 2)]
  /\ FirstRowIndex (TextInfo (snd (fst r))) = 0
  /\ GetPosition (GetCursor (TextInfo (snd (fst r)))) = mkCOORD 0 4.
Proof. vm_compute. repeat split. Qed.

(** C4: a buffer of 10 by 5 cells with the cursor at (0, 4) is resized to
    10 by 3 by [ResizeScreenBuffer], without text wrapping.  The shift is
    [topRow = 2] and the old rows 2, 3 and 4 (the letters C, D and E) become
    the new rows 0, 1 and 2: the row of the cursor is kept, as the new row 2.
    But the cursor position is not written: it is still (0, 4), where the
    claim has (0, 2).  That is below the last row of the buffer, a position
    [SetCursorPosition] refuses.  A further resize to 10 by 2 takes its shift
    from this stale position and keeps the rows C and D: the row E, on which
    the cursor was, is dropped. *)
Theorem ResizeTraditional_cursor_left_outside :
  let si := sample_screen 10 5 0 (mkCOORD 0 4) [] in
  let resize (new : COORD) (s : SCREEN_INFORMATION) (h : Heap) :=
    ResizeScreenBuffer (H := simple_TextBufferOps) false false false true STATUS_SUCCESS 8
      new false s h 0 in
  let letters (s : SCREEN_INFORMATION) :=
    map (fun row => head (CHAR_ROW.Chars (CharRow row))) (Rows (TextInfo s)) in
  let cursor (s : SCREEN_INFORMATION) := GetPosition (GetCursor (TextInfo s)) in
  resize_TopRow (mkCOORD 10 3) (TextInfo si) = 2
  /\ exists out out2,
       resize (mkCOORD 10 3) si sample_heap = Some out
       /\ roStatus out = STATUS_SUCCESS
       /\ GetScreenBufferSize (roScreen out) = mkCOORD 10 3
       /\ letters si = [Some 65; Some 66; Some 67; Some 68; Some 69]
       /\ letters (roScreen out) = [Some 67; Some 68; Some 69]
       /\ cursor (roScreen out) = mkCOORD 0 4
       /\ cursor (roScreen out) <> mkCOORD 0 2
       /\ Y (GetScreenBufferSize (roScreen out)) <= Y (cursor (roScreen out))
       /\ fst (SetCursorPosition 0 0 (cursor (roScreen out)) true (roScreen out))
          = STATUS_INVALID_PARAMETER
       /\ resize (mkCOORD 10 2) (roScreen out) (roHeap out) = Some out2
       /\ roStatus out2 = STATUS_SUCCESS
       /\ letters (roScreen out2) = [Some 67; Some 68].
Proof.
  cbv zeta. split; [reflexivity|].
  eexists _, _. split; [vm_compute; reflexivity|].
  split; [reflexivity|]. split; [reflexivity|]. split; [reflexivity|].
  split; [reflexivity|]. split; [reflexivity|]. split; [vm_compute; congruence|].
  split; [vm_compute; congruence|]. split; [reflexivity|].
  split; [vm_compute; reflexivity|]. split; reflexivity.
Qed.

(** C2: a buffer of 10 by 5 cells is widened to 12 by 5; the two flat arrays
    are allocated and the first [AttrRow.Resize] fails.  The call answers
    [STATUS_NO_MEMORY], yet the text buffer already has the new flat arrays
    (blocks 9 and 10, still allocated; the old blocks 2 and 3 are freed, the
    row array 1 and the attribute rows 4 to 8 stay), its rows are 12 cells
    wide and its stored size is (12, 5), while the size of the screen buffer
    is still (10, 5). *)
Theorem ResizeTraditional_late_failure_installed :
  let si := sample_screen 10 5 0 (mkCOORD 0 4) [] in
  let h := mkHeap (sample_blocks 5) [true; true; false] in
  let r := ResizeTraditional (mkCOORD 12 5) si h in
  let tb' := TextInfo (snd (fst r)) in
  fst (fst r) = STATUS_NO_MEMORY
  /\ elements (live h) = [6%nat; 8%nat; 4%nat; 2%nat; 5%nat; 7%nat; 3%nat; 1%nat]
  /\ (TextRows (TextInfo si), KAttrRows (TextInfo si)) = (2%nat, 3%nat)
  /\ (TextRows tb', KAttrRows tb') = (9%nat, 10%nat)
  /\ elements (live (snd r)) = [10%nat; 6%nat; 8%nat; 4%nat; 9%nat; 5%nat; 7%nat; 1%nat]
  /\ coordBufferSize tb' = mkCOORD 12 5
  /\ coordBufferSize (TextInfo si) = mkCOORD 10 5
  /\ GetScreenBufferSize (snd (fst r)) = mkCOORD 10 5
  /\ map (fun row => length (CHAR_ROW.Chars (CharRow row))) (Rows tb')
     = [12%nat; 12%nat; 12%nat; 12%nat; 12%nat]
  /\ tb' <> TextInfo si.
Proof. vm_compute. repeat split. congruence. Qed.

(** ** The main and the alternate buffer *)

Lemma fresh_lookup_None {V : Type} (m : gmap nat V) : m !! fresh (dom m) = None.
Proof. apply not_elem_of_dom_1, is_fresh. Qed.

Lemma delete_pipe_inserted (p : handle) (v : option addr)
    (scr : gmap addr SCREEN_INFORMATION) (pip : gmap handle (option addr))
    (reg : list addr) (cur : option addr) (al : list bool) :
  pip !! p = None ->
  delete_pipe p (mkCONSOLE scr (<[p := v]> pip) reg cur al) = Some (mkCONSOLE scr pip reg cur al).
Proof.
  intros Hp. unfold delete_pipe. cbn. rewrite lookup_insert_eq.
  unfold set_pipes. cbn. by rewrite delete_insert_id.
Qed.

Lemma pipe_SetActiveScreenBuffer_live (p : handle) (target : addr)
    (scr : gmap addr SCREEN_INFORMATION) (pip : gmap handle (option addr))
    (reg : list addr) (cur : option addr) (al : list bool) :
  is_Some (pip !! p) ->
  pipe_SetActiveScreenBuffer (Some p) target (mkCONSOLE scr pip reg cur al)
  = Some (mkCONSOLE scr (<[p := Some target]> pip) reg cur al).
Proof. intros [v Hv]. unfold pipe_SetActiveScreenBuffer. cbn. by rewrite Hv. Qed.

(** Two successive redirections of the get-set and the writer leave the
    second one. *)
Lemma pipes_redirect_twice (pip : gmap handle (option addr)) (api bw : handle)
    (x y : option addr) :
  <[bw := y]> (<[api := y]> (<[bw := x]> (<[api := x]> pip)))
  = <[bw := y]> (<[api := y]> pip).
Proof.
  apply map_eq. intros i. rewrite !lookup_insert.
  repeat case_decide; congruence.
Qed.

Lemma InitializeOutputStateMachine_succeeds (fuel : nat) (this : addr)
    (si : SCREEN_INFORMATION) (scr : gmap addr SCREEN_INFORMATION)
    (pip : gmap handle (option addr)) (reg : list addr) (cur : option addr) :
  scr !! this = Some si ->
  let h1 := fresh (dom pip) in
  let p1 := <[h1 := Some this]> pip in
  let h2 := fresh (dom p1) in
  let p2 := <[h2 := Some this]> p1 in
  let h3 := fresh (dom p2) in
  let p3 := <[h3 := None]> p2 in
  let h4 := fresh (dom p3) in
  let p4 := <[h4 := None]> p3 in
  _InitializeOutputStateMachine fuel this (mkCONSOLE scr pip reg cur [])
  = Some (STATUS_SUCCESS,
          mkCONSOLE (<[this := set_pipeline (Some h4) (Some h3) (Some h2) (Some h1) si]> scr)
            p4 reg cur []).
Proof.
  intros Hsi h1 p1 h2 p2 h3 p3 h4 p4.
  unfold _InitializeOutputStateMachine, new_pipe. cbn.
  rewrite Hsi. cbn. rewrite !lookup_insert_eq. cbn.
  rewrite !lookup_insert_eq. cbn. rewrite !lookup_insert_eq. cbn.
  rewrite !insert_insert_eq. reflexivity.
Qed.

(** The output state machine a fresh buffer was built with is freed whole:
    the live pipeline objects are those there were before it was built. *)
Lemma FreeOutputStateMachine_fresh (fuel : nat) (this : addr) (si : SCREEN_INFORMATION)
    (scr : gmap addr SCREEN_INFORMATION) (pip : gmap handle (option addr))
    (reg : list addr) (cur : option addr) (v1 v2 v3 v4 : option addr) :
  let h1 := fresh (dom pip) in
  let p1 := <[h1 := v1]> pip in
  let h2 := fresh (dom p1) in
  let p2 := <[h2 := v2]> p1 in
  let h3 := fresh (dom p2) in
  let p3 := <[h3 := v3]> p2 in
  let h4 := fresh (dom p3) in
  let p4 := <[h4 := v4]> p3 in
  scr !! this = Some si ->
  _psiMainBuffer si = None -> _psiAlternateBuffer si = None ->
  pipeline_of si = (Some h4, Some h3, Some h2, Some h1) ->
  _FreeOutputStateMachine fuel this (mkCONSOLE scr p4 reg cur [])
  = Some (mkCONSOLE scr pip reg cur []).
Proof.
  intros h1 p1 h2 p2 h3 p3 h4 p4 Hsi Hmain Halt Hpipe.
  unfold pipeline_of in Hpipe. injection Hpipe as Hsm Had Hbw Hapi.
  unfold _FreeOutputStateMachine, FreeOutputStateMachine_with. cbn.
  rewrite Hsi. cbn. rewrite Hmain, Halt, Hsm, Had, Hbw, Hapi. cbn.
  unfold p4. rewrite delete_pipe_inserted by apply fresh_lookup_None. cbn.
  unfold p3. rewrite delete_pipe_inserted by apply fresh_lookup_None. cbn.
  unfold p2. rewrite delete_pipe_inserted by apply fresh_lookup_None. cbn.
  unfold p1. rewrite delete_pipe_inserted by apply fresh_lookup_None. done.
Qed.

(** One step of symbolic execution on a console state given by its fields. *)
Ltac console_step :=
  unfold set_screens, set_pipes, set_allocs, set_ScreenBuffers, set_CurrentScreenBuffer,
    s_InsertScreenBuffer, SetActiveScreenBuffer;
  cbn.

Arguments _InitializeOutputStateMachine : simpl never.
Arguments _FreeOutputStateMachine : simpl never.
Arguments CreateInstance : simpl never.
Arguments pipe_SetActiveScreenBuffer : simpl never.

(** C8: let the main buffer [M] own the pipeline handles [P] (state machine,
    adapter, buffer writer, get-set), all live.  [UseAlternateScreenBuffer]
    on [M], when its allocations succeed, creates and registers an alternate
    buffer [A]; the pipeline [A] was constructed with is freed (the live
    pipeline objects are again those of before, none of [A]'s own among
    them), and the four handle pointers of [A] equal those of [M], the
    get-set and the writer now acting on [A].  The following
    [UseMainScreenBuffer] on [A] removes [A] from the registry and frees it,
    and [M] still holds [P], every handle of it live, the get-set and the
    writer acting on [M] again. *)
Theorem UseAlternateScreenBuffer_transfers_pipeline `{TextBufferOps}
    (ProcessResizeWindow : addr -> CONSOLE_INFORMATION -> option CONSOLE_INFORMATION)
    (fuel : nat) (M : addr) (m : SCREEN_INFORMATION) (tbA : TEXT_BUFFER_INFO)
    (sm ad bw api : handle) (g : CONSOLE_INFORMATION) :
  screens g !! M = Some m ->
  _psiMainBuffer m = None ->
  _psiAlternateBuffer m = None ->
  _fAltWindowChanged m = false ->
  pipeline_of m = (Some sm, Some ad, Some bw, Some api) ->
  is_Some (pipes g !! sm) -> is_Some (pipes g !! ad) ->
  is_Some (pipes g !! bw) -> is_Some (pipes g !! api) ->
  allocs g = [] ->
  TB_CreateInstance
    (mkCOORD (toSHORT (CalcWindowSizeX (_srBufferViewport m)))
             (toSHORT (CalcWindowSizeY (_srBufferViewport m))))
    (_Attributes m) CURSOR_SMALL_SIZE = Some tbA ->
  let A := fresh (dom (screens g)) in
  exists g1 g2 a m1 m2 gC aC,
    (* the alternate buffer is created with a pipeline of its own *)
    CreateInstance fuel
      (mkCOORD (toSHORT (CalcWindowSizeX (_srBufferViewport m)))
               (toSHORT (CalcWindowSizeY (_srBufferViewport m))))
      (mkCOORD (toSHORT (CalcWindowSizeX (_srBufferViewport m)))
               (toSHORT (CalcWindowSizeY (_srBufferViewport m))))
      (_Attributes m) CURSOR_SMALL_SIZE g = Some (STATUS_SUCCESS, Some A, gC)
    /\ screens gC !! A = Some aC
    /\ (forall p, p ∈ [_pStateMachine aC; _pAdapter aC; _pBufferWriter aC; _pConApi aC] ->
        exists q, p = Some q /\ is_Some (pipes gC !! q)
                  /\ pipes g !! q = None /\ pipes g1 !! q = None)
    (* switching to the alternate buffer *)
    /\ UseAlternateScreenBuffer ProcessResizeWindow fuel M g = Some (STATUS_SUCCESS, g1)
    /\ A <> M
    /\ ScreenBuffers g1 = A :: ScreenBuffers g
    /\ screens g1 !! A = Some a
    /\ _psiMainBuffer a = Some M
    /\ screens g1 !! M = Some m1
    /\ _psiAlternateBuffer m1 = Some A
    /\ pipeline_of m1 = (Some sm, Some ad, Some bw, Some api)
    /\ pipeline_of a = pipeline_of m1
    /\ pipes g1 = <[bw := Some A]> (<[api := Some A]> (pipes g))
    /\ CurrentScreenBuffer g1 = Some A
    (* and back to the main buffer *)
    /\ UseMainScreenBuffer ProcessResizeWindow (S fuel) A g1 = Some (STATUS_SUCCESS, g2)
    /\ screens g2 !! A = None
    /\ ScreenBuffers g2 = ScreenBuffers g
    /\ screens g2 !! M = Some m2
    /\ _psiAlternateBuffer m2 = None
    /\ pipeline_of m2 = (Some sm, Some ad, Some bw, Some api)
    /\ pipes g2 = <[bw := Some M]> (<[api := Some M]> (pipes g))
    /\ (forall q, q ∈ [sm; ad; bw; api] -> is_Some (pipes g2 !! q))
    /\ CurrentScreenBuffer g2 = Some M.
Proof.
  intros HM Hmain Halt Hflag Hpipe Hsm Had Hbw Hapi Hal Htb.
  destruct g as [scr pip reg cur al]. cbn in HM, Hsm, Had, Hbw, Hapi, Hal. subst al.
  cbn [screens pipes ScreenBuffers]. set (A := fresh (dom scr)).
  pose proof Hpipe as Hpipe'. unfold pipeline_of in Hpipe'.
  injection Hpipe' as Hpsm Hpad Hpbw Hpapi.
  assert (HscrA : scr !! A = None) by apply fresh_lookup_None.
  assert (HAM : A <> M).
  { intros Heq. rewrite Heq in HscrA. congruence. }
  set (ws := mkCOORD (toSHORT (CalcWindowSizeX (_srBufferViewport m)))
                     (toSHORT (CalcWindowSizeY (_srBufferViewport m)))) in *.
  (* the object CreateInstance makes, before its pipeline is set up *)
  set (a0 := set_TextInfo tbA
               (SetScreenBufferSize ws
                  (set_srBufferViewport
                     (mkSMALL_RECT 0 0 (toSHORT (X ws - 1)) (toSHORT (Y ws - 1)))
                     (SetScreenBufferSize ws (SCREEN_INFORMATION_ctor (_Attributes m)))))).
  set (h1 := fresh (dom pip)).
  set (p1 := <[h1 := Some A]> pip).
  set (h2 := fresh (dom p1)).
  set (p2 := <[h2 := Some A]> p1).
  set (h3 := fresh (dom p2)).
  set (p3 := <[h3 := (None : option addr)]> p2).
  set (h4 := fresh (dom p3)).
  set (p4 := <[h4 := (None : option addr)]> p3).
  set (aC := set_pipeline (Some h4) (Some h3) (Some h2) (Some h1) a0).
  assert (HC : CreateInstance fuel ws ws (_Attributes m) CURSOR_SMALL_SIZE
                 (mkCONSOLE scr pip reg cur [])
               = Some (STATUS_SUCCESS, Some A,
                       mkCONSOLE (<[A := aC]> scr) p4 reg cur [])).
  { unfold CreateInstance. cbn. rewrite Htb. fold A. console_step.
    rewrite (InitializeOutputStateMachine_succeeds fuel A a0) by apply lookup_insert_eq.
    cbn. rewrite insert_insert_eq. reflexivity. }
  (* the fresh handles are not among the handles of before *)
  assert (Hf1 : pip !! h1 = None) by apply fresh_lookup_None.
  assert (Hf2 : pip !! h2 = None).
  { pose proof (fresh_lookup_None p1) as Hf. fold h2 in Hf. unfold p1 in Hf.
    apply lookup_insert_None in Hf. tauto. }
  assert (Hf3 : pip !! h3 = None).
  { pose proof (fresh_lookup_None p2) as Hf. fold h3 in Hf. unfold p2, p1 in Hf.
    rewrite !lookup_insert_None in Hf. tauto. }
  assert (Hf4 : pip !! h4 = None).
  { pose proof (fresh_lookup_None p3) as Hf. fold h4 in Hf. unfold p3, p2, p1 in Hf.
    rewrite !lookup_insert_None in Hf. tauto. }
  set (a := set_psiMainBuffer (Some M) (set_pipeline (Some sm) (Some ad) (Some bw) (Some api) aC)).
  set (m1 := set_psiAlternateBuffer (Some A) m).
  set (pipA := <[bw := Some A]> (<[api := Some A]> pip)).
  set (g1 := mkCONSOLE (<[M := m1]> (<[A := a]> scr)) pipA (A :: reg) (Some A) []).
  assert (HbwA : is_Some (<[api := Some A]> pip !! bw)).
  { rewrite lookup_insert. case_decide; [eexists; reflexivity|done]. }
  assert (H1 : UseAlternateScreenBuffer ProcessResizeWindow fuel M
                 (mkCONSOLE scr pip reg cur []) = Some (STATUS_SUCCESS, g1)).
  { unfold UseAlternateScreenBuffer. console_step. rewrite HM. console_step.
    unfold GetMainBuffer. rewrite Hmain.
    unfold replay_saved_resize. console_step. rewrite HM. console_step.
    rewrite Hflag. console_step.
    unfold _CreateAltBuffer. console_step. rewrite HM. console_step. fold ws.
    rewrite HC. console_step.
    rewrite (FreeOutputStateMachine_fresh fuel A aC (<[A := aC]> scr) pip (A :: reg) cur
               (Some A) (Some A) None None (lookup_insert_eq _ _ _) eq_refl eq_refl eq_refl).
    console_step.
    rewrite (lookup_insert_ne scr A M) by done. rewrite HM. console_step.
    rewrite (lookup_insert_eq scr A). console_step.
    rewrite Hpsm, Hpad, Hpbw, Hpapi.
    rewrite insert_insert_eq.
    rewrite (lookup_insert_ne scr A M) by done. rewrite HM. console_step.
    rewrite (lookup_insert_eq scr A). console_step. rewrite insert_insert_eq.
    rewrite (lookup_insert_ne scr A M) by done. rewrite HM. console_step. rewrite Halt.
    console_step. rewrite (lookup_insert_eq _ M). console_step. rewrite Hpapi, Hpbw.
    rewrite (pipe_SetActiveScreenBuffer_live api A) by done. console_step.
    rewrite (pipe_SetActiveScreenBuffer_live bw A) by done. console_step.
    reflexivity. }
  set (m2 := set_psiAlternateBuffer None m1).
  set (pipM := <[bw := Some M]> (<[api := Some M]> pip)).
  set (g2 := mkCONSOLE
               (delete A (<[A := ClearTabStops a]>
                            (<[M := m2]> (<[M := m1]> (<[A := a]> scr)))))
               pipM reg (Some M) []).
  assert (HapiA : is_Some (pipA !! api)).
  { unfold pipA. rewrite !lookup_insert. repeat case_decide; first [eexists; reflexivity | done]. }
  assert (HbwM : is_Some (<[api := Some M]> pipA !! bw)).
  { unfold pipA. rewrite !lookup_insert. repeat case_decide; first [eexists; reflexivity | done]. }
  assert (H2 : UseMainScreenBuffer ProcessResizeWindow (S fuel) A g1
               = Some (STATUS_SUCCESS, g2)).
  { unfold UseMainScreenBuffer, g1. console_step.
    rewrite lookup_insert_ne by done. rewrite lookup_insert_eq. console_step.
    unfold replay_saved_resize. console_step. rewrite lookup_insert_eq. console_step.
    rewrite Hflag. console_step.
    rewrite lookup_insert_eq. console_step.
    destruct (decide (A = A)) as [_|Hne]; [|done]. console_step.
    rewrite bool_decide_eq_false_2 by congruence. console_step.
    unfold FreeOutputStateMachine_with. console_step.
    rewrite lookup_insert_ne by done. rewrite lookup_insert_ne by done.
    rewrite lookup_insert_eq. console_step.
    rewrite (pipe_SetActiveScreenBuffer_live api M) by done. console_step.
    rewrite (pipe_SetActiveScreenBuffer_live bw M) by done. console_step.
    rewrite lookup_insert_ne by done. rewrite lookup_insert_ne by done.
    rewrite lookup_insert_eq. console_step.
    unfold g2, pipM, pipA. rewrite pipes_redirect_twice. reflexivity. }
  exists g1, g2, a, m1, m2, (mkCONSOLE (<[A := aC]> scr) p4 reg cur []), aC.
  split; [exact HC|]. split; [apply lookup_insert_eq|].
  split.
  { intros p Hp. cbn in Hp.
    assert (Hnone : forall q, pip !! q = None -> pipA !! q = None).
    { intros q Hq. unfold pipA. rewrite !lookup_insert_None.
      destruct Hbw as [? Hbw], Hapi as [? Hapi].
      repeat split; try done; intros ->; congruence. }
    assert (Hlive4 : is_Some (p4 !! h4)).
    { unfold p4. rewrite lookup_insert_eq. eexists. reflexivity. }
    assert (Hlive3 : is_Some (p4 !! h3)).
    { unfold p4, p3. rewrite !lookup_insert.
      repeat case_decide; first [eexists; reflexivity | done]. }
    assert (Hlive2 : is_Some (p4 !! h2)).
    { unfold p4, p3, p2. rewrite !lookup_insert.
      repeat case_decide; first [eexists; reflexivity | done]. }
    assert (Hlive1 : is_Some (p4 !! h1)).
    { unfold p4, p3, p2, p1. rewrite !lookup_insert.
      repeat case_decide; first [eexists; reflexivity | done]. }
    rewrite !elem_of_cons in Hp. destruct Hp as [->|[->|[->|[->|Hp]]]].
    - exists h4. cbn. auto.
    - exists h3. cbn. auto.
    - exists h2. cbn. auto.
    - exists h1. cbn. auto.
    - by apply elem_of_nil in Hp. }
  split; [exact H1|]. split; [exact HAM|]. split; [reflexivity|].
  split; [cbn; rewrite lookup_insert_ne by done; apply lookup_insert_eq|].
  split; [reflexivity|]. split; [apply lookup_insert_eq|]. split; [reflexivity|].
  split; [exact Hpipe|]. split; [unfold pipeline_of; cbn; congruence|].
  split; [reflexivity|]. split; [reflexivity|]. split; [exact H2|].
  split; [apply lookup_delete_eq|]. split; [reflexivity|].
  split.
  { cbn. rewrite lookup_delete_ne by done. rewrite lookup_insert_ne by done.
    apply lookup_insert_eq. }
  split; [reflexivity|]. split; [exact Hpipe|]. split; [reflexivity|].
  split; [|reflexivity].
  intros q Hq. cbn. unfold pipM. rewrite !lookup_insert.
  rewrite !elem_of_cons in Hq.
  repeat case_decide; try (eexists; reflexivity).
  destruct Hq as [->|[->|[->|[->|Hq]]]]; try done. by apply elem_of_nil in Hq.
Qed.

(** On the sample console the alternate buffer gets the address 1; after the
    switch to it and back, the main buffer still holds its four handles,
    all live, and the get-set and the writer act on the main buffer. *)
Lemma UseAlternateScreenBuffer_transfers_pipeline_witness :
  exists g1 g2,
    UseAlternateScreenBuffer (H := simple_TextBufferOps) no_saved_resize 1 0%nat
      sample_console = Some (STATUS_SUCCESS, g1)
    /\ UseMainScreenBuffer no_saved_resize 2 (fresh (dom (screens sample_console))) g1
       = Some (STATUS_SUCCESS, g2)
    /\ pipes g1
       = <[1%nat := Some (fresh (dom (screens sample_console)))]>
           (<[0%nat := Some (fresh (dom (screens sample_console)))]> (pipes sample_console))
    /\ pipes g2 = <[1%nat := Some 0%nat]> (<[0%nat := Some 0%nat]> (pipes sample_console))
    /\ screens g2 !! fresh (dom (screens sample_console)) = None.
Proof.
  destruct (UseAlternateScreenBuffer_transfers_pipeline (H := simple_TextBufferOps)
              no_saved_resize 1 0%nat sample_main
              (simple_blank (mkCOORD 80 25) 7 CURSOR_SMALL_SIZE) 3%nat 2%nat 1%nat 0%nat
              sample_console eq_refl eq_refl eq_refl eq_refl eq_refl
              (ex_intro _ None eq_refl) (ex_intro _ None eq_refl)
              (ex_intro _ (Some 0%nat) eq_refl) (ex_intro _ (Some 0%nat) eq_refl)
              eq_refl eq_refl)
    as (g1 & g2 & a & m1 & m2 & gC & aC & _ & _ & _ & H1 & _ & _ & _ & _ & _ & _ & _ & _
        & Hp1 & _ & H2 & HA & _ & _ & _ & _ & Hp2 & _).
  exists g1, g2. split; [exact H1|]. split; [exact H2|]. split; [exact Hp1|].
  split; [exact Hp2|exact HA].
Defined.

(** The same run, evaluated: the registry, the active buffer and the targets
    of the four pipeline objects after each of the two calls. *)
Example UseAlternateScreenBuffer_scenario :
  let run1 := UseAlternateScreenBuffer (H := simple_TextBufferOps) no_saved_resize 1 0%nat
                sample_console in
  let run2 := run1 ≫= fun r => UseMainScreenBuffer no_saved_resize 2 1%nat (snd r) in
  ((fun r => (fst r, ScreenBuffers (snd r), CurrentScreenBuffer (snd r),
              size (pipes (snd r)),
              (fun k => pipes (snd r) !! k) <$> [0; 1; 2; 3]%nat,
              pipeline_of <$> (screens (snd r) !! 1%nat))) <$> run1)
  = Some (STATUS_SUCCESS, [1%nat; 0%nat], Some 1%nat,
          4%nat, [Some (Some 1%nat); Some (Some 1%nat); Some None; Some None],
          Some (Some 3%nat, Some 2%nat, Some 1%nat, Some 0%nat))
  /\ ((fun r => (fst r, ScreenBuffers (snd r), CurrentScreenBuffer (snd r),
                 size (pipes (snd r)),
                 (fun k => pipes (snd r) !! k) <$> [0; 1; 2; 3]%nat,
                 pipeline_of <$> (screens (snd r) !! 0%nat),
                 screens (snd r) !! 1%nat)) <$> run2)
     = Some (STATUS_SUCCESS, [0%nat], Some 0%nat,
             4%nat, [Some (Some 0%nat); Some (Some 0%nat); Some None; Some None],
             Some (Some 3%nat, Some 2%nat, Some 1%nat, Some 0%nat), None).
Proof. vm_compute. split; reflexivity. Qed.

(** ** The list of tab stops under [AddTabStop] *)

Lemma AddTabStop_search_sorted (fAlloc : bool) (sColumn : Z) (next : list Z) :
  forall prev : Z,
    StronglySorted Z.lt (prev :: next) -> prev <= sColumn ->
    let r := AddTabStop_search fAlloc sColumn prev next in
    StronglySorted Z.lt (prev :: snd r)
    /\ (forall t, t ∈ snd r <-> t ∈ next \/ (t = sColumn /\ fst r = STATUS_SUCCESS))
    /\ (sColumn ∈ prev :: next -> snd r = next)
    /\ (fAlloc = true -> sColumn ∈ prev :: snd r).
Proof.
  induction next as [|n rest IH]; intros prev Hs Hle; cbn.
  - destruct (Z.eqb_spec prev sColumn) as [->|Hne]; cbn.
    { split; [done|]. split; [intros t; split; [tauto|intros [?|[_ ?]]; done]|].
      split; [done|]. intros _. left. }
    destruct fAlloc; cbn.
    + split; [repeat constructor; lia|].
      split.
      { intros t. rewrite list_elem_of_singleton. split; [by right|].
        intros [Ht|[-> _]]; [by apply elem_of_nil in Ht|done]. }
      split; [|intros _; right; left].
      intros Hin. apply list_elem_of_singleton in Hin. congruence.
    + split; [done|]. split; [intros t; split; [tauto|intros [?|[_ ?]]; done]|].
      split; [done|discriminate].
  - apply StronglySorted_inv in Hs as [Hs Hall].
    pose proof Hall as Hall'. apply Forall_cons in Hall' as [Hpn Hprest].
    destruct (Z.eqb_spec prev sColumn) as [->|Hne]; cbn.
    { split; [by constructor|]. split; [intros t; split; [tauto|intros [?|[_ ?]]; done]|].
      split; [done|]. intros _. left. }
    destruct (Z.gtb_spec n sColumn) as [Hgt|Hngt].
    + destruct fAlloc; cbn.
      * split.
        { constructor; [constructor; [done|]|].
          - apply StronglySorted_inv in Hs as [_ Hn].
            constructor; [lia|]. eapply Forall_impl; [exact Hn|]. intros; cbn in *; lia.
          - constructor; [lia|done]. }
        split.
        { intros t. rewrite elem_of_cons. split; [intros [->|?]; auto|].
          intros [?|[-> _]]; auto. }
        split; [|intros _; right; left].
        intros Hin. exfalso. apply elem_of_cons in Hin as [?|Hin]; [lia|].
        apply elem_of_cons in Hin as [?|Hin]; [lia|].
        apply StronglySorted_inv in Hs as [_ Hn].
        rewrite Forall_forall in Hn. specialize (Hn _ Hin). lia.
      * split; [by constructor|].
        split; [intros t; split; [tauto|intros [?|[_ ?]]; done]|].
        split; [done|discriminate].
    + specialize (IH n Hs ltac:(lia)). cbv zeta in IH.
      destruct (AddTabStop_search fAlloc sColumn n rest) as [Status next''] eqn:E.
      cbn in IH |- *. destruct IH as (Hs' & Hmem & Hdup & Hin').
      split.
      { constructor; [done|]. constructor; [done|].
        apply Forall_forall. intros t Ht. apply Hmem in Ht as [Ht|[-> _]]; [|lia].
        rewrite Forall_forall in Hprest. by apply Hprest. }
      split.
      { intros t. rewrite !elem_of_cons, Hmem. tauto. }
      split.
      { intros Hin. f_equal. apply Hdup.
        apply elem_of_cons in Hin as [?|Hin]; [lia|done]. }
      intros Ha. right. by apply Hin'.
Qed.

(** Tab order and tab idempotence: on a strictly increasing list,
    [AddTabStop c] with memory available leaves a strictly increasing list
    that holds [c], and a further [AddTabStop c], whatever the allocator
    would answer, leaves that list as it is. *)
Theorem AddTabStop_list_idempotent (fAlloc : bool) (sColumn : Z) (si : SCREEN_INFORMATION) :
  StronglySorted Z.lt (_ptsTabs si) ->
  let si1 := snd (AddTabStop true sColumn si) in
  StronglySorted Z.lt (_ptsTabs si1)
  /\ sColumn ∈ _ptsTabs si1
  /\ _ptsTabs (snd (AddTabStop fAlloc sColumn si1)) = _ptsTabs si1.
Proof.
  intros Hs. cbv zeta.
  assert (Hdup : forall (f : bool) (s : SCREEN_INFORMATION),
            StronglySorted Z.lt (_ptsTabs s) -> sColumn ∈ _ptsTabs s ->
            _ptsTabs (snd (AddTabStop f sColumn s)) = _ptsTabs s).
  { intros f s Hss Hin. unfold AddTabStop.
    destruct (_ptsTabs s) as [|prev next] eqn:Ht; [by apply elem_of_nil in Hin|].
    assert (Hle : prev <= sColumn).
    { apply elem_of_cons in Hin as [->|Hin]; [lia|].
      apply StronglySorted_inv in Hss as [_ Hall].
      rewrite Forall_forall in Hall. specialize (Hall _ Hin). lia. }
    destruct (Z.gtb_spec prev sColumn); [lia|].
    destruct (AddTabStop_search_sorted f sColumn next prev Hss Hle) as (_ & _ & Hsame & _).
    destruct (AddTabStop_search f sColumn prev next) as [Status next'] eqn:E.
    cbn in Hsame |- *. by rewrite Hsame. }
  assert (Hfirst : StronglySorted Z.lt (_ptsTabs (snd (AddTabStop true sColumn si)))
                   /\ sColumn ∈ _ptsTabs (snd (AddTabStop true sColumn si))).
  { unfold AddTabStop.
    destruct (_ptsTabs si) as [|prev next] eqn:Ht; cbn.
    { split; [repeat constructor|left]. }
    destruct (Z.gtb_spec prev sColumn) as [Hgt|Hle]; cbn.
    - split; [|left]. constructor; [done|].
      constructor; [lia|]. apply StronglySorted_inv in Hs as [_ Hall].
      eapply Forall_impl; [exact Hall|]. intros; cbn in *; lia.
    - destruct (AddTabStop_search_sorted true sColumn next prev Hs Hle)
        as (Hs' & _ & _ & Hin).
      destruct (AddTabStop_search true sColumn prev next) as [Status next'] eqn:E.
      cbn in Hs', Hin |- *. split; [done|by apply Hin]. }
  destruct Hfirst as [Hs1 Hin1].
  split; [done|]. split; [done|]. by apply Hdup.
Qed.

Lemma AddTabStop_list_idempotent_witness :
  StronglySorted Z.lt [4; 12]
  /\ _ptsTabs (snd (AddTabStop true 8 (sample_screen 80 25 0 (mkCOORD 0 0) [4; 12])))
     = [4; 8; 12]
  /\ _ptsTabs (snd (AddTabStop true 8
        (snd (AddTabStop true 8 (sample_screen 80 25 0 (mkCOORD 0 0) [4; 12])))))
     = _ptsTabs (snd (AddTabStop true 8 (sample_screen 80 25 0 (mkCOORD 0 0) [4; 12]))).
Proof.
  assert (Hs : StronglySorted Z.lt [4; 12]) by (repeat constructor; lia).
  split; [exact Hs|]. split; [reflexivity|].
  apply (AddTabStop_list_idempotent true 8 (sample_screen 80 25 0 (mkCOORD 0 0) [4; 12]) Hs).
Defined.

(** ** The viewport stays inside the buffer *)

Lemma toSHORT_wraps z :
  exists k, toSHORT z = z + 65536 * k /\ -32768 <= toSHORT z <= 32767.
Proof.
  unfold toSHORT. exists (- ((z + 32768) / 65536)).
  pose proof (Z.div_mod (z + 32768) 65536 ltac:(lia)).
  pose proof (Z.mod_pos_bound (z + 32768) 65536 ltac:(lia)). lia.
Qed.

Lemma abs_spec a : abs a = Z.abs a.
Proof. unfold abs. destruct (Z.ltb_spec a 0); lia. Qed.

(** Every [toSHORT] of the goal is replaced by a variable that differs from
    its argument by a multiple of 65536 and is in range. *)
Ltac forget_toSHORT :=
  repeat match goal with
  | |- context [toSHORT ?z] =>
      let k := fresh "k" in
      let Hk := fresh "Hk" in
      let Hr := fresh "Hr" in
      let s := fresh "s" in
      destruct (toSHORT_wraps z) as (k & Hk & Hr);
      set (s := toSHORT z) in *; clearbody s
  | H : context [toSHORT ?z] |- _ =>
      let k := fresh "k" in
      let Hk := fresh "Hk" in
      let Hr := fresh "Hr" in
      let s := fresh "s" in
      destruct (toSHORT_wraps z) as (k & Hk & Hr);
      set (s := toSHORT z) in *; clearbody s
  end.

(** The comparisons of the goal and of the hypotheses, as propositions. *)
Ltac split_comparisons :=
  repeat match goal with
  | |- context [if ?a <? ?b then _ else _] => destruct (Z.ltb_spec a b)
  | |- context [if ?a <=? ?b then _ else _] => destruct (Z.leb_spec a b)
  | |- context [if ?a >? ?b then _ else _] => destruct (Z.gtb_spec a b)
  | |- context [if ?a >=? ?b then _ else _] => destruct (Z.geb_spec a b)
  | |- context [if ?a =? ?b then _ else _] => destruct (Z.eqb_spec a b)
  end.

(** The same for comparisons that stand inside a boolean expression. *)
Ltac split_inner_comparisons :=
  repeat match goal with
  | |- context [?a <? ?b] => destruct (Z.ltb_spec a b)
  | |- context [?a <=? ?b] => destruct (Z.leb_spec a b)
  | |- context [?a >? ?b] => destruct (Z.gtb_spec a b)
  | |- context [?a >=? ?b] => destruct (Z.geb_spec a b)
  | |- context [?a =? ?b] => destruct (Z.eqb_spec a b)
  end.

(** [_InternalSetViewportSize] keeps the viewport inside the buffer, for a
    requested size of at least one cell each way that, added to the buffer
    size, stays within a [SHORT]. *)
Theorem InternalSetViewportSize_contained (coordValidEnd pcoordSize : COORD)
    (fResizeFromTop fResizeFromLeft : bool) (si : SCREEN_INFORMATION) :
  viewport_contained si ->
  1 <= X pcoordSize -> 1 <= Y pcoordSize ->
  X (GetScreenBufferSize si) + X pcoordSize <= 32768 ->
  Y (GetScreenBufferSize si) + Y pcoordSize <= 32768 ->
  viewport_contained
    (_InternalSetViewportSize coordValidEnd pcoordSize fResizeFromTop fResizeFromLeft si).
Proof.
  unfold viewport_contained, _InternalSetViewportSize, GetScreenWindowSizeX,
    GetScreenWindowSizeY, CalcWindowSizeX, CalcWindowSizeY, GetScreenBufferSize, min, abs.
  destruct si as [[cols rows] [L T R B] tb at' tabs mn al sm ad bw api fl].
  cbn [_srBufferViewport _coordScreenBufferSize Left Top Right Bottom X Y
       set_srBufferViewport].
  intros (HL & HLR & HR & HT & HTB & HB) Hsx Hsy Hcx Hcy.
  destruct fResizeFromLeft, fResizeFromTop;
    repeat (progress
      (split_comparisons;
       cbn [_srBufferViewport _coordScreenBufferSize Left Top Right Bottom X Y
            set_srBufferViewport]));
    forget_toSHORT; lia.
Qed.

(** An 80 by 25 buffer shown whole, shrunk to a window of 40 by 10 cells from
    the bottom right corner. *)
Lemma InternalSetViewportSize_contained_witness :
  let si := sample_screen 80 25 0 (mkCOORD 0 0) [] in
  let si' := _InternalSetViewportSize (mkCOORD 0 0) (mkCOORD 40 10) false false si in
  viewport_contained si
  /\ _srBufferViewport si' = mkSMALL_RECT 0 0 39 9
  /\ viewport_contained si'.
Proof.
  cbv zeta.
  assert (Hc : viewport_contained (sample_screen 80 25 0 (mkCOORD 0 0) [])).
  { unfold viewport_contained. cbn. lia. }
  split; [exact Hc|]. split; [reflexivity|].
  apply (InternalSetViewportSize_contained (mkCOORD 0 0) (mkCOORD 40 10) false false
           (sample_screen 80 25 0 (mkCOORD 0 0) []) Hc); cbn; lia.
Defined.

(** [SetViewportOrigin], from a viewport inside the buffer.  The window asked
    for has the width and the height of the viewport and its corner at the
    given origin (added to the corner of the viewport when the origin is
    relative).  When that is the corner the viewport has, nothing happens.
    When the window would leave the buffer the call is refused with
    [STATUS_INVALID_PARAMETER] and nothing is stored or handed over.
    Otherwise the call succeeds: a buffer that is not active stores the
    window, the active buffer hands it to the window object when there is
    one and stores nothing.  So the stored viewport stays inside the buffer,
    and so is any window handed over. *)
Theorem SetViewportOrigin_contained (fActive fWindow fAbsolute : bool)
    (coordWindowOrigin : COORD) (si : SCREEN_INFORMATION) :
  viewport_contained si ->
  isSHORT (X coordWindowOrigin) -> isSHORT (Y coordWindowOrigin) ->
  X (GetScreenBufferSize si) <= 32767 -> Y (GetScreenBufferSize si) <= 32767 ->
  let vp := _srBufferViewport si in
  let sz := GetScreenBufferSize si in
  let NewLeft := if fAbsolute then X coordWindowOrigin else Left vp + X coordWindowOrigin in
  let NewTop := if fAbsolute then Y coordWindowOrigin else Top vp + Y coordWindowOrigin in
  let NewWindow :=
    mkSMALL_RECT NewLeft NewTop (NewLeft + CalcWindowSizeX vp - 1)
      (NewTop + CalcWindowSizeY vp - 1) in
  let moved := NewLeft <> Left vp \/ NewTop <> Top vp in
  let inside :=
    0 <= NewLeft /\ 0 <= NewTop /\ Right NewWindow < X sz /\ Bottom NewWindow < Y sz in
  let r := SetViewportOrigin fActive fWindow fAbsolute coordWindowOrigin si in
  (~ moved -> r = (STATUS_SUCCESS, si, None))
  /\ (moved -> ~ inside -> r = (STATUS_INVALID_PARAMETER, si, None))
  /\ (moved -> inside ->
      r = if fActive
          then (STATUS_SUCCESS, si, if fWindow then Some NewWindow else None)
          else (STATUS_SUCCESS, set_srBufferViewport NewWindow si, None))
  /\ viewport_contained (snd (fst r))
  /\ GetScreenBufferSize (snd (fst r)) = GetScreenBufferSize si
  /\ (forall w, snd r = Some w ->
      0 <= Left w /\ Left w <= Right w /\ Right w < X (GetScreenBufferSize si)
      /\ 0 <= Top w /\ Top w <= Bottom w /\ Bottom w < Y (GetScreenBufferSize si)).
Proof.
  unfold viewport_contained, SetViewportOrigin, GetScreenWindowSizeX,
    GetScreenWindowSizeY, CalcWindowSizeX, CalcWindowSizeY, GetScreenBufferSize, isSHORT.
  destruct si as [[cols rows] [L T R B] tb at' tabs mn al sm ad bw api fl].
  destruct coordWindowOrigin as [ox oy].
  cbn [_srBufferViewport _coordScreenBufferSize Left Top Right Bottom X Y].
  intros (HL & HLR & HR & HT & HTB & HB) Hox Hoy Hcx Hcy.
  rewrite (toSHORT_id (R - L + 1)) by (unfold isSHORT; lia).
  rewrite (toSHORT_id (B - T + 1)) by (unfold isSHORT; lia).
  destruct fAbsolute, fActive, fWindow; cbn [negb];
    split_inner_comparisons;
    cbn [_srBufferViewport _coordScreenBufferSize Left Top Right Bottom X Y
         set_srBufferViewport orb andb fst snd];
    (split; [intros Hm; try reflexivity; exfalso; forget_toSHORT; lia|]);
    (split; [intros Hm Hi; try reflexivity; exfalso; forget_toSHORT; lia|]);
    (split; [intros Hm Hi; try (exfalso; forget_toSHORT; lia);
             repeat f_equal; forget_toSHORT; lia|]);
    (split; [forget_toSHORT; lia|]); (split; [reflexivity|]);
    intros w Hw; try discriminate Hw;
    injection Hw as <-;
    cbn [Left Top Right Bottom]; forget_toSHORT; lia.
Qed.

(** A window of 40 by 10 cells on a buffer of 80 by 25 cells that is not
    active: moved by (5, 3) it is stored; moved by (50, 3) it would leave the
    buffer, and the call is refused. *)
Lemma SetViewportOrigin_contained_witness :
  let si := _InternalSetViewportSize (mkCOORD 0 0) (mkCOORD 40 10) false false
              (sample_screen 80 25 0 (mkCOORD 0 0) []) in
  viewport_contained si
  /\ SetViewportOrigin false true false (mkCOORD 5 3) si
     = (STATUS_SUCCESS, set_srBufferViewport (mkSMALL_RECT 5 3 44 12) si, None)
  /\ SetViewportOrigin false true false (mkCOORD 50 3) si
     = (STATUS_INVALID_PARAMETER, si, None).
Proof.
  cbv zeta.
  assert (Hc : viewport_contained
                 (_InternalSetViewportSize (mkCOORD 0 0) (mkCOORD 40 10) false false
                    (sample_screen 80 25 0 (mkCOORD 0 0) []))).
  { vm_compute. intuition congruence. }
  assert (H80 : 80 <= 32767) by lia.
  assert (H25 : 25 <= 32767) by lia.
  split; [exact Hc|]. split.
  - apply (SetViewportOrigin_contained false true false (mkCOORD 5 3) _ Hc
             ltac:(unfold isSHORT; cbn; lia) ltac:(unfold isSHORT; cbn; lia) H80 H25);
      vm_compute; intuition congruence.
  - apply (SetViewportOrigin_contained false true false (mkCOORD 50 3) _ Hc
             ltac:(unfold isSHORT; cbn; lia) ltac:(unfold isSHORT; cbn; lia) H80 H25);
      vm_compute; intuition congruence.
Defined.

(** ** Failures of the traditional resize *)

Set Warnings "-clear-no-such-hyp".

Lemma new_block_live (h h' : Heap) (r : option block) :
  new_block h = (r, h') ->
  match r with
  | None => live h' = live h
  | Some b => (b ∉ live h) /\ live h' = {[b]} ∪ live h
  end.
Proof.
  unfold new_block. destruct (oracle h) as [|[] o]; intros [= <- <-]; cbn;
    try done; split; try done; apply is_fresh.
Qed.

Lemma new_block_oracle (h h' : Heap) (r : option block) :
  new_block h = (r, h') ->
  match r with
  | None => oracle h = false :: oracle h'
  | Some _ => oracle h = true :: oracle h' \/ (oracle h = [] /\ oracle h' = [])
  end.
Proof.
  unfold new_block. destruct (oracle h) as [|[] o]; intros [= <- <-]; cbn; auto.
Qed.

(** When the loop that initialises the new attribute rows stops at a
    failure, the [j] calls before it succeeded, and the blocks they made are
    in use. *)
Lemma resize_init_attr_rows_fails (NewX attr : Z) (n : nat) :
  forall (i : Z) (Temp Temp' : list ROW) (h h' : Heap),
    resize_init_attr_rows n i NewX attr Temp h = (false, Temp', h') ->
    exists (j : nat) (made : gset block),
      oracle h = replicate j true ++ false :: oracle h'
      /\ live h' = live h ∪ made /\ made ## live h /\ size made = j.
Proof.
  induction n as [|n IH]; intros i Temp Temp' h h'; cbn [resize_init_attr_rows];
    [discriminate|].
  unfold AttrRow_Initialize.
  destruct (new_block h) as [[b|] h1] eqn:E.
  - pose proof (new_block_oracle _ _ _ E) as Ho. apply new_block_live in E as [Hb Hl].
    intros Hrec. apply IH in Hrec as (j & made & Hoj & Hlj & Hdj & Hsj).
    destruct Ho as [Ho|[_ Ho]]; [|rewrite Ho in Hoj; by destruct j].
    exists (S j), ({[b]} ∪ made). split; [by rewrite Ho, Hoj|].
    split; [rewrite Hlj, Hl; clear; set_solver|].
    split; [rewrite Hl in Hdj; clear - Hb Hdj; set_solver|].
    rewrite size_union by (rewrite Hl in Hdj; clear - Hdj; set_solver).
    by rewrite size_singleton, Hsj.
  - pose proof (new_block_oracle _ _ _ E) as Ho. apply new_block_live in E.
    intros [= <- <-]. exists 0%nat, ∅.
    split; [done|]. split; [rewrite E; clear; set_solver|].
    split; [clear; set_solver|]. apply size_empty.
Qed.

(** When [ResizeTraditional] answers [STATUS_NO_MEMORY], either the width
    changes and the failure is that of an [AttrRow.Resize], after the new
    size was installed; or the screen buffer is exactly as it was.  In that
    case the [k] first allocations of the call succeeded and the next one
    failed, and the arrays the call staged are freed again.  What stays
    allocated is what [AttrRow.Initialize] made for the new rows before it
    failed, [k - 3] blocks: the rows that hold them are in the array that is
    deleted, and nothing releases them. *)
Theorem ResizeTraditional_failure_cases (coordNewScreenSize : COORD)
    (si : SCREEN_INFORMATION) (h : Heap) :
  let r := ResizeTraditional coordNewScreenSize si h in
  fst (fst r) = STATUS_NO_MEMORY ->
  (snd (fst r) = si
   /\ exists (k : nat) (kept : gset block),
        oracle h = replicate k true ++ false :: oracle (snd r)
        /\ live (snd r) = live h ∪ kept /\ kept ## live h
        /\ size kept = (k - 3)%nat
        /\ (kept <> ∅ -> Y (GetScreenBufferSize si) < Y coordNewScreenSize))
  \/ (X coordNewScreenSize <> X (GetScreenBufferSize si)
      /\ coordBufferSize (TextInfo (snd (fst r))) = coordNewScreenSize).
Proof.
  cbv zeta. unfold ResizeTraditional.
  destruct (_ || _); [discriminate|].
  destruct (new_block h) as [[b1|] h1] eqn:E1;
    pose proof (new_block_oracle _ _ _ E1) as Ho1; apply new_block_live in E1.
  2:{ intros _. left. cbn. split; [done|]. exists 0%nat, ∅.
      split; [done|]. split; [rewrite E1; clear; set_solver|].
      split; [clear; set_solver|]. split; [apply size_empty|done]. }
  destruct E1 as [Hb1 Hl1].
  destruct (new_block h1) as [[b2|] h2] eqn:E2;
    pose proof (new_block_oracle _ _ _ E2) as Ho2; apply new_block_live in E2.
  2:{ intros _. left. cbn. split; [done|].
      destruct Ho1 as [Ho1|[_ Ho1]]; [|by rewrite Ho1 in Ho2].
      exists 1%nat, ∅. split; [by rewrite Ho1, Ho2|].
      split; [rewrite E2, Hl1; clear - Hb1; set_solver|].
      split; [clear; set_solver|]. split; [apply size_empty|done]. }
  destruct E2 as [Hb2 Hl2].
  destruct (resize_row_array _ _ _ _ _ _) as [[tb1 h3]|h3] eqn:Erot.
  - (* the row array is in place: only the attribute rows can fail *)
    cbv zeta. destruct (Z.eqb_spec (X coordNewScreenSize) (X (GetScreenBufferSize si)));
      cbn [negb]; [discriminate|].
    destruct (resize_attr_rows _ _ _ _ _ _) as [[Status rows] h4].
    intros _. right. by cbn.
  - intros _. left. cbn. split; [done|].
    unfold resize_row_array in Erot.
    destruct (negb _); [|discriminate].
    destruct (new_block h2) as [[b3|] h2'] eqn:E3;
      pose proof (new_block_oracle _ _ _ E3) as Ho3; apply new_block_live in E3.
    + destruct E3 as [Hb3 Hl3].
      destruct (_ <? _); [discriminate|].
      destruct (Z.gtb_spec (Y coordNewScreenSize) (Y (GetScreenBufferSize si)));
        [|discriminate].
      match type of Erot with
      | context [resize_init_attr_rows ?n ?i ?x ?a ?t ?hh] =>
          destruct (resize_init_attr_rows n i x a t hh) as [[ok Temp] h5] eqn:Einit
      end.
      destruct ok; [discriminate|]. injection Erot as <-.
      apply resize_init_attr_rows_fails in Einit as (j & made & Hoj & Hlj & Hdj & Hsj).
      destruct Ho3 as [Ho3|[_ Ho3]]; [|rewrite Ho3 in Hoj; by destruct j].
      destruct Ho2 as [Ho2|[_ Ho2]]; [|by rewrite Ho2 in Ho3].
      destruct Ho1 as [Ho1|[_ Ho1]]; [|by rewrite Ho1 in Ho2].
      exists (3 + j)%nat, made. cbn.
      split; [by rewrite Ho1, Ho2, Ho3, Hoj|].
      rewrite Hl3, Hl2, Hl1 in Hdj. rewrite Hl2, Hl1 in Hb3. rewrite Hl1 in Hb2.
      split; [rewrite Hlj, Hl3, Hl2, Hl1; clear - Hb1 Hb2 Hb3 Hdj; set_solver|].
      split; [clear - Hdj; set_solver|]. split; [lia|]. intros _. lia.
    + injection Erot as <-.
      destruct Ho2 as [Ho2|[_ Ho2]]; [|by rewrite Ho2 in Ho3].
      destruct Ho1 as [Ho1|[_ Ho1]]; [|by rewrite Ho1 in Ho2].
      exists 2%nat, ∅. cbn. split; [by rewrite Ho1, Ho2, Ho3|].
      rewrite Hl1 in Hb2.
      split; [rewrite E3, Hl2, Hl1; clear - Hb1 Hb2; set_solver|].
      split; [clear; set_solver|]. split; [apply size_empty|done].
Qed.

(** A buffer of 10 by 5 cells is made 12 by 7: the two flat arrays, the new
    row array and the attribute row of the first new row are allocated (the
    blocks 9 to 12), and the attribute row of the second new row is not.  The
    screen buffer is as it was, the blocks 9, 10 and 11 are freed, and the
    block 12 stays allocated. *)
Lemma ResizeTraditional_failure_cases_witness :
  let si := sample_screen 10 5 0 (mkCOORD 0 4) [] in
  let h := mkHeap (sample_blocks 5) [true; true; true; true; false] in
  let r := ResizeTraditional (mkCOORD 12 7) si h in
  fst (fst r) = STATUS_NO_MEMORY
  /\ elements (live (snd r) ∖ live h) = [12%nat]
  /\ snd (fst r) = si
  /\ exists (k : nat) (kept : gset block),
       oracle h = replicate k true ++ false :: oracle (snd r)
       /\ live (snd r) = live h ∪ kept /\ kept ## live h
       /\ size kept = (k - 3)%nat.
Proof.
  cbv zeta.
  assert (Hst : fst (fst (ResizeTraditional (mkCOORD 12 7)
                            (sample_screen 10 5 0 (mkCOORD 0 4) [])
                            (mkHeap (sample_blocks 5) [true; true; true; true; false])))
                = STATUS_NO_MEMORY).
  { vm_compute. reflexivity. }
  split; [exact Hst|]. split; [vm_compute; reflexivity|].
  destruct (ResizeTraditional_failure_cases (mkCOORD 12 7)
              (sample_screen 10 5 0 (mkCOORD 0 4) [])
              (mkHeap (sample_blocks 5) [true; true; true; true; false]) Hst)
    as [(Hsame & k & kept & Ho & Hl & Hd & Hs & _)|[_ Hsz]].
  - split; [exact Hsame|]. exists k, kept. exact (conj Ho (conj Hl (conj Hd Hs))).
  - (* the size (12, 7) is not installed *)
    exfalso. vm_compute in Hsz. discriminate Hsz.
Defined.

(** ** The cursor is not met while copying when it is below the text *)

Lemma reflow_columns_not_found `{TextBufferOps} (n : nat) :
  forall (iOldCol iOldRow : Z) (pRow : ROW) (cOldCursorPos : COORD) (st st' : ReflowState),
    iOldRow <> Y cOldCursorPos ->
    reflow_columns n iOldCol iOldRow pRow cOldCursorPos st = Some st' ->
    rsFoundCursorPos st' = rsFoundCursorPos st.
Proof.
  induction n as [|n IH]; intros iOldCol iOldRow pRow cur st st' Hrow; cbn.
  - by intros [= <-].
  - destruct (CHAR_ROW.Chars (CharRow pRow) !! Z.to_nat iOldCol) as [w|]; [|done]. cbn.
    destruct (CHAR_ROW.KAttrs (CharRow pRow) !! Z.to_nat iOldCol) as [k|]; [|done]. cbn.
    destruct (FindAttrIndex (AttrRow pRow) iOldCol) as [run|]; [|done]. cbn.
    destruct (Z.eqb_spec iOldRow (Y cur)) as [?|_]; [done|].
    rewrite andb_false_r.
    destruct (InsertCharacter w k (runAttr run) (rsNewBuffer st)) as [[] nb].
    + intros Hrec. by apply IH in Hrec.
    + by intros [= <-].
Qed.

(** While the rows above the cursor row are copied, no cursor position is
    captured: a cursor below the last row that holds text is placed by the
    fallback. *)
Theorem reflow_rows_cursor_below `{TextBufferOps} (n : nat) :
  forall (iOldRow cOldRowsTotal cOldColsTotal : Z) (old : TEXT_BUFFER_INFO)
         (cOldCursorPos : COORD) (st st' : ReflowState),
    iOldRow + Z.of_nat n <= Y cOldCursorPos ->
    reflow_rows n iOldRow cOldRowsTotal cOldColsTotal old cOldCursorPos st = Some st' ->
    rsFoundCursorPos st' = rsFoundCursorPos st.
Proof.
  induction n as [|n IH]; intros iOldRow total cols old cur st st' Hle; cbn.
  - by intros [= <-].
  - destruct (GetRowByOffset old iOldRow) as [pRow|]; [|done]. cbn.
    match goal with
    | |- context [reflow_columns ?k 0 iOldRow pRow cur st] =>
        destruct (reflow_columns k 0 iOldRow pRow cur st) as [st1|] eqn:Ecols; [|done]
    end.
    apply reflow_columns_not_found in Ecols; [|lia]. cbn.
    intros Hrec. apply IH in Hrec; [|lia]. rewrite Hrec, <- Ecols.
    destruct (Z.eqb_spec iOldRow (Y cur)) as [?|_]; [lia|].
    rewrite andb_false_r.
    destruct (NT_SUCCESS (rsStatus st1)); [|done].
    destruct (_ && _); [|done].
    destruct (iOldRow <? total - 1); [|done].
    by destruct (NewlineCursor (rsNewBuffer st1)).
Qed.

Lemma reflow_rows_cursor_below_witness :
  0 + Z.of_nat 1 <= Y (mkCOORD 8 2)
  /\ rsFoundCursorPos reflow_example_copied = false.
Proof.
  assert (Hle : 0 + Z.of_nat 1 <= Y (mkCOORD 8 2)) by (cbn; lia).
  split; [exact Hle|].
  exact (reflow_rows_cursor_below (H := simple_TextBufferOps) 1 0 1 10 reflow_example_old
           (mkCOORD 8 2)
           (mkReflowState (simple_blank (mkCOORD 3 5) 7 0) (mkCOORD 0 0) false STATUS_SUCCESS)
           reflow_example_copied Hle eq_refl).
Defined.

(** ** The cursor after a reflow, from [ResizeWithReflow] *)





(** ** At most one alternate buffer *)

(** When the main buffer [M] already has an alternate buffer [O] that shares
    its pipeline, [UseAlternateScreenBuffer] on [M] replaces it: the new
    alternate buffer [A] is registered in its place and becomes the active
    buffer, [O] is unregistered and freed, [M] and [A] hold the same four
    handles, and the live pipeline objects are those of before, the get-set
    and the writer acting on [A]. *)
Theorem UseAlternateScreenBuffer_replaces_alternate `{TextBufferOps}
    (ProcessResizeWindow : addr -> CONSOLE_INFORMATION -> option CONSOLE_INFORMATION)
    (fuel : nat) (M O : addr) (m o : SCREEN_INFORMATION) (tbA : TEXT_BUFFER_INFO)
    (sm ad bw api : handle) (reg' : list addr) (g : CONSOLE_INFORMATION) :
  screens g !! M = Some m ->
  screens g !! O = Some o ->
  M <> O ->
  _psiMainBuffer m = None ->
  _psiAlternateBuffer m = Some O ->
  _psiMainBuffer o = Some M ->
  _fAltWindowChanged m = false ->
  pipeline_of m = (Some sm, Some ad, Some bw, Some api) ->
  pipeline_of o = pipeline_of m ->
  is_Some (pipes g !! bw) -> is_Some (pipes g !! api) ->
  unlink O (ScreenBuffers g) = Some reg' ->
  allocs g = [] ->
  TB_CreateInstance
    (mkCOORD (toSHORT (CalcWindowSizeX (_srBufferViewport m)))
             (toSHORT (CalcWindowSizeY (_srBufferViewport m))))
    (_Attributes m) CURSOR_SMALL_SIZE = Some tbA ->
  let A := fresh (dom (screens g)) in
  exists g1 a m1,
    UseAlternateScreenBuffer ProcessResizeWindow (S fuel) M g = Some (STATUS_SUCCESS, g1)
    /\ A <> M /\ A <> O
    /\ ScreenBuffers g1 = A :: reg'
    /\ screens g1 !! O = None
    /\ screens g1 !! A = Some a
    /\ _psiMainBuffer a = Some M
    /\ screens g1 !! M = Some m1
    /\ _psiAlternateBuffer m1 = Some A
    /\ pipeline_of m1 = (Some sm, Some ad, Some bw, Some api)
    /\ pipeline_of a = pipeline_of m1
    /\ pipes g1 = <[bw := Some A]> (<[api := Some A]> (pipes g))
    /\ CurrentScreenBuffer g1 = Some A.
Proof.
  intros HM HO HMO Hmain Halt Homain Hflag Hpipe Hopipe Hbw Hapi Hreg Hal Htb.
  destruct g as [scr pip reg cur al]. cbn in HM, HO, Hbw, Hapi, Hreg, Hal. subst al.
  cbn [screens pipes ScreenBuffers]. set (A := fresh (dom scr)).
  pose proof Hpipe as Hpipe'. unfold pipeline_of in Hpipe'.
  injection Hpipe' as Hpsm Hpad Hpbw Hpapi.
  rewrite Hpipe in Hopipe. unfold pipeline_of in Hopipe.
  injection Hopipe as Hosm Hoad Hobw Hoapi.
  assert (HscrA : scr !! A = None) by apply fresh_lookup_None.
  assert (HAM : A <> M) by (intros Heq; rewrite Heq in HscrA; congruence).
  assert (HAO : A <> O) by (intros Heq; rewrite Heq in HscrA; congruence).
  set (ws := mkCOORD (toSHORT (CalcWindowSizeX (_srBufferViewport m)))
                     (toSHORT (CalcWindowSizeY (_srBufferViewport m)))) in *.
  set (a0 := set_TextInfo tbA
               (SetScreenBufferSize ws
                  (set_srBufferViewport
                     (mkSMALL_RECT 0 0 (toSHORT (X ws - 1)) (toSHORT (Y ws - 1)))
                     (SetScreenBufferSize ws (SCREEN_INFORMATION_ctor (_Attributes m)))))).
  set (h1 := fresh (dom pip)).
  set (p1 := <[h1 := Some A]> pip).
  set (h2 := fresh (dom p1)).
  set (p2 := <[h2 := Some A]> p1).
  set (h3 := fresh (dom p2)).
  set (p3 := <[h3 := (None : option addr)]> p2).
  set (h4 := fresh (dom p3)).
  set (p4 := <[h4 := (None : option addr)]> p3).
  set (aC := set_pipeline (Some h4) (Some h3) (Some h2) (Some h1) a0).
  assert (HC : CreateInstance (S fuel) ws ws (_Attributes m) CURSOR_SMALL_SIZE
                 (mkCONSOLE scr pip reg cur [])
               = Some (STATUS_SUCCESS, Some A,
                       mkCONSOLE (<[A := aC]> scr) p4 reg cur [])).
  { unfold CreateInstance. cbn. rewrite Htb. fold A. console_step.
    rewrite (InitializeOutputStateMachine_succeeds (S fuel) A a0) by apply lookup_insert_eq.
    cbn. rewrite insert_insert_eq. reflexivity. }
  set (a := set_psiMainBuffer (Some M) (set_pipeline (Some sm) (Some ad) (Some bw) (Some api) aC)).
  set (m1 := set_psiAlternateBuffer (Some A) m).
  assert (HbwM : is_Some (<[api := Some M]> pip !! bw)).
  { rewrite lookup_insert. case_decide; [eexists; reflexivity|done]. }
  assert (HapiA : is_Some (<[bw := Some M]> (<[api := Some M]> pip) !! api)).
  { rewrite !lookup_insert. repeat case_decide; first [eexists; reflexivity | done]. }
  assert (HbwA : is_Some (<[api := Some A]> (<[bw := Some M]> (<[api := Some M]> pip)) !! bw)).
  { rewrite !lookup_insert. repeat case_decide; first [eexists; reflexivity | done]. }
  set (scr1 := delete O (<[O := ClearTabStops o]> (<[M := m1]> (<[A := a]> scr)))).
  exists (mkCONSOLE scr1 (<[bw := Some A]> (<[api := Some A]> pip)) (A :: reg') (Some A) []),
         a, m1.
  split.
  { unfold UseAlternateScreenBuffer. console_step. rewrite HM. console_step.
    unfold GetMainBuffer. rewrite Hmain.
    unfold replay_saved_resize. console_step. rewrite HM. console_step.
    rewrite Hflag. console_step.
    unfold _CreateAltBuffer. console_step. rewrite HM. console_step. fold ws.
    rewrite HC. console_step.
    rewrite (FreeOutputStateMachine_fresh (S fuel) A aC (<[A := aC]> scr) pip (A :: reg) cur
               (Some A) (Some A) None None (lookup_insert_eq _ _ _) eq_refl eq_refl eq_refl).
    console_step.
    rewrite (lookup_insert_ne scr A M) by done. rewrite HM. console_step.
    rewrite (lookup_insert_eq scr A). console_step.
    rewrite Hpsm, Hpad, Hpbw, Hpapi.
    rewrite insert_insert_eq.
    rewrite (lookup_insert_ne scr A M) by done. rewrite HM. console_step.
    rewrite (lookup_insert_eq scr A). console_step. rewrite insert_insert_eq.
    rewrite (lookup_insert_ne scr A M) by done. rewrite HM. console_step. rewrite Halt.
    (* the old alternate buffer is removed *)
    console_step. destruct (decide (A = O)) as [?|_]; [done|].
    rewrite Hreg. console_step.
    unfold FreeOutputStateMachine_with.
    assert (HlookO : forall cur',
              screens (mkCONSOLE (<[M := m1]> (<[A := a]> scr)) pip (A :: reg') cur' [])
                !! O = Some o).
    { intros cur'. cbn. rewrite lookup_insert_ne by done.
      rewrite lookup_insert_ne by done. exact HO. }
    fold a m1.
    match goal with
    | |- context [if ?c then _ else _] => destruct c
    end; console_step; fold a m1;
      rewrite (lookup_insert_ne _ M O) by done;
      rewrite (lookup_insert_ne _ A O) by done;
      rewrite HO; console_step; rewrite Homain, Hoapi, Hobw;
      rewrite (pipe_SetActiveScreenBuffer_live api M) by done; console_step;
      rewrite (pipe_SetActiveScreenBuffer_live bw M) by done; console_step;
      rewrite (lookup_insert_ne _ M O) by done;
      rewrite (lookup_insert_ne _ A O) by done;
      rewrite HO; console_step;
      rewrite (lookup_delete_ne _ O M) by done;
      rewrite (lookup_insert_ne _ O M) by done;
      rewrite (lookup_insert_eq _ M); console_step; rewrite Hpapi, Hpbw;
      rewrite (pipe_SetActiveScreenBuffer_live api A) by done; console_step;
      rewrite (pipe_SetActiveScreenBuffer_live bw A) by done; console_step;
      rewrite pipes_redirect_twice; reflexivity. }
  split; [exact HAM|]. split; [exact HAO|]. split; [reflexivity|].
  split; [apply lookup_delete_eq|].
  split.
  { cbn. unfold scr1. rewrite lookup_delete_ne by done.
    rewrite lookup_insert_ne by done. rewrite lookup_insert_ne by done.
    apply lookup_insert_eq. }
  split; [reflexivity|].
  split.
  { cbn. unfold scr1. rewrite lookup_delete_ne by done.
    rewrite lookup_insert_ne by done. apply lookup_insert_eq. }
  split; [reflexivity|]. split; [exact Hpipe|].
  split; [unfold pipeline_of; cbn; congruence|].
  split; reflexivity.
Qed.

Lemma UseAlternateScreenBuffer_replaces_alternate_witness :
  exists g1,
    UseAlternateScreenBuffer (H := simple_TextBufferOps) no_saved_resize 1 0%nat
      sample_alt_console = Some (STATUS_SUCCESS, g1)
    /\ ScreenBuffers g1 = [fresh (dom (screens sample_alt_console)); 0%nat]
    /\ screens g1 !! 1%nat = None
    /\ CurrentScreenBuffer g1 = Some (fresh (dom (screens sample_alt_console))).
Proof.
  destruct (UseAlternateScreenBuffer_replaces_alternate (H := simple_TextBufferOps)
              no_saved_resize 0 0%nat 1%nat
              (set_psiAlternateBuffer (Some 1%nat) sample_main)
              (set_psiMainBuffer (Some 0%nat) sample_main)
              (simple_blank (mkCOORD 80 25) 7 CURSOR_SMALL_SIZE) 3%nat 2%nat 1%nat 0%nat
              [0%nat] sample_alt_console eq_refl eq_refl ltac:(discriminate)
              eq_refl eq_refl eq_refl eq_refl eq_refl eq_refl
              (ex_intro _ (Some 1%nat) eq_refl) (ex_intro _ (Some 1%nat) eq_refl)
              eq_refl eq_refl eq_refl)
    as (g1 & a & m1 & H1 & _ & _ & Hreg & HO & _ & _ & _ & _ & _ & _ & _ & Hcur).
  exists g1. split; [exact H1|]. split; [exact Hreg|]. split; [exact HO|exact Hcur].
Defined.

(** The same replacement, evaluated. *)
Example UseAlternateScreenBuffer_replacement_scenario :
  (fun r => (fst r, ScreenBuffers (snd r), CurrentScreenBuffer (snd r),
             dom (screens (snd r)),
             (fun k => pipes (snd r) !! k) <$> [0; 1; 2; 3]%nat))
    <$> UseAlternateScreenBuffer (H := simple_TextBufferOps) no_saved_resize 1 0%nat
          sample_alt_console
  = Some (STATUS_SUCCESS, [2%nat; 0%nat], Some 2%nat, {[0%nat; 2%nat]},
          [Some (Some 2%nat); Some (Some 2%nat); Some None; Some None]).
Proof. vm_compute. reflexivity. Qed.

(** * More properties *)

(** ** Tab stops: forward tab, clearing *)

Lemma GetForwardTab_scan_least (x : Z) (tabs : list Z) :
  StronglySorted Z.lt tabs ->
  match GetForwardTab_scan x tabs with
  | Some c => c ∈ tabs /\ x < c /\ forall t, t ∈ tabs -> x < t -> c <= t
  | None => forall t, t ∈ tabs -> t <= x
  end.
Proof.
  induction tabs as [|c rest IH]; intros Hs; cbn.
  - intros t Ht. by apply elem_of_nil in Ht.
  - apply StronglySorted_inv in Hs as [Hs Hall]. rewrite Forall_forall in Hall.
    destruct (Z.geb_spec x c) as [Hge|Hlt].
    + specialize (IH Hs). destruct (GetForwardTab_scan x rest) as [d|].
      * destruct IH as (Hin & Hxd & Hmin). split; [by right|]. split; [done|].
        intros t Ht Hxt. apply elem_of_cons in Ht as [->|Ht]; [lia|by apply Hmin].
      * intros t Ht. apply elem_of_cons in Ht as [->|Ht]; [lia|by apply IH].
    + split; [left|]. split; [done|].
      intros t Ht Hxt. apply elem_of_cons in Ht as [->|Ht]; [lia|].
      specialize (Hall t Ht). lia.
Qed.

(** A forward tab from the last column goes to the start of the next line.
    From any other column the line is kept and the column becomes the least
    tab stop to the right of the cursor, or the last column when there is
    none. *)
Theorem GetForwardTab_least_stop_above (pos : COORD) (si : SCREEN_INFORMATION) :
  StronglySorted Z.lt (_ptsTabs si) ->
  let sWidth := toSHORT (X (GetScreenBufferSize si) - 1) in
  let r := GetForwardTab pos si in
  (X pos = sWidth -> r = mkCOORD 0 (toSHORT (Y pos + 1)))
  /\ (X pos <> sWidth ->
      Y r = Y pos
      /\ ((X r ∈ _ptsTabs si /\ X pos < X r
           /\ forall t, t ∈ _ptsTabs si -> X pos < t -> X r <= t)
          \/ (X r = sWidth /\ forall t, t ∈ _ptsTabs si -> t <= X pos))).
Proof.
  intros Hs. cbv zeta. unfold GetForwardTab.
  destruct (Z.eqb_spec (X pos) (toSHORT (X (GetScreenBufferSize si) - 1))) as [He|Hne].
  - split; [done|]. intros Hn. by destruct Hn.
  - split; [intros He; by destruct Hne|]. intros _.
    pose proof (GetForwardTab_scan_least (X pos) (_ptsTabs si) Hs) as Hscan.
    destruct (GetForwardTab_scan (X pos) (_ptsTabs si)) as [c|]; cbn.
    + split; [done|]. by left.
    + split; [done|]. by right.
Qed.

Lemma sample_tabs_sorted : StronglySorted Z.lt [4; 8; 16].
Proof. repeat constructor; lia. Defined.

Lemma GetForwardTab_least_stop_above_witness :
  let si := sample_screen 80 25 0 (mkCOORD 0 0) [4; 8; 16] in
  let r := GetForwardTab (mkCOORD 5 3) si in
  Y r = 3
  /\ ((X r ∈ _ptsTabs si /\ 5 < X r /\ forall t, t ∈ _ptsTabs si -> 5 < t -> X r <= t)
      \/ (X r = toSHORT (80 - 1) /\ forall t, t ∈ _ptsTabs si -> t <= 5)).
Proof.
  refine (proj2 (GetForwardTab_least_stop_above (mkCOORD 5 3)
            (sample_screen 80 25 0 (mkCOORD 0 0) [4; 8; 16]) sample_tabs_sorted) _).
  vm_compute. discriminate.
Defined.

Lemma StronglySorted_lt_ext (l1 : list Z) :
  forall l2 : list Z,
    StronglySorted Z.lt l1 -> StronglySorted Z.lt l2 ->
    (forall t, t ∈ l1 <-> t ∈ l2) -> l1 = l2.
Proof.
  induction l1 as [|a l1 IH]; intros [|b l2] H1 H2 Hext.
  - done.
  - exfalso. eapply elem_of_nil, Hext. left.
  - exfalso. eapply elem_of_nil, Hext. left.
  - apply StronglySorted_inv in H1 as [H1 Ha]. apply StronglySorted_inv in H2 as [H2 Hb].
    rewrite Forall_forall in Ha, Hb.
    assert (a = b) as ->.
    { pose proof (proj1 (Hext a) ltac:(left)) as Hab.
      pose proof (proj2 (Hext b) ltac:(left)) as Hba.
      apply elem_of_cons in Hab as [?|Hab]; [done|].
      apply elem_of_cons in Hba as [?|Hba]; [done|].
      specialize (Ha _ Hba). specialize (Hb _ Hab). lia. }
    f_equal. apply IH; [done..|].
    intros t. split; intros Ht.
    + pose proof (proj1 (Hext t) ltac:(by right)) as Ht'.
      apply elem_of_cons in Ht' as [->|?]; [|done].
      specialize (Ha _ Ht). lia.
    + pose proof (proj2 (Hext t) ltac:(by right)) as Ht'.
      apply elem_of_cons in Ht' as [->|?]; [|done].
      specialize (Hb _ Ht). lia.
Qed.

Lemma AddTabStop_search_duplicate (fAlloc : bool) (sColumn : Z) (next : list Z) :
  forall prev : Z,
    StronglySorted Z.lt (prev :: next) -> sColumn ∈ prev :: next ->
    fst (AddTabStop_search fAlloc sColumn prev next) = STATUS_NO_MEMORY.
Proof.
  induction next as [|n rest IH]; intros prev Hs Hc; cbn.
  - destruct (Z.eqb_spec prev sColumn) as [|Hne]; [done|].
    apply list_elem_of_singleton in Hc. congruence.
  - destruct (Z.eqb_spec prev sColumn) as [|Hne]; [done|].
    apply elem_of_cons in Hc as [?|Hc]; [congruence|].
    apply StronglySorted_inv in Hs as [Hs _].
    destruct (Z.gtb_spec n sColumn) as [Hgt|Hle].
    + exfalso. apply elem_of_cons in Hc as [->|Hc]; [lia|].
      apply StronglySorted_inv in Hs as [_ Hall]. rewrite Forall_forall in Hall.
      specialize (Hall _ Hc). lia.
    + specialize (IH n Hs Hc).
      destruct (AddTabStop_search fAlloc sColumn n rest) as [Status next'']. done.
Qed.

(** What [AddTabStop] makes of a strictly increasing list when memory is
    available. *)
Lemma AddTabStop_sorted_insert (sColumn : Z) (si : SCREEN_INFORMATION) :
  StronglySorted Z.lt (_ptsTabs si) ->
  let r := AddTabStop true sColumn si in
  StronglySorted Z.lt (_ptsTabs (snd r))
  /\ (forall t, t ∈ _ptsTabs (snd r) <-> t = sColumn \/ t ∈ _ptsTabs si)
  /\ (fst r = STATUS_SUCCESS <-> sColumn ∉ _ptsTabs si).
Proof.
  intros Hs. cbv zeta. unfold AddTabStop.
  destruct (_ptsTabs si) as [|prev next] eqn:Htabs.
  - cbn. split; [repeat constructor|]. split.
    + intros t. rewrite list_elem_of_singleton. rewrite elem_of_nil. tauto.
    + split; [intros _; apply not_elem_of_nil|done].
  - destruct (Z.gtb_spec prev sColumn) as [Hgt|Hle].
    + cbn. pose proof Hs as Hs'.
      apply StronglySorted_inv in Hs' as [_ Hall]. rewrite Forall_forall in Hall.
      split.
      { constructor; [done|]. rewrite Forall_forall. intros t Ht.
        apply elem_of_cons in Ht as [->|Ht]; [lia|]. specialize (Hall t Ht). lia. }
      split; [intros t; rewrite !elem_of_cons; tauto|].
      split; [|done]. intros _ Hin.
      apply elem_of_cons in Hin as [->|Hin]; [lia|]. specialize (Hall _ Hin). lia.
    + pose proof (AddTabStop_search_sorted true sColumn next prev Hs Hle) as Hsearch.
      pose proof (AddTabStop_search_duplicate true sColumn next prev Hs) as Hdupl.
      cbv zeta in Hsearch.
      destruct (AddTabStop_search true sColumn prev next) as [Status next'] eqn:Hsr.
      cbn in Hsearch, Hdupl |- *. destruct Hsearch as (Hsorted & Hmem & Hdup & Hin).
      specialize (Hin eq_refl).
      split; [done|]. split.
      * intros t. rewrite !elem_of_cons, Hmem. split.
        -- intros [->|[Ht|[-> _]]]; tauto.
        -- intros [->|[->|Ht]]; [|tauto..].
           apply elem_of_cons in Hin as [->|Hin]; [tauto|].
           right. by apply Hmem in Hin.
      * split.
        -- intros -> Hc. specialize (Hdupl Hc). done.
        -- intros Hnot.
           apply elem_of_cons in Hin as [->|Hin]; [exfalso; apply Hnot; left|].
           apply Hmem in Hin as [Hin|[_ ?]]; [exfalso; apply Hnot; by right|done].
Qed.

(** With memory available, [AddTabStop] on a strictly increasing list of
    stops succeeds exactly when the column had no stop yet; the stops
    afterwards are the old ones and the column, still strictly increasing. *)
Theorem AddTabStop_succeeds_iff_new (sColumn : Z) (si : SCREEN_INFORMATION) :
  StronglySorted Z.lt (_ptsTabs si) ->
  let r := AddTabStop true sColumn si in
  (fst r = STATUS_SUCCESS <-> sColumn ∉ _ptsTabs si)
  /\ (forall t, t ∈ _ptsTabs (snd r) <-> t = sColumn \/ t ∈ _ptsTabs si)
  /\ StronglySorted Z.lt (_ptsTabs (snd r)).
Proof.
  intros Hs. destruct (AddTabStop_sorted_insert sColumn si Hs) as (H1 & H2 & H3).
  done.
Qed.



Lemma AddTabStop_succeeds_iff_new_witness :
  let si := sample_screen 80 25 0 (mkCOORD 0 0) [4; 8; 16] in
  let r := AddTabStop true 12 si in
  (fst r = STATUS_SUCCESS <-> 12 ∉ _ptsTabs si)
  /\ (forall t, t ∈ _ptsTabs (snd r) <-> t = 12 \/ t ∈ _ptsTabs si)
  /\ StronglySorted Z.lt (_ptsTabs (snd r)).
Proof.
  exact (AddTabStop_succeeds_iff_new 12 (sample_screen 80 25 0 (mkCOORD 0 0) [4; 8; 16])
           sample_tabs_sorted).
Defined.

Lemma ClearTabStop_sorted (sColumn : Z) (tabs : list Z) :
  StronglySorted Z.lt tabs -> StronglySorted Z.lt (filter (fun c => c ≠ sColumn) tabs).
Proof.
  induction 1 as [|a l Hl IH Hall]; [constructor|].
  rewrite filter_cons. case_decide; [|done].
  constructor; [done|]. rewrite Forall_forall in Hall |- *.
  intros t Ht. apply list_elem_of_filter in Ht as [_ Ht]. by apply Hall.
Qed.

(** [ClearTabStop] removes the stop at the column and no other, keeping the
    order.  On a strictly increasing list, clearing after adding is clearing,
    adding after clearing is adding, and clearing undoes the [AddTabStop] of a
    column that had no stop. *)
Theorem ClearTabStop_undoes_AddTabStop (sColumn : Z) (si : SCREEN_INFORMATION) :
  StronglySorted Z.lt (_ptsTabs si) ->
  (forall t, t ∈ _ptsTabs (ClearTabStop sColumn si) <-> t ∈ _ptsTabs si /\ t <> sColumn)
  /\ _ptsTabs (ClearTabStop sColumn si) `sublist_of` _ptsTabs si
  /\ ClearTabStop sColumn (snd (AddTabStop true sColumn si)) = ClearTabStop sColumn si
  /\ snd (AddTabStop true sColumn (ClearTabStop sColumn si)) = snd (AddTabStop true sColumn si)
  /\ (sColumn ∉ _ptsTabs si -> ClearTabStop sColumn (snd (AddTabStop true sColumn si)) = si).
Proof.
  intros Hs.
  assert (Hmem : forall t, t ∈ _ptsTabs (ClearTabStop sColumn si)
                           <-> t ∈ _ptsTabs si /\ t <> sColumn).
  { intros t. unfold ClearTabStop. cbn. rewrite list_elem_of_filter. tauto. }
  assert (Hsame : forall f l s, set_ptsTabs l (set_ptsTabs f s) = set_ptsTabs l s)
    by (intros ? ? []; done).
  assert (Hshape : forall s, exists l, snd (AddTabStop true sColumn s) = set_ptsTabs l s).
  { intros s. unfold AddTabStop. destruct (_ptsTabs s) as [|p n]; [by eexists|].
    destruct (p >? sColumn); [by eexists|].
    destruct (AddTabStop_search true sColumn p n). by eexists. }
  pose proof (ClearTabStop_sorted sColumn _ Hs) as Hs0.
  destruct (AddTabStop_sorted_insert sColumn si Hs) as (Hs1 & Hm1 & _).
  destruct (AddTabStop_sorted_insert sColumn (ClearTabStop sColumn si) Hs0) as (Hs2 & Hm2 & _).
  cbv zeta in Hs1, Hm1, Hs2, Hm2.
  destruct (Hshape si) as [l1 Hl1]. destruct (Hshape (ClearTabStop sColumn si)) as [l2 Hl2].
  rewrite Hl1 in Hs1, Hm1. rewrite Hl2 in Hs2, Hm2. rewrite Hl1, Hl2.
  assert (Hclear : ClearTabStop sColumn (set_ptsTabs l1 si) = ClearTabStop sColumn si).
  { unfold ClearTabStop. rewrite Hsame. f_equal. cbn in Hs1, Hm1 |- *.
    apply StronglySorted_lt_ext; [by apply ClearTabStop_sorted|done|].
    intros t. rewrite !list_elem_of_filter, Hm1. split.
    - intros [Hne [?|?]]; done.
    - intros [Hne Ht]. split; [done|by right]. }
  split; [done|]. split; [unfold ClearTabStop; cbn; apply sublist_filter|].
  split; [done|]. split.
  - unfold ClearTabStop in *. rewrite Hsame. f_equal. cbn in Hs1, Hm1, Hs2, Hm2 |- *.
    apply StronglySorted_lt_ext; [done..|].
    intros t. rewrite Hm1, Hm2, list_elem_of_filter. split.
    + intros [->|[_ ?]]; [by left|by right].
    + intros [->|Ht]; [by left|]. destruct (decide (t = sColumn)); [by left|by right].
  - intros Hc. rewrite Hclear. unfold ClearTabStop.
    transitivity (set_ptsTabs (_ptsTabs si) si); [|by destruct si].
    f_equal. apply StronglySorted_lt_ext; [done..|].
    intros t. rewrite list_elem_of_filter. split; [tauto|].
    intros Ht. split; [intros ->; done|done].
Qed.

Lemma ClearTabStop_undoes_AddTabStop_witness :
  let si := sample_screen 80 25 0 (mkCOORD 0 0) [4; 8; 16] in
  ClearTabStop 12 (snd (AddTabStop true 12 si)) = si.
Proof.
  refine (proj2 (proj2 (proj2 (proj2 (ClearTabStop_undoes_AddTabStop 12
            (sample_screen 80 25 0 (mkCOORD 0 0) [4; 8; 16]) sample_tabs_sorted)))) _).
  cbn. intros Hin.
  repeat (apply elem_of_cons in Hin as [Hin|Hin]; [discriminate Hin|]).
  by apply elem_of_nil in Hin.
Defined.

Lemma GetReverseTab_cases (pos : COORD) (si : SCREEN_INFORMATION) :
  StronglySorted Z.lt (_ptsTabs si) ->
  let r := GetReverseTab pos si in
  Y r = Y pos /\ (X r = 0 \/ (X r ∈ _ptsTabs si /\ X r < X pos)).
Proof.
  intros Hs. cbv zeta. unfold GetReverseTab.
  destruct (_ptsTabs si) as [|first rest]; cbn; [by split; [|left]|].
  destruct (Z.eqb_spec (X pos) 0); cbn; [by split; [|left]|].
  destruct (Z.geb_spec first (X pos)) as [|Hlt]; cbn; [by split; [|left]|].
  destruct (GetReverseTab_scan_greatest (X pos) rest first Hs Hlt) as (Hin & Hg & _).
  split; [done|]. by right.
Qed.

(** A forward tab followed by a reverse tab, over strictly increasing stops
    and from a column that is not negative, never ends to the right of the
    column it started from; and a forward tab from a column before the last
    one moves the cursor to the right. *)
Theorem GetReverseTab_after_GetForwardTab (pos : COORD) (si : SCREEN_INFORMATION) :
  StronglySorted Z.lt (_ptsTabs si) ->
  0 <= X pos ->
  let fwd := GetForwardTab pos si in
  let back := GetReverseTab fwd si in
  X back <= X pos
  /\ Y back = Y fwd
  /\ (X pos < toSHORT (X (GetScreenBufferSize si) - 1) -> X pos < X fwd).
Proof.
  intros Hs Hx. cbv zeta.
  destruct (GetReverseTab_cases (GetForwardTab pos si) si Hs) as (HY & Hback).
  pose proof (GetForwardTab_scan_least (X pos) (_ptsTabs si) Hs) as Hscan.
  split; [|split; [done|]].
  - destruct Hback as [->|[Hin Hlt]]; [done|].
    revert Hin Hlt. generalize (X (GetReverseTab (GetForwardTab pos si) si)). intros b.
    unfold GetForwardTab.
    destruct (Z.eqb_spec (X pos) (toSHORT (X (GetScreenBufferSize si) - 1))); cbn; [lia|].
    destruct (GetForwardTab_scan (X pos) (_ptsTabs si)) as [c|]; cbn; intros Hin Hlt.
    + destruct Hscan as (_ & _ & Hmin).
      destruct (Z.le_gt_cases b (X pos)) as [|Hgt]; [done|].
      specialize (Hmin b Hin ltac:(lia)). lia.
    + by apply Hscan.
  - intros Hw. unfold GetForwardTab.
    destruct (Z.eqb_spec (X pos) (toSHORT (X (GetScreenBufferSize si) - 1))); [lia|].
    destruct (GetForwardTab_scan (X pos) (_ptsTabs si)) as [c|]; cbn; [|done].
    by destruct Hscan as (_ & ? & _).
Qed.

Lemma GetReverseTab_after_GetForwardTab_witness :
  let si := sample_screen 80 25 0 (mkCOORD 0 0) [4; 8; 16] in
  let fwd := GetForwardTab (mkCOORD 5 3) si in
  let back := GetReverseTab fwd si in
  X back <= 5 /\ Y back = Y fwd /\ (5 < toSHORT (80 - 1) -> 5 < X fwd).
Proof.
  exact (GetReverseTab_after_GetForwardTab (mkCOORD 5 3)
           (sample_screen 80 25 0 (mkCOORD 0 0) [4; 8; 16]) sample_tabs_sorted
           ltac:(discriminate)).
Defined.

(** ** Clipping to the buffer *)

(** The clipped rectangle is the intersection of the rectangle with the
    buffer: a cell lies in it exactly when it lies in the rectangle and in
    the buffer.  A rectangle inside the buffer is returned as it is. *)
Theorem ClipToScreenBuffer_intersection (psrClip : SMALL_RECT) (si : SCREEN_INFORMATION) :
  1 <= X (GetScreenBufferSize si) <= 32767 ->
  1 <= Y (GetScreenBufferSize si) <= 32767 ->
  let r := ClipToScreenBuffer psrClip si in
  (forall p, in_rect p r <-> in_rect p psrClip /\ in_rect p (GetScreenEdges si))
  /\ (0 <= Left r /\ 0 <= Top r
      /\ Right r < X (GetScreenBufferSize si) /\ Bottom r < Y (GetScreenBufferSize si))
  /\ (0 <= Left psrClip -> 0 <= Top psrClip ->
      Right psrClip < X (GetScreenBufferSize si) ->
      Bottom psrClip < Y (GetScreenBufferSize si) -> r = psrClip)
  /\ ClipToScreenBuffer r si = r.
Proof.
  intros HX HY. cbv zeta.
  unfold ClipToScreenBuffer, GetScreenEdges, in_rect.
  cbn [Left Top Right Bottom].
  rewrite !toSHORT_id by (unfold isSHORT; lia).
  rewrite !max_spec, !min_spec.
  split; [intros p; lia|]. split; [lia|]. split.
  - intros. destruct psrClip as [l t r b]. cbn in *. f_equal; lia.
  - f_equal; lia.
Qed.

Lemma ClipToScreenBuffer_intersection_witness :
  let si := sample_screen 80 25 0 (mkCOORD 0 0) [] in
  ClipToScreenBuffer (mkSMALL_RECT (-3) 4 85 30) si = mkSMALL_RECT 0 4 79 24
  /\ forall p, in_rect p (ClipToScreenBuffer (mkSMALL_RECT (-3) 4 85 30) si)
               <-> in_rect p (mkSMALL_RECT (-3) 4 85 30) /\ in_rect p (GetScreenEdges si).
Proof.
  split; [reflexivity|].
  exact (proj1 (ClipToScreenBuffer_intersection (mkSMALL_RECT (-3) 4 85 30)
                  (sample_screen 80 25 0 (mkCOORD 0 0) [])
                  ltac:(vm_compute; split; discriminate)
                  ltac:(vm_compute; split; discriminate))).
Defined.

(** The clipped coordinate is a cell of the buffer, the nearest one in each
    direction: a coordinate inside the buffer is returned as it is, one
    outside moves to the edge it passed. *)
Theorem ClipToScreenBuffer_COORD_nearest (pcoordClip : COORD) (si : SCREEN_INFORMATION) :
  1 <= X (GetScreenBufferSize si) <= 32767 ->
  1 <= Y (GetScreenBufferSize si) <= 32767 ->
  let r := ClipToScreenBuffer_COORD pcoordClip si in
  in_rect r (GetScreenEdges si)
  /\ X r = Z.max 0 (Z.min (X pcoordClip) (X (GetScreenBufferSize si) - 1))
  /\ Y r = Z.max 0 (Z.min (Y pcoordClip) (Y (GetScreenBufferSize si) - 1))
  /\ (in_rect pcoordClip (GetScreenEdges si) -> r = pcoordClip).
Proof.
  intros HX HY. cbv zeta.
  unfold ClipToScreenBuffer_COORD, GetScreenEdges, in_rect.
  cbn [Left Top Right Bottom X Y].
  rewrite !toSHORT_id by (unfold isSHORT; lia).
  rewrite !max_spec, !min_spec.
  split; [lia|]. split; [lia|]. split; [lia|].
  intros. destruct pcoordClip as [x y]. cbn in *. f_equal; lia.
Qed.

Lemma ClipToScreenBuffer_COORD_nearest_witness :
  let si := sample_screen 80 25 0 (mkCOORD 0 0) [] in
  let r := ClipToScreenBuffer_COORD (mkCOORD 85 (-2)) si in
  in_rect r (GetScreenEdges si) /\ X r = Z.max 0 (Z.min 85 (80 - 1))
  /\ Y r = Z.max 0 (Z.min (-2) (25 - 1)).
Proof.
  destruct (ClipToScreenBuffer_COORD_nearest (mkCOORD 85 (-2))
              (sample_screen 80 25 0 (mkCOORD 0 0) [])
              ltac:(vm_compute; split; discriminate)
              ltac:(vm_compute; split; discriminate)) as (H1 & H2 & H3 & _).
  exact (conj H1 (conj H2 H3)).
Defined.

(** ** Bringing the cursor into view *)



Lemma MakeCursorVisible_ignores_text (fActive fWindow : bool) (pos : COORD)
    (tb : TEXT_BUFFER_INFO) (si : SCREEN_INFORMATION) :
  viewport_after (MakeCursorVisible fActive fWindow pos (set_TextInfo tb si))
  = viewport_after (MakeCursorVisible fActive fWindow pos si).
Proof.
  unfold viewport_after, MakeCursorVisible, SetViewportOrigin, GetScreenWindowSizeX,
    GetScreenWindowSizeY, GetScreenBufferSize.
  destruct si as [sz vp t at' tabs mn al sm ad bw api fl].
  cbn [_srBufferViewport _coordScreenBufferSize set_TextInfo].
  repeat match goal with
  | |- context [if ?c then _ else _] => destruct c; cbn
  end; reflexivity.
Qed.

(** Where the new window goes: a buffer that is not active stores it, the
    active buffer stores nothing and hands it to the window object, the same
    window, when there is a window object. *)
Lemma MakeCursorVisible_cases (fActive fWindow : bool) (pos : COORD)
    (si : SCREEN_INFORMATION) :
  let r := MakeCursorVisible fActive fWindow pos si in
  (fActive = true -> fst r = si)
  /\ (fActive = true -> fWindow = false -> r = (si, None))
  /\ (fActive = false -> snd r = None)
  /\ viewport_after (MakeCursorVisible true true pos si)
     = viewport_after (MakeCursorVisible false fWindow pos si).
Proof.
  unfold viewport_after, MakeCursorVisible, SetViewportOrigin.
  cbv zeta.
  repeat match goal with
  | |- context [if ?c then _ else _] =>
      lazymatch c with
      | fActive => fail
      | fWindow => fail
      | _ => destruct c; cbn [negb orb andb fst snd]
      end
  end;
  destruct fActive, fWindow; cbn; repeat split; try done.
Qed.

Lemma MakeCursorVisible_spec (fWindow : bool) (CursorPosition : COORD)
    (si : SCREEN_INFORMATION) :
  viewport_contained si ->
  X (GetScreenBufferSize si) <= 32767 -> Y (GetScreenBufferSize si) <= 32767 ->
  in_rect CursorPosition (GetScreenEdges si) ->
  let vp := _srBufferViewport si in
  let vp' := viewport_after (MakeCursorVisible false fWindow CursorPosition si) in
  in_rect CursorPosition vp'
  /\ CalcWindowSizeX vp' = CalcWindowSizeX vp /\ CalcWindowSizeY vp' = CalcWindowSizeY vp
  /\ 0 <= Left vp' /\ Right vp' < X (GetScreenBufferSize si)
  /\ 0 <= Top vp' /\ Bottom vp' < Y (GetScreenBufferSize si)
  /\ Left vp' = (if X CursorPosition >? Right vp then Left vp + (X CursorPosition - Right vp)
                 else if X CursorPosition <? Left vp then X CursorPosition else Left vp)
  /\ Top vp' = (if Y CursorPosition >? Bottom vp then Top vp + (Y CursorPosition - Bottom vp)
                else if Y CursorPosition <? Top vp then Y CursorPosition else Top vp)
  /\ _srBufferViewport (fst (MakeCursorVisible false fWindow CursorPosition si)) = vp'.
Proof.
  unfold viewport_contained, in_rect, GetScreenEdges, viewport_after, MakeCursorVisible,
    SetViewportOrigin, GetScreenWindowSizeX, GetScreenWindowSizeY,
    CalcWindowSizeX, CalcWindowSizeY, GetScreenBufferSize.
  destruct si as [[cols rows] [L T R B] tb at' tabs mn al sm ad bw api fl].
  destruct CursorPosition as [cx cy].
  cbn [_srBufferViewport _coordScreenBufferSize Left Top Right Bottom X Y].
  intros (HL & HLR & HR & HT & HTB & HB) Hcx Hcy.
  rewrite !(toSHORT_id (cols - 1)), !(toSHORT_id (rows - 1)) by (unfold isSHORT; lia).
  intros [Hx Hy].
  rewrite (toSHORT_id (R - L + 1)) by (unfold isSHORT; lia).
  rewrite (toSHORT_id (B - T + 1)) by (unfold isSHORT; lia).
  rewrite (toSHORT_id (cx - R)), (toSHORT_id (cx - L)), (toSHORT_id (cy - B)),
    (toSHORT_id (cy - T)) by (unfold isSHORT; lia).
  destruct (Z.gtb_spec cx R); [|destruct (Z.ltb_spec cx L)];
    (destruct (Z.gtb_spec cy B); [|destruct (Z.ltb_spec cy T)]);
    cbn [X Y negb orb andb];
    repeat match goal with
    | |- context [?a =? 0] => destruct (Z.eqb_spec a 0); [try lia|]
    end;
    cbn [negb orb andb fst snd _srBufferViewport];
    try rewrite !Z.add_0_r;
    rewrite ?(toSHORT_id (L + (cx - R))), ?(toSHORT_id (L + (cx - L))),
      ?(toSHORT_id (T + (cy - B))), ?(toSHORT_id (T + (cy - T))), ?(toSHORT_id L),
      ?(toSHORT_id T) by (unfold isSHORT; lia);
    rewrite ?(toSHORT_id (L + (cx - R) + (R - L + 1) - 1)),
      ?(toSHORT_id (L + (cx - L) + (R - L + 1) - 1)),
      ?(toSHORT_id (L + (R - L + 1) - 1)),
      ?(toSHORT_id (T + (cy - B) + (B - T + 1) - 1)),
      ?(toSHORT_id (T + (cy - T) + (B - T + 1) - 1)),
      ?(toSHORT_id (T + (B - T + 1) - 1)) by (unfold isSHORT; lia);
    cbn [Left Top Right Bottom];
    split_inner_comparisons; try lia;
    cbn [negb orb andb fst snd _srBufferViewport set_srBufferViewport Left Top Right Bottom];
    repeat split; try lia; try (intros; lia).
Qed.

(** A position inside the viewport moves nothing, whatever the buffer. *)
Lemma MakeCursorVisible_inside (fActive fWindow : bool) (CursorPosition : COORD)
    (si : SCREEN_INFORMATION) :
  in_rect CursorPosition (_srBufferViewport si) ->
  MakeCursorVisible fActive fWindow CursorPosition si = (si, None).
Proof.
  unfold in_rect, MakeCursorVisible. intros [[Hl Hr] [Ht Hb]]. cbv zeta. cbn [X Y].
  destruct (Z.gtb_spec (X CursorPosition) (Right (_srBufferViewport si))); [lia|].
  destruct (Z.ltb_spec (X CursorPosition) (Left (_srBufferViewport si))); [lia|].
  destruct (Z.gtb_spec (Y CursorPosition) (Bottom (_srBufferViewport si))); [lia|].
  destruct (Z.ltb_spec (Y CursorPosition) (Top (_srBufferViewport si))); [lia|].
  reflexivity.
Qed.

(** From a viewport inside the buffer and a cursor position inside the
    buffer, [MakeCursorVisible] on a buffer that is not active, or on the
    active buffer of a console with a window, ends with a viewport of the
    same width and height, still inside the buffer, that shows the cursor: a
    buffer that is not active stores it, the active buffer hands it to the
    window object.  [SetCursorPosition] to that position succeeds, and
    [MakeCurrentCursorVisible] after it ends with the same viewport.  The
    viewport is not moved when the cursor is already shown.  On the active
    buffer of a console without a window nothing is stored and nothing is
    handed over: a cursor outside the viewport stays outside. *)
Theorem MakeCursorVisible_shows_cursor (fActive fWindow : bool) (CursorPosition : COORD)
    (si : SCREEN_INFORMATION) :
  viewport_contained si ->
  X (GetScreenBufferSize si) <= 32767 -> Y (GetScreenBufferSize si) <= 32767 ->
  in_rect CursorPosition (GetScreenEdges si) ->
  let vp := _srBufferViewport si in
  let r := MakeCursorVisible fActive fWindow CursorPosition si in
  let vp' := viewport_after r in
  (fActive = false \/ fWindow = true ->
   in_rect CursorPosition vp'
   /\ CalcWindowSizeX vp' = CalcWindowSizeX vp /\ CalcWindowSizeY vp' = CalcWindowSizeY vp
   /\ in_rect (mkCOORD (Left vp') (Top vp')) (GetScreenEdges si)
   /\ in_rect (mkCOORD (Right vp') (Bottom vp')) (GetScreenEdges si)
   /\ (fActive = false -> _srBufferViewport (fst r) = vp' /\ snd r = None)
   /\ (forall CONSOLE_HAS_FOCUS Flags TurnOn,
         exists si',
           SetCursorPosition CONSOLE_HAS_FOCUS Flags CursorPosition TurnOn si
           = (STATUS_SUCCESS, si')
           /\ viewport_after (MakeCurrentCursorVisible fActive fWindow si') = vp'))
  /\ (fActive = true -> fst r = si)
  /\ (in_rect CursorPosition vp -> r = (si, None))
  /\ (fActive = true -> fWindow = false ->
      r = (si, None) /\ (~ in_rect CursorPosition vp -> ~ in_rect CursorPosition vp')).
Proof.
  intros Hvc HcX HcY Hin. cbv zeta.
  destruct (MakeCursorVisible_cases fActive fWindow CursorPosition si)
    as (Hact & Hnowin & Hinact & _).
  cbv zeta in Hact, Hnowin, Hinact.
  split; [|split; [exact Hact|split; [apply MakeCursorVisible_inside|]]].
  2:{ intros Ha Hw. split; [by apply Hnowin|]. rewrite (Hnowin Ha Hw). done. }
  intros Hmode.
  assert (Hsame : forall p s,
            viewport_after (MakeCursorVisible fActive fWindow p s)
            = viewport_after (MakeCursorVisible false fWindow p s)).
  { intros p s. destruct fActive; [|done].
    destruct Hmode as [? | ->]; [done|].
    apply (MakeCursorVisible_cases true true p s). }
  rewrite Hsame.
  destruct (MakeCursorVisible_spec fWindow CursorPosition si Hvc HcX HcY Hin)
    as (H1 & H2 & H3 & H4 & H5 & H6 & H7 & _ & _ & H8).
  cbv zeta in *.
  split; [done|]. split; [done|]. split; [done|].
  destruct Hvc as (HL & HLR & HR & HT & HTB & HB).
  assert (Hedges : GetScreenEdges si
                   = mkSMALL_RECT 0 0 (X (GetScreenBufferSize si) - 1)
                       (Y (GetScreenBufferSize si) - 1)).
  { unfold GetScreenEdges. by rewrite !toSHORT_id by (unfold isSHORT; lia). }
  unfold CalcWindowSizeX, CalcWindowSizeY in H2, H3.
  split; [rewrite Hedges; unfold in_rect; cbn; lia|].
  split; [rewrite Hedges; unfold in_rect; cbn; lia|].
  split; [intros ->; split; [exact H8|by apply Hinact]|].
  intros focus Flags TurnOn. unfold SetCursorPosition.
  destruct Hin as [HinX HinY]. rewrite Hedges in HinX, HinY.
  cbn [Left Top Right Bottom] in HinX, HinY.
  destruct (Z.geb_spec (X CursorPosition) (X (GetScreenBufferSize si))); [lia|].
  destruct (Z.geb_spec (Y CursorPosition) (Y (GetScreenBufferSize si))); [lia|].
  destruct (Z.ltb_spec (X CursorPosition) 0); [lia|].
  destruct (Z.ltb_spec (Y CursorPosition) 0); [lia|].
  cbn [orb]. eexists. split; [reflexivity|].
  unfold MakeCurrentCursorVisible. rewrite Hsame.
  rewrite <- (MakeCursorVisible_ignores_text false fWindow CursorPosition
                (set_tbCursor
                   (if negb (Z.land Flags focus =? 0)
                    then Cursor_SetHasMoved true
                           (if TurnOn
                            then Cursor_SetIsOn true
                                   (Cursor_SetDelay false
                                      (Cursor_SetPosition CursorPosition
                                         (GetCursor (TextInfo si))))
                            else Cursor_SetDelay true
                                   (Cursor_SetPosition CursorPosition
                                      (GetCursor (TextInfo si))))
                    else Cursor_SetPosition CursorPosition (GetCursor (TextInfo si)))
                   (TextInfo si)) si).
  f_equal. f_equal.
  destruct (negb (Z.land Flags focus =? 0)), TurnOn; reflexivity.
Qed.

(** A window of 40 by 10 cells at the top left of a buffer of 80 by 25 cells
    and the cursor position (50, 20).  A buffer that is not active ends with
    a viewport that shows it; the active buffer of a console without a
    window keeps the viewport it has, which does not show it. *)
Lemma MakeCursorVisible_shows_cursor_witness :
  let si := set_srBufferViewport (mkSMALL_RECT 0 0 39 9)
              (sample_screen 80 25 0 (mkCOORD 0 0) []) in
  let vp' := viewport_after (MakeCursorVisible false false (mkCOORD 50 20) si) in
  (in_rect (mkCOORD 50 20) vp'
   /\ CalcWindowSizeX vp' = 40 /\ CalcWindowSizeY vp' = 10)
  /\ MakeCursorVisible true false (mkCOORD 50 20) si = (si, None).
Proof.
  split.
  - destruct (MakeCursorVisible_shows_cursor false false (mkCOORD 50 20)
                (set_srBufferViewport (mkSMALL_RECT 0 0 39 9)
                   (sample_screen 80 25 0 (mkCOORD 0 0) []))
                ltac:(vm_compute; intuition congruence)
                ltac:(vm_compute; intuition congruence)
                ltac:(vm_compute; intuition congruence)
                ltac:(vm_compute; intuition congruence)) as (Hshown & _).
    destruct (Hshown (or_introl eq_refl)) as (H1 & H2 & H3 & _).
    exact (conj H1 (conj H2 H3)).
  - apply (MakeCursorVisible_shows_cursor true false (mkCOORD 50 20)
             (set_srBufferViewport (mkSMALL_RECT 0 0 39 9)
                (sample_screen 80 25 0 (mkCOORD 0 0) []))
             ltac:(vm_compute; intuition congruence)
             ltac:(vm_compute; intuition congruence)
             ltac:(vm_compute; intuition congruence)
             ltac:(vm_compute; intuition congruence)); reflexivity.
Defined.

Lemma InternalSetViewportSize_extent (coordValidEnd pcoordSize : COORD)
    (fResizeFromTop fResizeFromLeft : bool) (si : SCREEN_INFORMATION) :
  viewport_contained si ->
  1 <= X pcoordSize -> 1 <= Y pcoordSize ->
  X (GetScreenBufferSize si) + X pcoordSize <= 32768 ->
  Y (GetScreenBufferSize si) + Y pcoordSize <= 32768 ->
  let vp' :=
    _srBufferViewport
      (_InternalSetViewportSize coordValidEnd pcoordSize fResizeFromTop fResizeFromLeft si) in
  Right vp' - Left vp' + 1 = Z.min (X pcoordSize) (X (GetScreenBufferSize si))
  /\ Bottom vp' - Top vp' + 1 = Z.min (Y pcoordSize) (Y (GetScreenBufferSize si))
  /\ 0 <= Left vp' /\ 0 <= Top vp'
  /\ Right vp' < X (GetScreenBufferSize si) /\ Bottom vp' < Y (GetScreenBufferSize si).
Proof.
  unfold viewport_contained, _InternalSetViewportSize, GetScreenWindowSizeX,
    GetScreenWindowSizeY, CalcWindowSizeX, CalcWindowSizeY, GetScreenBufferSize, min, abs.
  destruct si as [[cols rows] [L T R B] tb at' tabs mn al sm ad bw api fl].
  cbn [_srBufferViewport _coordScreenBufferSize Left Top Right Bottom X Y
       set_srBufferViewport].
  intros (HL & HLR & HR & HT & HTB & HB) Hsx Hsy Hcx Hcy.
  destruct fResizeFromLeft, fResizeFromTop;
    repeat (progress
      (split_comparisons;
       cbn [_srBufferViewport _coordScreenBufferSize Left Top Right Bottom X Y
            set_srBufferViewport]));
    forget_toSHORT; lia.
Qed.

Lemma IsMaximizedX_true (si : SCREEN_INFORMATION) :
  IsMaximizedX si = true
  <-> Left (_srBufferViewport si) = 0
      /\ Right (_srBufferViewport si) + 1 = X (GetScreenBufferSize si).
Proof. unfold IsMaximizedX. rewrite andb_true_iff, !Z.eqb_eq. tauto. Qed.

Lemma IsMaximizedY_true (si : SCREEN_INFORMATION) :
  IsMaximizedY si = true
  <-> Top (_srBufferViewport si) = 0
      /\ Bottom (_srBufferViewport si) + 1 = Y (GetScreenBufferSize si).
Proof. unfold IsMaximizedY. rewrite andb_true_iff, !Z.eqb_eq. tauto. Qed.

(** From a viewport inside the buffer, [_InternalSetViewportSize] gives the
    viewport the requested width and height, each cut down to the buffer's,
    whichever edges it is told to resize from; a request at least as large as
    the buffer leaves the viewport maximized in that direction. *)
Theorem InternalSetViewportSize_achieves_size (coordValidEnd pcoordSize : COORD)
    (fResizeFromTop fResizeFromLeft : bool) (si : SCREEN_INFORMATION) :
  viewport_contained si ->
  1 <= X pcoordSize -> 1 <= Y pcoordSize ->
  X (GetScreenBufferSize si) + X pcoordSize <= 32768 ->
  Y (GetScreenBufferSize si) + Y pcoordSize <= 32768 ->
  let si' :=
    _InternalSetViewportSize coordValidEnd pcoordSize fResizeFromTop fResizeFromLeft si in
  GetScreenBufferSize si' = GetScreenBufferSize si
  /\ GetScreenWindowSizeX si' = Z.min (X pcoordSize) (X (GetScreenBufferSize si))
  /\ GetScreenWindowSizeY si' = Z.min (Y pcoordSize) (Y (GetScreenBufferSize si))
  /\ (X (GetScreenBufferSize si) <= X pcoordSize -> IsMaximizedX si' = true)
  /\ (Y (GetScreenBufferSize si) <= Y pcoordSize -> IsMaximizedY si' = true).
Proof.
  intros Hc Hsx Hsy Hcx Hcy.
  destruct (InternalSetViewportSize_extent coordValidEnd pcoordSize fResizeFromTop
              fResizeFromLeft si Hc Hsx Hsy Hcx Hcy) as (HW & HH & HL & HT & HR & HB).
  cbv zeta in *.
  assert (Hsz : GetScreenBufferSize
                  (_InternalSetViewportSize coordValidEnd pcoordSize fResizeFromTop
                     fResizeFromLeft si) = GetScreenBufferSize si).
  { unfold _InternalSetViewportSize.
    repeat match goal with
    | |- context [let '(_, _) := ?e in _] => destruct e
    end. reflexivity. }
  destruct Hc as (? & ? & ? & ? & ? & ?).
  split; [done|].
  unfold GetScreenWindowSizeX, GetScreenWindowSizeY, CalcWindowSizeX, CalcWindowSizeY.
  rewrite HW, HH, !toSHORT_id by (unfold isSHORT; lia).
  split; [done|]. split; [done|].
  rewrite IsMaximizedX_true, IsMaximizedY_true, Hsz. lia.
Qed.

Lemma InternalSetViewportSize_achieves_size_witness :
  let si := set_srBufferViewport (mkSMALL_RECT 10 5 49 14)
              (sample_screen 80 25 0 (mkCOORD 0 0) []) in
  let si' := _InternalSetViewportSize (mkCOORD 0 0) (mkCOORD 100 20) false true si in
  GetScreenBufferSize si' = GetScreenBufferSize si
  /\ GetScreenWindowSizeX si' = Z.min 100 80
  /\ GetScreenWindowSizeY si' = Z.min 20 25
  /\ (80 <= 100 -> IsMaximizedX si' = true)
  /\ (25 <= 20 -> IsMaximizedY si' = true).
Proof.
  apply (InternalSetViewportSize_achieves_size (mkCOORD 0 0) (mkCOORD 100 20) false true
           (set_srBufferViewport (mkSMALL_RECT 10 5 49 14)
              (sample_screen 80 25 0 (mkCOORD 0 0) [])));
    vm_compute; intuition congruence.
Defined.

Lemma GetScreenFontSize_positive (g_pRender : option COORD) :
  render_font_ok g_pRender ->
  1 <= X (GetScreenFontSize g_pRender) <= 32767
  /\ 1 <= Y (GetScreenFontSize g_pRender) <= 32767.
Proof.
  unfold render_font_ok, GetScreenFontSize, isSHORT.
  destruct g_pRender as [[fx fy]|]; cbn [X Y]; rewrite !max_spec.
  - intros [Hx Hy]. rewrite !toSHORT_id by (unfold isSHORT; lia). lia.
  - intros _. rewrite !toSHORT_id by (unfold isSHORT; lia). lia.
Qed.

Lemma toLONG_wraps z :
  exists k, toLONG z = z + 4294967296 * k /\ -2147483648 <= toLONG z <= 2147483647.
Proof.
  unfold toLONG. exists (- ((z + 2147483648) / 4294967296)).
  pose proof (Z.div_mod (z + 2147483648) 4294967296 ltac:(lia)).
  pose proof (Z.mod_pos_bound (z + 2147483648) 4294967296 ltac:(lia)). lia.
Qed.

(** The scroll bar sizes in characters are the pixel sizes divided by the
    font size and rounded up: the least number of cells that covers the bar. *)
Theorem GetScrollBarSizesInCharacters_rounds_up
    (g_sHorizontalScrollSize g_sVerticalScrollSize : Z) (g_pRender : option COORD) :
  render_font_ok g_pRender ->
  0 <= g_sHorizontalScrollSize <= 32767 -> 0 <= g_sVerticalScrollSize <= 32767 ->
  let font := GetScreenFontSize g_pRender in
  let bars :=
    GetScrollBarSizesInCharacters g_sHorizontalScrollSize g_sVerticalScrollSize g_pRender in
  g_sVerticalScrollSize <= X bars * X font < g_sVerticalScrollSize + X font
  /\ g_sHorizontalScrollSize <= Y bars * Y font < g_sHorizontalScrollSize + Y font.
Proof.
  intros Hf Hh Hv. cbv zeta. unfold GetScrollBarSizesInCharacters.
  destruct (GetScreenFontSize_positive g_pRender Hf) as [Hfx Hfy].
  set (fx := X (GetScreenFontSize g_pRender)) in *.
  set (fy := Y (GetScreenFontSize g_pRender)) in *.
  cbn [X Y].
  rewrite !Z.quot_div_nonneg, !Z.rem_mod_nonneg by lia.
  pose proof (Z.div_mod g_sVerticalScrollSize fx ltac:(lia)).
  pose proof (Z.mod_pos_bound g_sVerticalScrollSize fx ltac:(lia)).
  pose proof (Z.div_mod g_sHorizontalScrollSize fy ltac:(lia)).
  pose proof (Z.mod_pos_bound g_sHorizontalScrollSize fy ltac:(lia)).
  assert (0 <= g_sVerticalScrollSize / fx <= 32767).
  { split; [apply Z.div_pos; lia|]. apply Z.div_le_upper_bound; nia. }
  assert (0 <= g_sHorizontalScrollSize / fy <= 32767).
  { split; [apply Z.div_pos; lia|]. apply Z.div_le_upper_bound; nia. }
  destruct (Z.eqb_spec (g_sVerticalScrollSize mod fx) 0),
           (Z.eqb_spec (g_sHorizontalScrollSize mod fy) 0); cbn [negb];
    rewrite !toSHORT_id; unfold isSHORT; try nia.
Qed.

Lemma GetScrollBarSizesInCharacters_rounds_up_witness :
  let bars := GetScrollBarSizesInCharacters 17 17 (Some (mkCOORD 8 16)) in
  bars = mkCOORD 3 2 /\ 17 <= X bars * 8 < 25 /\ 17 <= Y bars * 16 < 33.
Proof.
  split; [reflexivity|].
  exact (GetScrollBarSizesInCharacters_rounds_up 17 17 (Some (mkCOORD 8 16))
           ltac:(vm_compute; intuition congruence) ltac:(lia) ltac:(lia)).
Defined.

Lemma quot_lt_iff (a f b : Z) : 1 <= f -> 1 <= b -> Z.quot a f < b <-> a < b * f.
Proof.
  intros Hf Hb. destruct (Z.le_gt_cases 0 a) as [Ha|Ha].
  - rewrite Z.quot_div_nonneg by lia. split.
    + intros Hlt. pose proof (Z.div_mod a f ltac:(lia)).
      pose proof (Z.mod_pos_bound a f ltac:(lia)). nia.
    + intros Hlt. apply Z.div_lt_upper_bound; lia.
  - pose proof (Z.quot_opp_l a f ltac:(lia)) as Hq.
    assert (0 <= Z.quot (- a) f) by (apply Z.quot_pos; lia).
    split; intros; nia.
Qed.

Lemma quot_floor (a f : Z) : 0 <= a -> 1 <= f -> Z.quot a f * f <= a < (Z.quot a f + 1) * f.
Proof.
  intros Ha Hf. rewrite Z.quot_div_nonneg by lia.
  pose proof (Z.div_mod a f ltac:(lia)). pose proof (Z.mod_pos_bound a f ltac:(lia)). nia.
Qed.

Lemma quot_short (a f : Z) : 1 <= f -> -32768 <= a -> a < 32768 * f -> isSHORT (Z.quot a f).
Proof.
  intros Hf Hlo Hhi. unfold isSHORT. split.
  - destruct (Z.le_gt_cases 0 a) as [Ha|Ha].
    + pose proof (Z.quot_pos a f Ha ltac:(lia)). lia.
    + pose proof (Z.quot_opp_l a f ltac:(lia)) as Hq.
      assert (Z.quot (- a) f <= - a) by (apply Z.quot_le_upper_bound; nia).
      lia.
  - assert (Z.quot a f < 32768) by (apply quot_lt_iff; lia). lia.
Qed.

(** What [_CalculateViewportSize] computes, side by side with the scroll bars
    [s_CalculateScrollbarVisibility] decides on: the viewport is narrower than
    the buffer exactly when the horizontal bar is shown and shorter exactly
    when the vertical bar is shown, and each dimension is the largest number
    of whole cells that fits in the client area left beside the bar. *)
Theorem CalculateViewportSize_matches_scrollbars
    (g_sHorizontalScrollSize g_sVerticalScrollSize : Z) (g_pRender : option COORD)
    (prcClientArea : RECT) (si : SCREEN_INFORMATION) :
  render_font_ok g_pRender ->
  0 <= g_sHorizontalScrollSize <= 32767 -> 0 <= g_sVerticalScrollSize <= 32767 ->
  1 <= X (GetScreenBufferSize si) <= 32767 -> 1 <= Y (GetScreenBufferSize si) <= 32767 ->
  let font := GetScreenFontSize g_pRender in
  0 < RECT_WIDTH prcClientArea < 32768 * X font ->
  0 < RECT_HEIGHT prcClientArea < 32768 * Y font ->
  let bars :=
    s_CalculateScrollbarVisibility g_sHorizontalScrollSize g_sVerticalScrollSize
      prcClientArea (GetScreenBufferSize si) font in
  let size :=
    _CalculateViewportSize g_sHorizontalScrollSize g_sVerticalScrollSize g_pRender
      prcClientArea si in
  let availX := RECT_WIDTH prcClientArea - (if snd bars then g_sVerticalScrollSize else 0) in
  let availY := RECT_HEIGHT prcClientArea - (if fst bars then g_sHorizontalScrollSize else 0) in
  (fst bars = true <-> X size < X (GetScreenBufferSize si))
  /\ (snd bars = true <-> Y size < Y (GetScreenBufferSize si))
  /\ (0 <= availX -> X size * X font <= availX < (X size + 1) * X font)
  /\ (0 <= availY -> Y size * Y font <= availY < (Y size + 1) * Y font).
Proof.
  intros Hf Hh Hv HX HY. cbv zeta.
  destruct (GetScreenFontSize_positive g_pRender Hf) as [Hfx Hfy].
  unfold _CalculateViewportSize, s_CalculateScrollbarVisibility.
  set (fx := X (GetScreenFontSize g_pRender)) in *.
  set (fy := Y (GetScreenFontSize g_pRender)) in *.
  set (bx := X (GetScreenBufferSize si)) in *.
  set (by' := Y (GetScreenBufferSize si)) in *.
  set (w := RECT_WIDTH prcClientArea). set (h := RECT_HEIGHT prcClientArea).
  intros Hw Hh'.
  rewrite (toLONG_id w), (toLONG_id h), (toLONG_id (bx * fx)), (toLONG_id (by' * fy))
    by (unfold isLONG; nia).
  rewrite (toLONG_id (h - g_sHorizontalScrollSize)), (toLONG_id (w - g_sVerticalScrollSize))
    by (unfold isLONG; nia).
  assert (Hq : forall a f, 1 <= f -> -32768 <= a -> a < 32768 * f ->
                           toSHORT (Z.quot a f) = Z.quot a f).
  { intros. by apply toSHORT_id, quot_short. }
  destruct (Z.gtb_spec (bx * fx) w) as [H1|H1].
  - destruct (Z.gtb_spec (by' * fy) (h - g_sHorizontalScrollSize)) as [H2|H2];
      cbn [fst snd X Y]; rewrite !Hq by lia.
    + rewrite !quot_lt_iff by lia.
      split; [split; [lia|done]|]. split; [split; [lia|done]|].
      split; intros; apply quot_floor; lia.
    + rewrite !quot_lt_iff by lia.
      split; [split; [lia|done]|]. split; [split; [done|lia]|].
      rewrite Z.sub_0_r. split; intros; apply quot_floor; lia.
  - destruct (Z.gtb_spec (by' * fy) h) as [H2|H2].
    + destruct (Z.gtb_spec (bx * fx) (w - g_sVerticalScrollSize)) as [H3|H3];
        cbn [fst snd X Y]; rewrite !Hq by lia; rewrite !quot_lt_iff by lia.
      * split; [split; [lia|done]|]. split; [split; [lia|done]|].
        split; intros; apply quot_floor; lia.
      * split; [split; [done|lia]|]. split; [split; [lia|done]|].
        rewrite Z.sub_0_r. split; intros; apply quot_floor; lia.
    + cbn [fst snd X Y]. rewrite !Hq by lia. rewrite !quot_lt_iff by lia.
      split; [split; [done|lia]|]. split; [split; [done|lia]|].
      rewrite !Z.sub_0_r. split; intros; apply quot_floor; lia.
Qed.

Lemma CalculateViewportSize_matches_scrollbars_witness :
  let si := sample_screen 80 25 0 (mkCOORD 0 0) [] in
  let rc := mkRECT 0 0 640 300 in
  let bars := s_CalculateScrollbarVisibility 17 17 rc (GetScreenBufferSize si)
                (GetScreenFontSize (Some (mkCOORD 8 16))) in
  let size := _CalculateViewportSize 17 17 (Some (mkCOORD 8 16)) rc si in
  (fst bars = true <-> X size < 80) /\ (snd bars = true <-> Y size < 25).
Proof.
  pose proof (CalculateViewportSize_matches_scrollbars 17 17 (Some (mkCOORD 8 16))
                (mkRECT 0 0 640 300) (sample_screen 80 25 0 (mkCOORD 0 0) [])
                ltac:(vm_compute; intuition congruence)
                ltac:(vm_compute; intuition congruence)
                ltac:(vm_compute; intuition congruence)
                ltac:(vm_compute; intuition congruence)
                ltac:(vm_compute; intuition congruence)
                ltac:(vm_compute; intuition congruence)
                ltac:(vm_compute; intuition congruence)) as (H1 & H2 & _).
  exact (conj H1 H2).
Defined.

(** [_AdjustScreenBufferHelper] never reports [E_NOT_VALID_STATE]: the font
    size it tests for zero comes from [GetScreenFontSize], which is at least 1
    each way.  For the buffer's own size it yields what
    [_CalculateViewportSize] does. *)
Theorem AdjustScreenBufferHelper_never_fails
    (g_sHorizontalScrollSize g_sVerticalScrollSize : Z) (g_pRender : option COORD)
    (prcClientNew : RECT) (coordBufferOld : COORD) (si : SCREEN_INFORMATION) :
  render_font_ok g_pRender ->
  fst (_AdjustScreenBufferHelper g_sHorizontalScrollSize g_sVerticalScrollSize g_pRender
         prcClientNew coordBufferOld) = S_OK
  /\ is_Some (snd (_AdjustScreenBufferHelper g_sHorizontalScrollSize g_sVerticalScrollSize
                     g_pRender prcClientNew coordBufferOld))
  /\ _AdjustScreenBufferHelper g_sHorizontalScrollSize g_sVerticalScrollSize g_pRender
       prcClientNew (GetScreenBufferSize si)
     = (S_OK, Some (_CalculateViewportSize g_sHorizontalScrollSize g_sVerticalScrollSize
                      g_pRender prcClientNew si)).
Proof.
  intros Hf. destruct (GetScreenFontSize_positive g_pRender Hf) as [Hfx Hfy].
  unfold _AdjustScreenBufferHelper, _CalculateViewportSize.
  destruct (Z.eqb_spec 0 (X (GetScreenFontSize g_pRender))); [lia|].
  destruct (Z.eqb_spec 0 (Y (GetScreenFontSize g_pRender))); [lia|].
  cbn [orb].
  split; [|split].
  - by destruct (s_CalculateScrollbarVisibility _ _ _ _ _).
  - destruct (s_CalculateScrollbarVisibility _ _ _ _ _). by eexists.
  - by destruct (s_CalculateScrollbarVisibility _ _ _ _ _).
Qed.

Lemma AdjustScreenBufferHelper_never_fails_witness :
  fst (_AdjustScreenBufferHelper 17 17 (Some (mkCOORD 0 0)) (mkRECT 0 0 640 300)
         (mkCOORD 80 25)) = S_OK.
Proof.
  exact (proj1 (AdjustScreenBufferHelper_never_fails 17 17 (Some (mkCOORD 0 0))
                  (mkRECT 0 0 640 300) (mkCOORD 80 25)
                  (sample_screen 80 25 0 (mkCOORD 0 0) [])
                  ltac:(vm_compute; intuition congruence))).
Defined.

(** ** Scroll bar updates *)

Lemma land_lor_same (a b : Z) : Z.land (Z.lor a b) b = b.
Proof.
  apply Z.bits_inj'. intros n Hn.
  rewrite Z.land_spec, Z.lor_spec. destruct (Z.testbit a n), (Z.testbit b n); done.
Qed.

Lemma land_lnot_same (a b : Z) : Z.land (Z.land a (Z.lnot b)) b = 0.
Proof.
  apply Z.bits_inj'. intros n Hn.
  rewrite !Z.land_spec, Z.lnot_spec, Z.bits_0 by done.
  destruct (Z.testbit a n), (Z.testbit b n); done.
Qed.

(** On the active buffer a scroll bar update is posted at most once until
    [InternalUpdateScrollBars] has run: the first [UpdateScrollBars] raises
    the flag (also when there is no window to post to), a second one does
    nothing, and [InternalUpdateScrollBars] lowers the flag so that the next
    update is posted again.  On a buffer that is not active nothing is posted
    and the flags are left as they are. *)
Theorem UpdateScrollBars_posts_once (CONSOLE_UPDATING_SCROLL_BARS SIF_ALL SIF_DISABLENOSCROLL : Z)
    (fWindow : bool) (si : SCREEN_INFORMATION) (Flags : Z) :
  CONSOLE_UPDATING_SCROLL_BARS <> 0 ->
  let update := UpdateScrollBars CONSOLE_UPDATING_SCROLL_BARS in
  let first := update true fWindow Flags in
  let second := update true fWindow (fst first) in
  let internal fActive :=
    InternalUpdateScrollBars CONSOLE_UPDATING_SCROLL_BARS SIF_ALL SIF_DISABLENOSCROLL
      fActive si (fst second) in
  (Z.land Flags CONSOLE_UPDATING_SCROLL_BARS = 0 ->
   first = (Z.lor Flags CONSOLE_UPDATING_SCROLL_BARS, fWindow))
  /\ second = (fst first, false)
  /\ (forall fActive,
        Z.land (fst (internal fActive)) CONSOLE_UPDATING_SCROLL_BARS = 0
        /\ snd (update true fWindow (fst (internal fActive))) = fWindow)
  /\ update false fWindow Flags = (Flags, false).
Proof.
  intros Hbit. cbv zeta. unfold UpdateScrollBars, InternalUpdateScrollBars. cbn [negb].
  split; [intros ->; done|]. split.
  - destruct (Z.eqb_spec (Z.land Flags CONSOLE_UPDATING_SCROLL_BARS) 0) as [He|Hne];
      cbn [negb fst].
    + rewrite land_lor_same.
      destruct (Z.eqb_spec CONSOLE_UPDATING_SCROLL_BARS 0); done.
    + destruct (Z.eqb_spec (Z.land Flags CONSOLE_UPDATING_SCROLL_BARS) 0); done.
  - split; [|done]. intros fActive.
    assert (Hfst : forall F, fst (if negb fActive
                    then (Z.land F (Z.lnot CONSOLE_UPDATING_SCROLL_BARS),
                          @None (SCROLLINFO * SCROLLINFO))
                    else (Z.land F (Z.lnot CONSOLE_UPDATING_SCROLL_BARS),
                          Some (mkSCROLLINFO
                                  (if _IsAltBuffer si then Z.lor SIF_ALL SIF_DISABLENOSCROLL
                                   else SIF_ALL)
                                  (toUINT (GetScreenWindowSizeY si)) 0
                                  (Y (GetScreenBufferSize si) - 1)
                                  (Top (_srBufferViewport si)),
                                mkSCROLLINFO
                                  (if _IsAltBuffer si then Z.lor SIF_ALL SIF_DISABLENOSCROLL
                                   else SIF_ALL)
                                  (toUINT (GetScreenWindowSizeX si)) 0
                                  (X (GetScreenBufferSize si) - 1)
                                  (Left (_srBufferViewport si)))))
                  = Z.land F (Z.lnot CONSOLE_UPDATING_SCROLL_BARS)).
    { intros F. by destruct fActive. }
    rewrite Hfst, land_lnot_same. done.
Qed.

Lemma UpdateScrollBars_posts_once_witness :
  UpdateScrollBars 8 true true 3 = (Z.lor 3 8, true)
  /\ UpdateScrollBars 8 true true (fst (UpdateScrollBars 8 true true 3))
     = (fst (UpdateScrollBars 8 true true 3), false).
Proof.
  destruct (UpdateScrollBars_posts_once 8 1 2 true
              (sample_screen 80 25 0 (mkCOORD 0 0) []) 3 ltac:(discriminate))
    as (H1 & H2 & _).
  exact (conj (H1 eq_refl) H2).
Defined.

(** For a viewport inside the buffer, the scroll information
    [InternalUpdateScrollBars] hands to the window of the active buffer is
    consistent: the range starts at 0 and ends at the last row or column, a
    page is at least one cell, and the page at the current position lies
    inside the range. *)
Theorem InternalUpdateScrollBars_in_range
    (CONSOLE_UPDATING_SCROLL_BARS SIF_ALL SIF_DISABLENOSCROLL : Z)
    (si : SCREEN_INFORMATION) (Flags : Z) :
  viewport_contained si ->
  X (GetScreenBufferSize si) <= 32767 -> Y (GetScreenBufferSize si) <= 32767 ->
  exists vert horz,
    snd (InternalUpdateScrollBars CONSOLE_UPDATING_SCROLL_BARS SIF_ALL SIF_DISABLENOSCROLL
           true si Flags) = Some (vert, horz)
    /\ nMin vert = 0 /\ nMax vert = Y (GetScreenBufferSize si) - 1
    /\ 1 <= nPage vert /\ nMin vert <= nPos vert /\ nPos vert + nPage vert - 1 <= nMax vert
    /\ nMin horz = 0 /\ nMax horz = X (GetScreenBufferSize si) - 1
    /\ 1 <= nPage horz /\ nMin horz <= nPos horz /\ nPos horz + nPage horz - 1 <= nMax horz
    /\ (nPage vert = nMax vert + 1 <-> IsMaximizedY si = true)
    /\ (nPage horz = nMax horz + 1 <-> IsMaximizedX si = true).
Proof.
  intros (HL & HLR & HR & HT & HTB & HB) HX HY.
  unfold InternalUpdateScrollBars. cbn [negb snd].
  eexists _, _. split; [reflexivity|]. cbn [nMin nMax nPage nPos].
  unfold GetScreenWindowSizeX, GetScreenWindowSizeY, CalcWindowSizeX, CalcWindowSizeY, toUINT.
  rewrite !toSHORT_id by (unfold isSHORT; lia).
  rewrite !Z.mod_small by lia.
  rewrite IsMaximizedX_true, IsMaximizedY_true. lia.
Qed.

Lemma InternalUpdateScrollBars_in_range_witness :
  exists vert horz,
    snd (InternalUpdateScrollBars 8 1 2 true
           (set_srBufferViewport (mkSMALL_RECT 10 5 49 14)
              (sample_screen 80 25 0 (mkCOORD 0 0) [])) 0) = Some (vert, horz)
    /\ nPos vert + nPage vert - 1 <= nMax vert
    /\ nPos horz + nPage horz - 1 <= nMax horz.
Proof.
  destruct (InternalUpdateScrollBars_in_range 8 1 2
              (set_srBufferViewport (mkSMALL_RECT 10 5 49 14)
                 (sample_screen 80 25 0 (mkCOORD 0 0) [])) 0
              ltac:(vm_compute; intuition congruence)
              ltac:(vm_compute; intuition congruence)
              ltac:(vm_compute; intuition congruence))
    as (vert & horz & H0 & _ & _ & _ & _ & H1 & _ & _ & _ & _ & H2 & _).
  exists vert, horz. exact (conj H0 (conj H1 H2)).
Defined.

(** ** [ResizeScreenBuffer] *)



Lemma ResizeTraditional_shape (coordNewScreenSize : COORD) (si : SCREEN_INFORMATION)
    (h : Heap) :
  text_buffer_wf si ->
  Forall (row_width (X (GetScreenBufferSize si))) (Rows (TextInfo si)) ->
  1 <= X coordNewScreenSize <= 32766 ->
  1 <= Y coordNewScreenSize <= 32766 ->
  oracle h = [] ->
  let r := ResizeTraditional coordNewScreenSize si h in
  let tb' := TextInfo (snd (fst r)) in
  fst (fst r) = STATUS_SUCCESS
  /\ snd (fst r) = set_TextInfo tb' si
  /\ oracle (snd r) = []
  /\ coordBufferSize tb' = coordNewScreenSize
  /\ tbCursor tb' = tbCursor (TextInfo si)
  /\ length (Rows tb') = Z.to_nat (Y coordNewScreenSize)
  /\ 0 <= FirstRowIndex tb' < Y coordNewScreenSize
  /\ Forall (row_width (X coordNewScreenSize)) (Rows tb').
Proof.
  intros Hwf Hw HNX HNY Ho r tb'.
  pose proof Hwf as (Hsz & HX & HY & Hlen & HF & Hcy).
  set (tb := TextInfo si) in *. set (old := GetScreenBufferSize si) in *.
  subst r tb'. unfold ResizeTraditional.
  assert (Hrange : (toUSHORT (X coordNewScreenSize) >=? 32767)
                   || (toUSHORT (Y coordNewScreenSize) >=? 32767) = false).
  { unfold toUSHORT. rewrite !Z.mod_small by lia.
    apply orb_false_iff. split; rewrite Z.geb_leb; apply Z.leb_gt; lia. }
  rewrite Hrange. rewrite (new_block_succeeds h Ho).
  set (h1 := mkHeap _ _). rewrite (new_block_succeeds h1 eq_refl).
  set (h2 := mkHeap _ _). cbv zeta.
  destruct (resize_row_array_rotates coordNewScreenSize si (fresh (live h)) (fresh (live h1))
              h2 Hwf HNY eq_refl)
    as (tb1 & h3 & Hrot & Ho3 & Hcur & Hlen1 & HF1 & HF0 & Hrows).
  rewrite Hrot. clear Hrot. fold tb old in Hrows, Hcur |- *.
  rewrite !min_spec.
  set (LimitX := Z.min (X coordNewScreenSize) (X old)).
  set (LimitY := Z.min (Y coordNewScreenSize) (Y old)) in *.
  set (rows1 := resize_row_loop (resize_kept_row _ _ _) _ 0 (Rows tb1)).
  set (rows2 := resize_row_loop (resize_blank_row _) _ LimitY rows1).
  assert (Hlen2 : length rows2 = Z.to_nat (Y coordNewScreenSize)).
  { unfold rows2, rows1. by rewrite !resize_row_loop_length. }
  (* every row below [LimitY] of the staged array is a row of the old buffer *)
  assert (Hold : forall j r1, (j < Z.to_nat LimitY)%nat -> Rows tb1 !! j = Some r1 ->
                              row_width (X old) r1).
  { intros j r1 Hj Hr1.
    set (k := (Z.of_nat j - FirstRowIndex tb1) mod Y coordNewScreenSize).
    assert (Hk : 0 <= k < LimitY /\ (FirstRowIndex tb1 + k) mod Y coordNewScreenSize = Z.of_nat j).
    { pose proof (Z.mod_pos_bound (Z.of_nat j - FirstRowIndex tb1) (Y coordNewScreenSize)
                    ltac:(lia)) as Hb.
      destruct (decide (Y coordNewScreenSize = Y old)) as [He|Hne].
      - split; [unfold LimitY; fold k in Hb; lia|].
        unfold k. rewrite Zplus_mod_idemp_r.
        replace (FirstRowIndex tb1 + (Z.of_nat j - FirstRowIndex tb1)) with (Z.of_nat j) by lia.
        apply Z.mod_small. lia.
      - specialize (HF0 Hne). unfold k. rewrite HF0, Z.sub_0_r, Z.add_0_l.
        rewrite Z.mod_mod by lia. rewrite (Z.mod_small (Z.of_nat j)) by lia. lia. }
    destruct Hk as [Hk Hidx]. destruct (Hrows k Hk) as [_ Hrow].
    rewrite Hidx, Nat2Z.id, Hr1 in Hrow. symmetry in Hrow.
    rewrite Forall_lookup in Hw. by eapply Hw. }
  assert (Hwidth2 : Forall (row_width (X coordNewScreenSize)) rows2).
  { rewrite Forall_lookup. intros j r2 Hr2.
    assert (Hjlt : (j < Z.to_nat (Y coordNewScreenSize))%nat).
    { rewrite <- Hlen2. by eapply lookup_lt_Some. }
    unfold rows2 in Hr2. rewrite resize_row_loop_lookup in Hr2 by lia.
    unfold rows1 in Hr2. rewrite resize_row_loop_lookup in Hr2 by lia.
    destruct (decide (j < Z.to_nat LimitY)%nat) as [Hj|Hj].
    - rewrite bool_decide_eq_false_2 in Hr2 by lia.
      rewrite bool_decide_eq_true_2 in Hr2 by lia.
      destruct (Rows tb1 !! j) as [r1|] eqn:Hr1; [|done].
      injection Hr2 as <-. destruct (Hold j r1 Hj Hr1) as [Hc Hk].
      unfold row_width, resize_kept_row, resize_kept_CharRow. cbn.
      rewrite !length_app, !length_take, !length_replicate, Hc, Hk. unfold LimitX. lia.
    - rewrite bool_decide_eq_true_2 in Hr2 by lia.
      rewrite bool_decide_eq_false_2 in Hr2 by lia.
      destruct (Rows tb1 !! j) as [r1|] eqn:Hr1; [|done].
      injection Hr2 as <-.
      unfold row_width, resize_blank_row. cbn. by rewrite !length_replicate. }
  destruct (Z.eqb_spec (X coordNewScreenSize) (X old)) as [HXeq|HXne]; cbn [negb].
  - cbn [fst snd TextInfo set_TextInfo coordBufferSize tbCursor Rows FirstRowIndex oracle
         delete_block].
    split; [done|]. split; [by destruct si|]. split; [done|]. split; [done|].
    split; [done|]. split; [done|]. split; [done|]. done.
  - destruct (resize_attr_rows_succeeds (X old) (X coordNewScreenSize) (Z.to_nat LimitY) 0
                rows2 (delete_block (KAttrRows tb1) (delete_block (TextRows tb1) h3)) Ho3)
      as (rows3 & h4 & Hres & Ho4 & Hchars).
    cbn [Rows]. rewrite Hres.
    cbn [fst snd TextInfo set_TextInfo set_Rows coordBufferSize tbCursor Rows FirstRowIndex
         oracle delete_block RowsBlock TextRows KAttrRows].
    assert (Hlen3 : length rows3 = length rows2).
    { apply Nat.le_antisymm.
      - destruct (decide (length rows3 <= length rows2)%nat) as [|Hn]; [done|].
        pose proof (Hchars (length rows2)) as Hc.
        rewrite (lookup_ge_None_2 rows2 (length rows2)) in Hc by lia.
        destruct (lookup_lt_is_Some_2 rows3 (length rows2) ltac:(lia)) as [x Hx].
        rewrite Hx in Hc. done.
      - destruct (decide (length rows2 <= length rows3)%nat) as [|Hn]; [done|].
        pose proof (Hchars (length rows3)) as Hc.
        rewrite (lookup_ge_None_2 rows3 (length rows3)) in Hc by lia.
        destruct (lookup_lt_is_Some_2 rows2 (length rows3) ltac:(lia)) as [x Hx].
        rewrite Hx in Hc. done. }
    split; [done|]. split; [by destruct si|]. split; [done|]. split; [done|].
    split; [done|]. split; [lia|]. split; [done|].
    rewrite Forall_lookup. intros j r3 Hr3. specialize (Hchars j). rewrite Hr3 in Hchars.
    destruct (rows2 !! j) as [r2|] eqn:Hr2; [|done].
    rewrite Forall_lookup in Hwidth2. specialize (Hwidth2 j r2 Hr2).
    cbn in Hchars. injection Hchars as Hc. unfold row_width in *. by rewrite Hc.
Qed.

Lemma toUSHORT_rejects (x : Z) :
  isSHORT x -> (toUSHORT x >=? 32767) = true <-> x < 0 \/ x = 32767.
Proof.
  unfold isSHORT, toUSHORT. intros Hx. rewrite Z.geb_leb, Z.leb_le.
  destruct (Z.le_gt_cases 0 x).
  - rewrite Z.mod_small by lia. lia.
  - replace x with (x + 65536 + (-1) * 65536) at 1 by lia.
    rewrite Z.mod_add by lia. rewrite Z.mod_small by lia. lia.
Qed.

Lemma reflow_columns_status `{TextBufferOps} (n : nat) :
  forall (iOldCol iOldRow : Z) (pRow : ROW) (cOldCursorPos : COORD) (st st' : ReflowState),
    reflow_columns n iOldCol iOldRow pRow cOldCursorPos st = Some st' ->
    rsStatus st' = rsStatus st \/ rsStatus st' = STATUS_NO_MEMORY.
Proof.
  induction n as [|n IH]; intros iOldCol iOldRow pRow cur st st' Hr; cbn in Hr.
  - injection Hr as <-. by left.
  - destruct (CHAR_ROW.Chars (CharRow pRow) !! Z.to_nat iOldCol); [|done].
    destruct (CHAR_ROW.KAttrs (CharRow pRow) !! Z.to_nat iOldCol); [|done].
    destruct (FindAttrIndex (AttrRow pRow) iOldCol); [|done]. cbn in Hr.
    destruct ((iOldCol =? X cur) && (iOldRow =? Y cur));
      cbn in Hr; destruct (InsertCharacter _ _ _ _) as [[] nb];
      try (injection Hr as <-; by right);
      apply IH in Hr; cbn in Hr; done.
Qed.

Lemma reflow_rows_status `{TextBufferOps} (n : nat) :
  forall (iOldRow cOldRowsTotal cOldColsTotal : Z) (old : TEXT_BUFFER_INFO)
         (cOldCursorPos : COORD) (st st' : ReflowState),
    reflow_rows n iOldRow cOldRowsTotal cOldColsTotal old cOldCursorPos st = Some st' ->
    rsStatus st' = rsStatus st \/ rsStatus st' = STATUS_NO_MEMORY.
Proof.
  induction n as [|n IH]; intros iOldRow tot cols old cur st st' Hr; cbn in Hr.
  - injection Hr as <-. by left.
  - destruct (GetRowByOffset old iOldRow) as [pRow|]; [|done]. cbn in Hr.
    match type of Hr with
    | context [reflow_columns ?m ?c ?r ?p ?q ?s] =>
        destruct (reflow_columns m c r p q s) as [st1|] eqn:Hc; [|done]
    end.
    apply reflow_columns_status in Hc. cbn in Hr.
    apply IH in Hr.
    revert Hr. generalize (rsStatus st'). intros s Hr.
    destruct (NT_SUCCESS (rsStatus st1)) eqn:Hok.
    + destruct (_ && _) in Hr.
      * destruct (_ && _) in Hr; destruct (_ <? _) in Hr;
          try destruct (NewlineCursor _) as [[] ?]; cbn in Hr; intuition congruence.
      * intuition congruence.
    + intuition congruence.
Qed.

Lemma reflow_advance_status (op : TEXT_BUFFER_INFO -> bool * TEXT_BUFFER_INFO) (n : nat) :
  forall tb, fst (reflow_advance op n tb) = STATUS_SUCCESS
             \/ fst (reflow_advance op n tb) = STATUS_NO_MEMORY.
Proof.
  induction n as [|n IH]; intros tb; cbn; [by left|].
  destruct (op tb) as [[] tb']; [apply IH|by right].
Qed.

Lemma reflow_place_cursor_status `{TextBufferOps} (old : TEXT_BUFFER_INFO)
    (cOldCursorPos cOldLastChar : COORD) (st : ReflowState) (status : NTSTATUS)
    (nb : TEXT_BUFFER_INFO) :
  reflow_place_cursor old cOldCursorPos cOldLastChar st = Some (status, nb) ->
  status = STATUS_SUCCESS \/ status = STATUS_NO_MEMORY.
Proof.
  unfold reflow_place_cursor. intros Hplace.
  destruct (rsFoundCursorPos st); [injection Hplace as <- _; by left|].
  cbv zeta in Hplace.
  apply bind_Some in Hplace as (pLastRow & _ & Hplace).
  apply bind_Some in Hplace as (iNewlines & _ & Hplace).
  pose proof (reflow_advance_status NewlineCursor (Z.to_nat iNewlines)
                (CopyProperties old (rsNewBuffer st))) as Ha.
  destruct (reflow_advance NewlineCursor _ _) as [s1 nb1]. cbn [fst] in Ha.
  destruct (NT_SUCCESS s1) eqn:Hs1.
  - injection Hplace as Hp.
    match type of Hp with
    | reflow_advance ?op ?n ?t = _ =>
        pose proof (reflow_advance_status op n t) as Hb; rewrite Hp in Hb
    end. done.
  - injection Hplace as <- _. done.
Qed.

(** What [ResizeWithReflow] and [ResizeTraditional] leave when they do not
    succeed. *)
Lemma ResizeWithReflow_failure `{TextBufferOps} (fActive fWindow : bool)
    (coordNewScreenSize : COORD) (si si' : SCREEN_INFORMATION) (status : NTSTATUS)
    (window : option SMALL_RECT) :
  ResizeWithReflow fActive fWindow coordNewScreenSize si = Some (status, si', window) ->
  status <> STATUS_INVALID_HANDLE
  /\ (status <> STATUS_SUCCESS -> si' = si /\ window = None)
  /\ (status = STATUS_INVALID_PARAMETER ->
      (toUSHORT (X coordNewScreenSize) >=? 32767)
      || (toUSHORT (Y coordNewScreenSize) >=? 32767) = true).
Proof.
  unfold ResizeWithReflow, SHORT_MAX. intros Hr.
  destruct (_ || _); [injection Hr as <- <- <-; done|].
  destruct (TB_CreateInstance _ _ _) as [nb|]; [|injection Hr as <- <- <-; done].
  cbv zeta in Hr.
  apply bind_Some in Hr as (st & Hrows & Hr).
  apply reflow_rows_status in Hrows. cbn [rsStatus] in Hrows.
  destruct (NT_SUCCESS (rsStatus st)) eqn:Hok.
  - apply bind_Some in Hr as ([st2 nb2] & Hplace & Hr).
    apply reflow_place_cursor_status in Hplace.
    destruct (NT_SUCCESS st2) eqn:Hok2.
    + destruct (SetViewportOrigin _ _ _ _ _) as [[? ?] ?]. injection Hr as <- <- <-.
      split; [intuition congruence|]. split; [|intuition congruence].
      intros Hne. destruct st2; done.
    + injection Hr as <- <- <-. split; [intuition congruence|].
      split; [done|intuition congruence].
  - injection Hr as <- <- <-. split; [intuition congruence|].
    split; [done|intuition congruence].
Qed.

Lemma resize_attr_rows_status (OldX NewX : Z) (n : nat) :
  forall (i : Z) (rows : list ROW) (h : Heap),
    fst (fst (resize_attr_rows n i OldX NewX rows h)) = STATUS_SUCCESS
    \/ fst (fst (resize_attr_rows n i OldX NewX rows h)) = STATUS_NO_MEMORY.
Proof.
  induction n as [|n IH]; intros i rows h; cbn; [by left|].
  destruct (rows !! Z.to_nat i); [|by left].
  destruct (AttrRow_Resize _ _ _ _ _) as [[[[] a] l] h']; [apply IH|by right].
Qed.

Lemma ResizeTraditional_failure (coordNewScreenSize : COORD) (si : SCREEN_INFORMATION)
    (h : Heap) :
  let r := ResizeTraditional coordNewScreenSize si h in
  fst (fst r) <> STATUS_INVALID_HANDLE
  /\ GetScreenBufferSize (snd (fst r)) = GetScreenBufferSize si
  /\ _srBufferViewport (snd (fst r)) = _srBufferViewport si
  /\ (fst (fst r) = STATUS_INVALID_PARAMETER ->
      (toUSHORT (X coordNewScreenSize) >=? 32767)
      || (toUSHORT (Y coordNewScreenSize) >=? 32767) = true).
Proof.
  cbv zeta. unfold ResizeTraditional.
  destruct (_ || _); [done|].
  destruct (new_block h) as [[b1|] h1]; [|done].
  destruct (new_block h1) as [[b2|] h2]; [|done].
  cbv zeta.
  destruct (resize_row_array _ _ _ _ _ _) as [[tb1 h3]|h3]; [|done].
  destruct (negb _); [|done].
  match goal with
  | |- context [resize_attr_rows ?n ?i ?a ?b ?r ?hh] =>
      pose proof (resize_attr_rows_status a b n i r hh) as Hs;
      destruct (resize_attr_rows n i a b r hh) as [[? ?] ?]
  end.
  cbn in Hs |- *. intuition congruence.
Qed.

(** [ResizeScreenBuffer] cancels the selection before it looks at the new
    size.  In either mode it then rejects a dimension that is negative or
    32767 with [STATUS_INVALID_PARAMETER], changing nothing else, sending
    nothing and allocating nothing; and it returns that status for no other
    size: a dimension of zero is not rejected. *)
Theorem ResizeScreenBuffer_rejects_size `{TextBufferOps}
    (fWrapText fActive fWindow fConvScreenInfo : bool) (imeStatus : NTSTATUS)
    (CONSOLE_UPDATING_SCROLL_BARS : Z) (coordNewScreenSize : COORD)
    (fDoScrollBarUpdate : bool) (si : SCREEN_INFORMATION) (h : Heap) (Flags : Z) :
  isSHORT (X coordNewScreenSize) -> isSHORT (Y coordNewScreenSize) ->
  let rejected (x : Z) := x < 0 \/ x = 32767 in
  let run :=
    ResizeScreenBuffer fWrapText fActive fWindow fConvScreenInfo imeStatus
      CONSOLE_UPDATING_SCROLL_BARS coordNewScreenSize fDoScrollBarUpdate si h Flags in
  (rejected (X coordNewScreenSize) \/ rejected (Y coordNewScreenSize) ->
   run = Some (mkResizeOutcome STATUS_INVALID_PARAMETER si h Flags None [] false true))
  /\ (forall out, run = Some out ->
      roSelectionCleared out = true
      /\ (roStatus out = STATUS_INVALID_PARAMETER
          <-> rejected (X coordNewScreenSize) \/ rejected (Y coordNewScreenSize))).
Proof.
  intros HX HY. cbv zeta.
  assert (Hiff : (toUSHORT (X coordNewScreenSize) >=? 32767)
                 || (toUSHORT (Y coordNewScreenSize) >=? 32767) = true
                 <-> (X coordNewScreenSize < 0 \/ X coordNewScreenSize = 32767)
                     \/ (Y coordNewScreenSize < 0 \/ Y coordNewScreenSize = 32767)).
  { rewrite orb_true_iff, !toUSHORT_rejects by done. tauto. }
  assert (Hrun : (X coordNewScreenSize < 0 \/ X coordNewScreenSize = 32767)
                 \/ (Y coordNewScreenSize < 0 \/ Y coordNewScreenSize = 32767) ->
                 ResizeScreenBuffer fWrapText fActive fWindow fConvScreenInfo imeStatus
                   CONSOLE_UPDATING_SCROLL_BARS coordNewScreenSize fDoScrollBarUpdate si h
                   Flags
                 = Some (mkResizeOutcome STATUS_INVALID_PARAMETER si h Flags None [] false
                           true)).
  { intros Hrej. apply Hiff in Hrej.
    unfold ResizeScreenBuffer, ResizeWithReflow, ResizeTraditional.
    unfold SHORT_MAX. rewrite Hrej. by destruct fWrapText. }
  split; [exact Hrun|]. intros out Hout.
  split.
  - unfold ResizeScreenBuffer in Hout. cbv zeta in Hout.
    apply bind_Some in Hout as ([[[status si1] h1] window] & _ & Hout).
    destruct (NT_SUCCESS status); [|by injection Hout as <-].
    apply bind_Some in Hout as (ev & _ & Hout).
    destruct (negb fConvScreenInfo && negb (NT_SUCCESS imeStatus));
      [by injection Hout as <-|].
    destruct (if fDoScrollBarUpdate then _ else _) as [F posted].
    by injection Hout as <-.
  - split; [|intros Hrej; rewrite (Hrun Hrej) in Hout; by injection Hout as <-].
    intros Hst. apply Hiff.
    unfold ResizeScreenBuffer in Hout. cbv zeta in Hout.
    apply bind_Some in Hout as ([[[status si1] h1] window] & Hresize & Hout).
    assert (Hstatus : status = STATUS_INVALID_PARAMETER).
    { destruct (NT_SUCCESS status) eqn:Hok.
      - apply bind_Some in Hout as (ev & _ & Hout).
        destruct (negb fConvScreenInfo && negb (NT_SUCCESS imeStatus));
          [injection Hout as <-; discriminate Hst|].
        destruct (if fDoScrollBarUpdate then _ else _) as [F posted].
        injection Hout as <-. exact Hst.
      - injection Hout as <-. exact Hst. }
    subst status. destruct fWrapText.
    + apply bind_Some in Hresize as ([[st s2] w] & Hre & Heq).
      injection Heq as -> _ _ _.
      by apply (ResizeWithReflow_failure _ _ _ _ _ _ _ Hre).
    + pose proof (ResizeTraditional_failure coordNewScreenSize si h) as Ht.
      cbv zeta in Ht.
      destruct (ResizeTraditional coordNewScreenSize si h) as [[st s2] h2].
      injection Hresize as -> _ _ _. by apply Ht.
Qed.

Lemma ResizeScreenBuffer_rejects_size_witness :
  ResizeScreenBuffer (H := simple_TextBufferOps) true true true false STATUS_SUCCESS 8
    (mkCOORD (-1) 25) true (sample_screen 80 25 0 (mkCOORD 0 0) []) sample_heap 0
  = Some (mkResizeOutcome STATUS_INVALID_PARAMETER (sample_screen 80 25 0 (mkCOORD 0 0) [])
            sample_heap 0 None [] false true).
Proof.
  apply (ResizeScreenBuffer_rejects_size (H := simple_TextBufferOps) true true true false
           STATUS_SUCCESS 8 (mkCOORD (-1) 25) true (sample_screen 80 25 0 (mkCOORD 0 0) [])
           sample_heap 0);
    [vm_compute; intuition congruence..|].
  left. left. reflexivity.
Defined.

(** When [ResizeScreenBuffer] returns a status that is neither success nor
    [STATUS_INVALID_HANDLE], the stored size, the viewport and the flags are
    as before and nothing was sent.  [STATUS_INVALID_HANDLE] means that the
    resize itself succeeded and the call to the IME failed: the buffer then
    has the new size, as after a success.  Without text wrapping, on a buffer
    that is not active, the function always returns. *)
Theorem ResizeScreenBuffer_failure_keeps_size `{TextBufferOps}
    (fWrapText fActive fWindow fConvScreenInfo : bool) (imeStatus : NTSTATUS)
    (CONSOLE_UPDATING_SCROLL_BARS : Z) (coordNewScreenSize : COORD)
    (fDoScrollBarUpdate : bool) (si : SCREEN_INFORMATION) (h : Heap) (Flags : Z) :
  (forall out,
     ResizeScreenBuffer fWrapText fActive fWindow fConvScreenInfo imeStatus
       CONSOLE_UPDATING_SCROLL_BARS coordNewScreenSize fDoScrollBarUpdate si h Flags
     = Some out ->
     (roStatus out = STATUS_SUCCESS \/ roStatus out = STATUS_INVALID_HANDLE ->
      GetScreenBufferSize (roScreen out)
      = mkCOORD (Z.max 1 (X coordNewScreenSize)) (Z.max 1 (Y coordNewScreenSize))
      /\ coordBufferSize (TextInfo (roScreen out)) = GetScreenBufferSize (roScreen out))
     /\ (roStatus out = STATUS_INVALID_HANDLE ->
         fConvScreenInfo = false /\ NT_SUCCESS imeStatus = false)
     /\ (roStatus out <> STATUS_SUCCESS -> roStatus out <> STATUS_INVALID_HANDLE ->
         GetScreenBufferSize (roScreen out) = GetScreenBufferSize si
         /\ _srBufferViewport (roScreen out) = _srBufferViewport si
         /\ roFlags out = Flags /\ roEvents out = [] /\ roPosted out = false))
  /\ is_Some (ResizeScreenBuffer false false fWindow fConvScreenInfo imeStatus
                CONSOLE_UPDATING_SCROLL_BARS coordNewScreenSize fDoScrollBarUpdate si h Flags).
Proof.
  split.
  - intros out Hout. unfold ResizeScreenBuffer in Hout.
    apply bind_Some in Hout as ([[[status si1] h1] window] & Hresize & Hout).
    assert (Hfail : status <> STATUS_INVALID_HANDLE
                    /\ (status <> STATUS_SUCCESS ->
                        GetScreenBufferSize si1 = GetScreenBufferSize si
                        /\ _srBufferViewport si1 = _srBufferViewport si)).
    { destruct fWrapText.
      - apply bind_Some in Hresize as ([[st s2] w] & Hre & Heq).
        injection Heq as -> -> _ ->.
        destruct (ResizeWithReflow_failure _ _ _ _ _ _ _ Hre) as (Hne & Hsame & _).
        split; [done|]. intros Hs. by destruct (Hsame Hs) as [-> _].
      - pose proof (ResizeTraditional_failure coordNewScreenSize si h) as Ht.
        cbv zeta in Ht.
        destruct (ResizeTraditional coordNewScreenSize si h) as [[st s2] h2].
        injection Hresize as -> -> _ _. cbn in Ht. intuition. }
    destruct Hfail as [Hnh Hsame].
    destruct (NT_SUCCESS status) eqn:Hok.
    + apply bind_Some in Hout as (ev & _ & Hout).
      assert (Hsz : forall s, GetScreenBufferSize
                       (set_TextInfo
                          (SetCoordBufferSize
                             (GetScreenBufferSize (SetScreenBufferSize coordNewScreenSize s))
                             (TextInfo (SetScreenBufferSize coordNewScreenSize s)))
                          (SetScreenBufferSize coordNewScreenSize s))
                     = mkCOORD (Z.max 1 (X coordNewScreenSize))
                               (Z.max 1 (Y coordNewScreenSize))).
      { intros s. unfold GetScreenBufferSize, SetScreenBufferSize. cbn.
        by rewrite !max_spec. }
      destruct (negb fConvScreenInfo && negb (NT_SUCCESS imeStatus)) eqn:Hime.
      * injection Hout as <-. cbn [roStatus roScreen roFlags roEvents roPosted].
        apply andb_true_iff in Hime as [Hc Hi].
        apply negb_true_iff in Hc, Hi.
        split; [intros _; split; [apply Hsz|done]|]. split; done.
      * destruct (if fDoScrollBarUpdate then _ else _) as [F posted].
        injection Hout as <-. cbn [roStatus roScreen roFlags roEvents roPosted].
        destruct status; try done.
        split; [intros _; split; [apply Hsz|done]|]. split; done.
    + injection Hout as <-. cbn [roStatus roScreen roFlags roEvents roPosted].
      assert (status <> STATUS_SUCCESS) by (intros ->; done).
      split; [intros [?|?]; done|]. split; [done|].
      intros _ _. destruct (Hsame ltac:(done)). done.
  - unfold ResizeScreenBuffer.
    destruct (ResizeTraditional coordNewScreenSize si h) as [[st s2] h2]. cbn.
    destruct (NT_SUCCESS st); [|by eexists].
    destruct (negb fConvScreenInfo && negb (NT_SUCCESS imeStatus)); [by eexists|].
    destruct fDoScrollBarUpdate; by eexists.
Qed.

Lemma ResizeScreenBuffer_failure_keeps_size_witness :
  exists out,
    ResizeScreenBuffer (H := simple_TextBufferOps) false false true false STATUS_SUCCESS 8
      (mkCOORD 12 5) true (sample_screen 10 5 0 (mkCOORD 0 4) [])
      (mkHeap (sample_blocks 5) [true; true; false]) 0
    = Some out
    /\ roStatus out = STATUS_NO_MEMORY
    /\ GetScreenBufferSize (roScreen out) = mkCOORD 10 5
    /\ roEvents out = [].
Proof.
  destruct (ResizeScreenBuffer_failure_keeps_size (H := simple_TextBufferOps)
              false false true false STATUS_SUCCESS 8 (mkCOORD 12 5) true
              (sample_screen 10 5 0 (mkCOORD 0 4) [])
              (mkHeap (sample_blocks 5) [true; true; false]) 0)
    as [Hall [out Hout]].
  assert (Hst : roStatus out = STATUS_NO_MEMORY).
  { revert Hout. vm_compute. intros [= <-]. reflexivity. }
  destruct (Hall out Hout) as (_ & _ & Hkeep).
  destruct Hkeep as (Hsz & _ & _ & Hev & _); [rewrite Hst; discriminate..|].
  exists out. exact (conj Hout (conj Hst (conj Hsz Hev))).
Defined.

Lemma ResizeScreenBuffer_traditional_spec `{TextBufferOps}
    (fActive fWindow fConvScreenInfo : bool) (imeStatus : NTSTATUS)
    (CONSOLE_UPDATING_SCROLL_BARS : Z) (coordNewScreenSize : COORD)
    (fDoScrollBarUpdate : bool) (si : SCREEN_INFORMATION) (h : Heap) (Flags : Z) :
  text_buffer_wf si ->
  Forall (row_width (X (GetScreenBufferSize si))) (Rows (TextInfo si)) ->
  1 <= X coordNewScreenSize <= 32766 ->
  1 <= Y coordNewScreenSize <= 32766 ->
  oracle h = [] ->
  (fActive = true -> fWindow = true /\ coordNewScreenSize <> mkCOORD 1 1) ->
  let fImeFailed := negb fConvScreenInfo && negb (NT_SUCCESS imeStatus) in
  let region :=
    if fActive
    then [EVENT_CONSOLE_UPDATE_REGION (mkCOORD 0 0)
            (mkCOORD (X coordNewScreenSize - 1) (Y coordNewScreenSize - 1))]
    else [] in
  exists out,
    ResizeScreenBuffer false fActive fWindow fConvScreenInfo imeStatus
      CONSOLE_UPDATING_SCROLL_BARS coordNewScreenSize fDoScrollBarUpdate si h Flags
    = Some out
    /\ roStatus out = (if fImeFailed then STATUS_INVALID_HANDLE else STATUS_SUCCESS)
    /\ GetScreenBufferSize (roScreen out) = coordNewScreenSize
    /\ buffer_shape (roScreen out)
    /\ roScreen out = set_TextInfo (TextInfo (roScreen out))
                        (set_coordScreenBufferSize coordNewScreenSize si)
    /\ tbCursor (TextInfo (roScreen out)) = tbCursor (TextInfo si)
    /\ oracle (roHeap out) = []
    /\ roEvents out
       = (if fImeFailed then region
          else if fActive then region ++ [EVENT_CONSOLE_LAYOUT] else region)
    /\ (roFlags out, roPosted out)
       = (if fDoScrollBarUpdate && negb fImeFailed
          then UpdateScrollBars CONSOLE_UPDATING_SCROLL_BARS fActive fWindow Flags
          else (Flags, false)).
Proof.
  intros Hwf Hw HNX HNY Ho Hact.
  destruct (ResizeTraditional_shape coordNewScreenSize si h Hwf Hw HNX HNY Ho)
    as (Hst & Hsi & Ho' & Hsz & Hcur & Hlen & HF & Hrows).
  cbv zeta in *. unfold ResizeScreenBuffer.
  destruct (ResizeTraditional coordNewScreenSize si h) as [[status si1] h1].
  cbn [fst snd] in *. subst status. cbn [mbind option_bind NT_SUCCESS].
  assert (Heq : forall s, GetScreenBufferSize (SetScreenBufferSize coordNewScreenSize s)
                          = coordNewScreenSize).
  { intros s. unfold GetScreenBufferSize, SetScreenBufferSize. cbn.
    rewrite !max_spec. destruct coordNewScreenSize as [x y]. cbn in *. f_equal; lia. }
  rewrite !Heq.
  set (si2 := set_TextInfo _ (SetScreenBufferSize coordNewScreenSize si1)).
  assert (Hsize2 : GetScreenBufferSize si2 = coordNewScreenSize).
  { unfold si2. apply (Heq si1). }
  assert (Hti2 : TextInfo si2 = SetCoordBufferSize coordNewScreenSize (TextInfo si1)).
  { reflexivity. }
  assert (Hev : ResetTextFlags fActive fWindow 0 0 (toSHORT (X coordNewScreenSize - 1))
                  (toSHORT (Y coordNewScreenSize - 1)) si2
                = Some (if fActive
                        then [EVENT_CONSOLE_UPDATE_REGION (mkCOORD 0 0)
                                (mkCOORD (X coordNewScreenSize - 1) (Y coordNewScreenSize - 1))]
                        else [])).
  { rewrite !toSHORT_id by (unfold isSHORT; lia).
    unfold ResetTextFlags. destruct fActive; [|done].
    destruct (Hact eq_refl) as [-> Hne].
    destruct (Z.eqb_spec 0 (X coordNewScreenSize - 1)) as [Hx|Hx];
      destruct (Z.eqb_spec 0 (Y coordNewScreenSize - 1)) as [Hy|Hy]; cbn; try done.
    exfalso. apply Hne. destruct coordNewScreenSize as [x y]. cbn in *. f_equal; lia. }
  rewrite Hev. cbn [mbind option_bind].
  assert (Hscreen : si2 = set_TextInfo (TextInfo si2)
                            (set_coordScreenBufferSize coordNewScreenSize si)).
  { unfold si2. rewrite Hsi. unfold SetScreenBufferSize. cbn.
    unfold set_TextInfo, set_coordScreenBufferSize. cbn.
    rewrite !max_spec. destruct coordNewScreenSize as [x y]. cbn in *.
    replace (Z.max 1 x) with x by lia. replace (Z.max 1 y) with y by lia. reflexivity. }
  assert (Hshape : buffer_shape si2).
  { unfold buffer_shape. rewrite Hsize2, Hti2. cbn. done. }
  destruct (negb fConvScreenInfo && negb (NT_SUCCESS imeStatus)).
  - eexists. split; [reflexivity|]. cbn [roStatus roScreen roFlags roEvents roPosted roHeap].
    rewrite andb_false_r. done.
  - rewrite andb_true_r.
    destruct (if fDoScrollBarUpdate then _ else _) as [F posted] eqn:HF'.
    eexists. split; [reflexivity|]. cbn [roStatus roScreen roFlags roEvents roPosted roHeap].
    split; [done|]. split; [done|]. split; [done|]. split; [done|]. split; [done|].
    split; [done|]. split; [by destruct fActive|done].
Qed.


Lemma sample_rows_width :
  Forall (row_width 10) (Rows (TextInfo (sample_screen 10 5 0 (mkCOORD 0 4) []))).
Proof. repeat constructor. Defined.

Lemma sample_text_buffer_wf : text_buffer_wf (sample_screen 10 5 0 (mkCOORD 0 4) []).
Proof. vm_compute. intuition congruence. Defined.


(** A resize whose last allocation fails, run through [ResizeScreenBuffer]:
    the status is [STATUS_NO_MEMORY] and the stored size is still 10 by 5,
    while the text buffer already has its rows of 12 cells. *)
Example ResizeScreenBuffer_scenario :
  (fun out => (roStatus out, GetScreenBufferSize (roScreen out),
               coordBufferSize (TextInfo (roScreen out)),
               map (fun row => length (CHAR_ROW.Chars (CharRow row)))
                 (Rows (TextInfo (roScreen out))),
               roEvents out))
    <$> ResizeScreenBuffer (H := simple_TextBufferOps) false true true false STATUS_SUCCESS 8
          (mkCOORD 12 5) true (sample_screen 10 5 0 (mkCOORD 0 4) [])
          (mkHeap (sample_blocks 5) [true; true; false]) 0
  = Some (STATUS_NO_MEMORY, mkCOORD 10 5, mkCOORD 12 5,
          [12%nat; 12%nat; 12%nat; 12%nat; 12%nat], []).
Proof. vm_compute. reflexivity. Qed.

Lemma CalculateViewportSize_bounds
    (g_sHorizontalScrollSize g_sVerticalScrollSize : Z) (g_pRender : option COORD)
    (prcClientArea : RECT) (si : SCREEN_INFORMATION) :
  render_font_ok g_pRender ->
  0 <= g_sHorizontalScrollSize <= 32767 -> 0 <= g_sVerticalScrollSize <= 32767 ->
  let font := GetScreenFontSize g_pRender in
  g_sVerticalScrollSize + X font <= RECT_WIDTH prcClientArea < 16384 * X font ->
  g_sHorizontalScrollSize + Y font <= RECT_HEIGHT prcClientArea < 16384 * Y font ->
  let size :=
    _CalculateViewportSize g_sHorizontalScrollSize g_sVerticalScrollSize g_pRender
      prcClientArea si in
  1 <= X size <= 16383 /\ 1 <= Y size <= 16383.
Proof.
  intros Hf Hh Hv. cbv zeta.
  destruct (GetScreenFontSize_positive g_pRender Hf) as [Hfx Hfy].
  unfold _CalculateViewportSize.
  set (fx := X (GetScreenFontSize g_pRender)) in *.
  set (fy := Y (GetScreenFontSize g_pRender)) in *.
  set (w := RECT_WIDTH prcClientArea). set (ht := RECT_HEIGHT prcClientArea).
  intros Hw Hh'.
  rewrite (toLONG_id w), (toLONG_id ht) by (unfold isLONG; nia).
  rewrite (toLONG_id (ht - g_sHorizontalScrollSize)), (toLONG_id (w - g_sVerticalScrollSize))
    by (unfold isLONG; nia).
  assert (Hq : forall a f, 1 <= f -> f <= a < 16384 * f ->
                           1 <= toSHORT (Z.quot a f) <= 16383).
  { intros a f Hf1 Ha.
    rewrite toSHORT_id by (apply quot_short; lia).
    assert (Z.quot a f < 16384) by (apply quot_lt_iff; lia).
    assert (~ Z.quot a f < 1) by (rewrite quot_lt_iff by lia; lia).
    lia. }
  destruct (s_CalculateScrollbarVisibility _ _ _ _ _) as [[] []]; cbn [X Y];
    split; apply Hq; lia.
Qed.

Lemma AdjustScreenBufferHelper_eq
    (g_sHorizontalScrollSize g_sVerticalScrollSize : Z) (g_pRender : option COORD)
    (prcClientNew : RECT) (si : SCREEN_INFORMATION) :
  render_font_ok g_pRender ->
  _AdjustScreenBufferHelper g_sHorizontalScrollSize g_sVerticalScrollSize g_pRender
    prcClientNew (GetScreenBufferSize si)
  = (S_OK, Some (_CalculateViewportSize g_sHorizontalScrollSize g_sVerticalScrollSize
                   g_pRender prcClientNew si)).
Proof.
  intros Hf. destruct (GetScreenFontSize_positive g_pRender Hf) as [Hfx Hfy].
  unfold _AdjustScreenBufferHelper, _CalculateViewportSize.
  destruct (Z.eqb_spec 0 (X (GetScreenFontSize g_pRender))); [lia|].
  destruct (Z.eqb_spec 0 (Y (GetScreenFontSize g_pRender))); [lia|].
  cbn [orb]. by destruct (s_CalculateScrollbarVisibility _ _ _ _ _).
Qed.

Lemma buffer_shape_of_wf (si : SCREEN_INFORMATION) :
  text_buffer_wf si ->
  Forall (row_width (X (GetScreenBufferSize si))) (Rows (TextInfo si)) ->
  buffer_shape si.
Proof. intros (? & ? & ? & ? & ? & ?) ?. done. Qed.

(** [_AdjustScreenBuffer] on a main buffer, without text wrapping and with
    memory available. *)
Lemma AdjustScreenBuffer_main `{TextBufferOps}
    (g_sHorizontalScrollSize g_sVerticalScrollSize : Z) (g_pRender : option COORD)
    (fWindow fConvScreenInfo : bool) (imeStatus : NTSTATUS)
    (CONSOLE_UPDATING_SCROLL_BARS : Z) (prcClientNew : RECT)
    (M : addr) (m : SCREEN_INFORMATION) (g : CONSOLE_INFORMATION) (h : Heap) (Flags : Z) :
  screens g !! M = Some m ->
  _psiMainBuffer m = None ->
  text_buffer_wf m ->
  Forall (row_width (X (GetScreenBufferSize m))) (Rows (TextInfo m)) ->
  X (GetScreenBufferSize m) <= 16384 -> Y (GetScreenBufferSize m) <= 16384 ->
  oracle h = [] ->
  (IsActiveScreenBuffer M g = true -> fWindow = true) ->
  render_font_ok g_pRender ->
  0 <= g_sHorizontalScrollSize <= 32767 -> 0 <= g_sVerticalScrollSize <= 32767 ->
  let font := GetScreenFontSize g_pRender in
  g_sVerticalScrollSize + X font <= RECT_WIDTH prcClientNew < 16384 * X font ->
  g_sHorizontalScrollSize + Y font <= RECT_HEIGHT prcClientNew < 16384 * Y font ->
  let fit :=
    _CalculateViewportSize g_sHorizontalScrollSize g_sVerticalScrollSize g_pRender
      prcClientNew m in
  let old := GetScreenBufferSize m in
  let new := mkCOORD (Z.max (X old) (X fit)) (Z.max (Y old) (Y fit)) in
  exists g' resize m',
    _AdjustScreenBuffer g_sHorizontalScrollSize g_sVerticalScrollSize g_pRender
      false fWindow fConvScreenInfo imeStatus CONSOLE_UPDATING_SCROLL_BARS
      prcClientNew M g h Flags = Some (S_OK, g', resize)
    /\ screens g' = <[M := m']> (screens g)
    /\ CurrentScreenBuffer g' = CurrentScreenBuffer g
    /\ ScreenBuffers g' = ScreenBuffers g
    /\ pipes g' = pipes g
    /\ GetScreenBufferSize m' = new
    /\ buffer_shape m'
    /\ _srBufferViewport m' = _srBufferViewport m
    /\ _psiMainBuffer m' = None
    /\ cPosition (tbCursor (TextInfo m')) = cPosition (tbCursor (TextInfo m))
    /\ (new = old -> g' = g /\ m' = m /\ resize = None)
    /\ (new <> old ->
        exists out, resize = Some out /\ oracle (roHeap out) = [] /\ roFlags out = Flags
                    /\ cIsVisible (tbCursor (TextInfo m')) = true).
Proof.
  intros Hm Hmain Hwf Hw HoX HoY Ho Hact Hf Hh Hv font Hrw Hrh fit old new.
  destruct (CalculateViewportSize_bounds g_sHorizontalScrollSize g_sVerticalScrollSize
              g_pRender prcClientNew m Hf Hh Hv Hrw Hrh) as [HfX HfY].
  fold fit in HfX, HfY.
  pose proof Hwf as (Hsz & HX & HY & Hlen & HF & Hcy). fold old in HX, HY, HoX, HoY.
  unfold _AdjustScreenBuffer. rewrite Hm. cbn [mbind option_bind]. rewrite Hmain.
  cbn [mbind option_bind].
  rewrite !(AdjustScreenBufferHelper_eq _ _ _ _ m Hf). fold fit old.
  unfold _IsAltBuffer. rewrite Hmain.
  assert (Hnew : mkCOORD (if X fit >? X old then X fit else X old)
                         (if Y fit >? Y old then Y fit else Y old) = new).
  { unfold new. f_equal.
    - destruct (Z.gtb_spec (X fit) (X old)); lia.
    - destruct (Z.gtb_spec (Y fit) (Y old)); lia. }
  rewrite Hnew.
  destruct (negb (X old =? X new) || negb (Y old =? Y new)) eqn:Hchanged.
  - assert (Hne : new <> old).
    { intros Heq. rewrite Heq, !Z.eqb_refl in Hchanged. done. }
    set (m0 := set_cursor_visible false m).
    assert (Hwf0 : text_buffer_wf m0) by done.
    assert (Hw0 : Forall (row_width (X (GetScreenBufferSize m0))) (Rows (TextInfo m0)))
      by done.
    destruct (ResizeScreenBuffer_traditional_spec (IsActiveScreenBuffer M g) fWindow
                fConvScreenInfo imeStatus CONSOLE_UPDATING_SCROLL_BARS new false m0 h Flags
                Hwf0 Hw0 ltac:(unfold new; cbn; lia) ltac:(unfold new; cbn; lia) Ho)
      as (out & Hout & _ & Hsz' & Hshape & Hscreen & Hcur & Ho' & _ & Hfl).
    { intros Ha. split; [by apply Hact|].
      intros H11. apply Hne. unfold new in H11. injection H11 as H1 H2.
      destruct old as [ox oy]. unfold new. cbn in *. f_equal; lia. }
    rewrite Hout. cbn [mbind option_bind].
    eexists _, _, _. split; [reflexivity|].
    cbn [screens CurrentScreenBuffer ScreenBuffers pipes set_screens].
    split; [reflexivity|]. split; [done|]. split; [done|]. split; [done|].
    split; [done|]. split.
    { destruct Hshape as (Hs1 & Hs2 & Hs3 & Hs4). unfold buffer_shape. cbn. done. }
    split; [by rewrite Hscreen|]. split; [by rewrite Hscreen|].
    split; [unfold set_cursor_visible, GetCursor; cbn; by rewrite Hcur|].
    split; [done|]. intros _. exists out. cbn in Hfl.
    split; [done|]. split; [done|]. split; [congruence|]. reflexivity.
  - apply orb_false_iff in Hchanged as [H1 H2].
    apply negb_false_iff, Z.eqb_eq in H1, H2.
    assert (Heq : new = old).
    { destruct old as [ox oy]. unfold new in *. cbn in *. f_equal; lia. }
    eexists g, None, m. split; [reflexivity|].
    split; [by rewrite insert_id|]. split; [done|]. split; [done|]. split; [done|].
    split; [done|]. split; [by apply buffer_shape_of_wf|]. split; [done|].
    split; [done|]. split; [done|]. split; [done|]. done.
Qed.

(** On a main buffer, without text wrapping and with memory available,
    [_AdjustScreenBuffer] reports [S_OK] and leaves a buffer whose size is, in
    each direction, the larger of the old size and of the number of cells
    that fit in the new client area: the buffer grows with the window and
    never shrinks.  The buffer keeps its shape and its viewport, the other
    screen buffers are not touched, and nothing at all changes when the cells
    that fit do not exceed the buffer. *)
Theorem AdjustScreenBuffer_main_grows_only `{TextBufferOps}
    (g_sHorizontalScrollSize g_sVerticalScrollSize : Z) (g_pRender : option COORD)
    (fWindow fConvScreenInfo : bool) (imeStatus : NTSTATUS)
    (CONSOLE_UPDATING_SCROLL_BARS : Z) (prcClientNew : RECT)
    (M : addr) (m : SCREEN_INFORMATION) (g : CONSOLE_INFORMATION) (h : Heap) (Flags : Z) :
  screens g !! M = Some m ->
  _psiMainBuffer m = None ->
  text_buffer_wf m ->
  Forall (row_width (X (GetScreenBufferSize m))) (Rows (TextInfo m)) ->
  X (GetScreenBufferSize m) <= 16384 -> Y (GetScreenBufferSize m) <= 16384 ->
  oracle h = [] ->
  (IsActiveScreenBuffer M g = true -> fWindow = true) ->
  render_font_ok g_pRender ->
  0 <= g_sHorizontalScrollSize <= 32767 -> 0 <= g_sVerticalScrollSize <= 32767 ->
  let font := GetScreenFontSize g_pRender in
  g_sVerticalScrollSize + X font <= RECT_WIDTH prcClientNew < 16384 * X font ->
  g_sHorizontalScrollSize + Y font <= RECT_HEIGHT prcClientNew < 16384 * Y font ->
  let fit :=
    _CalculateViewportSize g_sHorizontalScrollSize g_sVerticalScrollSize g_pRender
      prcClientNew m in
  let old := GetScreenBufferSize m in
  exists g' resize m',
    _AdjustScreenBuffer g_sHorizontalScrollSize g_sVerticalScrollSize g_pRender
      false fWindow fConvScreenInfo imeStatus CONSOLE_UPDATING_SCROLL_BARS
      prcClientNew M g h Flags = Some (S_OK, g', resize)
    /\ screens g' !! M = Some m'
    /\ (forall p, p <> M -> screens g' !! p = screens g !! p)
    /\ GetScreenBufferSize m' = mkCOORD (Z.max (X old) (X fit)) (Z.max (Y old) (Y fit))
    /\ buffer_shape m'
    /\ _srBufferViewport m' = _srBufferViewport m
    /\ (X fit <= X old -> Y fit <= Y old -> g' = g /\ resize = None).
Proof.
  intros Hm Hmain Hwf Hw HoX HoY Ho Hact Hf Hh Hv font Hrw Hrh fit old.
  destruct (AdjustScreenBuffer_main g_sHorizontalScrollSize g_sVerticalScrollSize g_pRender
              fWindow fConvScreenInfo imeStatus CONSOLE_UPDATING_SCROLL_BARS prcClientNew
              M m g h Flags Hm Hmain Hwf Hw HoX HoY Ho Hact Hf Hh Hv Hrw Hrh)
    as (g' & resize & m' & Hrun & Hscr & _ & _ & _ & Hsz & Hshape & Hvp & _ & _ & Hsame & _).
  exists g', resize, m'. split; [done|].
  split; [rewrite Hscr; apply lookup_insert_eq|].
  split; [intros p Hp; rewrite Hscr; by apply lookup_insert_ne|].
  split; [done|]. split; [done|]. split; [done|].
  intros HfX HfY. cbv zeta in Hsame.
  destruct Hsame as (-> & _ & ->); [|done].
  fold fit old. destruct old as [ox oy]. cbn in *. f_equal; lia.
Qed.



Lemma AdjustScreenBuffer_main_grows_only_witness :
  exists g' resize m',
    _AdjustScreenBuffer (H := simple_TextBufferOps) 17 17 (Some (mkCOORD 8 16))
      false true false STATUS_SUCCESS 8 (mkRECT 0 0 120 64) 0%nat sample_window_console
      sample_heap 0 = Some (S_OK, g', resize)
    /\ screens g' !! 0%nat = Some m'
    /\ GetScreenBufferSize m' = mkCOORD (Z.max 10 12) (Z.max 5 4).
Proof.
  destruct (AdjustScreenBuffer_main_grows_only (H := simple_TextBufferOps)
              17 17 (Some (mkCOORD 8 16)) true false STATUS_SUCCESS 8 (mkRECT 0 0 120 64)
              0%nat (set_srBufferViewport (mkSMALL_RECT 0 0 5 2)
                       (sample_screen 10 5 0 (mkCOORD 0 4) []))
              sample_window_console sample_heap 0
              eq_refl eq_refl sample_text_buffer_wf sample_rows_width
              ltac:(vm_compute; intuition congruence)
              ltac:(vm_compute; intuition congruence) eq_refl
              ltac:(vm_compute; intuition congruence)
              ltac:(vm_compute; intuition congruence)
              ltac:(vm_compute; intuition congruence)
              ltac:(vm_compute; intuition congruence)
              ltac:(vm_compute; intuition congruence)
              ltac:(vm_compute; intuition congruence))
    as (g' & resize & m' & H1 & H2 & _ & H3 & _).
  exists g', resize, m'. split; [exact H1|]. split; [exact H2|].
  exact H3.
Defined.

(** On an alternate buffer [_AdjustScreenBuffer] compares the cells that fit
    in the client area with the size of the main buffer, not with the
    alternate buffer's own: without text wrapping, when the cells that fit
    are exactly the main buffer's size, nothing is resized, whatever the size
    of the alternate buffer; otherwise the alternate buffer is resized to the
    cells that fit. *)
Theorem AdjustScreenBuffer_alt_compares_with_main `{TextBufferOps}
    (g_sHorizontalScrollSize g_sVerticalScrollSize : Z) (g_pRender : option COORD)
    (fWindow fConvScreenInfo : bool) (imeStatus : NTSTATUS)
    (CONSOLE_UPDATING_SCROLL_BARS : Z) (prcClientNew : RECT)
    (A M : addr) (a m : SCREEN_INFORMATION) (g : CONSOLE_INFORMATION) (h : Heap)
    (Flags : Z) :
  screens g !! A = Some a ->
  _psiMainBuffer a = Some M ->
  screens g !! M = Some m ->
  render_font_ok g_pRender ->
  let fit :=
    _CalculateViewportSize g_sHorizontalScrollSize g_sVerticalScrollSize g_pRender
      prcClientNew m in
  let run :=
    _AdjustScreenBuffer g_sHorizontalScrollSize g_sVerticalScrollSize g_pRender
      false fWindow fConvScreenInfo imeStatus CONSOLE_UPDATING_SCROLL_BARS
      prcClientNew A g h Flags in
  (fit = GetScreenBufferSize m -> run = Some (S_OK, g, None))
  /\ (fit <> GetScreenBufferSize m ->
      run = (out ← ResizeScreenBuffer false (IsActiveScreenBuffer A g) fWindow
                     fConvScreenInfo imeStatus CONSOLE_UPDATING_SCROLL_BARS fit false
                     (set_cursor_visible false a) h Flags;
             Some (S_OK,
                   set_screens (<[A := set_cursor_visible true (roScreen out)]> (screens g)) g,
                   Some out))).
Proof.
  intros Ha Hmain Hm Hf fit run. subst run.
  unfold _AdjustScreenBuffer. rewrite Ha. cbn [mbind option_bind]. rewrite Hmain, Hm.
  cbn [fmap option_fmap option_map mbind option_bind].
  rewrite !(AdjustScreenBufferHelper_eq _ _ _ _ m Hf). fold fit.
  unfold _IsAltBuffer. rewrite Hmain.
  replace (mkCOORD (X fit) (Y fit)) with fit by (by destruct fit).
  split.
  - intros <-. by rewrite !Z.eqb_refl.
  - intros Hne.
    destruct (Z.eqb_spec (X (GetScreenBufferSize m)) (X fit)) as [Hx|Hx];
      destruct (Z.eqb_spec (Y (GetScreenBufferSize m)) (Y fit)) as [Hy|Hy]; cbn [negb orb];
      try reflexivity.
    exfalso. apply Hne. destruct fit, (GetScreenBufferSize m). cbn in *. congruence.
Qed.



Lemma AdjustScreenBuffer_alt_compares_with_main_witness :
  _AdjustScreenBuffer (H := simple_TextBufferOps) 17 17 (Some (mkCOORD 8 16))
    false true false STATUS_SUCCESS 8 (mkRECT 0 0 80 80) 1%nat sample_alt_window_console
    sample_heap 0 = Some (S_OK, sample_alt_window_console, None).
Proof.
  apply (AdjustScreenBuffer_alt_compares_with_main (H := simple_TextBufferOps)
           17 17 (Some (mkCOORD 8 16)) true false STATUS_SUCCESS 8 (mkRECT 0 0 80 80)
           1%nat 0%nat
           (set_psiMainBuffer (Some 0%nat) (sample_screen 12 6 0 (mkCOORD 0 0) []))
           (set_psiAlternateBuffer (Some 1%nat) (sample_screen 10 5 0 (mkCOORD 0 4) []))
           sample_alt_window_console sample_heap 0 eq_refl eq_refl eq_refl
           ltac:(vm_compute; intuition congruence)).
  reflexivity.
Defined.



(** The same call, evaluated: the buffer of 10 by 5 grows to 12 by 5 and the
    viewport becomes 12 by 4. *)
Example ProcessResizeWindow_scenario :
  (fun out =>
     (fun m' => (GetScreenBufferSize m', _srBufferViewport m',
                 coordBufferSize (TextInfo m'), length (Rows (TextInfo m'))))
       <$> screens (wrConsole out) !! 0%nat)
    <$> ProcessResizeWindow (H := simple_TextBufferOps) 17 17 (Some (mkCOORD 8 16))
          false true false STATUS_SUCCESS 8 (mkCOORD 0 0) (mkRECT 0 0 120 64)
          (mkRECT 0 0 48 48) 0%nat sample_window_console sample_heap 0
  = Some (Some (mkCOORD 12 5, mkSMALL_RECT 0 0 11 3, mkCOORD 12 5, 5%nat)).
Proof. vm_compute. reflexivity. Qed.

(** ** Removing screen buffers *)

Lemma unlink_spec (p : addr) (l : list addr) :
  NoDup l -> p ∈ l ->
  exists l', unlink p l = Some l' /\ NoDup l' /\ forall q, q ∈ l' <-> q ∈ l /\ q <> p.
Proof.
  induction l as [|q l IH]; intros Hnd Hin; [by apply elem_of_nil in Hin|].
  apply NoDup_cons in Hnd as [Hq Hnd]. cbn.
  destruct (decide (q = p)) as [->|Hne].
  - exists l. split; [done|]. split; [done|].
    intros r. rewrite elem_of_cons. split; [intros Hr; split; [by right|by intros ->]|].
    intros [[->|Hr] Hrp]; done.
  - apply elem_of_cons in Hin as [->|Hin]; [done|].
    destruct (IH Hnd Hin) as (l' & -> & Hnd' & Hmem).
    exists (q :: l'). split; [done|]. split.
    + apply NoDup_cons. split; [|done]. rewrite Hmem. tauto.
    + intros r. rewrite !elem_of_cons, Hmem. split.
      * intros [->|[? ?]]; [split; [by left|done]|split; [by right|done]].
      * intros [[->|?] ?]; [by left|by right].
Qed.

(** The active buffer after the test that follows the unlinking of [p]. *)
Lemma remove_current_eq (p : addr) (scr : gmap addr SCREEN_INFORMATION)
    (pip : gmap handle (option addr)) (l : list addr) (cur : option addr) (al : list bool) :
  p ∉ l ->
  (if bool_decide (Some p = cur) && negb (bool_decide (head l = cur))
   then match head l with
        | Some first => mkCONSOLE scr pip l (Some first) al
        | None => mkCONSOLE scr pip l None al
        end
   else mkCONSOLE scr pip l cur al)
  = mkCONSOLE scr pip l (if bool_decide (cur = Some p) then head l else cur) al.
Proof.
  intros Hp.
  destruct (decide (cur = Some p)) as [->|Hne].
  - rewrite !bool_decide_eq_true_2 by done.
    rewrite bool_decide_eq_false_2.
    2:{ intros Hh. apply Hp. destruct l; [done|]. injection Hh as ->. left. }
    cbn. by destruct l.
  - rewrite (bool_decide_eq_false_2 (Some p = cur)) by congruence.
    rewrite (bool_decide_eq_false_2 (cur = Some p)) by done. done.
Qed.

Lemma s_RemoveScreenBuffer_S (fuel : nat) (pScreenInfo : addr) (g : CONSOLE_INFORMATION) :
  s_RemoveScreenBuffer (S fuel) pScreenInfo g
  = (l ← unlink pScreenInfo (ScreenBuffers g);
     let g := set_ScreenBuffers l g in
     let g :=
       if bool_decide (Some pScreenInfo = CurrentScreenBuffer g)
          && negb (bool_decide (head (ScreenBuffers g) = CurrentScreenBuffer g))
       then match head (ScreenBuffers g) with
            | Some first => snd (SetActiveScreenBuffer first g)
            | None => set_CurrentScreenBuffer None g
            end
       else g in
     g ← FreeOutputStateMachine_with (s_RemoveScreenBuffer fuel) pScreenInfo g;
     si ← screens g !! pScreenInfo;
     let g := set_screens (<[pScreenInfo := ClearTabStops si]> (screens g)) g in
     Some (set_screens (delete pScreenInfo (screens g)) g)).
Proof. reflexivity. Qed.

Ltac remove_step :=
  rewrite s_RemoveScreenBuffer_S;
  unfold SetActiveScreenBuffer; cbn [snd];
  unfold set_ScreenBuffers, set_CurrentScreenBuffer;
  cbn [screens pipes ScreenBuffers CurrentScreenBuffer allocs].

(** Removing an alternate buffer: it is unlinked and freed, and the get-set
    and the writer go back to its main buffer. *)
Lemma s_RemoveScreenBuffer_alternate (fuel : nat) (A M : addr) (a : SCREEN_INFORMATION)
    (api bw : handle) (scr : gmap addr SCREEN_INFORMATION)
    (pip : gmap handle (option addr)) (reg l : list addr) (cur : option addr)
    (al : list bool) :
  scr !! A = Some a ->
  _psiMainBuffer a = Some M ->
  _pConApi a = Some api -> _pBufferWriter a = Some bw ->
  is_Some (pip !! api) -> is_Some (pip !! bw) ->
  unlink A reg = Some l -> A ∉ l ->
  s_RemoveScreenBuffer (S fuel) A (mkCONSOLE scr pip reg cur al)
  = Some (mkCONSOLE (delete A scr) (<[bw := Some M]> (<[api := Some M]> pip)) l
            (if bool_decide (cur = Some A) then head l else cur) al).
Proof.
  intros Ha Hmain Hapi Hbw Hlapi Hlbw Hl HAl.
  remove_step. rewrite Hl. cbn [mbind option_bind].
  rewrite (remove_current_eq A scr pip l cur al HAl).
  unfold FreeOutputStateMachine_with. cbn [screens]. rewrite Ha. cbn [mbind option_bind].
  rewrite Hmain, Hapi, Hbw.
  rewrite (pipe_SetActiveScreenBuffer_live api M) by done. cbn [mbind option_bind].
  rewrite (pipe_SetActiveScreenBuffer_live bw M).
  2:{ rewrite lookup_insert. case_decide; [by eexists|done]. }
  cbn [mbind option_bind screens]. rewrite Ha. cbn [mbind option_bind].
  unfold set_screens. cbn. by rewrite delete_insert_eq.
Qed.

Lemma s_RemoveScreenBuffer_frees (fuel : nat) (p : addr) (g g' : CONSOLE_INFORMATION) :
  s_RemoveScreenBuffer fuel p g = Some g' -> screens g' !! p = None.
Proof.
  destruct fuel as [|fuel]; [done|]. rewrite s_RemoveScreenBuffer_S. intros Hr.
  apply bind_Some in Hr as (l & _ & Hr).
  apply bind_Some in Hr as (g1 & _ & Hr).
  apply bind_Some in Hr as (si & _ & Hr).
  injection Hr as <-. cbn. apply lookup_delete_eq.
Qed.

(** Deleting a main buffer that has an alternate buffer deletes both: the two
    objects leave the store and the registry, each of the four pipeline
    objects they share is deleted once, and the active-buffer pointer is not
    left on either of them (it is kept when it was on neither). *)
Theorem s_RemoveScreenBuffer_main_removes_alternate (fuel : nat) (M A : addr)
    (m a : SCREEN_INFORMATION) (sm ad bw api : handle) (g : CONSOLE_INFORMATION) :
  screens g !! M = Some m ->
  screens g !! A = Some a ->
  M <> A ->
  _psiMainBuffer m = None -> _psiAlternateBuffer m = Some A ->
  _psiMainBuffer a = Some M ->
  pipeline_of m = (Some sm, Some ad, Some bw, Some api) ->
  pipeline_of a = pipeline_of m ->
  NoDup [sm; ad; bw; api] ->
  is_Some (pipes g !! sm) -> is_Some (pipes g !! ad) ->
  is_Some (pipes g !! bw) -> is_Some (pipes g !! api) ->
  NoDup (ScreenBuffers g) -> M ∈ ScreenBuffers g -> A ∈ ScreenBuffers g ->
  exists g',
    s_RemoveScreenBuffer (S (S fuel)) M g = Some g'
    /\ screens g' = delete M (delete A (screens g))
    /\ pipes g' = delete api (delete bw (delete ad (delete sm (pipes g))))
    /\ (forall p, p ∈ ScreenBuffers g' <-> p ∈ ScreenBuffers g /\ p <> M /\ p <> A)
    /\ NoDup (ScreenBuffers g')
    /\ CurrentScreenBuffer g' <> Some M /\ CurrentScreenBuffer g' <> Some A
    /\ (CurrentScreenBuffer g <> Some M -> CurrentScreenBuffer g <> Some A ->
        CurrentScreenBuffer g' = CurrentScreenBuffer g)
    /\ allocs g' = allocs g.
Proof.
  intros HM HA HMA Hmain Halt Hamain Hpipe Hapipe Hnd Hlsm Hlad Hlbw Hlapi Hreg HMr HAr.
  destruct g as [scr pip reg cur al]. cbn [screens pipes ScreenBuffers CurrentScreenBuffer
    allocs] in *.
  pose proof Hpipe as Hpipe'. unfold pipeline_of in Hpipe'.
  injection Hpipe' as Hpsm Hpad Hpbw Hpapi.
  rewrite Hpipe in Hapipe. unfold pipeline_of in Hapipe.
  injection Hapipe as Hasm Haad Habw Haapi.
  destruct (unlink_spec M reg Hreg HMr) as (l1 & Hl1 & Hnd1 & Hmem1).
  assert (HAl1 : A ∈ l1) by (apply Hmem1; split; [done|congruence]).
  destruct (unlink_spec A l1 Hnd1 HAl1) as (l2 & Hl2 & Hnd2 & Hmem2).
  assert (HMl1 : M ∉ l1) by (rewrite Hmem1; tauto).
  assert (HAl2 : A ∉ l2) by (rewrite Hmem2; tauto).
  assert (HMl2 : M ∉ l2) by (rewrite Hmem2, Hmem1; tauto).
  apply NoDup_cons in Hnd as [Hn1 Hnd]. apply NoDup_cons in Hnd as [Hn2 Hnd].
  apply NoDup_cons in Hnd as [Hn3 _].
  assert (Hd : sm <> ad /\ sm <> bw /\ sm <> api /\ ad <> bw /\ ad <> api /\ bw <> api)
    by (clear - Hn1 Hn2 Hn3; set_solver).
  destruct Hd as (Hd1 & Hd2 & Hd3 & Hd4 & Hd5 & Hd6).
  set (cur1 := if bool_decide (cur = Some M) then head l1 else cur).
  set (cur2 := if bool_decide (cur1 = Some A) then head l2 else cur1).
  exists (mkCONSOLE (delete M (delete A scr))
            (delete api (delete bw (delete ad (delete sm pip)))) l2 cur2 al).
  split.
  { remove_step. rewrite Hl1. cbn [mbind option_bind].
    rewrite (remove_current_eq M scr pip l1 cur al HMl1). fold cur1.
    unfold FreeOutputStateMachine_with at 1. cbn [screens]. rewrite HM.
    cbn [mbind option_bind]. rewrite Hmain, Halt.
    rewrite (s_RemoveScreenBuffer_alternate fuel A M a api bw scr pip l1 l2 cur1 al
               HA Hamain Haapi Habw Hlapi Hlbw Hl2 HAl2).
    fold cur2. cbn [mbind option_bind]. rewrite Hpsm, Hpad, Hpbw, Hpapi.
    unfold delete_pipe, set_pipes. cbn [pipes screens ScreenBuffers CurrentScreenBuffer allocs].
    rewrite !lookup_insert.
    repeat (case_decide; try congruence). 
    all: try (destruct Hlsm as [? ->]); cbn [mbind option_bind].
    all: cbn [pipes screens ScreenBuffers CurrentScreenBuffer allocs].
    all: rewrite ?lookup_delete, ?lookup_insert;
      repeat (case_decide; try congruence; try tauto).
    all: try (destruct Hlad as [? ->]); cbn [mbind option_bind pipes screens ScreenBuffers
           CurrentScreenBuffer allocs].
    all: rewrite ?lookup_delete, ?lookup_insert;
      repeat (case_decide; try congruence; try tauto).
    all: cbn [mbind option_bind pipes screens ScreenBuffers CurrentScreenBuffer allocs].
    all: rewrite ?lookup_delete, ?lookup_insert;
      repeat (case_decide; try congruence; try tauto).
    all: cbn [mbind option_bind pipes screens ScreenBuffers CurrentScreenBuffer allocs].
    all: rewrite lookup_delete_ne by done; rewrite HM; cbn [mbind option_bind].
    all: unfold set_screens; cbn [pipes screens ScreenBuffers CurrentScreenBuffer allocs].
    all: rewrite delete_insert_eq.
    all: f_equal; f_equal.
    all: apply map_eq; intros i; rewrite !lookup_delete, !lookup_insert;
      repeat case_decide; congruence. }
  cbn [screens pipes ScreenBuffers CurrentScreenBuffer allocs].
  split; [done|]. split; [done|].
  split; [intros p; rewrite Hmem2, Hmem1; tauto|]. split; [done|].
  assert (Hh1 : forall x, head l1 = Some x -> x ∈ l1).
  { intros x Hx. destruct l1; [done|]. injection Hx as ->. left. }
  assert (Hh2 : forall x, head l2 = Some x -> x ∈ l2).
  { intros x Hx. destruct l2; [done|]. injection Hx as ->. left. }
  assert (Hc1 : cur1 <> Some M).
  { unfold cur1. case_bool_decide; [|done]. intros Hx. by apply Hh1 in Hx. }
  split.
  { unfold cur2. case_bool_decide; [|done]. intros Hx. by apply Hh2 in Hx. }
  split.
  { unfold cur2. case_bool_decide; [|done]. intros Hx. by apply Hh2 in Hx. }
  split; [|done].
  intros HcM HcA. unfold cur2, cur1.
  rewrite (bool_decide_eq_false_2 (cur = Some M)) by done.
  by rewrite (bool_decide_eq_false_2 (cur = Some A)) by done.
Qed.

Lemma s_RemoveScreenBuffer_main_removes_alternate_witness :
  exists g',
    s_RemoveScreenBuffer 2 0%nat sample_alt_console = Some g'
    /\ screens g' = delete 0%nat (delete 1%nat (screens sample_alt_console))
    /\ pipes g'
       = delete 0%nat (delete 1%nat (delete 2%nat (delete 3%nat (pipes sample_alt_console))))
    /\ CurrentScreenBuffer g' <> Some 0%nat /\ CurrentScreenBuffer g' <> Some 1%nat.
Proof.
  destruct (s_RemoveScreenBuffer_main_removes_alternate 0 0%nat 1%nat
              (set_psiAlternateBuffer (Some 1%nat) sample_main)
              (set_psiMainBuffer (Some 0%nat) sample_main)
              3%nat 2%nat 1%nat 0%nat sample_alt_console
              eq_refl eq_refl ltac:(discriminate) eq_refl eq_refl eq_refl eq_refl eq_refl
              ltac:(repeat constructor; set_solver)
              (ex_intro _ None eq_refl) (ex_intro _ None eq_refl)
              (ex_intro _ (Some 1%nat) eq_refl) (ex_intro _ (Some 1%nat) eq_refl)
              ltac:(repeat constructor; set_solver)
              ltac:(set_solver) ltac:(set_solver))
    as (g' & H1 & H2 & H3 & _ & _ & H4 & H5 & _).
  exists g'. exact (conj H1 (conj H2 (conj H3 (conj H4 H5)))).
Defined.

(** The same removal, evaluated: nothing is left of the store, of the
    pipeline and of the registry, and no buffer is active. *)
Example s_RemoveScreenBuffer_scenario :
  (fun g' => (dom (screens g'), dom (pipes g'), ScreenBuffers g', CurrentScreenBuffer g'))
    <$> s_RemoveScreenBuffer 2 0%nat sample_alt_console
  = Some (∅, ∅, [], None).
Proof. vm_compute. reflexivity. Qed.

(** ** Creating the alternate buffer *)



Lemma CreateAltBuffer_succeeds `{TextBufferOps} (fuel : nat) (this : addr)
    (si : SCREEN_INFORMATION) (tb : TEXT_BUFFER_INFO)
    (scr : gmap addr SCREEN_INFORMATION) (pip : gmap handle (option addr))
    (reg : list addr) (cur : option addr) :
  scr !! this = Some si ->
  let ws := mkCOORD (toSHORT (CalcWindowSizeX (_srBufferViewport si)))
                    (toSHORT (CalcWindowSizeY (_srBufferViewport si))) in
  TB_CreateInstance ws (_Attributes si) CURSOR_SMALL_SIZE = Some tb ->
  let A := fresh (dom scr) in
  _CreateAltBuffer fuel this (mkCONSOLE scr pip reg cur [])
  = Some (STATUS_SUCCESS, Some A,
          mkCONSOLE
            (<[A := set_pipeline (_pStateMachine si) (_pAdapter si) (_pBufferWriter si)
                      (_pConApi si) (alt_buffer_object ws (_Attributes si) tb)]> scr)
            pip (A :: reg) cur []).
Proof.
  intros Hsi ws Htb A.
  assert (HscrA : scr !! A = None) by apply fresh_lookup_None.
  assert (HAt : A <> this) by (intros Heq; rewrite Heq in HscrA; congruence).
  set (a0 := alt_buffer_object ws (_Attributes si) tb).
  set (h1 := fresh (dom pip)).
  set (p1 := <[h1 := Some A]> pip).
  set (h2 := fresh (dom p1)).
  set (p2 := <[h2 := Some A]> p1).
  set (h3 := fresh (dom p2)).
  set (p3 := <[h3 := (None : option addr)]> p2).
  set (h4 := fresh (dom p3)).
  set (p4 := <[h4 := (None : option addr)]> p3).
  set (aC := set_pipeline (Some h4) (Some h3) (Some h2) (Some h1) a0).
  assert (HC : CreateInstance fuel ws ws (_Attributes si) CURSOR_SMALL_SIZE
                 (mkCONSOLE scr pip reg cur [])
               = Some (STATUS_SUCCESS, Some A,
                       mkCONSOLE (<[A := aC]> scr) p4 reg cur [])).
  { unfold CreateInstance. cbn. rewrite Htb. fold A. console_step.
    rewrite (InitializeOutputStateMachine_succeeds fuel A a0) by apply lookup_insert_eq.
    cbn. rewrite insert_insert_eq. reflexivity. }
  unfold _CreateAltBuffer. console_step. rewrite Hsi. console_step. fold ws.
  rewrite HC. console_step.
  rewrite (FreeOutputStateMachine_fresh fuel A aC (<[A := aC]> scr) pip (A :: reg) cur
             (Some A) (Some A) None None (lookup_insert_eq _ _ _) eq_refl eq_refl eq_refl).
  console_step.
  rewrite (lookup_insert_ne scr A this) by done. rewrite Hsi. console_step.
  rewrite (lookup_insert_eq scr A). console_step.
  rewrite insert_insert_eq. reflexivity.
Qed.

(** With memory available, [_CreateAltBuffer] registers, in front of the
    registry, a new buffer that has exactly the size of the viewport of the
    buffer it is called on: its buffer has the width and the height of that
    viewport and its own viewport shows all of it.  The new buffer has no
    tab stop and no link to a main or an alternate buffer yet, it holds the
    four handles of the buffer it was made from, and the live pipeline
    objects, the active buffer and the buffers already there are as before. *)
Theorem CreateAltBuffer_window_sized `{TextBufferOps} (fuel : nat) (this : addr)
    (si : SCREEN_INFORMATION) (tb : TEXT_BUFFER_INFO) (g : CONSOLE_INFORMATION) :
  screens g !! this = Some si ->
  viewport_contained si ->
  X (GetScreenBufferSize si) <= 32767 -> Y (GetScreenBufferSize si) <= 32767 ->
  allocs g = [] ->
  let ws := mkCOORD (CalcWindowSizeX (_srBufferViewport si))
                    (CalcWindowSizeY (_srBufferViewport si)) in
  TB_CreateInstance ws (_Attributes si) CURSOR_SMALL_SIZE = Some tb ->
  let A := fresh (dom (screens g)) in
  exists g' a,
    _CreateAltBuffer fuel this g = Some (STATUS_SUCCESS, Some A, g')
    /\ screens g !! A = None
    /\ screens g' = <[A := a]> (screens g)
    /\ ScreenBuffers g' = A :: ScreenBuffers g
    /\ pipes g' = pipes g /\ CurrentScreenBuffer g' = CurrentScreenBuffer g
    /\ GetScreenBufferSize a = ws
    /\ _srBufferViewport a = mkSMALL_RECT 0 0 (X ws - 1) (Y ws - 1)
    /\ viewport_contained a
    /\ IsMaximizedBoth a = true
    /\ TextInfo a = tb
    /\ _ptsTabs a = [] /\ _psiMainBuffer a = None /\ _psiAlternateBuffer a = None
    /\ pipeline_of a = pipeline_of si.
Proof.
  intros Hsi (HL & HLR & HR & HT & HTB & HB) HcX HcY Hal ws Htb A.
  destruct g as [scr pip reg cur al]. cbn [screens pipes ScreenBuffers CurrentScreenBuffer
    allocs] in *. subst al.
  assert (Hws : mkCOORD (toSHORT (CalcWindowSizeX (_srBufferViewport si)))
                        (toSHORT (CalcWindowSizeY (_srBufferViewport si))) = ws).
  { unfold ws, CalcWindowSizeX, CalcWindowSizeY.
    by rewrite !toSHORT_id by (unfold isSHORT; lia). }
  pose proof (CreateAltBuffer_succeeds fuel this si tb scr pip reg cur Hsi) as Hrun.
  cbv zeta in Hrun. rewrite Hws in Hrun. specialize (Hrun Htb).
  eexists _, _. split; [exact Hrun|].
  cbn [screens pipes ScreenBuffers CurrentScreenBuffer].
  split; [apply fresh_lookup_None|]. split; [reflexivity|]. split; [reflexivity|].
  split; [reflexivity|]. split; [reflexivity|].
  assert (HwX : 1 <= X ws <= 32767) by (unfold ws, CalcWindowSizeX; cbn [X]; lia).
  assert (HwY : 1 <= Y ws <= 32767) by (unfold ws, CalcWindowSizeY; cbn [Y]; lia).
  assert (Hsz : GetScreenBufferSize
                  (set_pipeline (_pStateMachine si) (_pAdapter si) (_pBufferWriter si)
                     (_pConApi si) (alt_buffer_object ws (_Attributes si) tb)) = ws).
  { unfold GetScreenBufferSize, alt_buffer_object, SetScreenBufferSize. cbn.
    rewrite !max_spec. unfold ws in *. cbn [X Y] in *. f_equal; lia. }
  assert (Hvp : _srBufferViewport
                  (set_pipeline (_pStateMachine si) (_pAdapter si) (_pBufferWriter si)
                     (_pConApi si) (alt_buffer_object ws (_Attributes si) tb))
                = mkSMALL_RECT 0 0 (X ws - 1) (Y ws - 1)).
  { unfold alt_buffer_object, SetScreenBufferSize. cbn.
    unfold ws, CalcWindowSizeX, CalcWindowSizeY in *. cbn [X Y] in *.
    by rewrite !toSHORT_id by (unfold isSHORT; lia). }
  split; [done|]. split; [done|].
  split; [unfold viewport_contained; cbv zeta; rewrite Hsz, Hvp;
          cbn [Left Top Right Bottom]; lia|].
  split.
  { unfold IsMaximizedBoth. rewrite andb_true_iff, IsMaximizedX_true, IsMaximizedY_true.
    rewrite Hsz, Hvp. cbn [Left Top Right Bottom]. lia. }
  done.
Qed.

Lemma CreateAltBuffer_window_sized_witness :
  exists g' a,
    _CreateAltBuffer (H := simple_TextBufferOps) 1 0%nat sample_console
    = Some (STATUS_SUCCESS, Some (fresh (dom (screens sample_console))), g')
    /\ screens g' = <[fresh (dom (screens sample_console)) := a]> (screens sample_console)
    /\ GetScreenBufferSize a = mkCOORD 80 25
    /\ IsMaximizedBoth a = true.
Proof.
  destruct (CreateAltBuffer_window_sized (H := simple_TextBufferOps) 1 0%nat sample_main
              (simple_blank (mkCOORD 80 25) 7 CURSOR_SMALL_SIZE) sample_console
              eq_refl ltac:(vm_compute; intuition congruence)
              ltac:(vm_compute; intuition congruence)
              ltac:(vm_compute; intuition congruence) eq_refl eq_refl)
    as (g' & a & H1 & _ & H2 & _ & _ & _ & H3 & _ & _ & H4 & _).
  exists g', a. exact (conj H1 (conj H2 (conj H3 H4))).
Defined.

(** ** [UseAlternateScreenBuffer] on the alternate buffer itself *)

(** When [UseAlternateScreenBuffer] runs on a registered buffer [O] that is
    the alternate buffer of its main buffer [M], whose get-set and writer are
    live, and memory is available, every step up to the removal succeeds:
    the new alternate buffer [A] is created and linked to [M], and the old
    alternate buffer, which is [O], the object the function is running on,
    is removed from the registry and deleted, its get-set and writer going
    back to [M].  What follows is the read of [_pConApi] and of
    [_pBufferWriter] of that deleted object: the function has no result
    because [O] is no longer in the store, and for no other reason, since
    the two redirections that remain succeed with the handles [O] held
    before it was deleted. *)
Theorem UseAlternateScreenBuffer_on_alternate_reads_freed `{TextBufferOps}
    (ProcessResizeWindow : addr -> CONSOLE_INFORMATION -> option CONSOLE_INFORMATION)
    (fuel : nat) (M O : addr) (m o : SCREEN_INFORMATION) (api bw : handle)
    (tb : TEXT_BUFFER_INFO) (g : CONSOLE_INFORMATION) :
  screens g !! M = Some m ->
  screens g !! O = Some o ->
  M <> O ->
  _psiMainBuffer o = Some M ->
  _psiAlternateBuffer m = Some O ->
  _fAltWindowChanged m = false ->
  _pConApi o = Some api -> _pBufferWriter o = Some bw ->
  is_Some (pipes g !! api) -> is_Some (pipes g !! bw) ->
  NoDup (ScreenBuffers g) -> O ∈ ScreenBuffers g ->
  allocs g = [] ->
  TB_CreateInstance
    (mkCOORD (toSHORT (CalcWindowSizeX (_srBufferViewport o)))
             (toSHORT (CalcWindowSizeY (_srBufferViewport o))))
    (_Attributes o) CURSOR_SMALL_SIZE = Some tb ->
  let A := fresh (dom (screens g)) in
  let finish (si : SCREEN_INFORMATION) (g : CONSOLE_INFORMATION) :=
    g ← pipe_SetActiveScreenBuffer (_pConApi si) A g;
    g ← pipe_SetActiveScreenBuffer (_pBufferWriter si) A g;
    Some (SetActiveScreenBuffer A g) in
  exists (g1 linked g2 : CONSOLE_INFORMATION) (a : SCREEN_INFORMATION),
    _CreateAltBuffer (S fuel) O g = Some (STATUS_SUCCESS, Some A, g1)
    /\ screens g1 !! A = Some a /\ screens g1 !! M = Some m /\ screens g1 !! O = Some o
    /\ linked
       = set_screens (<[M := set_psiAlternateBuffer (Some A) m]>
                        (<[A := set_psiMainBuffer (Some M) a]> (screens g1))) g1
    /\ UseAlternateScreenBuffer ProcessResizeWindow (S fuel) O g
       = (g ← s_RemoveScreenBuffer (S fuel) O linked;
          si ← screens g !! O;
          finish si g)
    /\ s_RemoveScreenBuffer (S fuel) O linked = Some g2
    /\ screens g2 = delete O (screens linked)
    /\ screens g2 !! O = None
    /\ (O ∉ ScreenBuffers g2)
    /\ pipes g2 !! api = Some (Some M) /\ pipes g2 !! bw = Some (Some M)
    /\ is_Some (finish o g2)
    /\ UseAlternateScreenBuffer ProcessResizeWindow (S fuel) O g = None.
Proof.
  intros HM HO HMO Homain Halt Hflag Hoapi Hobw Hlapi Hlbw Hnd HOreg Hal Htb A finish.
  destruct g as [scr pip reg cur al].
  cbn [screens pipes ScreenBuffers allocs] in *. subst al.
  assert (HscrA : scr !! A = None) by apply fresh_lookup_None.
  assert (HAM : A <> M) by (intros Heq; rewrite Heq in HscrA; congruence).
  assert (HAO : A <> O) by (intros Heq; rewrite Heq in HscrA; congruence).
  pose proof (CreateAltBuffer_succeeds (S fuel) O o tb scr pip reg cur HO Htb) as Hrun.
  cbv zeta in Hrun. fold A in Hrun.
  set (a := set_pipeline (_pStateMachine o) (_pAdapter o) (_pBufferWriter o) (_pConApi o)
              (alt_buffer_object
                 (mkCOORD (toSHORT (CalcWindowSizeX (_srBufferViewport o)))
                          (toSHORT (CalcWindowSizeY (_srBufferViewport o))))
                 (_Attributes o) tb)) in *.
  set (scr2 := <[M := set_psiAlternateBuffer (Some A) m]>
                 (<[A := set_psiMainBuffer (Some M) a]> (<[A := a]> scr))).
  set (linked := mkCONSOLE scr2 pip (A :: reg) cur []).
  destruct (unlink_spec O reg Hnd HOreg) as (l & Hl & Hndl & Hmem).
  assert (HOl : O ∉ A :: l).
  { rewrite elem_of_cons. intros [Heq|Hin]; [congruence|]. apply Hmem in Hin. tauto. }
  assert (Hl' : unlink O (A :: reg) = Some (A :: l)).
  { cbn. rewrite decide_False by done. by rewrite Hl. }
  assert (HO2 : scr2 !! O = Some o).
  { unfold scr2. by rewrite !lookup_insert_ne by done. }
  set (pip2 := <[bw := Some M]> (<[api := Some M]> pip)).
  set (g2 := mkCONSOLE (delete O scr2) pip2 (A :: l)
               (if bool_decide (cur = Some O) then head (A :: l) else cur) []).
  assert (Hrem : s_RemoveScreenBuffer (S fuel) O linked = Some g2).
  { exact (s_RemoveScreenBuffer_alternate fuel O M o api bw scr2 pip (A :: reg) (A :: l)
             cur [] HO2 Homain Hoapi Hobw Hlapi Hlbw Hl' HOl). }
  assert (Hdec : UseAlternateScreenBuffer ProcessResizeWindow (S fuel) O
                   (mkCONSOLE scr pip reg cur [])
                 = (g ← s_RemoveScreenBuffer (S fuel) O linked;
                    si ← screens g !! O;
                    finish si g)).
  { unfold UseAlternateScreenBuffer. console_step. rewrite HO. console_step.
    unfold GetMainBuffer. rewrite Homain.
    unfold replay_saved_resize. console_step. rewrite HM. console_step.
    rewrite Hflag. console_step.
    rewrite Hrun. console_step.
    rewrite (lookup_insert_ne scr A M) by done. rewrite HM. console_step.
    rewrite (lookup_insert_eq scr A). console_step.
    rewrite (lookup_insert_ne _ A M) by done.
    rewrite (lookup_insert_ne scr A M) by done. rewrite HM. console_step. rewrite Halt.
    reflexivity. }
  assert (Hapi2 : pip2 !! api = Some (Some M)).
  { unfold pip2. rewrite !lookup_insert. by repeat case_decide. }
  assert (Hbw2 : pip2 !! bw = Some (Some M)).
  { unfold pip2. rewrite !lookup_insert. by repeat case_decide. }
  exists (mkCONSOLE (<[A := a]> scr) pip (A :: reg) cur []), linked, g2, a.
  cbn [screens pipes ScreenBuffers].
  split; [exact Hrun|]. split; [apply lookup_insert_eq|].
  split; [by rewrite lookup_insert_ne|]. split; [by rewrite lookup_insert_ne|].
  split; [reflexivity|]. split; [exact Hdec|]. split; [exact Hrem|].
  split; [reflexivity|]. split; [apply lookup_delete_eq|]. split; [exact HOl|].
  split; [exact Hapi2|]. split; [exact Hbw2|].
  split.
  { unfold finish, g2. rewrite Hoapi, Hobw.
    rewrite (pipe_SetActiveScreenBuffer_live api A) by (by eexists).
    cbn [mbind option_bind].
    rewrite (pipe_SetActiveScreenBuffer_live bw A).
    2:{ rewrite lookup_insert. case_decide; [by eexists|by eexists]. }
    by eexists. }
  rewrite Hdec, Hrem. cbn [mbind option_bind]. unfold g2. cbn [screens].
  by rewrite lookup_delete_eq.
Qed.

Lemma UseAlternateScreenBuffer_on_alternate_reads_freed_witness :
  exists g1 linked g2 : CONSOLE_INFORMATION,
    fst <$> _CreateAltBuffer (H := simple_TextBufferOps) 1 1%nat sample_alt_console
    = Some (STATUS_SUCCESS, Some (fresh (dom (screens sample_alt_console))))
    /\ snd <$> _CreateAltBuffer (H := simple_TextBufferOps) 1 1%nat sample_alt_console
       = Some g1
    /\ s_RemoveScreenBuffer 1 1%nat linked = Some g2
    /\ screens g2 !! 1%nat = None
    /\ UseAlternateScreenBuffer (H := simple_TextBufferOps) no_saved_resize 1 1%nat
         sample_alt_console = None.
Proof.
  destruct (UseAlternateScreenBuffer_on_alternate_reads_freed (H := simple_TextBufferOps)
              no_saved_resize 0 0%nat 1%nat
              (set_psiAlternateBuffer (Some 1%nat) sample_main)
              (set_psiMainBuffer (Some 0%nat) sample_main) 0%nat 1%nat
              (simple_blank (mkCOORD 80 25) 7 CURSOR_SMALL_SIZE) sample_alt_console
              eq_refl eq_refl ltac:(discriminate) eq_refl eq_refl eq_refl eq_refl eq_refl
              (ex_intro _ (Some 1%nat) eq_refl) (ex_intro _ (Some 1%nat) eq_refl)
              ltac:(repeat constructor; set_solver) ltac:(set_solver) eq_refl eq_refl)
    as (g1 & linked & g2 & a & H1 & _ & _ & _ & _ & _ & H2 & _ & H3 & _ & _ & _ & _ & H4).
  exists g1, linked, g2.
  split; [by rewrite H1|]. split; [by rewrite H1|].
  exact (conj H2 (conj H3 H4)).
Defined.

(** On the sample console the call on the alternate buffer has no result
    although the removal of that buffer succeeds when run by itself; the
    call on the main buffer succeeds. *)
Example UseAlternateScreenBuffer_on_alternate_scenario :
  UseAlternateScreenBuffer (H := simple_TextBufferOps) no_saved_resize 3 1%nat
    sample_alt_console = None
  /\ is_Some (s_RemoveScreenBuffer 1 1%nat sample_alt_console)
  /\ fst <$> UseAlternateScreenBuffer (H := simple_TextBufferOps) no_saved_resize 3 0%nat
               sample_alt_console = Some STATUS_SUCCESS.
Proof. vm_compute. split; [reflexivity|]. split; [by eexists|reflexivity]. Qed.

(** ** [UseAlternateScreenBuffer] when memory runs out *)



(** ** The free store across a traditional resize *)

Lemma attr_blocks_replicate (n : nat) : attr_blocks (replicate n ROW_default) = [].
Proof. induction n as [|n IH]; [done|]. exact IH. Qed.

Lemma attr_blocks_alter_same (f : ROW -> ROW) (rows : list ROW) :
  (forall r, AttrRowList (f r) = AttrRowList r) ->
  forall k, attr_blocks (alter f k rows) = attr_blocks rows.
Proof.
  intros Hf. unfold attr_blocks.
  induction rows as [|r rows IH]; intros [|k]; cbn; try done.
  - by rewrite Hf.
  - by rewrite IH.
Qed.

Lemma resize_row_loop_attr_blocks (body : Z -> ROW -> ROW) (n : nat) :
  (forall i r, AttrRowList (body i r) = AttrRowList r) ->
  forall (i : Z) (rows : list ROW),
    attr_blocks (resize_row_loop body n i rows) = attr_blocks rows.
Proof.
  intros Hb. induction n as [|n IH]; intros i rows; cbn; [done|].
  rewrite IH. by apply attr_blocks_alter_same.
Qed.

(** Replacing the row at [k]: what its attribute row holds is replaced in
    place. *)
Lemma attr_blocks_insert (k : nat) (rows : list ROW) (r r' : ROW) :
  rows !! k = Some r ->
  exists pre post : list block,
    attr_blocks rows = pre ++ option_list (AttrRowList r) ++ post
    /\ attr_blocks (<[k := r']> rows) = pre ++ option_list (AttrRowList r') ++ post.
Proof.
  intros Hk. exists (attr_blocks (take k rows)), (attr_blocks (drop (S k) rows)).
  assert (Hlt : (k < length rows)%nat) by (by eapply lookup_lt_Some).
  split.
  - rewrite <- (take_drop_middle rows k r Hk) at 1. unfold attr_blocks.
    rewrite omap_app. cbn. by destruct (AttrRowList r).
  - rewrite insert_take_drop by done. unfold attr_blocks.
    rewrite omap_app. cbn. by destruct (AttrRowList r').
Qed.

Lemma alter_as_insert (f : ROW -> ROW) (k : nat) (rows : list ROW) (r : ROW) :
  rows !! k = Some r -> alter f k rows = <[k := f r]> rows.
Proof.
  intros Hk. apply list_eq. intros j.
  assert (Hlt : (k < length rows)%nat) by (by eapply lookup_lt_Some).
  destruct (decide (k = j)) as [<-|Hne].
  - by rewrite list_lookup_alter_eq, list_lookup_insert_eq, Hk.
  - by rewrite list_lookup_alter_ne, list_lookup_insert_ne.
Qed.

Lemma FreeExtraAttributeRows_live (rows : list ROW) (h : Heap) :
  live (foldr (fun r => delete_attr_list (AttrRowList r)) h rows)
  = live h ∖ list_to_set (attr_blocks rows).
Proof.
  induction rows as [|r rows IH]; cbn; [set_solver|].
  unfold attr_blocks in *. cbn. destruct (AttrRowList r) as [b|]; cbn; [|done].
  rewrite IH. set_solver.
Qed.

(** The blocks the loop of [AttrRow.Initialize] makes are new, and on
    success they are what the rows it went through hold. *)
Lemma resize_init_attr_rows_blocks (NewX attr : Z) (n : nat) :
  forall (i : Z) (Temp : list ROW) (h : Heap) (ok : bool) (Temp' : list ROW) (h' : Heap),
    0 <= i ->
    (forall j, (Z.to_nat i <= j < Z.to_nat i + n)%nat ->
       exists r, Temp !! j = Some r /\ AttrRowList r = None) ->
    resize_init_attr_rows n i NewX attr Temp h = (ok, Temp', h') ->
    exists made : list block,
      NoDup made /\ (forall b, b ∈ made -> b ∉ live h)
      /\ live h' = live h ∪ list_to_set made
      /\ (ok = true -> attr_blocks Temp' ≡ₚ made ++ attr_blocks Temp).
Proof.
  induction n as [|n IH]; intros i Temp h ok Temp' h' Hi Hnone; cbn [resize_init_attr_rows].
  { intros [= <- <- <-]. exists []. split; [constructor|]. split; [by intros b Hb; apply elem_of_nil in Hb|].
    split; [set_solver|]. done. }
  unfold AttrRow_Initialize.
  destruct (new_block h) as [[b|] h1] eqn:E; apply new_block_live in E.
  2:{ intros [= <- <- <-]. exists []. split; [constructor|].
      split; [by intros b Hb; apply elem_of_nil in Hb|]. split; [rewrite E; set_solver|]. done. }
  destruct E as [Hb Hl1].
  destruct (Hnone (Z.to_nat i) ltac:(lia)) as (r & Hr & Hrl).
  intros Hrec. apply IH in Hrec; [|lia|].
  2:{ intros j Hj. rewrite list_lookup_alter_ne by lia. apply Hnone. lia. }
  destruct Hrec as (made & Hnd & Hfresh & Hlive & Hok).
  exists (b :: made). split.
  { apply NoDup_cons. split; [|done]. intros Hin. apply Hfresh in Hin. rewrite Hl1 in Hin.
    set_solver. }
  split.
  { intros x Hx. apply elem_of_cons in Hx as [->|Hx]; [done|].
    apply Hfresh in Hx. rewrite Hl1 in Hx. set_solver. }
  split; [rewrite Hlive, Hl1; set_solver|].
  intros Hyes. rewrite (Hok Hyes).
  rewrite (alter_as_insert _ _ _ r Hr).
  destruct (attr_blocks_insert (Z.to_nat i) Temp r
              (set_AttrRow [mkRun attr NewX] (Some b) r) Hr) as (pre & post & H1 & H2).
  rewrite H1, H2, Hrl. cbn.
  rewrite <- Permutation_middle. apply Permutation_sym, Permutation_middle.
Qed.

(** The loop of [AttrRow.Resize] keeps the attribute rows in order: what they
    hold is in use and distinct, and each block the loop frees is made up
    for by the one that replaces it. *)
Lemma resize_attr_rows_blocks (OldX NewX : Z) (n : nat) :
  forall (i : Z) (rows : list ROW) (h : Heap) (st : NTSTATUS) (rows' : list ROW) (h' : Heap),
    NoDup (attr_blocks rows) ->
    (forall b, b ∈ attr_blocks rows -> b ∈ live h) ->
    resize_attr_rows n i OldX NewX rows h = (st, rows', h') ->
    NoDup (attr_blocks rows')
    /\ (forall b, b ∈ attr_blocks rows' -> b ∈ live h')
    /\ (forall b, b ∈ live h' /\ b ∉ attr_blocks rows' <-> b ∈ live h /\ b ∉ attr_blocks rows).
Proof.
  induction n as [|n IH]; intros i rows h st rows' h' Hnd Hin; cbn [resize_attr_rows].
  { intros [= <- <- <-]. done. }
  destruct (rows !! Z.to_nat i) as [pRow|] eqn:Hrow.
  2:{ intros [= <- <- <-]. done. }
  unfold AttrRow_Resize.
  destruct (new_block h) as [[b|] h1] eqn:E; apply new_block_live in E.
  2:{ intros [= <- <- <-].
      destruct (attr_blocks_insert (Z.to_nat i) rows pRow
                  (set_AttrRow (AttrRow pRow) (AttrRowList pRow) pRow) Hrow)
        as (pre & post & H1 & H2).
      cbn [set_AttrRow AttrRowList] in H2. rewrite H2, <- H1, E. done. }
  destruct E as [Hb Hl1].
  set (a := if NewX >? OldX then _ else _).
  destruct (attr_blocks_insert (Z.to_nat i) rows pRow (set_AttrRow a (Some b) pRow) Hrow)
    as (pre & post & H1 & H2).
  cbn [set_AttrRow AttrRowList] in H2. change (option_list (Some b)) with [b] in H2.
  assert (Hl2 : live (delete_attr_list (AttrRowList pRow) h1)
                = ({[b]} ∪ live h) ∖ list_to_set (option_list (AttrRowList pRow))).
  { destruct (AttrRowList pRow); cbn; rewrite Hl1; set_solver. }
  set (h2 := delete_attr_list (AttrRowList pRow) h1) in *.
  set (rows2 := <[Z.to_nat i := set_AttrRow a (Some b) pRow]> rows) in *.
  assert (Hbnot : b ∉ attr_blocks rows) by (intros Hx; by apply Hin in Hx).
  rewrite H1 in Hnd, Hin, Hbnot.
  apply NoDup_app in Hnd as (Hnd1 & Hd1 & Hnd2).
  apply NoDup_app in Hnd2 as (Hnd2 & Hd2 & Hnd3).
  assert (Hnd' : NoDup (attr_blocks rows2)).
  { rewrite H2. apply NoDup_app. split; [done|]. split.
    - intros x Hx Hx'. apply elem_of_app in Hx' as [Hx'|Hx'].
      + apply list_elem_of_singleton in Hx' as ->. apply Hbnot. set_solver.
      + apply (Hd1 x Hx). set_solver.
    - apply NoDup_app. split; [apply NoDup_singleton|]. split; [|done].
      intros x Hx Hx'. apply list_elem_of_singleton in Hx as ->. apply Hbnot. set_solver. }
  assert (Hin' : forall x, x ∈ attr_blocks rows2 -> x ∈ live h2).
  { intros x. rewrite H2, Hl2. intros Hx.
    apply elem_of_difference. split.
    - apply elem_of_app in Hx as [Hx|Hx]; [apply elem_of_union_r, Hin; set_solver|].
      apply elem_of_app in Hx as [Hx|Hx]; [set_solver|].
      apply elem_of_union_r, Hin. set_solver.
    - rewrite elem_of_list_to_set. intros Hold.
      apply elem_of_app in Hx as [Hx|Hx]; [apply (Hd1 x Hx); set_solver|].
      apply elem_of_app in Hx as [Hx|Hx].
      + apply list_elem_of_singleton in Hx as ->. apply Hbnot. set_solver.
      + by apply (Hd2 x Hold). }
  intros Hrec. apply IH in Hrec as (Hr1 & Hr2 & Hr3); [|done|done].
  split; [done|]. split; [done|].
  intros x. rewrite Hr3, H2, Hl2, H1.
  rewrite elem_of_difference, elem_of_union, elem_of_singleton, elem_of_list_to_set,
    !elem_of_app, list_elem_of_singleton.
  split.
  - intros [[[->|Hx] Hno] Hnot]; [tauto|]. split; [done|]. tauto.
  - intros [Hx Hnot]. split; [split; [by right|tauto]|].
    intros [?|[->|?]]; [tauto|done|tauto].
Qed.

Lemma rotate_lt (rows : list ROW) (t : nat) :
  (t < length rows)%nat -> rotate t rows = drop t rows ++ take t rows.
Proof. intros Ht. unfold rotate. by rewrite Nat.mod_small. Qed.

(** The two [memmove]s of the row copy: the rows are taken round the old
    array from [t] on, and the rows that are new follow them. *)
Lemma resize_copy_rotate (rows : list ROW) (t n : nat) :
  (t < length rows)%nat ->
  let n1 := ((length rows - t) `min` n)%nat in
  let n2 := (t `min` (n - n1))%nat in
  memmove_rows (memmove_rows (replicate n ROW_default) 0 rows t n1) n1 rows 0 n2
  = take n (rotate t rows) ++ replicate (n - length rows)%nat ROW_default.
Proof.
  intros Ht n1 n2. rewrite (rotate_lt rows t Ht).
  set (o := length rows) in *.
  assert (Hlen1 : length (memmove_rows (replicate n ROW_default) 0 rows t n1) = n).
  { rewrite memmove_rows_length; [apply length_replicate|rewrite length_replicate; lia|lia]. }
  apply list_eq. intros j.
  rewrite memmove_rows_lookup by lia.
  rewrite memmove_rows_lookup by (rewrite ?length_replicate; lia).
  assert (Hrot : length (drop t rows ++ take t rows) = o).
  { rewrite length_app, length_drop, length_take. lia. }
  destruct (decide (j < n1)%nat) as [Hj1|Hj1].
  - rewrite bool_decide_eq_false_2 by lia. rewrite bool_decide_eq_true_2 by lia.
    rewrite lookup_app_l by (rewrite length_take; lia).
    rewrite lookup_take_lt by lia.
    rewrite lookup_app_l by (rewrite length_drop; lia).
    rewrite lookup_drop. f_equal. lia.
  - destruct (decide (j < n1 + n2)%nat) as [Hj2|Hj2].
    + rewrite bool_decide_eq_true_2 by lia.
      rewrite lookup_app_l by (rewrite length_take; lia).
      rewrite lookup_take_lt by lia.
      rewrite lookup_app_r by (rewrite length_drop; lia).
      rewrite length_drop. rewrite lookup_take_lt by lia. f_equal. lia.
    + rewrite !bool_decide_eq_false_2 by lia.
      destruct (decide (j < n)%nat) as [Hjn|Hjn].
      * rewrite lookup_replicate_2 by done.
        rewrite lookup_app_r by (rewrite length_take; lia).
        rewrite length_take. symmetry. apply lookup_replicate_2. lia.
      * rewrite (proj1 (lookup_replicate_None _ _ _)) by lia.
        symmetry. apply lookup_ge_None. rewrite length_app, length_take, length_replicate. lia.
Qed.

Lemma memmove_rows_none (dst src : list ROW) (d s : nat) : memmove_rows dst d src s 0 = dst.
Proof. unfold memmove_rows. cbn. rewrite Nat.add_0_r. apply take_drop. Qed.

(** The row array the copy leaves. *)
Lemma resize_copy_rows (rows : list ROW) (OldY NewY T : Z) :
  length rows = Z.to_nat OldY -> 1 <= OldY <= 32766 -> 0 <= NewY -> 0 <= T < OldY ->
  let Temp := replicate (Z.to_nat NewY) ROW_default in
  let NumToCopy := toSHORT (OldY - T) in
  let NumToCopy := if NumToCopy >? NewY then NewY else NumToCopy in
  let Temp := memmove_rows Temp 0 rows (Z.to_nat T) (Z.to_nat NumToCopy) in
  (if negb (T =? 0) && negb (NumToCopy =? NewY) then
     let NumToCopy2 := T in
     let NumToCopy2 :=
       if NumToCopy2 >? NewY - NumToCopy then toSHORT (NewY - NumToCopy) else NumToCopy2 in
     memmove_rows Temp (Z.to_nat NumToCopy) rows 0 (Z.to_nat NumToCopy2)
   else Temp)
  = take (Z.to_nat NewY) (rotate (Z.to_nat T) rows)
    ++ replicate (Z.to_nat NewY - Z.to_nat OldY)%nat ROW_default.
Proof.
  intros Hlen HO HN HT. cbv zeta.
  rewrite (toSHORT_id (OldY - T)) by (unfold isSHORT; lia).
  pose proof (resize_copy_rotate rows (Z.to_nat T) (Z.to_nat NewY) ltac:(lia)) as Hrot.
  cbv zeta in Hrot. rewrite Hlen in Hrot. rewrite <- Hrot. clear Hrot.
  set (NumToCopy := if OldY - T >? NewY then NewY else OldY - T).
  assert (HN1 : Z.to_nat NumToCopy = ((Z.to_nat OldY - Z.to_nat T) `min` Z.to_nat NewY)%nat).
  { unfold NumToCopy. destruct (Z.gtb_spec (OldY - T) NewY); lia. }
  assert (HN1' : 0 <= NumToCopy <= NewY).
  { unfold NumToCopy. destruct (Z.gtb_spec (OldY - T) NewY); lia. }
  rewrite <- HN1.
  destruct (Z.eqb_spec T 0) as [HT0|HT0]; cbn [negb andb].
  { rewrite HT0. change (Z.to_nat 0) with 0%nat. cbn [Nat.min].
    by rewrite memmove_rows_none. }
  destruct (Z.eqb_spec NumToCopy NewY) as [HNN|HNN]; cbn [negb].
  { rewrite HNN, Nat.sub_diag, Nat.min_0_r. by rewrite memmove_rows_none. }
  f_equal.
  destruct (Z.gtb_spec T (NewY - NumToCopy)).
  - rewrite toSHORT_id by (unfold isSHORT; lia). lia.
  - lia.
Qed.

(** The blocks across the replacement of the row array.  On the failure
    path, [made] is what [AttrRow.Initialize] had made. *)
Lemma resize_row_array_blocks (coordNewScreenSize : COORD) (si : SCREEN_INFORMATION)
    (b1 b2 : block) (T : Z) (h : Heap) :
  let tb := TextInfo si in
  let NewY := Y coordNewScreenSize in
  let OldY := Y (GetScreenBufferSize si) in
  length (Rows tb) = Z.to_nat OldY -> 1 <= OldY <= 32766 -> 0 <= NewY <= 32766 ->
  0 <= T < OldY ->
  NoDup (RowsBlock tb :: attr_blocks (Rows tb)) ->
  (forall b, b ∈ (RowsBlock tb :: attr_blocks (Rows tb)) -> b ∈ live h) ->
  match resize_row_array coordNewScreenSize si b1 b2 T h with
  | inl (tb1, h1) =>
      TextRows tb1 = TextRows tb /\ KAttrRows tb1 = KAttrRows tb
      /\ NoDup (RowsBlock tb1 :: attr_blocks (Rows tb1))
      /\ (forall b, b ∈ (RowsBlock tb1 :: attr_blocks (Rows tb1)) -> b ∈ live h1)
      /\ (forall b, b ∈ live h1 /\ b ∉ (RowsBlock tb1 :: attr_blocks (Rows tb1))
                    <-> b ∈ live h /\ b ∉ (RowsBlock tb :: attr_blocks (Rows tb)))
  | inr h1 =>
      exists made : list block,
        (forall b, b ∈ made -> b ∉ live h)
        /\ (forall b, b ∈ live h1 <-> (b ∈ live h \/ b ∈ made) /\ b <> b1 /\ b <> b2)
        /\ (made <> [] -> OldY < NewY)
  end.
Proof.
  intros tb NewY OldY Hlen HO HN HT Hnd Hin.
  unfold resize_row_array. fold tb NewY OldY.
  destruct (Z.eqb_spec NewY OldY) as [Heq|Hne]; cbn [negb]; [done|].
  destruct (new_block h) as [[TB|] h1] eqn:E; apply new_block_live in E.
  2:{ exists []. split; [by intros b Hb; apply elem_of_nil in Hb|].
      split; [|done]. intros b. cbn [live delete_block]. rewrite E. set_solver. }
  destruct E as [HTB Hl1].
  pose proof (resize_copy_rows (Rows tb) OldY NewY T Hlen HO ltac:(lia) HT) as Hcopy.
  cbv zeta in Hcopy |- *. rewrite Hcopy. clear Hcopy.
  set (rot := rotate (Z.to_nat T) (Rows tb)).
  assert (Hrot : Rows tb ≡ₚ rot).
  { unfold rot. rewrite rotate_lt by lia. rewrite <- (take_drop (Z.to_nat T) (Rows tb)) at 1.
    apply Permutation_app_comm. }
  assert (Hrotlen : length rot = Z.to_nat OldY) by (unfold rot; by rewrite length_rotate).
  apply NoDup_cons in Hnd as [HR Hnd].
  destruct (Z.ltb_spec NewY OldY) as [Hlt|Hge].
  - (* fewer rows *)
    replace (Z.to_nat NewY - Z.to_nat OldY)%nat with 0%nat by lia.
    cbn [replicate]. rewrite app_nil_r.
    unfold FreeExtraAttributeRows. fold rot.
    cbn [TextRows KAttrRows RowsBlock Rows live delete_block].
    rewrite FreeExtraAttributeRows_live, Hl1.
    set (kept := attr_blocks (take (Z.to_nat NewY) rot)).
    set (extra := attr_blocks (drop (Z.to_nat NewY) rot)).
    assert (Hperm : attr_blocks (Rows tb) ≡ₚ kept ++ extra).
    { unfold kept, extra, attr_blocks. rewrite <- omap_app, take_drop. by rewrite Hrot. }
    rewrite Hperm in Hnd, HR.
    assert (Hin' : forall b, b ∈ kept ++ extra -> b ∈ live h).
    { intros b Hb. apply Hin. right. by rewrite Hperm. }
    assert (Hmem : forall b, b ∈ attr_blocks (Rows tb) <-> b ∈ kept \/ b ∈ extra).
    { intros b. by rewrite Hperm, elem_of_app. }
    apply NoDup_app in Hnd as (Hnd1 & Hd & Hnd2).
    split; [done|]. split; [done|].
    split.
    { apply NoDup_cons. split; [|done]. intros Hx. apply HTB, Hin'. set_solver. }
    split.
    { intros b Hb. set_unfold. destruct Hb as [->|Hb].
      - split; [split; [by left|]|]; [intros Hx; apply HTB, Hin'; set_solver|].
        intros ->. apply HTB, Hin. by left.
      - split; [split; [right; apply Hin'; set_solver|by apply Hd]|].
        intros ->. apply HR. set_solver. }
    intros b. rewrite !elem_of_cons, Hmem. set_unfold.
    split.
    + intros [[[[->|Hb] Hne'] HbR] Hno]; [tauto|]. split; [done|]. tauto.
    + intros [Hb Hno]. split; [split; [split; [by right|tauto]|tauto]|].
      intros [->|Hk]; [done|tauto].
  - (* more rows *)
    assert (Hgt : NewY > OldY) by lia.
    destruct (Z.gtb_spec NewY OldY) as [_|?]; [|lia].
    rewrite take_ge by lia.
    set (Temp := rot ++ replicate (Z.to_nat NewY - Z.to_nat OldY) ROW_default).
    assert (HTemp : attr_blocks Temp ≡ₚ attr_blocks (Rows tb)).
    { unfold Temp, attr_blocks. rewrite omap_app. fold (attr_blocks (replicate
        (Z.to_nat NewY - Z.to_nat OldY) ROW_default)). rewrite attr_blocks_replicate, app_nil_r.
      by rewrite Hrot. }
    destruct (resize_init_attr_rows (Z.to_nat (NewY - OldY)) OldY (X coordNewScreenSize)
                (_Attributes si) Temp h1) as [[ok Temp'] h2] eqn:Einit.
    apply resize_init_attr_rows_blocks in Einit as (made & Hmnd & Hmfresh & Hl2 & Hok); [|lia|].
    2:{ intros j Hj. exists ROW_default. split; [|done]. unfold Temp.
        rewrite lookup_app_r by lia. apply lookup_replicate_2. lia. }
    rewrite Hl1 in Hmfresh.
    destruct ok.
    + specialize (Hok eq_refl).
      cbn [TextRows KAttrRows RowsBlock Rows live delete_block].
      assert (Hmem : forall b, b ∈ attr_blocks Temp' <-> b ∈ made \/ b ∈ attr_blocks (Rows tb)).
      { intros b. by rewrite Hok, elem_of_app, HTemp. }
      split; [done|]. split; [done|].
      split.
      { apply NoDup_cons. split.
        - rewrite Hmem. intros [Hx|Hx]; [apply (Hmfresh _ Hx); set_solver|].
          apply HTB, Hin. by right.
        - rewrite Hok. apply NoDup_app. split; [done|]. split; [|by rewrite HTemp].
          intros x Hx. rewrite HTemp. intros Hx'. apply (Hmfresh _ Hx).
          apply elem_of_union_r, Hin. by right. }
      split.
      { intros b. rewrite elem_of_cons, Hmem, Hl2, Hl1. set_unfold.
        intros [->|[Hb|Hb]].
        - split; [tauto|]. intros ->. apply HTB, Hin. by left.
        - split; [tauto|]. intros ->. apply (Hmfresh _ Hb). right. apply Hin. by left.
        - split; [left; right; apply Hin; by right|]. by intros ->. }
      intros b. rewrite !elem_of_cons, Hmem, Hl2, Hl1. set_unfold.
      split.
      * intros [[[[->|Hb]|Hb] HbR] Hno]; [tauto| |tauto]. split; [done|]. tauto.
      * intros [Hb Hno]. split; [split; [tauto|tauto]|].
        intros [->|[Hm|?]]; [done| |tauto]. apply (Hmfresh _ Hm). by right.
    + exists made. split.
      { intros b Hb Hx. apply (Hmfresh _ Hb). by apply elem_of_union_r. }
      split; [|intros _; fold OldY NewY; lia].
      intros b. cbn [live delete_block]. rewrite Hl2, Hl1. set_unfold.
      split.
      * intros [[[[[->|Hb]|Hb] ?] ?] ?]; [done|tauto|tauto].
      * intros [[Hb|Hb] [? ?]].
        -- split; [split; [split; [tauto|done]|done]|]. by intros ->.
        -- split; [split; [split; [tauto|done]|done]|]. intros ->. apply (Hmfresh _ Hb). by left.
Qed.

(** From the blocks as lists to the statement on the free store. *)
Lemma blocks_frame (tb tb' : TEXT_BUFFER_INFO) (h h' : Heap) :
  let all t := RowsBlock t :: TextRows t :: KAttrRows t :: attr_blocks (Rows t) in
  NoDup (all tb') ->
  (forall b, b ∈ all tb' -> b ∈ live h') ->
  (forall b, b ∈ live h' /\ b ∉ all tb' <-> b ∈ live h /\ b ∉ all tb) ->
  blocks_ok tb' h' /\ live h' ∖ tb_blocks tb' = live h ∖ tb_blocks tb.
Proof.
  intros all Hnd Hin Hfr. unfold blocks_ok, tb_blocks. fold (all tb').
  assert (Hall : forall t b,
            b ∈ ({[RowsBlock t; TextRows t; KAttrRows t]} ∪ list_to_set (attr_blocks (Rows t))
                 : gset block) <-> b ∈ all t).
  { intros t b. unfold all. set_unfold. tauto. }
  split; [split; [done|]|].
  - intros b Hb. apply Hin. by apply Hall.
  - apply set_eq. intros b. rewrite !elem_of_difference, !Hall. apply Hfr.
Qed.

(** On a well-formed text buffer whose allocations are in use and distinct,
    and whatever the allocator answers, [ResizeTraditional] leaves a text
    buffer whose allocations, those of the attribute rows included, are in
    use and distinct, and it frees no block that is not one of the text
    buffer's.  When it succeeds, and whenever the buffer does not get
    taller, the rest of the free store is exactly as it was: every block
    the call makes is held by the text buffer afterwards or freed again, and
    every block the text buffer gave up is freed.  (A taller buffer whose
    new attribute rows cannot all be made is the case left out: the blocks
    already made stay allocated.) *)
Theorem ResizeTraditional_heap_frame (coordNewScreenSize : COORD)
    (si : SCREEN_INFORMATION) (h : Heap) :
  text_buffer_wf si ->
  isSHORT (Y coordNewScreenSize) ->
  blocks_ok (TextInfo si) h ->
  let r := ResizeTraditional coordNewScreenSize si h in
  let tb' := TextInfo (snd (fst r)) in
  blocks_ok tb' (snd r)
  /\ live h ∖ tb_blocks (TextInfo si) ⊆ live (snd r) ∖ tb_blocks tb'
  /\ (fst (fst r) = STATUS_SUCCESS
      \/ Y coordNewScreenSize <= Y (GetScreenBufferSize si) ->
      live (snd r) ∖ tb_blocks tb' = live h ∖ tb_blocks (TextInfo si)).
Proof.
  intros (Hsz & HX & HY & Hlen & HF & Hcy) HNs (Hnd & Hsub). cbv zeta.
  unfold ResizeTraditional.
  destruct (_ || _) eqn:Hg; [cbn; split; [done|split; [done|done]]|].
  apply orb_false_iff in Hg as [_ Hg].
  assert (HN : 0 <= Y coordNewScreenSize <= 32766).
  { unfold isSHORT in HNs. unfold toUSHORT in Hg.
    destruct (Z.geb_spec (Y coordNewScreenSize `mod` 65536) 32767) as [|Hlt]; [done|].
    destruct (decide (0 <= Y coordNewScreenSize)) as [Hp|Hn].
    - rewrite Z.mod_small in Hlt by lia. lia.
    - replace (Y coordNewScreenSize)
        with (Y coordNewScreenSize + 65536 + (-1) * 65536) in Hlt by lia.
      rewrite Z_mod_plus_full, Z.mod_small in Hlt by lia. lia. }
  clear Hg.
  set (tb := TextInfo si) in *.
  set (OldY := Y (GetScreenBufferSize si)) in *.
  set (NewY := Y coordNewScreenSize) in *.
  set (T := toSHORT (Z.rem (FirstRowIndex tb + resize_TopRow coordNewScreenSize tb) OldY)).
  assert (HT : 0 <= T < OldY).
  { assert (HTop : 0 <= resize_TopRow coordNewScreenSize tb <= 32767).
    { unfold resize_TopRow. fold NewY.
      destruct (Z.leb_spec NewY (Y (GetPosition (GetCursor tb)))); [|lia].
      rewrite toSHORT_id by (unfold isSHORT; lia). lia. }
    unfold T. rewrite Z.rem_mod_nonneg by lia.
    pose proof (Z.mod_pos_bound (FirstRowIndex tb + resize_TopRow coordNewScreenSize tb) OldY
                  ltac:(lia)).
    rewrite toSHORT_id by (unfold isSHORT; lia). lia. }
  destruct (new_block h) as [[b1|] h1] eqn:Hb1; apply new_block_live in Hb1.
  2:{ cbn [fst snd TextInfo]. fold tb. unfold blocks_ok. rewrite Hb1. done. }
  destruct Hb1 as [Hf1 Hl1].
  destruct (new_block h1) as [[b2|] h2] eqn:Hb2; apply new_block_live in Hb2.
  2:{ cbn [fst snd TextInfo]. fold tb. unfold blocks_ok. cbn [live delete_block].
      rewrite Hb2, Hl1.
      replace (({[b1]} ∪ live h) ∖ {[b1]}) with (live h) by (clear - Hf1; set_solver).
      done. }
  destruct Hb2 as [Hf2 Hl2]. rewrite Hl1 in Hf2, Hl2.
  cbv zeta. fold T.
  assert (HR : (RowsBlock tb ∉ attr_blocks (Rows tb))
               /\ (TextRows tb ∉ attr_blocks (Rows tb))
               /\ (KAttrRows tb ∉ attr_blocks (Rows tb))
               /\ RowsBlock tb <> TextRows tb /\ RowsBlock tb <> KAttrRows tb
               /\ TextRows tb <> KAttrRows tb /\ NoDup (attr_blocks (Rows tb))).
  { apply NoDup_cons in Hnd as [H1 Hnd]. apply NoDup_cons in Hnd as [H2 Hnd].
    apply NoDup_cons in Hnd as [H3 Hnd]. clear - H1 H2 H3 Hnd. set_solver. }
  destruct HR as (HRa & HTa & HKa & HRT & HRK & HTK & Hnda).
  assert (Hlive : RowsBlock tb ∈ live h /\ TextRows tb ∈ live h /\ KAttrRows tb ∈ live h
                  /\ forall b, b ∈ attr_blocks (Rows tb) -> b ∈ live h).
  { unfold tb_blocks in Hsub. clear - Hsub. set_solver. }
  destruct Hlive as (HRl & HTl & HKl & Hal).
  pose proof (resize_row_array_blocks coordNewScreenSize si b1 b2 T h2) as Hra.
  cbv zeta in Hra. fold tb OldY NewY in Hra.
  specialize (Hra Hlen ltac:(lia) HN HT).
  assert (HndR : NoDup (RowsBlock tb :: attr_blocks (Rows tb))) by (by apply NoDup_cons).
  specialize (Hra HndR).
  assert (Hin2 : forall b, b ∈ (RowsBlock tb :: attr_blocks (Rows tb)) -> b ∈ live h2).
  { intros b Hb. rewrite Hl2. apply elem_of_cons in Hb as [->|Hb]; [|apply Hal in Hb];
      set_solver. }
  specialize (Hra Hin2).
  destruct (resize_row_array coordNewScreenSize si b1 b2 T h2) as [[tb1 h3]|h3].
  2:{ destruct Hra as (made & Hfresh & Hl3 & Hgrow).
      cbn [fst snd TextInfo]. fold tb. unfold blocks_ok.
      assert (Hl3' : forall b, b ∈ live h3 <-> b ∈ live h \/ b ∈ made).
      { intros b. rewrite Hl3, Hl2. set_unfold. split.
        - intros [[[->|[->|?]]|?] [? ?]]; tauto.
        - intros [Hb|Hb].
          + split; [tauto|]. split; intros ->; tauto.
          + split; [tauto|]. split; intros ->; apply (Hfresh _ Hb); rewrite Hl2; set_solver. }
      split; [split; [done|]|split].
      - intros b Hb. apply Hl3'. left. by apply Hsub.
      - intros b. rewrite !elem_of_difference, Hl3'. tauto.
      - intros [?|Hle]; [done|].
        assert (made = []) as ->.
        { destruct made as [|x made]; [done|]. exfalso.
          assert (OldY < NewY) by (by apply Hgrow). lia. }
        apply set_eq. intros b. rewrite !elem_of_difference, Hl3'.
        rewrite elem_of_nil. tauto. }
  destruct Hra as (HT1 & HK1 & Hnd1 & Hin1 & Hfr1).
  rewrite HT1, HK1.
  set (rows := resize_row_loop (resize_blank_row _) _ _
                 (resize_row_loop (resize_kept_row _ _ _) _ _ (Rows tb1))).
  assert (Hrows : attr_blocks rows = attr_blocks (Rows tb1)).
  { unfold rows. by rewrite !resize_row_loop_attr_blocks. }
  set (h4 := delete_block (KAttrRows tb) (delete_block (TextRows tb) h3)).
  assert (Hl4 : forall b, b ∈ live h4 <-> b ∈ live h3 /\ b <> TextRows tb /\ b <> KAttrRows tb).
  { intros b. unfold h4. cbn [live delete_block]. set_unfold. tauto. }
  assert (Hl2' : forall b, b ∈ live h2 <-> b = b2 \/ b = b1 \/ b ∈ live h).
  { intros b. rewrite Hl2. set_unfold. tauto. }
  assert (Hb12 : b1 <> b2) by (intros ->; apply Hf2; set_solver).
  assert (Hf2' : b2 ∉ live h) by (intros Hx; apply Hf2; set_solver).
  apply NoDup_cons in Hnd1 as [HR1 Hnd1].
  assert (Hfr1' : forall b, b ∈ live h3 /\ b <> RowsBlock tb1 /\ b ∉ attr_blocks (Rows tb1)
                    <-> (b = b2 \/ b = b1 \/ b ∈ live h)
                        /\ b <> RowsBlock tb /\ b ∉ attr_blocks (Rows tb)).
  { intros b. rewrite <- Hl2'. specialize (Hfr1 b). rewrite !not_elem_of_cons in Hfr1. tauto. }
  assert (Hown : forall b, b = TextRows tb \/ b = KAttrRows tb \/ b = b1 \/ b = b2 ->
                   b ∈ live h3 /\ b <> RowsBlock tb1 /\ b ∉ attr_blocks (Rows tb1)).
  { intros b Hb. apply Hfr1'.
    destruct Hb as [-> | [-> | [-> | ->]]].
    - split; [tauto|]. split; [congruence|done].
    - split; [tauto|]. split; [congruence|done].
    - split; [tauto|]. split; [by intros ->|]. intros Hx. by apply Hal in Hx.
    - split; [tauto|]. split; [by intros ->|]. intros Hx. by apply Hal in Hx. }
  (* the state before the attribute rows are resized *)
  assert (Hin4 : forall b, b ∈ (RowsBlock tb1 :: b1 :: b2 :: attr_blocks rows) -> b ∈ live h4).
  { intros b. rewrite Hrows, !elem_of_cons, Hl4. intros Hb.
    assert (Hb3 : b ∈ live h3).
    { destruct Hb as [->|[->|[->|Hb]]].
      - apply Hin1. by left.
      - apply (Hown b1). tauto.
      - apply (Hown b2). tauto.
      - apply Hin1. by right. }
    split; [done|].
    pose proof (Hown (TextRows tb) ltac:(tauto)) as (_ & HT3 & HT4).
    pose proof (Hown (KAttrRows tb) ltac:(tauto)) as (_ & HK3 & HK4).
    destruct Hb as [->|[->|[->|Hb]]].
    + split; congruence.
    + split; intros ->; done.
    + split; intros ->; done.
    + split; intros ->; done. }
  assert (Hnd4 : NoDup (RowsBlock tb1 :: b1 :: b2 :: attr_blocks rows)).
  { rewrite Hrows.
    pose proof (Hown b1 ltac:(tauto)) as (_ & H13 & H14).
    pose proof (Hown b2 ltac:(tauto)) as (_ & H23 & H24).
    apply NoDup_cons. split; [rewrite !not_elem_of_cons; split; [congruence|split; [congruence|done]]|].
    apply NoDup_cons. split; [rewrite !not_elem_of_cons; split; [done|done]|].
    apply NoDup_cons. split; [done|done]. }
  assert (Hfr4 : forall b, b ∈ live h4 /\ b ∉ (RowsBlock tb1 :: b1 :: b2 :: attr_blocks rows)
                   <-> b ∈ live h
                       /\ b ∉ (RowsBlock tb :: TextRows tb :: KAttrRows tb
                               :: attr_blocks (Rows tb))).
  { intros b. rewrite Hrows, Hl4, !not_elem_of_cons. specialize (Hfr1' b).
    split.
    - intros [(Hb3 & HbT & HbK) (HbR & Hb1 & Hb2 & HbA)].
      destruct (proj1 Hfr1' (conj Hb3 (conj HbR HbA))) as ([->|[->|Hb]] & ? & ?); try done.
    - intros (Hb & HbR & HbT & HbK & HbA).
      destruct (proj2 Hfr1' (conj (or_intror (or_intror Hb)) (conj HbR HbA)))
        as (? & ? & ?).
      split; [done|]. split; [done|]. split; [by intros ->|]. split; [by intros ->|done]. }
  destruct (negb (X coordNewScreenSize =? X (GetScreenBufferSize si))).
  2:{ cbn [fst snd TextInfo set_TextInfo].
      destruct (blocks_frame tb
                  (mkTEXT_BUFFER_INFO rows (RowsBlock tb1) b1 b2 (FirstRowIndex tb1)
                     coordNewScreenSize (tbCursor tb1)) h h4 Hnd4 Hin4 Hfr4) as [Hok Heq].
      split; [exact Hok|]. split; [by rewrite Heq|]. intros _. exact Heq. }
  cbn [Rows].
  destruct (resize_attr_rows (Z.to_nat (min NewY OldY)) 0 (X (GetScreenBufferSize si))
              (X coordNewScreenSize) rows h4) as [[st rows5] h5] eqn:Eattr.
  apply NoDup_cons in Hnd4 as [HR4 Hnd4'].
  apply NoDup_cons in Hnd4' as [H14 Hnd4'].
  apply NoDup_cons in Hnd4' as [H24 Hnd4'].
  apply resize_attr_rows_blocks in Eattr as (Hnd5 & Hin5 & Hfr5); [|done|].
  2:{ intros b Hb. apply Hin4. rewrite !elem_of_cons. tauto. }
  rewrite !not_elem_of_cons in HR4. rewrite !not_elem_of_cons in H14.
  destruct HR4 as (HR41 & HR42 & HR4), H14 as (H142 & H14).
  assert (Hkeep : forall b, b = RowsBlock tb1 \/ b = b1 \/ b = b2 ->
                    b ∈ live h5 /\ b ∉ attr_blocks rows5).
  { intros b Hb. apply Hfr5. split; [apply Hin4; rewrite !elem_of_cons; tauto|].
    destruct Hb as [-> | [-> | ->]]; done. }
  unfold set_Rows.
  cbn [fst snd TextInfo set_TextInfo Rows RowsBlock TextRows KAttrRows FirstRowIndex
       coordBufferSize tbCursor].
  destruct (blocks_frame tb
              (mkTEXT_BUFFER_INFO rows5 (RowsBlock tb1) b1 b2 (FirstRowIndex tb1)
                 coordNewScreenSize (tbCursor tb1)) h h5) as [Hok Heq].
  - cbn [Rows RowsBlock TextRows KAttrRows].
    apply NoDup_cons. split.
    { rewrite !not_elem_of_cons. split; [done|]. split; [done|].
      apply (Hkeep (RowsBlock tb1)). tauto. }
    apply NoDup_cons. split.
    { rewrite !not_elem_of_cons. split; [done|]. apply (Hkeep b1). tauto. }
    apply NoDup_cons. split; [|done]. apply (Hkeep b2). tauto.
  - cbn [Rows RowsBlock TextRows KAttrRows]. intros b. rewrite !elem_of_cons.
    intros [-> | [-> | [-> | Hb]]].
    + apply (Hkeep (RowsBlock tb1)). tauto.
    + apply (Hkeep b1). tauto.
    + apply (Hkeep b2). tauto.
    + by apply Hin5.
  - cbn [Rows RowsBlock TextRows KAttrRows]. intros b.
    rewrite <- Hfr4. rewrite !not_elem_of_cons. specialize (Hfr5 b). tauto.
  - split; [exact Hok|]. split; [by rewrite Heq|]. intros _. exact Heq.
Qed.

Lemma ResizeTraditional_heap_frame_witness :
  let si := sample_screen 10 5 0 (mkCOORD 0 4) [] in
  let h := mkHeap (sample_blocks 5) [true; true; true] in
  let r := ResizeTraditional (mkCOORD 12 3) si h in
  blocks_ok (TextInfo (snd (fst r))) (snd r)
  /\ live (snd r) ∖ tb_blocks (TextInfo (snd (fst r))) = live h ∖ tb_blocks (TextInfo si).
Proof.
  destruct (ResizeTraditional_heap_frame (mkCOORD 12 3)
              (sample_screen 10 5 0 (mkCOORD 0 4) [])
              (mkHeap (sample_blocks 5) [true; true; true])) as (H1 & _ & H2).
  - exact sample_text_buffer_wf.
  - unfold isSHORT. cbn. lia.
  - split; [vm_compute; repeat constructor; set_solver|].
    refine (bool_decide_unpack _ _). vm_compute. exact I.
  - split; [exact H1|]. apply H2. right. cbn. lia.
Defined.
